(** * Invoice pipeline of zodiac-backend: UBL XML to X12 810

    A shallow embedding of [app/api/invoices.py]: the XML validator, the
    derivation of the control numbers, the X12 encoder, the EDI format
    validator, the correction advisors, the processing pipeline, the soft
    deletion of invoices and the end points of the API keys, with the
    authentication of [app/api/api_key_auth.py] and the hashing of the keys
    of [app/models/user.py], followed by the properties of these functions.

    Conventions of the embedding.
    - A Python [str] is a [string]; every [ascii] stands for one character,
      so the character set is cut down to the 256 code points of Latin-1.
      Message literals of the source that contain other symbols are written
      with their UTF-8 bytes.
    - A Python exception is a value of [exn]; code that may raise returns a
      [result], and a handler is a [match] on it.
    - A [float] is a binary64 number given by its sign, mantissa and
      exponent; the operations round to nearest, ties to even.
    - An [xml.etree.ElementTree.Element] is a finite tree [Element]; a path
      given to [find] or [findall] is the list of its selectors, with the
      namespace prefixes already expanded.
    - A [bytes] value is the [string] of its bytes.  The UTF-8 codec is a
      pair of arguments, [decode_utf8] and [encode_utf8], that return
      [None] where Python raises a Unicode error.
    - The files are a [storage]: what is read under each path.  Creating a
      directory and writing a file are calls of the operating system, an
      argument [os] whose calls may fail; paths are built as [pathlib] and
      [os.path] build them on Linux.
    - What the program takes from outside is an argument: the XML parser
      ([parse_xml]), the clock ([current_time], [utcnow]), the value of
      [uuid.uuid4()] ([tracking_id]), the chat completions behind the
      advisors, the rows of the tables, the SHA-256 digest and the base64
      decoding. *)

From Stdlib Require Import String Ascii List ZArith NArith Lia Bool Arith.
From Stdlib Require Import DecimalString.
Import ListNotations.
Open Scope string_scope.
Open Scope Z_scope.

(* ===================================================================== *)
(** * Exceptions *)
(* ===================================================================== *)

Inductive exn : Type :=
| ValueError
| TypeError
| AttributeError
| OverflowError
| StopIteration
| NameError
| ParseError
| OSError
| UnicodeDecodeError.

Inductive result (A : Type) : Type :=
| Ok (a : A)
| Raise (e : exn).
Arguments Ok {A} a.
Arguments Raise {A} e.

Definition bind {A B : Type} (r : result A) (k : A -> result B) : result B :=
  match r with
  | Ok a => k a
  | Raise e => Raise e
  end.

Declare Scope py_scope.
Delimit Scope py_scope with py.
Notation "x <- c ;; k" := (bind c (fun x => k))
  (at level 61, c at next level, right associativity) : py_scope.
Open Scope py_scope.

(** [try: ... except Exception: return None] *)
Definition except_None {A : Type} (r : result A) : option A :=
  match r with
  | Ok a => Some a
  | Raise _ => None
  end.

(* ===================================================================== *)
(** * Python built-ins on strings and numbers *)
(* ===================================================================== *)

Module Py.

Definition code (c : ascii) : N := N_of_ascii c.

Definition in_range (lo hi : N) (c : ascii) : bool :=
  ((lo <=? code c) && (code c <=? hi))%N.

(** [str.isspace] on one character. *)
Definition isspace (c : ascii) : bool :=
  in_range 9 13 c || in_range 28 32 c || (code c =? 133)%N || (code c =? 160)%N.

(** The white space skipped by [int(s)] and [float(s)]. *)
Definition isspace_num (c : ascii) : bool :=
  in_range 9 13 c || (code c =? 32)%N || (code c =? 133)%N || (code c =? 160)%N.

Definition isdigit (c : ascii) : bool := in_range 48 57 c.

Definition digit_val (c : ascii) : Z := Z.of_N (code c) - 48.

(** Truth value of a string: [if s:]. *)
Definition truthy (s : string) : bool :=
  match s with
  | EmptyString => false
  | String _ _ => true
  end.

(** Truth value of [x.text], which is [None] or a string. *)
Definition truthy_opt (t : option string) : bool :=
  match t with
  | Some s => truthy s
  | None => false
  end.

Definition len (s : string) : nat := String.length s.

Fixpoint lstrip_by (p : ascii -> bool) (s : string) : string :=
  match s with
  | EmptyString => EmptyString
  | String c r => if p c then lstrip_by p r else s
  end.

Fixpoint rstrip_by (p : ascii -> bool) (s : string) : string :=
  match s with
  | EmptyString => EmptyString
  | String c r =>
      match rstrip_by p r with
      | EmptyString => if p c then EmptyString else String c EmptyString
      | r' => String c r'
      end
  end.

(** [s.strip()] *)
Definition strip (s : string) : string := rstrip_by isspace (lstrip_by isspace s).

(** [s.lstrip("0")] *)
Definition lstrip_zeros (s : string) : string :=
  lstrip_by (fun c => Ascii.eqb c "0"%char) s.

Fixpoint repeat_char (c : ascii) (n : nat) : string :=
  match n with
  | O => EmptyString
  | S k => String c (repeat_char c k)
  end.

(** [s.ljust(width)] *)
Definition ljust (width : nat) (s : string) : string :=
  s ++ repeat_char " "%char (width - len s).

(** [s[:n]] *)
Fixpoint take (n : nat) (s : string) : string :=
  match n, s with
  | S k, String c r => String c (take k r)
  | _, _ => EmptyString
  end.

(** [s[n:]] *)
Fixpoint drop (n : nat) (s : string) : string :=
  match n, s with
  | S k, String _ r => drop k r
  | _, _ => s
  end.

(** [s[i:j]] for [0 <= i <= j] *)
Definition slice (i j : nat) (s : string) : string := take (j - i) (drop i s).

(** [s.zfill(width)]: the zeros go after a leading sign. *)
Definition zfill (width : nat) (s : string) : string :=
  let fill := repeat_char "0"%char (width - len s) in
  match s with
  | String c r =>
      if Ascii.eqb c "+"%char || Ascii.eqb c "-"%char
      then String c (fill ++ r)
      else fill ++ s
  | EmptyString => fill
  end.

(** [s.startswith(p)] *)
Definition startswith (p s : string) : bool := String.prefix p s.

(** [s.split(sep)] for a separator of one character. *)
Fixpoint split (sep : ascii) (s : string) : list string :=
  match s with
  | EmptyString => [EmptyString]
  | String c r =>
      if Ascii.eqb c sep then EmptyString :: split sep r
      else match split sep r with
           | h :: t => String c h :: t
           | [] => [String c EmptyString]
           end
  end.

(** [sep.join(l)] *)
Definition join (sep : string) (l : list string) : string := String.concat sep l.

(** [needle in s] *)
Fixpoint contains (needle s : string) : bool :=
  String.prefix needle s ||
  match s with
  | EmptyString => false
  | String _ r => contains needle r
  end.

(** [s.lower()]; within Latin-1 the upper-case letters are A-Z and the
    accented capitals 192-222 except the multiplication sign 215. *)
Definition lower_char (c : ascii) : ascii :=
  if in_range 65 90 c || ((in_range 192 222 c) && negb (code c =? 215)%N)
  then ascii_of_N (code c + 32) else c.

Fixpoint lower (s : string) : string :=
  match s with
  | EmptyString => EmptyString
  | String c r => String (lower_char c) (lower r)
  end.

(** [s.upper()].  Sharp s (223) becomes "SS".  The upper-case forms of the
    micro sign (181) and of y with diaeresis (255) lie outside Latin-1; they
    are left in place, which keeps the result different from every ASCII
    string, the only thing the source compares it with. *)
Fixpoint upper (s : string) : string :=
  match s with
  | EmptyString => EmptyString
  | String c r =>
      if (code c =? 223)%N then String "S" (String "S" (upper r))
      else if in_range 97 122 c
              || ((in_range 224 254 c) && negb (code c =? 247)%N)
           then String (ascii_of_N (code c - 32)) (upper r)
           else String c (upper r)
  end.

(** [s.endswith(suffix)] *)
Definition endswith (suffix s : string) : bool :=
  (len suffix <=? len s)%nat && String.eqb (drop (len s - len suffix) s) suffix.

(** [s.rfind(c)] for one character: the index of its last occurrence. *)
Fixpoint rfind (c : ascii) (s : string) : option nat :=
  match s with
  | EmptyString => None
  | String x r =>
      match rfind c r with
      | Some i => Some (S i)
      | None => if Ascii.eqb x c then Some O else None
      end
  end.

(** What a file opened in text mode gives for the text decoded from its
    bytes: a carriage return, alone or before a line feed, is read as one
    line feed. *)
Fixpoint universal_newlines (s : string) : string :=
  match s with
  | EmptyString => EmptyString
  | String c r =>
      if (code c =? 13)%N then
        match r with
        | String d r' =>
            if (code d =? 10)%N then String d (universal_newlines r')
            else String (ascii_of_nat 10) (universal_newlines r)
        | EmptyString => String (ascii_of_nat 10) EmptyString
        end
      else String c (universal_newlines r)
  end.

(** The decimal numeral of an [int]. *)
Definition str_of_Z (z : Z) : string := NilZero.string_of_int (Z.to_int z).

(** [str(n)] for a length, an index or a counter, all far below the limit
    on the digits of [str]. *)
Definition str_of_nat (n : nat) : string := str_of_Z (Z.of_nat n).

(** ** [int(s)] *)

(** Digits with single underscores between them, as [int] and [float]
    accept them.  [prev_digit] tells whether the previous character was a
    digit; the result is the value and the number of digits read. *)
Fixpoint digits_us (s : string) (prev_digit : bool) (acc : Z) (n : nat)
  : option (Z * nat) :=
  match s with
  | EmptyString => if prev_digit then Some (acc, n) else None
  | String c r =>
      if isdigit c then digits_us r true (acc * 10 + digit_val c) (S n)
      else if Ascii.eqb c "_"%char
           then if prev_digit then digits_us r false acc n else None
           else None
  end.

(** [sys.get_int_max_str_digits()], at its default. *)
Definition int_max_str_digits : nat := 4300.

Definition strip_num (s : string) : string :=
  rstrip_by isspace_num (lstrip_by isspace_num s).

Definition split_sign (s : string) : bool * string :=
  match s with
  | String c r =>
      if Ascii.eqb c "-"%char then (true, r)
      else if Ascii.eqb c "+"%char then (false, r)
      else (false, s)
  | EmptyString => (false, s)
  end.

Definition int (s : string) : result Z :=
  let (neg, body) := split_sign (strip_num s) in
  match digits_us body false 0 0 with
  | Some (v, n) =>
      if (int_max_str_digits <? n)%nat then Raise ValueError
      else Ok (if neg then - v else v)
  | None => Raise ValueError
  end.

(** [str(z)] and the formatting of an [int] in an f-string, with the same
    limit on the number of digits. *)
Definition str (z : Z) : result string :=
  if (int_max_str_digits <? String.length (str_of_Z (Z.abs z)))%nat
  then Raise ValueError
  else Ok (str_of_Z z).

End Py.

(* ===================================================================== *)
(** * [uuid.UUID], [pathlib] and [os.path] *)
(* ===================================================================== *)

(** A [UUID] is its 128-bit integer. *)
Module UUID.

Definition hexdigit (n : N) : ascii :=
  match N.to_nat n with
  | 0%nat => "0" | 1%nat => "1" | 2%nat => "2" | 3%nat => "3"
  | 4%nat => "4" | 5%nat => "5" | 6%nat => "6" | 7%nat => "7"
  | 8%nat => "8" | 9%nat => "9" | 10%nat => "a" | 11%nat => "b"
  | 12%nat => "c" | 13%nat => "d" | 14%nat => "e" | _ => "f"
  end%char.

(** The last [digits] hexadecimal digits of [n]. *)
Fixpoint hex (digits : nat) (n : N) : string :=
  match digits with
  | O => EmptyString
  | S k => hex k (n / 16) ++ String (hexdigit (n mod 16)) EmptyString
  end.

(** [str(u)]: the 32 digits of ['%032x' % u.int] in five groups. *)
Definition str (u : N) : string :=
  let h := hex 32 u in
  Py.take 8 h ++ "-" ++ Py.slice 8 12 h ++ "-" ++ Py.slice 12 16 h ++ "-"
  ++ Py.slice 16 20 h ++ "-" ++ Py.drop 20 h.

End UUID.

(** [pathlib.PurePosixPath]: the root ("", "/" or "//") and the parts that
    follow it. *)
Module Pathlib.

Record path : Type := mk_path {
  root : string;
  parts : list string
}.

(** The parts kept when a text is parsed: not the empty ones, not ".". *)
Definition kept (x : string) : bool :=
  Py.truthy x && negb (String.eqb x ".").

(** [Path(s)] *)
Definition Path (s : string) : path :=
  let stripped := Py.lstrip_by (Ascii.eqb "/") s in
  let slashes := (Py.len s - Py.len stripped)%nat in
  mk_path
    (if Nat.eqb slashes 0 then "" else if Nat.eqb slashes 2 then "//" else "/")
    (filter kept (Py.split "/" stripped)).

(** [p / key]: a [key] with a root replaces [p]. *)
Definition joinpath (p : path) (key : string) : path :=
  let q := Path key in
  if Py.truthy (root q) then q else mk_path (root p) (parts p ++ parts q).

(** [str(p)] *)
Definition str (p : path) : string :=
  let s := root p ++ Py.join "/" (parts p) in
  if Py.truthy s then s else ".".

(** [p.name] *)
Definition name (p : path) : string := last (parts p) EmptyString.

(** [p.stem]: the name without its last suffix. *)
Definition stem (p : path) : string :=
  let n := name p in
  match Py.rfind "." n with
  | Some i => if (0 <? i)%nat && (i <? Py.len n - 1)%nat then Py.take i n else n
  | None => n
  end.

(** [p.with_name(new)] *)
Definition with_name (p : path) (new : string) : result path :=
  if negb (Py.truthy (name p)) then Raise ValueError
  else
    let q := Path new in
    if negb (Py.truthy new) || Py.endswith "/" new || Py.truthy (root q)
       || negb (Nat.eqb (List.length (parts q)) 1)
    then Raise ValueError
    else Ok (mk_path (root p) (removelast (parts p) ++ [new])).

End Pathlib.

(** [os.path.join(a, b)] *)
Definition os_path_join (a b : string) : string :=
  if Py.startswith "/" b then b
  else if negb (Py.truthy a) || Py.endswith "/" a then a ++ b
       else a ++ "/" ++ b.

(* ===================================================================== *)
(** * Python [float]: binary64 with round-to-nearest-even *)
(* ===================================================================== *)

Module PyFloat.

(** [Fin neg m e] is the double [(-1)^neg * m * 2^e]; [m = 0] gives the
    two zeros. *)
Inductive float : Type :=
| Nan
| Inf (neg : bool)
| Fin (neg : bool) (m : Z) (e : Z).

(** Nearest integer to [n / d], ties to even ([0 <= n], [0 < d]). *)
Definition round_div (n d : Z) : Z :=
  let q := n / d in
  let r := n mod d in
  match 2 * r ?= d with
  | Lt => q
  | Gt => q + 1
  | Eq => if Z.even q then q else q + 1
  end.

(** [floor (log2 (num / den))] for positive [num] and [den]. *)
Definition ilog2_ratio (num den : Z) : Z :=
  let l := Z.log2 num - Z.log2 den in
  let below :=
    if 0 <=? l then num <? den * 2 ^ l else num * 2 ^ (- l) <? den in
  if below then l - 1 else l.

(** The double nearest to [(-1)^neg * num / den]: 53 bits of precision,
    exponents down to the subnormal range, overflow to infinity. *)
Definition of_ratio (neg : bool) (num den : Z) : float :=
  if num =? 0 then Fin neg 0 0
  else
    let e := Z.max (ilog2_ratio num den - 52) (-1074) in
    let m :=
      if 0 <=? e then round_div num (den * 2 ^ e)
      else round_div (num * 2 ^ (- e)) den in
    if (971 <? e) || ((e =? 971) && (2 ^ 53 <=? m)) then Inf neg
    else Fin neg m e.

(** Conversion of an [int] operand in mixed arithmetic. *)
Definition of_int (z : Z) : result float :=
  match of_ratio (z <? 0) (Z.abs z) 1 with
  | Inf _ => Raise OverflowError
  | x => Ok x
  end.

(** [x * y] *)
Definition mul (x y : float) : float :=
  match x, y with
  | Nan, _ | _, Nan => Nan
  | Inf a, Inf b => Inf (xorb a b)
  | Inf a, Fin b m _ | Fin b m _, Inf a =>
      if m =? 0 then Nan else Inf (xorb a b)
  | Fin a m1 e1, Fin b m2 e2 =>
      let e := e1 + e2 in
      if 0 <=? e then of_ratio (xorb a b) (m1 * m2 * 2 ^ e) 1
      else of_ratio (xorb a b) (m1 * m2) (2 ^ (- e))
  end.

(** [round(x)]: an [int], ties to even. *)
Definition round (x : float) : result Z :=
  match x with
  | Nan => Raise ValueError
  | Inf _ => Raise OverflowError
  | Fin neg m e =>
      let v := if 0 <=? e then m * 2 ^ e else round_div m (2 ^ (- e)) in
      Ok (if neg then - v else v)
  end.

(** [x <= 0] *)
Definition le0 (x : float) : bool :=
  match x with
  | Nan => false
  | Inf neg => neg
  | Fin neg m _ => neg || (m =? 0)
  end.

(** ** [float(s)] *)

(** The check and removal of underscores: one is allowed only between two
    digits. *)
Fixpoint remove_us (s : string) (prev : ascii) : option string :=
  match s with
  | EmptyString => if Ascii.eqb prev "_"%char then None else Some EmptyString
  | String c r =>
      if Ascii.eqb c "_"%char then
        if Py.isdigit prev then remove_us r c else None
      else if Ascii.eqb prev "_"%char && negb (Py.isdigit c) then None
      else option_map (String c) (remove_us r c)
  end.

(** The longest run of digits: value, number of digits, rest. *)
Fixpoint span_digits (s : string) (acc : Z) (n : nat) : Z * nat * string :=
  match s with
  | String c r =>
      if Py.isdigit c then span_digits r (acc * 10 + Py.digit_val c) (S n)
      else (acc, n, s)
  | EmptyString => (acc, n, s)
  end.

(** A decimal literal [digits [. digits] [e [sign] digits]] that spans the
    whole string, as a mantissa and a power of ten. *)
Definition parse_decimal (s : string) : option (Z * Z) :=
  let '(ip, ni, r1) := span_digits s 0 0 in
  let '(m, nf, r2) :=
    match r1 with
    | String c r => if Ascii.eqb c "."%char then span_digits r ip 0
                    else (ip, O, r1)
    | EmptyString => (ip, O, r1)
    end in
  if (ni + nf =? 0)%nat then None
  else
    match r2 with
    | EmptyString => Some (m, - Z.of_nat nf)
    | String c r3 =>
        if Ascii.eqb c "e"%char || Ascii.eqb c "E"%char then
          let (eneg, r4) := Py.split_sign r3 in
          let '(ev, ne, r5) := span_digits r4 0 0 in
          match ne, r5 with
          | S _, EmptyString =>
              Some (m, (if eneg then - ev else ev) - Z.of_nat nf)
          | _, _ => None
          end
        else None
    end.

Definition parse_unsigned (body : string) (neg : bool) : result float :=
  let low := Py.lower body in
  if String.eqb low "inf" || String.eqb low "infinity" then Ok (Inf neg)
  else if String.eqb low "nan" then Ok Nan
  else
    match parse_decimal body with
    | Some (m, e10) =>
        Ok (if 0 <=? e10 then of_ratio neg (m * 10 ^ e10) 1
            else of_ratio neg m (10 ^ (- e10)))
    | None => Raise ValueError
    end.

Definition parse (s : string) : result float :=
  match remove_us (Py.strip_num s) Ascii.zero with
  | None => Raise ValueError
  | Some t => let (neg, body) := Py.split_sign t in parse_unsigned body neg
  end.

End PyFloat.

(* ===================================================================== *)
(** * [datetime]: [strptime] with "%Y-%m-%d" and the [strftime] formats *)
(* ===================================================================== *)

Module PyDate.

Record datetime : Type := mk_datetime {
  year : Z;
  month : Z;
  day : Z;
  hour : Z;
  minute : Z
}.

Definition is_leap (y : Z) : bool :=
  (y mod 4 =? 0) && (negb (y mod 100 =? 0) || (y mod 400 =? 0)).

Definition days_in_month (y m : Z) : Z :=
  if m =? 2 then (if is_leap y then 29 else 28)
  else if (m =? 4) || (m =? 6) || (m =? 9) || (m =? 11) then 30
  else 31.

(** The group [(?P<m>1[0-2]|0[1-9]|[1-9])]: the text matched and the rest.
    The alternatives are tried in this order; where an earlier one matches,
    no later one can be followed by the "-" the format asks for. *)
Definition match_month (s : string) : option (string * string) :=
  match s with
  | String a (String b r) =>
      if Ascii.eqb a "1"%char && Py.in_range 48 50 b
      then Some (String a (String b EmptyString), r)
      else if Ascii.eqb a "0"%char && Py.in_range 49 57 b
      then Some (String a (String b EmptyString), r)
      else if Py.in_range 49 57 a
      then Some (String a EmptyString, String b r)
      else None
  | String a EmptyString =>
      if Py.in_range 49 57 a then Some (String a EmptyString, EmptyString)
      else None
  | EmptyString => None
  end.

(** The group [(?P<d>3[0-1]|[1-2]\d|0[1-9]|[1-9]| [1-9])]. *)
Definition match_day (s : string) : option (string * string) :=
  match s with
  | String a (String b r) =>
      if Ascii.eqb a "3"%char && Py.in_range 48 49 b
      then Some (String a (String b EmptyString), r)
      else if Py.in_range 49 50 a && Py.isdigit b
      then Some (String a (String b EmptyString), r)
      else if Ascii.eqb a "0"%char && Py.in_range 49 57 b
      then Some (String a (String b EmptyString), r)
      else if Py.in_range 49 57 a
      then Some (String a EmptyString, String b r)
      else if Ascii.eqb a " "%char && Py.in_range 49 57 b
      then Some (String a (String b EmptyString), r)
      else None
  | String a EmptyString =>
      if Py.in_range 49 57 a then Some (String a EmptyString, EmptyString)
      else None
  | EmptyString => None
  end.

(** The group [(?P<Y>\d\d\d\d)] followed by "-". *)
Definition match_year (s : string) : option (string * string) :=
  match s with
  | String a (String b (String c (String d (String h r)))) =>
      if Py.isdigit a && Py.isdigit b && Py.isdigit c && Py.isdigit d
         && Ascii.eqb h "-"%char
      then Some (String a (String b (String c (String d EmptyString))), r)
      else None
  | _ => None
  end.

(** [datetime.strptime(s, "%Y-%m-%d")]: the pattern has to match at the
    start of [s] and leave nothing over, and the three numbers have to form
    a date of the calendar with a year from 1 on. *)
Definition strptime (s : string) : result datetime :=
  match match_year s with
  | None => Raise ValueError
  | Some (ys, r1) =>
      match match_month r1 with
      | Some (ms, String h r2) =>
          if Ascii.eqb h "-"%char then
            match match_day r2 with
            | Some (ds, EmptyString) =>
                y <- Py.int ys ;;
                m <- Py.int ms ;;
                d <- Py.int ds ;;
                if (1 <=? y) && (d <=? days_in_month y m)
                then Ok (mk_datetime y m d 0 0)
                else Raise ValueError
            | _ => Raise ValueError
            end
          else Raise ValueError
      | _ => Raise ValueError
      end
  end.

Definition pad (width : nat) (z : Z) : string :=
  Py.zfill width (Py.str_of_Z z).

(** [d.strftime("%Y%m%d")] as the C library of Linux writes it: the year
    without leading zeros, so on fewer than four digits below 1000. *)
Definition strftime_Ymd (d : datetime) : string :=
  Py.str_of_Z (year d) ++ pad 2 (month d) ++ pad 2 (day d).

(** [d.strftime("%y%m%d")] *)
Definition strftime_ymd (d : datetime) : string :=
  pad 2 (year d mod 100) ++ pad 2 (month d) ++ pad 2 (day d).

(** [d.strftime("%H%M")] *)
Definition strftime_HM (d : datetime) : string :=
  pad 2 (hour d) ++ pad 2 (minute d).

End PyDate.

(* ===================================================================== *)
(** * [xml.etree.ElementTree] *)
(* ===================================================================== *)

Module ET.

#[warnings="-register-all"]
Inductive Element : Type :=
| Elem (tag : string) (attrib : list (string * string))
       (text : option string) (children : list Element).

Definition tag (e : Element) : string :=
  match e with Elem t _ _ _ => t end.
Definition attrib (e : Element) : list (string * string) :=
  match e with Elem _ a _ _ => a end.
Definition text (e : Element) : option string :=
  match e with Elem _ _ t _ => t end.
Definition children (e : Element) : list Element :=
  match e with Elem _ _ _ c => c end.

(** [e.get(key)] *)
Fixpoint lookup (key : string) (a : list (string * string)) : option string :=
  match a with
  | [] => None
  | (k, v) :: r => if String.eqb k key then Some v else lookup key r
  end.
Definition get (e : Element) (key : string) : option string :=
  lookup key (attrib e).

(** Truth value of an element, [if e:], for an element that is not [None]:
    [Element.__bool__] is [len(e) != 0], so an element without children is
    false whatever its text. *)
Definition truth (e : Element) : bool :=
  match children e with
  | [] => false
  | _ :: _ => true
  end.

(** The elements below [e] in document order, [e] itself left out. *)
Fixpoint descendants (e : Element) : list Element :=
  match e with
  | Elem _ _ _ cs =>
      (fix go (l : list Element) : list Element :=
         match l with
         | [] => []
         | c :: r => c :: descendants c ++ go r
         end) cs
  end.

(** The selectors of ElementPath that the source uses: ".", "tag" after a
    "/" or at the start, and "//tag". *)
Inductive selector : Type :=
| Self
| Child (t : string)
| Descendant (t : string).

Definition path : Type := list selector.

Definition has_tag (t : string) (e : Element) : bool := String.eqb (tag e) t.

Definition select (s : selector) (context : list Element) : list Element :=
  match s with
  | Self => context
  | Child t => flat_map (fun e => filter (has_tag t) (children e)) context
  | Descendant t => flat_map (fun e => filter (has_tag t) (descendants e)) context
  end.

(** [e.findall(path, ns)] *)
Definition findall (e : Element) (p : path) : list Element :=
  fold_left (fun context s => select s context) p [e].

(** [e.find(path, ns)] *)
Definition find (e : Element) (p : path) : option Element :=
  hd_error (findall e p).

(** [x.text] where [x] may be [None]: the text when
    [x is not None and x.text] holds. *)
Definition text_if_any (x : option Element) : option string :=
  match x with
  | Some e => if Py.truthy_opt (text e) then text e else None
  | None => None
  end.

End ET.

(** The two namespaces of [ns] and the qualified names built on them. *)
Definition cbc (name : string) : string :=
  "{urn:oasis:names:specification:ubl:schema:xsd:CommonBasicComponents-2}" ++ name.
Definition cac (name : string) : string :=
  "{urn:oasis:names:specification:ubl:schema:xsd:CommonAggregateComponents-2}" ++ name.

(* ===================================================================== *)
(** * XML validation *)
(* ===================================================================== *)

(** The outcome of [ET.parse]/[ET.fromstring]: the root element, or a
    [ParseError] with its text. *)
Inductive parsed : Type :=
| Parsed (root : ET.Element)
| NotWellFormed (msg : string).

(** Local file storage as it is read: the bytes that
    [open(path, "rb").read()] returns, or [None] when nothing can be read
    under the path, which then counts as missing. *)
Definition storage : Type := string -> option string.

(** What the program asks of the operating system when it writes.  Whether
    a call succeeds, and which files there are afterwards, is for the system
    to say: each function gives the files after the call and whether the
    call returned without an exception. *)
Record OS : Type := mk_os {
  (* os.getcwd(), or None when it raises *)
  getcwd : option string;
  (* Path(path).mkdir(parents=True, exist_ok=True) *)
  mkdir : storage -> string -> storage * bool;
  (* with open(path, "wb") as buffer: buffer.write(content) *)
  write_bytes : storage -> string -> string -> storage * bool
}.

Fixpoint strict_line_warnings (i : nat) (invoice_lines : list ET.Element)
  : list string :=
  match invoice_lines with
  | [] => []
  | line :: rest =>
      let w_id :=
        match ET.text_if_any (ET.find line [ET.Child (cbc "ID")]) with
        | Some t =>
            if (Py.len (Py.strip t) <? 1)%nat
            then ["⚠️ Invoice Line " ++ Py.str_of_nat i ++ " ID is empty"]
            else []
        | None => []
        end in
      let w_qty :=
        match ET.text_if_any (ET.find line [ET.Child (cbc "InvoicedQuantity")]) with
        | Some t =>
            match PyFloat.parse (Py.strip t) with
            | Ok _ => []
            | Raise _ =>
                ["⚠️ Invoice Line " ++ Py.str_of_nat i
                 ++ " quantity format may be invalid"]
            end
        | None => []
        end in
      let w_price :=
        match ET.text_if_any
                (ET.find line [ET.Self; ET.Descendant (cac "Price");
                               ET.Child (cbc "PriceAmount")]) with
        | Some t =>
            match PyFloat.parse (Py.strip t) with
            | Ok _ => []
            | Raise _ =>
                ["⚠️ Invoice Line " ++ Py.str_of_nat i
                 ++ " price format may be invalid"]
            end
        | None => []
        end in
      w_id ++ w_qty ++ w_price ++ strict_line_warnings (S i) rest
  end.

(** The length check shared by the id and the two names:
    [if len(v) < 1: ... elif len(v) > bound: ...]. *)
Definition length_warning (what : string) (bound : nat) (t : string)
  : list string :=
  let v := Py.strip t in
  if (Py.len v <? 1)%nat then ["⚠️ " ++ what ++ " is empty"]
  else if (bound <? Py.len v)%nat
       then ["⚠️ " ++ what ++ " is too long (>" ++ Py.str_of_nat bound
             ++ " characters)"]
       else [].

Definition _perform_strict_content_validation (root : ET.Element)
  : list string :=
  let w_id :=
    match ET.text_if_any (ET.find root [ET.Self; ET.Descendant (cbc "ID")]) with
    | Some t => length_warning "Invoice ID" 100 t
    | None => []
    end in
  let w_date :=
    match ET.text_if_any
            (ET.find root [ET.Self; ET.Descendant (cbc "IssueDate")]) with
    | Some t =>
        let date_value := Py.strip t in
        if (Py.len date_value <? 1)%nat then ["⚠️ Issue Date is empty"]
        else match PyDate.strptime date_value with
             | Ok _ => []
             | Raise _ =>
                 ["⚠️ Issue Date format may be invalid (expected YYYY-MM-DD)"]
             end
    | None => []
    end in
  let w_amount :=
    match ET.text_if_any
            (ET.find root [ET.Self; ET.Descendant (cac "LegalMonetaryTotal");
                           ET.Child (cbc "PayableAmount")]) with
    | Some t =>
        let amount_value := Py.strip t in
        if (Py.len amount_value <? 1)%nat then ["⚠️ Payable Amount is empty"]
        else match PyFloat.parse amount_value with
             | Ok _ => []
             | Raise _ =>
                 ["⚠️ Payable Amount format may be invalid (expected decimal number)"]
             end
    | None => []
    end in
  let w_supplier :=
    match ET.text_if_any
            (ET.find root [ET.Self; ET.Descendant (cac "AccountingSupplierParty");
                           ET.Descendant (cbc "Name")]) with
    | Some t => length_warning "Supplier Name" 255 t
    | None => []
    end in
  let w_customer :=
    match ET.text_if_any
            (ET.find root [ET.Self; ET.Descendant (cac "AccountingCustomerParty");
                           ET.Descendant (cbc "Name")]) with
    | Some t => length_warning "Customer Name" 255 t
    | None => []
    end in
  let invoice_lines :=
    ET.findall root [ET.Self; ET.Descendant (cac "InvoiceLine")] in
  w_id ++ w_date ++ w_amount ++ w_supplier ++ w_customer
  ++ strict_line_warnings 1 invoice_lines.

(** One warning when a lookup finds nothing. *)
Definition missing (found : bool) (warning : string) : list string :=
  if found then [] else [warning].

Definition is_some {A : Type} (o : option A) : bool :=
  match o with Some _ => true | None => false end.

Definition _perform_enhanced_xml_validation (root : ET.Element)
  (strict_validation : bool) : list string :=
  missing (is_some (ET.find root [ET.Self; ET.Descendant (cbc "ID")]))
    "⚠️ No UBL Invoice ID (cbc:ID) found - may affect conversion"
  ++ missing (is_some (ET.find root [ET.Self; ET.Descendant (cbc "IssueDate")]))
    "⚠️ No UBL Issue Date (cbc:IssueDate) found - may affect conversion"
  ++ missing (is_some (ET.find root
                 [ET.Self; ET.Descendant (cac "LegalMonetaryTotal");
                  ET.Child (cbc "PayableAmount")]))
    "⚠️ No UBL Payable Amount found - may affect conversion"
  ++ missing (is_some (ET.find root
                 [ET.Self; ET.Descendant (cac "AccountingSupplierParty")]))
    "⚠️ No UBL Supplier Party found - may affect conversion"
  ++ missing (is_some (ET.find root
                 [ET.Self; ET.Descendant (cac "AccountingCustomerParty")]))
    "⚠️ No UBL Customer Party found - may affect conversion"
  ++ missing (negb (Nat.eqb (List.length
                 (ET.findall root [ET.Self; ET.Descendant (cac "InvoiceLine")])) 0))
    "⚠️ No UBL Invoice Lines found - may affect conversion"
  ++ _perform_strict_content_validation root.

Section Validation.

(** The XML parser of the standard library, on the bytes of a file. *)
Variable parse_xml : string -> parsed.

(** [validate_xml(file_path, strict_validation)] on local storage:
    [(is_valid, message, warnings)]. *)
Definition validate_xml (fs : storage) (file_path : string)
  (strict_validation : bool) : bool * string * list string :=
  match fs file_path with
  | None => (false, "XML file not found: " ++ file_path, [])
  | Some file_content =>
      if Nat.eqb (Py.len file_content) 0 then (false, "XML file is empty", [])
      else
        match parse_xml file_content with
        | NotWellFormed msg => (false, "XML parsing error: " ++ msg, [])
        | Parsed root =>
            let validation_warnings :=
              _perform_enhanced_xml_validation root strict_validation in
            if strict_validation && negb (Nat.eqb (List.length validation_warnings) 0)
            then (false,
                  "Strict validation failed: " ++ Py.join "; " validation_warnings,
                  validation_warnings)
            else (true, "XML validation passed - file is well-formed",
                  validation_warnings)
        end
  end.

End Validation.

(* ===================================================================== *)
(** * EDI format validation *)
(* ===================================================================== *)

(** One entry of [validation_results]. *)
Record segment_result : Type := mk_result {
  valid : bool;
  errors : list string
}.

Record validation_results : Type := mk_results {
  isa_segment : segment_result;
  gs_segment : segment_result;
  st_segment : segment_result;
  big_segment : segment_result;
  n1_segments : segment_result;
  it1_segment : segment_result;
  tds_segment : segment_result;
  trailer_segments : segment_result
}.

(** [results[key]['valid'] = len(results[key]['errors']) == 0] after the
    field checks of a segment. *)
Definition checked (errs : list string) : segment_result :=
  mk_result (Nat.eqb (List.length errs) 0) errs.

(** A segment that is missing or too short: one error, [valid] stays
    [False]. *)
Definition rejected (err : string) : segment_result := mk_result false [err].

(** [[seg.strip() for seg in edi_content.split('~') if seg.strip()]] *)
Definition split_segments (edi_content : string) : list string :=
  map Py.strip
      (filter (fun seg => Py.truthy (Py.strip seg)) (Py.split "~" edi_content)).

(** [next((seg for seg in segments if seg.startswith(tag)), None)] *)
Definition first_segment (tag : string) (segments : list string)
  : option string :=
  List.find (Py.startswith tag) segments.

(** [fields[i]] once the length of [fields] has been checked. *)
Definition field (i : nat) (fields : list string) : string :=
  nth i fields EmptyString.

Definition unless (ok : bool) (err : string) : list string :=
  if ok then [] else [err].

Definition validate_isa (segments : list string) : segment_result :=
  match first_segment "ISA" segments with
  | Some isa =>
      let isa_fields := Py.split "*" isa in
      if (16 <=? List.length isa_fields)%nat then
        checked
          (unless (Nat.eqb (Py.len (field 1 isa_fields)) 2)
             "ISA02: Authorization Info Qualifier must be 2 characters"
           ++ unless (Nat.eqb (Py.len (field 2 isa_fields)) 10)
             "ISA03: Authorization Info must be 10 characters"
           ++ unless (Nat.eqb (Py.len (field 3 isa_fields)) 2)
             "ISA04: Security Info Qualifier must be 2 characters"
           ++ unless (Nat.eqb (Py.len (field 4 isa_fields)) 10)
             "ISA05: Security Info must be 10 characters"
           ++ unless (Nat.eqb (Py.len (field 5 isa_fields)) 2)
             "ISA06: Interchange ID Qualifier must be 2 characters"
           ++ unless (Nat.eqb (Py.len (field 6 isa_fields)) 15)
             "ISA07: Sender ID must be 15 characters"
           ++ unless (Nat.eqb (Py.len (field 7 isa_fields)) 2)
             "ISA08: Interchange ID Qualifier must be 2 characters"
           ++ unless (Nat.eqb (Py.len (field 8 isa_fields)) 15)
             "ISA09: Receiver ID must be 15 characters")
      else rejected "ISA segment must have at least 16 fields"
  | None => rejected "ISA segment not found"
  end.

Definition validate_gs (segments : list string) : segment_result :=
  match first_segment "GS" segments with
  | Some gs =>
      let gs_fields := Py.split "*" gs in
      if (8 <=? List.length gs_fields)%nat then
        checked
          (unless (String.eqb (field 1 gs_fields) "IN")
             "GS02: Functional Identifier must be 'IN' for Invoice"
           ++ unless (Nat.eqb (Py.len (field 2 gs_fields)) 2)
             "GS03: Application Sender Code must be 2 characters"
           ++ unless (Nat.eqb (Py.len (field 3 gs_fields)) 2)
             "GS04: Application Receiver Code must be 2 characters")
      else rejected "GS segment must have at least 8 fields"
  | None => rejected "GS segment not found"
  end.

Definition validate_st (segments : list string) : segment_result :=
  match first_segment "ST" segments with
  | Some st =>
      let st_fields := Py.split "*" st in
      if (2 <=? List.length st_fields)%nat then
        checked
          (unless (String.eqb (field 1 st_fields) "810")
             "ST02: Transaction Set Identifier must be '810' for Invoice")
      else rejected "ST segment must have at least 2 fields"
  | None => rejected "ST segment not found"
  end.

(** The check of BIG's first data element. *)
Definition big_date_errors (date : string) : list string :=
  if Py.truthy date && Nat.eqb (Py.len date) 8 then
    match (year <- Py.int (Py.slice 0 4 date) ;;
           month <- Py.int (Py.slice 4 6 date) ;;
           day <- Py.int (Py.slice 6 8 date) ;;
           Ok (year, month, day)) with
    | Ok (_, month, day) =>
        unless ((1 <=? month) && (month <=? 12) && (1 <=? day) && (day <=? 31))
          "BIG02: Invalid date format"
    | Raise _ => ["BIG02: Date must be numeric YYYYMMDD format"]
    end
  else ["BIG02: Invoice date must be 8 characters (YYYYMMDD)"].

Definition validate_big (segments : list string) : segment_result :=
  match first_segment "BIG" segments with
  | Some big =>
      let big_fields := Py.split "*" big in
      if (3 <=? List.length big_fields)%nat then
        checked
          (big_date_errors (field 1 big_fields)
           ++ unless (Py.truthy (field 2 big_fields))
             "BIG03: Invoice number cannot be empty")
      else rejected "BIG segment must have at least 3 fields"
  | None => rejected "BIG segment not found"
  end.

(** The loop over the N1 segments, [i] counting from 0. *)
Fixpoint n1_errors (i : nat) (n1 : list string) : list string :=
  match n1 with
  | [] => []
  | n1_seg :: rest =>
      let n1_fields := Py.split "*" n1_seg in
      (if (2 <=? List.length n1_fields)%nat then
         unless (String.eqb (field 1 n1_fields) "BY"
                 || String.eqb (field 1 n1_fields) "SE")
           ("N1-" ++ Py.str_of_nat (i + 1)
            ++ ": Entity Identifier must be 'BY' or 'SE'")
       else ["N1-" ++ Py.str_of_nat (i + 1)
             ++ ": Segment must have at least 2 fields"])
      ++ n1_errors (S i) rest
  end.

Definition validate_n1 (segments : list string) : segment_result :=
  let n1 := filter (Py.startswith "N1") segments in
  if (2 <=? List.length n1)%nat then checked (n1_errors 0 n1)
  else rejected "Must have at least 2 N1 segments (Buyer and Seller)".

(** [value = float(f) if f else 0], then the test [value <= 0]. *)
Definition positive_errors (f : string) (not_positive not_numeric : string)
  : list string :=
  if Py.truthy f then
    match PyFloat.parse f with
    | Ok x => unless (negb (PyFloat.le0 x)) not_positive
    | Raise _ => [not_numeric]
    end
  else [not_positive].

Definition validate_it1 (segments : list string) : segment_result :=
  match first_segment "IT1" segments with
  | Some it1 =>
      let it1_fields := Py.split "*" it1 in
      if (6 <=? List.length it1_fields)%nat then
        checked (positive_errors (field 2 it1_fields)
                   "IT103: Quantity must be greater than 0"
                   "IT103: Quantity must be numeric")
      else rejected "IT1 segment must have at least 6 fields"
  | None => rejected "IT1 segment not found"
  end.

Definition validate_tds (segments : list string) : segment_result :=
  match first_segment "TDS" segments with
  | Some tds =>
      let tds_fields := Py.split "*" tds in
      if (2 <=? List.length tds_fields)%nat then
        checked (positive_errors (field 1 tds_fields)
                   "TDS02: Total amount must be greater than 0"
                   "TDS02: Total amount must be numeric")
      else rejected "TDS segment must have at least 2 fields"
  | None => rejected "TDS segment not found"
  end.

Definition validate_trailers (segments : list string) : segment_result :=
  checked
    (flat_map
       (fun name =>
          unless (is_some (first_segment name segments))
            (name ++ " segment not found"))
       ["CTT"; "SE"; "GE"; "IEA"]).

Definition all_results (r : validation_results) : list segment_result :=
  [isa_segment r; gs_segment r; st_segment r; big_segment r;
   n1_segments r; it1_segment r; tds_segment r; trailer_segments r].

(** The body of [validate_edi_format] once the file has been read:
    [(ok, message, details)]. *)
Definition validate_edi_content (edi_content : string)
  : bool * string * option validation_results :=
  let segments := split_segments edi_content in
  let results :=
    mk_results (validate_isa segments) (validate_gs segments)
      (validate_st segments) (validate_big segments) (validate_n1 segments)
      (validate_it1 segments) (validate_tds segments)
      (validate_trailers segments) in
  let all_valid := forallb valid (all_results results) in
  let total_errors :=
    fold_right Nat.add O (map (fun r => List.length (errors r)) (all_results results)) in
  if all_valid then (true, "EDI format validation passed", None)
  else (false,
        "EDI format validation failed with " ++ Py.str_of_nat total_errors
        ++ " errors",
        Some results).

Section EdiFile.

(** [bytes.decode("utf-8")], [None] for a [UnicodeDecodeError]. *)
Variable decode_utf8 : string -> option string.

(** [validate_edi_format(edi_path)] on local storage.  A file that cannot
    be read or decoded ends in the last handler of the function; the text
    of the exception that follows the prefix of the message is left out. *)
Definition validate_edi_format (fs : storage) (edi_path : string)
  : bool * string * option validation_results :=
  match fs edi_path with
  | Some edi_content_bytes =>
      match decode_utf8 edi_content_bytes with
      | Some edi_content => validate_edi_content edi_content
      | None => (false, "EDI format validation error: ", None)
      end
  | None => (false, "EDI format validation error: ", None)
  end.

End EdiFile.

(* ===================================================================== *)
(** * X12 encoding: the helper functions *)
(* ===================================================================== *)

(** The instance built by [_X12ControlNumbers(root, ns)]. *)
Record ControlNumbers : Type := mk_control {
  interchange_control : string;
  group_control : string;
  transaction_control : string
}.

(** [(x.text[:width] if x else default).zfill(width)], where [x] is the
    result of a [find]: the test is the truth value of the element, and a
    text that is [None] cannot be sliced. *)
Definition control_number (x : option ET.Element) (width : nat)
  (default : string) : result string :=
  match x with
  | Some e =>
      if ET.truth e then
        match ET.text e with
        | Some t => Ok (Py.zfill width (Py.take width t))
        | None => Raise TypeError
        end
      else Ok (Py.zfill width default)
  | None => Ok (Py.zfill width default)
  end.

Definition _X12ControlNumbers (root : ET.Element) : result ControlNumbers :=
  interchange <-
    control_number (ET.find root [ET.Self; ET.Descendant (cbc "ID")])
      9 "000000000" ;;
  group <-
    control_number
      (ET.find root [ET.Self; ET.Descendant (cac "OrderReference");
                     ET.Child (cbc "ID")])
      6 "000000" ;;
  transaction <-
    control_number
      (ET.find root [ET.Self; ET.Descendant (cac "OriginatorDocumentReference");
                     ET.Child (cbc "ID")])
      4 "0000" ;;
  Ok (mk_control interchange group transaction).

(** [_format_number(number_str, decimal_places)]: the handler catches
    [ValueError] and [TypeError] only. *)
Definition _format_number (number_str : string) (decimal_places : nat)
  : result string :=
  match (number <- PyFloat.parse number_str ;;
         scale <- PyFloat.of_int (10 ^ Z.of_nat decimal_places) ;;
         rounded <- PyFloat.round (PyFloat.mul number scale) ;;
         Py.str rounded) with
  | Raise ValueError | Raise TypeError => Ok "0"
  | r => r
  end.

(** The dictionary returned by [_extract_party_info]. *)
Record PartyInfo : Type := mk_party {
  name : string;
  id : string;
  qualifier : string
}.

Definition qualifier_map : list (string * string) :=
  [("0002", "01"); ("0007", "14"); ("0009", "33"); ("0037", "94");
   ("0060", "N1"); ("0088", "12"); ("0160", "98"); ("9930", "93");
   ("0096", "24")].

(** [text.strip() if x is not None and x.text else default] *)
Definition stripped_text_or (x : option ET.Element) (default : string)
  : string :=
  match ET.text_if_any x with
  | Some t => Py.strip t
  | None => default
  end.

Definition _extract_party_info (root : ET.Element) (party_path : ET.path)
  : PartyInfo :=
  match ET.find root party_path with
  | Some party =>
      let name_elem := ET.find party [ET.Self; ET.Descendant (cbc "Name")] in
      let endpoint_elem :=
        ET.find party [ET.Self; ET.Descendant (cbc "EndpointID")] in
      let qualifier :=
        match endpoint_elem with
        | Some endpoint =>
            match ET.get endpoint "schemeID" with
            | Some scheme_id =>
                if Py.truthy scheme_id then
                  match ET.lookup scheme_id qualifier_map with
                  | Some q => q
                  | None => "ZZ"
                  end
                else "ZZ"
            | None => "ZZ"
            end
        | None => "ZZ"
        end in
      let endpoint_id := stripped_text_or endpoint_elem "UNKNOWN" in
      let endpoint_id := Py.take 15 (Py.ljust 15 endpoint_id) in
      mk_party (stripped_text_or name_elem "UNKNOWN") endpoint_id qualifier
  | None => mk_party "UNKNOWN" (Py.ljust 15 "UNKNOWN") "ZZ"
  end.

Record PostalAddress : Type := mk_address {
  street : string;
  city : string;
  postal : string;
  country : string
}.

Definition _extract_postal_address (root : ET.Element) (party_path : ET.path)
  : PostalAddress :=
  match ET.find root (party_path ++ [ET.Child (cac "PostalAddress")])%list with
  | Some address =>
      mk_address
        (stripped_text_or (ET.find address [ET.Child (cbc "StreetName")]) "")
        (stripped_text_or (ET.find address [ET.Child (cbc "CityName")]) "")
        (stripped_text_or (ET.find address [ET.Child (cbc "PostalZone")]) "")
        (stripped_text_or
           (ET.find address [ET.Child (cac "Country");
                             ET.Child (cbc "IdentificationCode")]) "")
  | None => mk_address "" "" "" ""
  end.

(** [(state, postal, country)] *)
Definition _map_address (address : PostalAddress) : string * string * string :=
  let state :=
    if String.eqb (Py.lower (city address)) "north sydney" then "NS"
    else if String.eqb (Py.lower (city address)) "port lincoln" then "SA"
    else "XX" in
  let country :=
    if String.eqb (Py.upper (country address)) "AU" then "AUS"
    else country address in
  (state, postal address, country).

(** The sixteen data elements behind the tag "ISA". *)
Definition isa_elements (supplier customer : PartyInfo)
  (control_numbers : ControlNumbers) (current_time : PyDate.datetime)
  : list string :=
  let isa01 := "00" in
  let isa02 := Py.repeat_char " " 10 in
  let isa03 := "00" in
  let isa04 := Py.repeat_char " " 10 in
  let isa05 := Py.ljust 2 (Py.take 2 (qualifier supplier)) in
  let isa06 := Py.ljust 15 (Py.take 15 (id supplier)) in
  let isa07 := Py.ljust 2 (Py.take 2 (qualifier customer)) in
  let isa08 := Py.ljust 15 (Py.take 15 (id customer)) in
  let isa09 := PyDate.strftime_ymd current_time in
  let isa10 := PyDate.strftime_HM current_time in
  let isa11 := "U" in
  let isa12 := "00401" in
  let isa13 := Py.zfill 9 (interchange_control control_numbers) in
  let isa14 := "0" in
  let isa15 := "P" in
  let isa16 := ">" in
  ["ISA"; isa01; isa02; isa03; isa04; isa05; isa06; isa07; isa08; isa09;
   isa10; isa11; isa12; isa13; isa14; isa15; isa16].

Definition _create_ISA_segment (supplier customer : PartyInfo)
  (control_numbers : ControlNumbers) (current_time : PyDate.datetime)
  : string :=
  Py.join "*" (isa_elements supplier customer control_numbers current_time)
  ++ "~".

(* ===================================================================== *)
(** * X12 encoding: [_convert_xml_to_x12_content] *)
(* ===================================================================== *)

Definition supplier_party_path : ET.path :=
  [ET.Self; ET.Descendant (cac "AccountingSupplierParty"); ET.Child (cac "Party")].

Definition customer_party_path : ET.path :=
  [ET.Self; ET.Descendant (cac "AccountingCustomerParty"); ET.Child (cac "Party")].

(** [if party["id"].strip() == "UNKNOWN": party["id"] = default.ljust(15)] *)
Definition default_id (party : PartyInfo) (default : string) : PartyInfo :=
  if String.eqb (Py.strip (id party)) "UNKNOWN"
  then mk_party (name party) (Py.ljust 15 default) (qualifier party)
  else party.

(** A segment that is written when [x is not None and x.text] holds. *)
Definition optional_segment (x : option ET.Element) (prefix : string)
  : list string :=
  match ET.text_if_any x with
  | Some t => [prefix ++ Py.strip t ++ "~"]
  | None => []
  end.

Definition format_invoice_date (invoice_date : string) : result string :=
  if String.eqb invoice_date "0000-00-00" then Ok ""
  else if Py.truthy invoice_date then
         d <- PyDate.strptime invoice_date ;; Ok (PyDate.strftime_Ymd d)
       else Ok "".

Definition note_segment (root : ET.Element) : list string :=
  match ET.text_if_any (ET.find root [ET.Self; ET.Descendant (cbc "Note")]) with
  | Some t =>
      if String.eqb (Py.strip t) "." || String.eqb (Py.strip t) "" then []
      else ["NTE*GEN*" ++ Py.strip t ++ "~"]
  | None => []
  end.

Definition contact_segment (root : ET.Element) : list string :=
  match ET.find root [ET.Self; ET.Descendant (cac "AccountingSupplierParty");
                      ET.Descendant (cac "Contact")] with
  | Some contact =>
      match ET.text_if_any (ET.find contact [ET.Child (cbc "Name")]),
            ET.text_if_any (ET.find contact [ET.Child (cbc "Telephone")]) with
      | Some contact_name, Some contact_phone =>
          ["PER*IC*" ++ Py.strip contact_name ++ "*TE*"
           ++ Py.strip contact_phone ++ "~"]
      | _, _ => []
      end
  | None => []
  end.

(** The N3 and N4 segments of one party. *)
Definition address_segments (address : PostalAddress) : list string :=
  let '(state, postal, country) := _map_address address in
  let n3 :=
    if Py.truthy (street address) then ["N3*" ++ street address ++ "~"]
    else [] in
  let n4 :=
    if Py.truthy (city address) || Py.truthy postal || Py.truthy country
    then ["N4*" ++ city address ++ "*" ++ state ++ "*" ++ postal ++ "*"
          ++ country ++ "~"]
    else [] in
  (n3 ++ n4)%list.

Definition payment_terms_segment (root : ET.Element) : list string :=
  match ET.text_if_any
          (ET.find root [ET.Self; ET.Descendant (cac "PaymentTerms");
                         ET.Child (cbc "Note")]) with
  | Some t =>
      let term := Py.strip t in
      let term :=
        if Py.startswith "pay immediately" (Py.lower term) then "1" else term in
      ["ITD*01*" ++ term ++ "~"]
  | None => []
  end.

(** The DTM segment of the due date: none without a due date, and the
    error of [strptime] for a text that is no date. *)
Definition due_date_segment (root : ET.Element) : result (list string) :=
  match ET.text_if_any (ET.find root [ET.Self; ET.Descendant (cbc "DueDate")]) with
  | Some t =>
      d <- PyDate.strptime (Py.strip t) ;;
      Ok ["DTM*011*" ++ PyDate.strftime_Ymd d ++ "~"]
  | None => Ok []
  end.

Definition delivery_segment (root : ET.Element) : list string :=
  match ET.find root [ET.Self; ET.Descendant (cac "Delivery")] with
  | Some _ => ["FOB*CC~"]
  | None => []
  end.

(** The loop [for idx, line in enumerate(invoice_lines, 1)]. *)
Fixpoint it1_segments (idx : nat) (invoice_lines : list ET.Element)
  : result (list string) :=
  match invoice_lines with
  | [] => Ok []
  | line :: rest =>
      let quantity_val :=
        stripped_text_or (ET.find line [ET.Child (cbc "InvoicedQuantity")]) "0" in
      price_val <-
        match ET.text_if_any
                (ET.find line [ET.Self; ET.Descendant (cac "Price");
                               ET.Child (cbc "PriceAmount")]) with
        | Some t => _format_number t 2
        | None => Ok "0"
        end ;;
      let product_code :=
        stripped_text_or
          (ET.find line [ET.Self; ET.Descendant (cac "Item");
                         ET.Child (cac "SellersItemIdentification");
                         ET.Child (cbc "ID")]) "" in
      segments <- it1_segments (S idx) rest ;;
      Ok (("IT1*" ++ Py.str_of_nat idx ++ "*" ++ quantity_val ++ "*EA*"
           ++ price_val ++ "*CP*VP*" ++ product_code ++ "~") :: segments)
  end.

Definition total_segment (root : ET.Element) : result (list string) :=
  match ET.text_if_any
          (ET.find root [ET.Self; ET.Descendant (cac "LegalMonetaryTotal");
                         ET.Child (cbc "PayableAmount")]) with
  | Some t =>
      formatted_total <- _format_number t 2 ;;
      Ok ["TDS*" ++ formatted_total ++ "~"]
  | None => Ok []
  end.

(** [int(line.find("cbc:ID", ns).text.lstrip("0") or "0")] *)
Definition line_id_number (line : ET.Element) : result Z :=
  match ET.find line [ET.Child (cbc "ID")] with
  | None => Raise AttributeError
  | Some line_id =>
      match ET.text line_id with
      | None => Raise AttributeError
      | Some t =>
          let digits := Py.lstrip_zeros t in
          Py.int (if Py.truthy digits then digits else "0")
      end
  end.

(** [sum(... for line in invoice_lines)], from the left. *)
Fixpoint sum_line_ids (total : Z) (invoice_lines : list ET.Element)
  : result Z :=
  match invoice_lines with
  | [] => Ok total
  | line :: rest =>
      v <- line_id_number line ;;
      sum_line_ids (total + v) rest
  end.

(** [next(i for i, seg in enumerate(l) if p(seg))], counting from [i]. *)
Fixpoint index_where (p : string -> bool) (l : list string) (i : nat)
  : result nat :=
  match l with
  | [] => Raise StopIteration
  | seg :: rest => if p seg then Ok i else index_where p rest (S i)
  end.

Definition newline : string := String (ascii_of_nat 10) EmptyString.

(** The list [x12_segments] at the end of the [try] block, for the parsed
    document [root] and the clock reading [current_time]. *)
Definition x12_segments (root : ET.Element) (current_time : PyDate.datetime)
  : result (list string) :=
  control_numbers <- _X12ControlNumbers root ;;
  let supplier :=
    default_id (_extract_party_info root supplier_party_path) "SENDERID" in
  let customer :=
    default_id (_extract_party_info root customer_party_path) "RECEIVERID" in
  let isa := _create_ISA_segment supplier customer control_numbers current_time in
  let gs :=
    "GS*IN*" ++ Py.strip (id supplier) ++ "*" ++ Py.strip (id customer) ++ "*"
    ++ PyDate.strftime_Ymd current_time ++ "*" ++ PyDate.strftime_HM current_time
    ++ "*" ++ group_control control_numbers ++ "*X*004010~" in
  let st := "ST*810*" ++ transaction_control control_numbers ++ "~" in
  let invoice_date :=
    stripped_text_or (ET.find root [ET.Self; ET.Descendant (cbc "IssueDate")]) "" in
  formatted_date <- format_invoice_date invoice_date ;;
  let big :=
    "BIG*" ++ formatted_date ++ "*"
    ++ stripped_text_or (ET.find root [ET.Self; ET.Descendant (cbc "ID")]) ""
    ++ "~" in
  let nte := note_segment root in
  let cur :=
    optional_segment
      (ET.find root [ET.Self; ET.Descendant (cbc "DocumentCurrencyCode")])
      "CUR*BY*" in
  let ref :=
    optional_segment
      (ET.find root [ET.Self; ET.Descendant (cac "ContractDocumentReference");
                     ET.Child (cbc "ID")])
      "REF*CT*" in
  let per := contact_segment root in
  let n1_supplier :=
    "N1*SU*" ++ name supplier ++ "*" ++ qualifier supplier ++ "*"
    ++ Py.strip (id supplier) ++ "~" in
  let supplier_address :=
    address_segments (_extract_postal_address root supplier_party_path) in
  let n1_customer :=
    "N1*BY*" ++ name customer ++ "*" ++ qualifier customer ++ "*"
    ++ Py.strip (id customer) ++ "~" in
  let customer_address :=
    address_segments (_extract_postal_address root customer_party_path) in
  let itd := payment_terms_segment root in
  dtm <- due_date_segment root ;;
  let fob := delivery_segment root in
  let invoice_lines :=
    ET.findall root [ET.Self; ET.Descendant (cac "InvoiceLine")] in
  it1 <- it1_segments 1 invoice_lines ;;
  tds <- total_segment root ;;
  hash_total <- sum_line_ids 0 invoice_lines ;;
  hash_text <- Py.str hash_total ;;
  let ctt :=
    "CTT*" ++ Py.str_of_nat (List.length invoice_lines) ++ "*"
    ++ hash_text ++ "~" in
  let segments :=
    ([isa; gs; st; big] ++ nte ++ cur ++ ref ++ per
     ++ [n1_supplier] ++ supplier_address
     ++ [n1_customer] ++ customer_address
     ++ itd ++ dtm ++ fob ++ it1 ++ tds ++ [ctt])%list in
  st_index <- index_where (Py.startswith "ST") segments 0 ;;
  let transaction_segment_count :=
    Z.of_nat (List.length segments) - Z.of_nat st_index + 1 in
  let se :=
    "SE*" ++ Py.str_of_Z transaction_segment_count ++ "*"
    ++ transaction_control control_numbers ++ "~" in
  let ge := "GE*1*" ++ group_control control_numbers ++ "~" in
  let iea := "IEA*1*" ++ interchange_control control_numbers ++ "~" in
  Ok (segments ++ [se; ge; iea])%list.

Section Conversion.

Variable parse_xml : string -> parsed.

(** [ET.fromstring(xml_content)] *)
Definition fromstring (xml_content : string) : result ET.Element :=
  match parse_xml xml_content with
  | Parsed root => Ok root
  | NotWellFormed _ => Raise ParseError
  end.

(** [_convert_xml_to_x12_content(xml_content)], with the reading of
    [datetime.now()] as an argument: the EDI text, or [None] after any
    exception. *)
Definition _convert_xml_to_x12_content (xml_content : string)
  (current_time : PyDate.datetime) : option string :=
  except_None
    (root <- fromstring xml_content ;;
     segments <- x12_segments root current_time ;;
     Ok (Py.join newline segments)).

End Conversion.

(* ===================================================================== *)
(** * The correction advisors *)
(* ===================================================================== *)

(** [s.replace(old, new)] for a non-empty [old]; [skip] counts the
    characters of a match that are still to be passed over. *)
Fixpoint replace_from (old new : string) (skip : nat) (s : string) : string :=
  match s with
  | EmptyString => EmptyString
  | String c r =>
      match skip with
      | S k => replace_from old new k r
      | O =>
          if String.prefix old s
          then new ++ replace_from old new (Py.len old - 1) r
          else String c (replace_from old new O r)
      end
  end.

Definition replace (old new s : string) : string := replace_from old new O s.

(** [l[i] = f(l[i])] when [len(l) > i]. *)
Fixpoint update_at (i : nat) (f : string -> string) (l : list string)
  : list string :=
  match l, i with
  | [], _ => []
  | x :: r, O => f x :: r
  | x :: r, S k => x :: update_at k f r
  end.

(** [schemas.ErrorDetail], with the fields the pipeline fills in. *)
Record ErrorDetail : Type := mk_error {
  step : string;
  error_type : string;
  error_message : string;
  suggestions : list string
}.

(** The fixes applied to every line of the advisor's EDI text. *)
Definition fix_line (line : string) : string :=
  if Py.startswith "ISA*" line then
    let parts := Py.split "*" line in
    let parts := update_at 6 (fun p => Py.take 15 (Py.ljust 15 p)) parts in
    let parts := update_at 8 (fun p => Py.take 15 (Py.ljust 15 p)) parts in
    Py.join "*" parts
  else if Py.startswith "N1*SU*" line then replace "N1*SU*" "N1*SE*" line
  else line.

Section Advisors.

(** The chat completion requested by [auto_correct_xml_with_ai]: the text
    of the first choice for the prompt built from the two arguments, or
    [None] when the request raises. *)
Variable complete_xml : string -> bool -> option string.

(** The same for [auto_fix_edi_with_ai]. *)
Variable complete_edi :
  string -> string -> list ErrorDetail -> bool -> option string.

(** [(was_corrected, corrected_xml)] *)
Definition auto_correct_xml_with_ai (xml_content : string)
  (strict_validation : bool) : bool * string :=
  match complete_xml xml_content strict_validation with
  | None => (false, xml_content)
  | Some content =>
      let corrected_xml := Py.strip content in
      let corrected_xml := replace "```xml" "" corrected_xml in
      let corrected_xml := replace "```" "" corrected_xml in
      if Py.truthy corrected_xml && negb (String.eqb corrected_xml xml_content)
      then (true, corrected_xml)
      else (false, xml_content)
  end.

(** [(was_corrected, corrected_edi)] *)
Definition auto_fix_edi_with_ai (xml_content edi_content : string)
  (edi_errors : list ErrorDetail) (strict_validation : bool) : bool * string :=
  match complete_edi xml_content edi_content edi_errors strict_validation with
  | None => (false, edi_content)
  | Some content =>
      let corrected_edi := Py.strip content in
      let corrected_edi :=
        fold_left (fun text marker => replace marker "" text)
          ["```edi"; "```"; "``"] corrected_edi in
      let fixed_lines := map fix_line (Py.split "~" corrected_edi) in
      let corrected_edi := Py.join "~" fixed_lines in
      if Py.truthy corrected_edi && negb (String.eqb corrected_edi edi_content)
      then (true, corrected_edi)
      else (false, edi_content)
  end.

End Advisors.

(* ===================================================================== *)
(** * The processing pipeline: [_process_invoice_internal] *)
(* ===================================================================== *)

(** The pipeline is modelled for local file storage, with a database that
    accepts every row.  Timing, logging, the preview of the upload, the
    tracking of step records and the body of the response are left out; what
    is kept is the sequence of calls to the validators, the converter and
    the advisors, the files written, and the way the request ends. *)

Inductive stage : Type :=
| XML_VALIDATION
| EDI_CONVERSION
| EDI_FORMAT_VALIDATION.

(** The calls made while a request is processed, in the order they are
    made, each with what it returned. *)
Inductive event : Type :=
| Validate (s : stage) (ok : bool)
    (* validate_xml / validate_edi_format and its first component *)
| Correct (s : stage) (changed : bool)
    (* auto_correct_xml_with_ai / auto_fix_edi_with_ai and its first component *)
| Convert (ok : bool)    (* convert_xml_to_x12 *)
| SaveFailed (s : stage) (* a row of the failed table *)
| SaveSuccess.           (* a row of the success table *)

(** The way a request ends. *)
Inductive outcome : Type :=
| Created                             (* 201, the invoice was processed *)
| ProcessingFailed (failed_step : stage)  (* 200 with the error summary *)
| BadRequest                          (* 400, the upload was refused *)
| StorageError
    (* 500, the HTTPException of save_file_to_storage, raised again *)
| InternalServerError (e : exn).
    (* 500, raised by the last handler for the exception e *)

Record run : Type := mk_run {
  ending : outcome;
  trace : list event;
  files : storage
}.

Definition stage_eqb (a b : stage) : bool :=
  match a, b with
  | XML_VALIDATION, XML_VALIDATION
  | EDI_CONVERSION, EDI_CONVERSION
  | EDI_FORMAT_VALIDATION, EDI_FORMAT_VALIDATION => true
  | _, _ => false
  end.

(** The validations and corrections of one stage. *)
Definition of_stage (s : stage) (e : event) : bool :=
  match e with
  | Validate s' _ | Correct s' _ => stage_eqb s s'
  | _ => false
  end.

Definition stage_events (s : stage) (t : list event) : list event :=
  filter (of_stage s) t.

Definition format_suggestions : list string :=
  ["Check EDI segment structure and field lengths";
   "Verify required segments are present";
   "Ensure field formats match X12 standards";
   "Review EDI field validation rules"].

(** The errors of one entry of the details, under its upper-case key. *)
Definition segment_errors (key : string) (r : segment_result)
  : list ErrorDetail :=
  if negb (valid r) && negb (Nat.eqb (List.length (errors r)) 0) then
    map (fun error =>
           mk_error "EDI_FORMAT_VALIDATION" "FORMAT_ERROR"
             (key ++ ": " ++ error) format_suggestions)
        (errors r)
  else [].

(** [edi_format_errors], built from the result of [validate_edi_format]. *)
Definition format_errors (message : string)
  (details : option validation_results) : list ErrorDetail :=
  match details with
  | Some r =>
      (segment_errors "ISA_SEGMENT" (isa_segment r)
       ++ segment_errors "GS_SEGMENT" (gs_segment r)
       ++ segment_errors "ST_SEGMENT" (st_segment r)
       ++ segment_errors "BIG_SEGMENT" (big_segment r)
       ++ segment_errors "N1_SEGMENTS" (n1_segments r)
       ++ segment_errors "IT1_SEGMENT" (it1_segment r)
       ++ segment_errors "TDS_SEGMENT" (tds_segment r)
       ++ segment_errors "TRAILER_SEGMENTS" (trailer_segments r))%list
  | None =>
      [mk_error "EDI_FORMAT_VALIDATION" "FORMAT_ERROR" message format_suggestions]
  end.

(** [UPLOAD_DIR] and [EDI_DIR] *)
Definition UPLOAD_DIR : Pathlib.path := Pathlib.Path "uploads".
Definition EDI_DIR : Pathlib.path := Pathlib.Path "converted".

Section Pipeline.

Variable parse_xml : string -> parsed.

(** [bytes.decode("utf-8")] and [str.encode("utf-8")], [None] for a
    [UnicodeDecodeError] or a [UnicodeEncodeError]. *)
Variable decode_utf8 : string -> option string.
Variable encode_utf8 : string -> option string.

Variable complete_xml : string -> bool -> option string.
Variable complete_edi :
  string -> string -> list ErrorDetail -> bool -> option string.

Variable os : OS.

(** [save_file_to_storage(file_content, filename, subdirectory)] on local
    storage: the files afterwards and the path returned, or [None] for the
    [HTTPException] (500) that ends every failure.  A write that fails
    under the target directory is tried again under the "uploads" directory
    of the working directory, and the path returned is the first one in
    both cases. *)
Definition save_file_to_storage (fs : storage)
  (file_content filename subdirectory : string) : storage * option string :=
  let target_dir :=
    if String.eqb subdirectory "uploads" then UPLOAD_DIR else EDI_DIR in
  let '(fs, made) := mkdir os fs (Pathlib.str UPLOAD_DIR) in
  if negb made then (fs, None)
  else
    let '(fs, made) := mkdir os fs (Pathlib.str EDI_DIR) in
    if negb made then (fs, None)
    else
      let file_path := Pathlib.str (Pathlib.joinpath target_dir filename) in
      match getcwd os with
      | None => (fs, None)
      | Some cwd =>
          let '(fs, written) := write_bytes os fs file_path file_content in
          if written then (fs, Some file_path)
          else
            let '(fs, written) :=
              write_bytes os fs
                (os_path_join (os_path_join cwd "uploads") filename)
                file_content in
            if written then (fs, Some file_path) else (fs, None)
      end.

(** [Path(path).read_text(encoding="utf-8")] *)
Definition read_text (fs : storage) (path : string) : result string :=
  match fs path with
  | None => Raise OSError
  | Some content =>
      match decode_utf8 content with
      | None => Raise UnicodeDecodeError
      | Some text => Ok (Py.universal_newlines text)
      end
  end.

(** [Path(path).write_text(data, encoding="utf-8")]: the files afterwards
    and whether the call returned.  The file is opened, and so emptied,
    before the text is encoded. *)
Definition write_text (fs : storage) (path data : string) : storage * bool :=
  match encode_utf8 data with
  | Some content => write_bytes os fs path content
  | None => (fst (write_bytes os fs path ""), false)
  end.

(** [convert_xml_to_x12(xml_path, x12_filename)]:
    [(success, message, x12_path)] and the files afterwards.  The text of
    the exception that follows the prefix of a message is left out. *)
Definition convert_xml_to_x12 (fs : storage) (xml_path x12_filename : string)
  (current_time : PyDate.datetime) : storage * (bool * string * option string) :=
  match fs xml_path with
  | None => (fs, (false, "X12 conversion error: ", None))
  | Some xml_content =>
      match _convert_xml_to_x12_content parse_xml xml_content current_time with
      | Some x12_content =>
          if Py.truthy x12_content then
            match encode_utf8 x12_content with
            | None => (fs, (false, "X12 conversion error: ", None))
            | Some content =>
                match save_file_to_storage fs content x12_filename "converted" with
                | (fs, Some x12_path) =>
                    (fs, (true, "X12 conversion completed successfully",
                          Some x12_path))
                | (fs, None) => (fs, (false, "X12 conversion error: ", None))
                end
            end
          else (fs, (false, "No X12 content generated", None))
      | None => (fs, (false, "No X12 content generated", None))
      end
  end.

(** Step 2 after a failed validation: the [try] block with the advisor and
    the second validation.  Every exception raised in the block ends it and
    leaves the first result in force.  The result is the files, the
    validation result in force afterwards and the calls made. *)
Definition xml_correction (fs : storage) (xml_path xml_filename : string)
  (strict_validation : bool) (first : bool * string * list string)
  : storage * (bool * string * list string) * list event :=
  match fs xml_path with
  | None => (fs, first, [])
  | Some xml_bytes =>
      match decode_utf8 xml_bytes with
      | None => (fs, first, [])
      | Some xml_text =>
          let '(was_corrected, corrected_xml) :=
            auto_correct_xml_with_ai complete_xml xml_text strict_validation in
          if was_corrected then
            match encode_utf8 corrected_xml with
            | None => (fs, first, [Correct XML_VALIDATION true])
            | Some content =>
                match save_file_to_storage fs content xml_filename "uploads" with
                | (fs, None) => (fs, first, [Correct XML_VALIDATION true])
                | (fs, Some xml_path) =>
                    let second :=
                      validate_xml parse_xml fs xml_path strict_validation in
                    (fs, second,
                     [Correct XML_VALIDATION true;
                      Validate XML_VALIDATION (fst (fst second))])
                end
            end
          else (fs, first, [Correct XML_VALIDATION false])
      end
  end.

(** Step 4A: the [try] block with the advisor and the second validation of
    the EDI text.  Every exception raised in the block ends it.  The result
    is the files, whether the format is valid afterwards, and the calls
    made. *)
Definition edi_correction (fs : storage) (xml_path x12_path : string)
  (edi_format_errors : list ErrorDetail) : storage * bool * list event :=
  match read_text fs xml_path with
  | Raise _ => (fs, false, [])
  | Ok xml_content =>
      match (if is_some (fs x12_path) then read_text fs x12_path else Ok "") with
      | Raise _ => (fs, false, [])
      | Ok edi_content =>
          let '(was_fixed, corrected_edi) :=
            auto_fix_edi_with_ai complete_edi xml_content edi_content
              edi_format_errors true in
          if was_fixed then
            match Pathlib.with_name (Pathlib.Path x12_path)
                    (Pathlib.stem (Pathlib.Path x12_path) ++ "_ai_fixed.x12") with
            | Raise _ => (fs, false, [Correct EDI_FORMAT_VALIDATION true])
            | Ok ai_fixed_path =>
                let '(fs, written) :=
                  write_text fs (Pathlib.str ai_fixed_path) corrected_edi in
                if written then
                  let '(edi_format_valid_retry, _, _) :=
                    validate_edi_format decode_utf8 fs
                      (Pathlib.str ai_fixed_path) in
                  (fs, edi_format_valid_retry,
                   [Correct EDI_FORMAT_VALIDATION true;
                    Validate EDI_FORMAT_VALIDATION edi_format_valid_retry])
                else (fs, false, [Correct EDI_FORMAT_VALIDATION true])
            end
          else (fs, false, [Correct EDI_FORMAT_VALIDATION false])
      end
  end.

(** [_process_invoice_internal], for the upload [content] sent with
    [content_type] and [filename], the value [tracking_id] of
    [uuid.uuid4()] and the reading [current_time] of the clock. *)
Definition _process_invoice_internal (fs : storage)
  (content_type filename content : string) (strict_validation : bool)
  (tracking_id : N) (current_time : PyDate.datetime) : run :=
  (* Step 1: file upload *)
  if negb (String.eqb content_type "text/xml") then mk_run BadRequest [] fs
  else if negb (Py.truthy filename) then mk_run BadRequest [] fs
  else
    let xml_filename := UUID.str tracking_id ++ "_" ++ filename in
    match save_file_to_storage fs content xml_filename "uploads" with
    | (fs, None) => mk_run StorageError [] fs
    | (fs, Some xml_path) =>
        (* Step 2: XML validation *)
        let first := validate_xml parse_xml fs xml_path strict_validation in
        let t := [Validate XML_VALIDATION (fst (fst first))] in
        if negb (fst (fst first)) then
          let '(fs, (xml_valid, _, _), calls) :=
            xml_correction fs xml_path xml_filename strict_validation first in
          let t := (t ++ calls)%list in
          if negb xml_valid then
            mk_run (ProcessingFailed XML_VALIDATION)
              (t ++ [SaveFailed XML_VALIDATION]) fs
          else
            (* the failed step is recorded with [xml_errors], which is bound
               only when the validation is still invalid *)
            mk_run (InternalServerError NameError) t fs
        else
          (* Step 3: EDI conversion *)
          let x12_filename := UUID.str tracking_id ++ "_converted.x12" in
          let '(fs, (edi_success, _, x12_path)) :=
            convert_xml_to_x12 fs xml_path x12_filename current_time in
          let t := (t ++ [Convert edi_success])%list in
          match edi_success, x12_path with
          | true, Some x12_path =>
              (* Step 4: EDI format validation *)
              let '(edi_format_valid, edi_format_message, edi_format_details) :=
                validate_edi_format decode_utf8 fs x12_path in
              let t :=
                (t ++ [Validate EDI_FORMAT_VALIDATION edi_format_valid])%list in
              if negb edi_format_valid then
                let edi_format_errors :=
                  format_errors edi_format_message edi_format_details in
                let '(fs, edi_format_valid, calls) :=
                  edi_correction fs xml_path x12_path edi_format_errors in
                let t := (t ++ calls)%list in
                if negb edi_format_valid then
                  mk_run (ProcessingFailed EDI_FORMAT_VALIDATION)
                    (t ++ [SaveFailed EDI_FORMAT_VALIDATION]) fs
                else
                  (* Step 5 *)
                  mk_run Created (t ++ [SaveSuccess]) fs
              else
                (* Step 5: the success row *)
                mk_run Created (t ++ [SaveSuccess]) fs
          | _, _ =>
              (* a failed conversion returns no path: the failure branch
                 reads the upload as text and then builds [Path(x12_path)]
                 from [None], before it reaches the advisor *)
              match read_text fs xml_path with
              | Raise e => mk_run (InternalServerError e) t fs
              | Ok _ => mk_run (InternalServerError TypeError) t fs
              end
          end
    end.

End Pipeline.

(* ===================================================================== *)
(** * Soft deletion, restoration and the counts of invoices *)
(* ===================================================================== *)

(** The end points [delete_invoice], [restore_invoice] and
    [get_invoice_counts] are modelled on the two tables of invoices, each a
    list of rows in the order in which the database returns them, with a
    database that accepts every commit.  A row keeps the columns these end
    points read or write. *)

(** What an end point does: it returns a body, or it raises an
    [HTTPException]. *)
Inductive http (A : Type) : Type :=
| Returned (body : A)
| HTTPException (status_code : Z) (detail : string).
Arguments Returned {A} body.
Arguments HTTPException {A} status_code detail.

Module DB.

Record row : Type := mk_row {
  id : Z;
  tracking_id : string;
  user_id : Z;
  deleted_at : option PyDate.datetime
}.

(** The tables [zodiac_invoice_success_edi] and
    [zodiac_invoice_failed_edi]. *)
Record session : Type := mk_session {
  success : list row;
  failed : list row
}.

(** [filter(M.id == invoice_id, M.user_id == user, M.deleted_at.is_(None))] *)
Definition live (invoice_id user : Z) (r : row) : bool :=
  (id r =? invoice_id) && (user_id r =? user) && negb (is_some (deleted_at r)).

(** [filter(M.id == invoice_id, M.user_id == user, M.deleted_at.isnot(None))] *)
Definition deleted (invoice_id user : Z) (r : row) : bool :=
  (id r =? invoice_id) && (user_id r =? user) && is_some (deleted_at r).

(** [row.deleted_at = value] *)
Definition set_deleted_at (value : option PyDate.datetime) (r : row) : row :=
  mk_row (id r) (tracking_id r) (user_id r) value.

(** The assignment to the row that [query.first()] returned, committed. *)
Fixpoint update_first (p : row -> bool) (f : row -> row) (table : list row)
  : list row :=
  match table with
  | [] => []
  | r :: rest => if p r then f r :: rest else r :: update_first p f rest
  end.

(** [query.filter(...).count()] *)
Definition count (p : row -> bool) (table : list row) : nat :=
  List.length (filter p table).

End DB.

(** [delete_invoice(invoice_id, current_user, db)] at the time [utcnow]:
    the tables afterwards and the response. *)
Definition delete_invoice (db : DB.session) (invoice_id current_user : Z)
  (utcnow : PyDate.datetime) : DB.session * http (bool * string) :=
  match List.find (DB.live invoice_id current_user) (DB.success db) with
  | Some _ =>
      (DB.mk_session
         (DB.update_first (DB.live invoice_id current_user)
            (DB.set_deleted_at (Some utcnow)) (DB.success db))
         (DB.failed db),
       Returned (true, "Invoice deleted successfully"))
  | None =>
      match List.find (DB.live invoice_id current_user) (DB.failed db) with
      | Some _ =>
          (DB.mk_session (DB.success db)
             (DB.update_first (DB.live invoice_id current_user)
                (DB.set_deleted_at (Some utcnow)) (DB.failed db)),
           Returned (true, "Invoice deleted successfully"))
      | None =>
          (db, HTTPException 404 "Invoice not found or already deleted")
      end
  end.

(** [restore_invoice(invoice_id, current_user, db)] *)
Definition restore_invoice (db : DB.session) (invoice_id current_user : Z)
  : DB.session * http (bool * string) :=
  match List.find (DB.deleted invoice_id current_user) (DB.success db) with
  | Some _ =>
      (DB.mk_session
         (DB.update_first (DB.deleted invoice_id current_user)
            (DB.set_deleted_at None) (DB.success db))
         (DB.failed db),
       Returned (true, "Invoice restored successfully"))
  | None =>
      match List.find (DB.deleted invoice_id current_user) (DB.failed db) with
      | Some _ =>
          (DB.mk_session (DB.success db)
             (DB.update_first (DB.deleted invoice_id current_user)
                (DB.set_deleted_at None) (DB.failed db)),
           Returned (true, "Invoice restored successfully"))
      | None => (db, HTTPException 404 "Invoice not found or not deleted")
      end
  end.

(** The body returned by [get_invoice_counts]. *)
Module Counts.

Record body : Type := mk_body {
  successful : nat;
  failed : nat;
  deleted : nat;
  total : nat;
  processing : nat
}.

End Counts.

Definition owned (user : Z) (is_deleted : bool) (r : DB.row) : bool :=
  (DB.user_id r =? user) && Bool.eqb (is_some (DB.deleted_at r)) is_deleted.

Definition get_invoice_counts (db : DB.session) (current_user : Z)
  : Counts.body :=
  let successful_count := DB.count (owned current_user false) (DB.success db) in
  let failed_count := DB.count (owned current_user false) (DB.failed db) in
  let deleted_count := DB.count (owned current_user true) (DB.failed db) in
  let deleted_success_count :=
    DB.count (owned current_user true) (DB.success db) in
  let total_deleted := (deleted_count + deleted_success_count)%nat in
  let total_files := (successful_count + failed_count)%nat in
  Counts.mk_body successful_count failed_count total_deleted total_files 0.

(* ===================================================================== *)
(** * API keys *)
(* ===================================================================== *)

(** [s.split(sep, 1)] when [sep in s]: the text before the first separator
    and the text after it. *)
Fixpoint split_once (sep : ascii) (s : string) : option (string * string) :=
  match s with
  | EmptyString => None
  | String c r =>
      if Ascii.eqb c sep then Some (EmptyString, r)
      else match split_once sep r with
           | Some (a, b) => Some (String c a, b)
           | None => None
           end
  end.

(** The columns of [ZodiacUser] that the authentication with an API key
    and the end points of the key read or write. *)
Record ZodiacUser : Type := mk_user {
  user_key : Z;                         (* the column [id] *)
  is_active : bool;
  api_user_allowed : bool;
  api_key_hashed : option string;
  api_key_deactivated_at : option PyDate.datetime;
  api_key_allow_list : option (list string);
  api_key_updated_at : option PyDate.datetime
}.

(** What [get_client_ip] reads of a request: two headers and the address
    of the peer. *)
Record Request : Type := mk_request {
  x_forwarded_for : option string;
  x_real_ip : option string;
  client_host : option string
}.

(** [get_client_ip(request)] *)
Definition get_client_ip (request : Request) : string :=
  if Py.truthy_opt (x_forwarded_for request) then
    match x_forwarded_for request with
    | Some forwarded_for => Py.strip (hd EmptyString (Py.split "," forwarded_for))
    | None => EmptyString
    end
  else if Py.truthy_opt (x_real_ip request) then
    match x_real_ip request with
    | Some real_ip => real_ip
    | None => EmptyString
    end
  else
    match client_host request with
    | Some host => host
    | None => "unknown"
    end.

(** [user_ip in allow_list] *)
Definition mem (x : string) (l : list string) : bool :=
  existsb (String.eqb x) l.

(** [validate_ip_whitelist(user_ip, allow_list)] *)
Definition validate_ip_whitelist (user_ip : string)
  (allow_list : option (list string)) : bool :=
  match allow_list with
  | None | Some [] => true
  | Some l => mem user_ip l
  end.

Section ApiKeys.

(** [hashlib.sha256(s.encode('utf-8')).hexdigest()] *)
Variable sha256_hexdigest : string -> string.

(** [os.getenv('API_HASH_KEY', ...)] *)
Variable API_HASH_KEY : string.

(** [decode_api_key_from_transport(encoded_key)]: the decoded key, or
    [None] for a text that is not the base64 form of a UTF-8 text. *)
Variable decode_api_key_from_transport : string -> option string.

(** [hash_api_key(api_key, salt)] *)
Definition hash_api_key (api_key salt : string) : string :=
  let combined := api_key ++ ":" ++ salt ++ ":" ++ API_HASH_KEY in
  let hashed := sha256_hexdigest combined in
  salt ++ ":" ++ hashed.

(** [verify_api_key(api_key, hashed_key)] *)
Definition verify_api_key (api_key hashed_key : string) : bool :=
  match split_once ":" hashed_key with
  | None => false
  | Some (salt, stored_hash) =>
      let combined := api_key ++ ":" ++ salt ++ ":" ++ API_HASH_KEY in
      let computed_hash := sha256_hexdigest combined in
      String.eqb computed_hash stored_hash
  end.

(** [get_api_user(credentials, db, request)], with [users] the rows of
    [zodiac_users] in the order in which the query returns them. *)
Definition get_api_user (users : list ZodiacUser) (credentials : string)
  (request : option Request) : http ZodiacUser :=
  match decode_api_key_from_transport credentials with
  | None => HTTPException 401 "Invalid API key format"
  | Some api_key =>
      if negb (Py.truthy api_key)
      then HTTPException 401 "Invalid API key format"
      else
        let client_ip :=
          match request with
          | Some r => get_client_ip r
          | None => "unknown"
          end in
        let candidates :=
          filter (fun user => is_some (api_key_hashed user)
                              && api_user_allowed user) users in
        let authenticated_user :=
          List.find
            (fun user =>
               match api_key_hashed user with
               | Some hashed => verify_api_key api_key hashed
               | None => false
               end)
            candidates in
        match authenticated_user with
        | None => HTTPException 401 "Invalid API key"
        | Some user =>
            if is_some (api_key_deactivated_at user)
            then HTTPException 401 "API key is deactivated"
            else if negb (validate_ip_whitelist client_ip
                            (api_key_allow_list user))
            then HTTPException 403 "IP address not allowed"
            else if negb (is_active user)
            then HTTPException 401 "User account is inactive"
            else Returned user
        end
  end.

End ApiKeys.

(* ===================================================================== *)
(** * The allow list of an API key *)
(* ===================================================================== *)

(** A pattern of [re] as a backtracking matcher: applied to a text, it
    gives the texts that can be left over after a match at the start, in
    the order in which the alternatives are tried. *)
Module Re.

Definition pattern : Type := string -> list string.

(** A character class. *)
Definition char (p : ascii -> bool) : pattern :=
  fun s =>
    match s with
    | String c r => if p c then [r] else []
    | EmptyString => []
    end.

(** One character. *)
Definition lit (c : ascii) : pattern := char (Ascii.eqb c).

(** [ab] *)
Definition seq (a b : pattern) : pattern := fun s => flat_map b (a s).

(** [a|b] *)
Definition alt (a b : pattern) : pattern := fun s => (a s ++ b s)%list.

(** [a?] *)
Definition opt (a : pattern) : pattern := fun s => (a s ++ [s])%list.

(** [a{n}] *)
Fixpoint times (n : nat) (a : pattern) : pattern :=
  match n with
  | O => fun s => [s]
  | S k => seq a (times k a)
  end.

(** [$]: at the end of the text, or before a line feed that ends it. *)
Definition at_end (s : string) : bool :=
  String.eqb s EmptyString
  || String.eqb s (String (ascii_of_nat 10) EmptyString).

(** [re.compile(a + "$").match(s) is not None] *)
Definition matches (a : pattern) (s : string) : bool := existsb at_end (a s).

End Re.

(** [(?:25[0-5]|2[0-4][0-9]|[01]?[0-9][0-9]?)] *)
Definition octet : Re.pattern :=
  Re.alt
    (Re.seq (Re.lit "2") (Re.seq (Re.lit "5") (Re.char (Py.in_range 48 53))))
    (Re.alt
       (Re.seq (Re.lit "2")
          (Re.seq (Re.char (Py.in_range 48 52)) (Re.char Py.isdigit)))
       (Re.seq (Re.opt (Re.char (Py.in_range 48 49)))
          (Re.seq (Re.char Py.isdigit) (Re.opt (Re.char Py.isdigit))))).

(** [ip_pattern.match(ip)], the pattern being three octets, each followed
    by a dot, and one more octet, between [^] and [$]. *)
Definition ip_pattern_match (ip : string) : bool :=
  Re.matches (Re.seq (Re.times 3 (Re.seq octet (Re.lit "."))) octet) ip.

(** [update_api_key_allow_list(allow_list, current_user, db)] at the time
    [utcnow]: the row of the user after the commit, in place of the body
    that repeats its allow list and time of update. *)
Definition update_api_key_allow_list (current_user : ZodiacUser)
  (allow_list : list string) (utcnow : PyDate.datetime) : http ZodiacUser :=
  if negb (Py.truthy_opt (api_key_hashed current_user))
  then HTTPException 404 "No API key found to update"
  else
    match List.find (fun ip => negb (ip_pattern_match ip)) allow_list with
    | Some ip => HTTPException 400 ("Invalid IP address format: " ++ ip)
    | None =>
        Returned
          (mk_user (user_key current_user) (is_active current_user)
             (api_user_allowed current_user) (api_key_hashed current_user)
             (api_key_deactivated_at current_user) (Some allow_list)
             (Some utcnow))
    end.

(** [suspend_api_key(current_user, db)] at the time [utcnow]: the row of
    the user after the commit. *)
Definition suspend_api_key (current_user : ZodiacUser)
  (utcnow : PyDate.datetime) : http ZodiacUser :=
  if negb (Py.truthy_opt (api_key_hashed current_user))
  then HTTPException 404 "No API key found to suspend"
  else
    Returned
      (mk_user (user_key current_user) (is_active current_user)
         (api_user_allowed current_user) (api_key_hashed current_user)
         (Some utcnow) (api_key_allow_list current_user) (Some utcnow)).

(** [activate_api_key(current_user, db)] *)
Definition activate_api_key (current_user : ZodiacUser)
  (utcnow : PyDate.datetime) : http ZodiacUser :=
  if negb (Py.truthy_opt (api_key_hashed current_user))
  then HTTPException 404 "No API key found to activate"
  else
    Returned
      (mk_user (user_key current_user) (is_active current_user)
         (api_user_allowed current_user) (api_key_hashed current_user)
         None (api_key_allow_list current_user) (Some utcnow)).

(* ===================================================================== *)
(** * Notions used in the statements *)
(* ===================================================================== *)

(** The number of occurrences of a character. *)
Fixpoint occurrences (c : ascii) (s : string) : nat :=
  match s with
  | EmptyString => O
  | String x r => ((if Ascii.eqb x c then 1 else 0) + occurrences c r)%nat
  end.

(** The end point id of a party before it is brought to 15 characters:
    the stripped text of its [cbc:EndpointID], or "UNKNOWN" when the party,
    the element or its text is missing. *)
Definition endpoint_id_of (root : ET.Element) (party_path : ET.path) : string :=
  match ET.find root party_path with
  | Some party =>
      stripped_text_or
        (ET.find party [ET.Self; ET.Descendant (cbc "EndpointID")]) "UNKNOWN"
  | None => "UNKNOWN"
  end.

(** The "*" characters inside the data elements of the ISA segment that
    come from the document: the two qualifiers and the two ids as they are
    written, and the interchange control number. *)
Definition isa_stars (supplier customer : PartyInfo)
  (control_numbers : ControlNumbers) : nat :=
  (occurrences "*" (Py.take 2 (qualifier supplier))
   + occurrences "*" (Py.take 15 (id supplier))
   + occurrences "*" (Py.take 2 (qualifier customer))
   + occurrences "*" (Py.take 15 (id customer))
   + occurrences "*" (interchange_control control_numbers))%nat.

(** What [validate_edi_format] asks of the date: eight characters whose
    three slices are accepted by [int], a month from 1 to 12 and a day from
    1 to 31. *)
Definition date_accepted (date : string) : Prop :=
  String.length date = 8%nat
  /\ exists year month day : Z,
       Py.int (Py.slice 0 4 date) = Ok year
       /\ Py.int (Py.slice 4 6 date) = Ok month
       /\ Py.int (Py.slice 6 8 date) = Ok day
       /\ 1 <= month <= 12 /\ 1 <= day <= 31.

(** The hash total as the claim words it, with 0 for a line id that is
    missing or that [int] does not accept. *)
Definition claimed_hash_total (invoice_lines : list ET.Element) : Z :=
  fold_right Z.add 0
    (map (fun line =>
            match line_id_number line with
            | Ok v => v
            | Raise _ => 0
            end)
         invoice_lines).

Definition not_DTM (segment : string) : Prop :=
  Py.startswith "DTM" segment = false.

Definition ends_with_tilde (s : string) : Prop := exists p : string, s = p ++ "~".

(** The calls of one stage in a run: nothing; a validation that passes; or
    a failed validation, then at most one call of the advisor, then, when
    the advisor has changed the text, at most one more validation. *)
Definition stage_shape (s : stage) (l : list event) : Prop :=
  l = []
  \/ l = [Validate s true]
  \/ l = [Validate s false]
  \/ (exists changed : bool, l = [Validate s false; Correct s changed])
  \/ exists ok : bool, l = [Validate s false; Correct s true; Validate s ok].

(** The paths under which [save_file_to_storage] asks for a write: the one
    under the target directory, which it returns, and the one it falls back
    on. *)
Definition save_paths (os : OS) (filename subdirectory : string)
  : list string :=
  Pathlib.str
    (Pathlib.joinpath
       (if String.eqb subdirectory "uploads" then UPLOAD_DIR else EDI_DIR)
       filename)
  :: match getcwd os with
     | Some cwd => [os_path_join (os_path_join cwd "uploads") filename]
     | None => []
     end.

(** The paths under which a request may ask for a write: those of the
    upload, those of the converted text, and the one of the advisor's
    text. *)
Definition request_paths (os : OS) (tracking_id : N) (filename : string)
  : list string :=
  let xml_filename := UUID.str tracking_id ++ "_" ++ filename in
  let x12_filename := UUID.str tracking_id ++ "_converted.x12" in
  let ai_fixed_path :=
    "converted/" ++ UUID.str tracking_id ++ "_converted_ai_fixed.x12" in
  (save_paths os xml_filename "uploads"
   ++ save_paths os x12_filename "converted" ++ [ai_fixed_path])%list.

(** The rows written to the two tables. *)
Definition is_row (e : event) : bool :=
  match e with
  | SaveFailed _ | SaveSuccess => true
  | _ => false
  end.

(** The calls of the converter. *)
Definition is_conversion (e : event) : bool :=
  match e with
  | Convert _ => true
  | _ => false
  end.

(** A number is written and read back: [int(str(z).zfill(w)) == z]. *)
Definition reads_back (width : nat) (z : Z) : bool :=
  Nat.eqb (String.length (PyDate.pad width z)) width
  && match Py.int (PyDate.pad width z) with
     | Ok v => v =? z
     | Raise _ => false
     end.

(** A reading of the clock: a month, a day, an hour and a minute in their
    ranges. *)
Definition clock_reading (t : PyDate.datetime) : Prop :=
  1 <= PyDate.month t <= 12 /\ 1 <= PyDate.day t <= 31
  /\ 0 <= PyDate.hour t <= 23 /\ 0 <= PyDate.minute t <= 59.

(** An element that was found, has children and has no text: the one case
    in which a control number cannot be derived. *)
Definition lacks_text (x : option ET.Element) : bool :=
  match x with
  | Some e => ET.truth e && negb (is_some (ET.text e))
  | None => false
  end.

(** The number of backticks at the start of a text. *)
Fixpoint leading_backticks (s : string) : nat :=
  match s with
  | String c r => if Ascii.eqb c "`" then S (leading_backticks r) else O
  | EmptyString => O
  end.

(** [p.ljust(15)[:15]], the length given to ISA06 and ISA08. *)
Definition normalized (p : string) : string := Py.take 15 (Py.ljust 15 p).

(** The occurrences of a character inside the data elements of the ISA
    segment that come from the document. *)
Definition isa_occurrences (c : ascii) (supplier customer : PartyInfo)
  (control_numbers : ControlNumbers) : nat :=
  (occurrences c (Py.take 2 (qualifier supplier))
   + occurrences c (Py.take 15 (id supplier))
   + occurrences c (Py.take 2 (qualifier customer))
   + occurrences c (Py.take 15 (id customer))
   + occurrences c (interchange_control control_numbers))%nat.

(** The last character of a text. *)
Fixpoint last_char (s : string) : option ascii :=
  match s with
  | EmptyString => None
  | String c r =>
      match last_char r with
      | Some x => Some x
      | None => Some c
      end
  end.

(** The segments that start with a tag. *)
Definition tagged (tag : string) (segments : list string) : list string :=
  filter (Py.startswith tag) segments.

(** The segments written besides the IT1 and CTT segments carry other
    tags. *)
Definition other_tag (tag : string) (l : list string) : Prop :=
  Forall (fun seg => Py.startswith tag seg = false) l.

(** A text made of white space only. *)
Fixpoint blank (w : string) : bool :=
  match w with
  | EmptyString => true
  | String c r => Py.isspace c && blank r
  end.

(** What [strftime("%Y%m%d")] has written for the date [d]: from the year
    1000 on, eight digits that the date check accepts; before, fewer than
    eight characters, the year being written without leading zeros. *)
Definition written_date (d : PyDate.datetime) (date : string) : Prop :=
  date = PyDate.strftime_Ymd d
  /\ (1000 <= PyDate.year d -> date_accepted date)
  /\ (PyDate.year d < 1000 -> (String.length date < 8)%nat).

(** A segment with one terminator, which is then the one that ends it. *)
Definition one_terminator (segment : string) : Prop :=
  occurrences "~" segment = 1%nat.

(** The tags of the segments that the encoder writes between the ST and the
    SE segment. *)
Definition body_tags : list string :=
  ["BIG*"; "NTE*"; "CUR*"; "REF*"; "PER*"; "N1*"; "N3*"; "N4*"; "ITD*";
   "DTM*"; "FOB*"; "IT1*"; "TDS*"; "CTT*"].

(** A segment written under one of [tags]: it starts with the tag and ends
    with the terminator. *)
Definition written_under (tags : list string) (segment : string) : Prop :=
  ends_with_tilde segment
  /\ exists tag : string, In tag tags /\ Py.startswith tag segment = true.

(** The segments up to the first one that starts with [last], which is
    included. *)
Fixpoint through (last : string) (segments : list string) : list string :=
  match segments with
  | [] => []
  | seg :: rest =>
      if Py.startswith last seg then [seg] else seg :: through last rest
  end.

(** The segments from the first one that starts with [first] through the
    next one that starts with [last], both included. *)
Fixpoint from_through (first last : string) (segments : list string)
  : list string :=
  match segments with
  | [] => []
  | seg :: rest =>
      if Py.startswith first seg then seg :: through last rest
      else from_through first last rest
  end.

(** The transaction set of a list of segments: from ST through SE. *)
Definition transaction_set (segments : list string) : list string :=
  from_through "ST" "SE" segments.

(** A segment of the encoder's list and the segment that the validator
    reads in its place start alike, for every start that ends with a
    character other than white space and the terminator. *)
Definition same_start (segment piece : string) : Prop :=
  forall (q : string) (c : ascii),
    last_char q = Some c -> Py.isspace c = false -> Ascii.eqb c "~" = false ->
    Py.startswith q piece = Py.startswith q segment.

(** A text of one to three digits that reads as a number up to 255. *)
Definition octet_text (s : string) : bool :=
  match s with
  | String a EmptyString => Py.isdigit a
  | String a (String b EmptyString) => Py.isdigit a && Py.isdigit b
  | String a (String b (String c EmptyString)) =>
      Py.isdigit a && Py.isdigit b && Py.isdigit c
      && (Py.digit_val a * 100 + Py.digit_val b * 10 + Py.digit_val c <=? 255)
  | _ => false
  end.

(** Four such numbers separated by dots, with nothing after them or one
    line feed. *)
Definition dotted_quad (ip : string) : Prop :=
  exists a b c d : string,
    octet_text a = true /\ octet_text b = true
    /\ octet_text c = true /\ octet_text d = true
    /\ (ip = a ++ "." ++ b ++ "." ++ c ++ "." ++ d
        \/ ip = a ++ "." ++ b ++ "." ++ c ++ "." ++ d ++ newline).

(* ===================================================================== *)
(** * A sample invoice *)
(* ===================================================================== *)

Definition leaf (tag text : string) : ET.Element :=
  ET.Elem tag [] (Some text) [].

Definition node (tag : string) (children : list ET.Element) : ET.Element :=
  ET.Elem tag [] None children.

Definition sample_party (endpoint_id party_name : string) : ET.Element :=
  node (cac "Party")
    [ET.Elem (cbc "EndpointID") [("schemeID", "0088")] (Some endpoint_id) [];
     node (cac "PartyName") [leaf (cbc "Name") party_name]].

(** An invoice with an id, an issue date, a payable amount, a supplier, a
    customer and [lines]. *)
Definition sample_invoice (lines : list ET.Element) : ET.Element :=
  node "{urn:oasis:names:specification:ubl:schema:xsd:Invoice-2}Invoice"
    ([leaf (cbc "ID") "INV001";
      leaf (cbc "IssueDate") "2024-01-15";
      node (cac "AccountingSupplierParty") [sample_party "AU123" "Acme"];
      node (cac "AccountingCustomerParty") [sample_party "AU456" "Buyer"];
      node (cac "LegalMonetaryTotal") [leaf (cbc "PayableAmount") "100.00"]]
     ++ lines).

Definition sample_line (line_id : string) : ET.Element :=
  node (cac "InvoiceLine")
    [leaf (cbc "ID") line_id;
     leaf (cbc "InvoicedQuantity") "2";
     node (cac "Price") [leaf (cbc "PriceAmount") "50.00"]].

Definition sample_root : ET.Element := sample_invoice [sample_line "1"].

Definition sample_time : PyDate.datetime := PyDate.mk_datetime 2026 11 4 9 5.

(** A parser that knows one text, "<Invoice/>" standing for the sample
    invoice, and refuses every other text. *)
Definition sample_parser (xml_content : string) : parsed :=
  if String.eqb xml_content "<Invoice/>" then Parsed sample_root
  else NotWellFormed "syntax error: line 1, column 0".

(** The files [fs] and one more file. *)
Definition with_file (fs : storage) (path content : string) : storage :=
  fun p => if String.eqb p path then Some content else fs p.

Definition sample_storage : storage :=
  with_file (fun _ => None) "uploads/invoice.xml" "<Invoice/>".

(** A parser that reads "<Invoice/>" as what it is, an element without
    children, and refuses every other text. *)
Definition bare_parser (xml_content : string) : parsed :=
  if String.eqb xml_content "<Invoice/>" then Parsed (node "Invoice" [])
  else NotWellFormed "syntax error: line 1, column 0".

(** An operating system that carries out every call, with the working
    directory "/srv/zodiac" and files that have one name each. *)
Definition sample_os : OS :=
  mk_os (Some "/srv/zodiac") (fun fs _ => (fs, true))
    (fun fs path content => (with_file fs path content, true)).

(** UTF-8 on the texts of ASCII, which it leaves as they are; the sample
    codec refuses every other text. *)
Fixpoint is_ascii (s : string) : bool :=
  match s with
  | EmptyString => true
  | String c r => (Py.code c <? 128)%N && is_ascii r
  end.

Definition sample_codec (s : string) : option string :=
  if is_ascii s then Some s else None.

Definition sample_tracking_id : N := 0x7f9c2ba4e88f427d916045507a4e9f31.

Definition sample_text : string :=
  Py.join newline
    ["ISA*00*          *00*          *12*AU123          *12*AU456          *261104*0905*U*00401*000000000*0*P*>~";
     "GS*IN*AU123*AU456*20261104*0905*000000*X*004010~";
     "ST*810*0000~";
     "BIG*20240115*INV001~";
     "N1*SU*Acme*12*AU123~";
     "N1*BY*Buyer*12*AU456~";
     "IT1*1*2*EA*5000*CP*VP*~";
     "TDS*10000~";
     "CTT*1*1~";
     "SE*8*0000~";
     "GE*1*000000~";
     "IEA*1*000000000~"].

(** The sample invoice with a due date that is no date. *)
Definition sample_bad_due_date : ET.Element :=
  sample_invoice [leaf (cbc "DueDate") "31/01/2024"; sample_line "1"].

(** The sample invoice with a note that holds the terminator of the
    segments, and its conversion. *)
Definition sample_noted : ET.Element :=
  sample_invoice [leaf (cbc "Note") "a~b"; sample_line "1"].

Definition sample_noted_text : string :=
  Py.join newline
    ["ISA*00*          *00*          *12*AU123          *12*AU456          *261104*0905*U*00401*000000000*0*P*>~";
     "GS*IN*AU123*AU456*20261104*0905*000000*X*004010~";
     "ST*810*0000~";
     "BIG*20240115*INV001~";
     "NTE*GEN*a~b~";
     "N1*SU*Acme*12*AU123~";
     "N1*BY*Buyer*12*AU456~";
     "IT1*1*2*EA*5000*CP*VP*~";
     "TDS*10000~";
     "CTT*1*1~";
     "SE*9*0000~";
     "GE*1*000000~";
     "IEA*1*000000000~"].

(** The sample invoice with two lines, and the segments of its
    conversion. *)
Definition sample_two_lines : ET.Element :=
  sample_invoice [sample_line "1"; sample_line "2"].

Definition sample_two_lines_segments : list string :=
  ["ISA*00*          *00*          *12*AU123          *12*AU456          *261104*0905*U*00401*000000000*0*P*>~";
   "GS*IN*AU123*AU456*20261104*0905*000000*X*004010~";
   "ST*810*0000~";
   "BIG*20240115*INV001~";
   "N1*SU*Acme*12*AU123~";
   "N1*BY*Buyer*12*AU456~";
   "IT1*1*2*EA*5000*CP*VP*~";
   "IT1*2*2*EA*5000*CP*VP*~";
   "TDS*10000~";
   "CTT*2*3~";
   "SE*9*0000~";
   "GE*1*000000~";
   "IEA*1*000000000~"].

(** A request with a text that is not well-formed, at a time when the
    advisor cannot be reached. *)
Definition sample_failed_run : run :=
  _process_invoice_internal sample_parser sample_codec sample_codec
    (fun _ _ => None) (fun _ _ _ _ => None) sample_os (fun _ => None)
    "text/xml" "invoice.xml" "<Invoice" false sample_tracking_id sample_time.

(** The text of the sample invoice as an advisor may return it, with the
    seller code SE and application codes of two characters, and the
    request in which the advisor returns it. *)
Definition sample_fixed_text : string :=
  Py.join newline
    ["ISA*00*          *00*          *12*AU123          *12*AU456          *261104*0905*U*00401*000000000*0*P*>~";
     "GS*IN*AU*AU*20261104*0905*000000*X*004010~";
     "ST*810*0000~";
     "BIG*20240115*INV001~";
     "N1*SE*Acme*12*AU123~";
     "N1*BY*Buyer*12*AU456~";
     "IT1*1*2*EA*5000*CP*VP*~";
     "TDS*10000~";
     "CTT*1*1~";
     "SE*8*0000~";
     "GE*1*000000~";
     "IEA*1*000000000~"].

Definition sample_created_run : run :=
  _process_invoice_internal sample_parser sample_codec sample_codec
    (fun _ _ => None) (fun _ _ _ _ => Some sample_fixed_text) sample_os
    (fun _ => None)
    "text/xml" "invoice.xml" "<Invoice/>" false sample_tracking_id sample_time.

(** A user with an API key, hashed with the salt "5a17", and a request that
    came through a proxy. *)
Definition sample_user : ZodiacUser :=
  mk_user 1 true true (Some "5a17:<key:5a17:pepper>") None
    (Some ["203.0.113.7"]) None.

Definition sample_request : Request :=
  mk_request (Some "203.0.113.7, 10.0.0.1") None (Some "10.0.0.1").

(* ===================================================================== *)
(** * Properties *)
(* ===================================================================== *)

(** ** Strings: lengths *)

Lemma str_length_app (a b : string) :
  String.length (a ++ b) = (String.length a + String.length b)%nat.
Proof.
  induction a as [|c a IH]; simpl; [reflexivity | now rewrite IH].
Qed.

Lemma length_repeat_char (c : ascii) (n : nat) :
  String.length (Py.repeat_char c n) = n.
Proof.
  induction n as [|n IH]; simpl; [reflexivity | now rewrite IH].
Qed.

Lemma length_take (n : nat) (s : string) :
  String.length (Py.take n s) = Nat.min n (String.length s).
Proof.
  revert s; induction n as [|n IH]; intros [|c s]; simpl; try reflexivity.
  now rewrite IH.
Qed.

Lemma length_ljust (width : nat) (s : string) :
  String.length (Py.ljust width s) = Nat.max width (String.length s).
Proof.
  unfold Py.ljust, Py.len. rewrite str_length_app, length_repeat_char. lia.
Qed.

(** [s.ljust(15)[:15]] has 15 characters whatever [s] is. *)
Lemma length_normalized_id (s : string) :
  String.length (Py.take 15 (Py.ljust 15 s)) = 15%nat.
Proof.
  rewrite length_take, length_ljust. lia.
Qed.

(** Padding on the right only adds spaces, cutting keeps a prefix. *)
Lemma take_ljust_short (s : string) :
  (String.length s <= 15)%nat ->
  Py.take 15 (Py.ljust 15 s) = s ++ Py.repeat_char " " (15 - String.length s).
Proof.
  intros H. unfold Py.ljust, Py.len.
  set (pad := Py.repeat_char " " (15 - String.length s)).
  assert (L : String.length (s ++ pad) = 15%nat).
  { rewrite str_length_app. unfold pad. rewrite length_repeat_char. lia. }
  revert L. generalize (s ++ pad). generalize 15%nat.
  intros n t; revert n; induction t as [|c t IH]; intros [|n] L;
    simpl in *; try reflexivity; try discriminate.
  f_equal. apply IH. lia.
Qed.

Lemma take_app_long (n : nat) (s t : string) :
  (n <= String.length s)%nat -> Py.take n (s ++ t) = Py.take n s.
Proof.
  revert s; induction n as [|n IH]; intros [|c s] H; simpl in *;
    try reflexivity; try lia.
  f_equal. apply IH. lia.
Qed.

Lemma take_ljust_long (s : string) :
  (15 <= String.length s)%nat -> Py.take 15 (Py.ljust 15 s) = Py.take 15 s.
Proof.
  intros H. unfold Py.ljust. now apply take_app_long.
Qed.

(** ** C7: the id of a party *)

(** C7.  For every document and every party path the id returned by
    [_extract_party_info] has exactly 15 characters: it is the end point id
    (or "UNKNOWN") padded on the right with spaces when shorter and cut when
    longer, also when the party or its end point id is missing; and the
    ids that the encoder substitutes, "SENDERID" and "RECEIVERID" padded,
    have 15 characters as well. *)
Theorem party_id_has_15_characters (root : ET.Element) (party_path : ET.path) :
  let party := _extract_party_info root party_path in
  let endpoint_id := endpoint_id_of root party_path in
  String.length (id party) = 15%nat
  /\ id party = Py.take 15 (Py.ljust 15 endpoint_id)
  /\ ((String.length endpoint_id <= 15)%nat ->
      id party
      = endpoint_id ++ Py.repeat_char " " (15 - String.length endpoint_id))
  /\ ((15 <= String.length endpoint_id)%nat ->
      id party = Py.take 15 endpoint_id)
  /\ String.length (id (default_id party "SENDERID")) = 15%nat
  /\ String.length (id (default_id party "RECEIVERID")) = 15%nat.
Proof.
  intros party endpoint_id.
  assert (E : id party = Py.take 15 (Py.ljust 15 endpoint_id)).
  { unfold party, endpoint_id, _extract_party_info, endpoint_id_of.
    destruct (ET.find root party_path) as [p|]; reflexivity. }
  assert (L : String.length (id party) = 15%nat).
  { rewrite E. apply length_normalized_id. }
  split; [exact L|]. split; [exact E|].
  split; [|split].
  - intros H. rewrite E. now apply take_ljust_short.
  - intros H. rewrite E. now apply take_ljust_long.
  - unfold default_id.
    split; destruct (String.eqb (Py.strip (id party)) "UNKNOWN"); simpl;
      try exact L; reflexivity.
Qed.

(** The end point id "AU123" becomes "AU123" and ten spaces. *)
Example party_id_of_sample_supplier :
  id (_extract_party_info sample_root supplier_party_path) = "AU123          ".
Proof. reflexivity. Qed.

(** ** Strings: splitting and joining *)

Lemma occurrences_app (c : ascii) (a b : string) :
  occurrences c (a ++ b) = (occurrences c a + occurrences c b)%nat.
Proof.
  induction a as [|x a IH]; simpl; [reflexivity | rewrite IH; lia].
Qed.

Lemma occurrences_repeat_char (c x : ascii) (n : nat) :
  Ascii.eqb x c = false -> occurrences c (Py.repeat_char x n) = O.
Proof.
  intros H. induction n as [|n IH]; simpl; [reflexivity | now rewrite H, IH].
Qed.

Lemma occurrences_take (c : ascii) (n : nat) (s : string) :
  (occurrences c (Py.take n s) <= occurrences c s)%nat.
Proof.
  revert s; induction n as [|n IH]; intros [|x s]; simpl; try lia.
  specialize (IH s). lia.
Qed.

Lemma split_not_nil (sep : ascii) (s : string) : Py.split sep s <> [].
Proof.
  destruct s as [|c r]; simpl; [discriminate|].
  destruct (Ascii.eqb c sep); [discriminate|].
  destruct (Py.split sep r); discriminate.
Qed.

(** Splitting distributes over a separator: the pieces of [a], then the
    pieces of [b]. *)
Lemma split_app_sep (sep : ascii) (a b : string) :
  Py.split sep (a ++ String sep b) = (Py.split sep a ++ Py.split sep b)%list.
Proof.
  induction a as [|x a IH]; simpl.
  - now rewrite Ascii.eqb_refl.
  - destruct (Ascii.eqb x sep); [now rewrite IH|].
    rewrite IH. destruct (Py.split sep a) as [|h t] eqn:E.
    + now apply split_not_nil in E.
    + reflexivity.
Qed.

Lemma split_without_sep (sep : ascii) (s : string) :
  occurrences sep s = O -> Py.split sep s = [s].
Proof.
  induction s as [|x s IH]; simpl; [reflexivity|].
  destruct (Ascii.eqb x sep); [discriminate|]. simpl.
  intros H. now rewrite (IH H).
Qed.

Lemma length_split (sep : ascii) (s : string) :
  List.length (Py.split sep s) = S (occurrences sep s).
Proof.
  induction s as [|x s IH]; simpl; [reflexivity|].
  destruct (Ascii.eqb x sep); simpl; [now rewrite IH|].
  destruct (Py.split sep s); simpl in *; lia.
Qed.

(** The pieces of a joined list are the pieces of its elements. *)
Lemma split_join (sep : ascii) (x : string) (l : list string) :
  Py.split sep (Py.join (String sep EmptyString) (x :: l))
  = flat_map (Py.split sep) (x :: l).
Proof.
  revert x; induction l as [|y l IH]; intros x.
  - simpl. now rewrite app_nil_r.
  - change (Py.join (String sep "") (x :: y :: l))
      with (x ++ String sep (Py.join (String sep "") (y :: l))).
    rewrite split_app_sep, IH. reflexivity.
Qed.

(** ** Decimal numerals *)

Lemma occurrences_string_of_uint (c : ascii) (d : Decimal.uint) :
  Py.isdigit c = false -> occurrences c (NilEmpty.string_of_uint d) = O.
Proof.
  intros H. induction d; cbn [NilEmpty.string_of_uint occurrences];
    try reflexivity;
    match goal with
    | |- context [Ascii.eqb ?x c] =>
        destruct (Ascii.eqb_spec x c) as [<-|_]; [discriminate H | exact IHd]
    end.
Qed.

(** [str(z)] is made of digits, after a minus sign for a negative [z]. *)
Lemma occurrences_str_of_Z (c : ascii) (z : Z) :
  Py.isdigit c = false -> Ascii.eqb "-" c = false ->
  occurrences c (Py.str_of_Z z) = O.
Proof.
  intros Hd Hm. unfold Py.str_of_Z, NilZero.string_of_int.
  assert (U : forall d, occurrences c (NilZero.string_of_uint d) = O).
  { intros d. unfold NilZero.string_of_uint.
    destruct d; try apply (occurrences_string_of_uint c _ Hd).
    cbn [occurrences].
    destruct (Ascii.eqb_spec "0" c) as [<-|_]; [discriminate Hd | reflexivity]. }
  destruct (Z.to_int z); cbn [occurrences]; [apply U|].
  rewrite Hm. apply U.
Qed.

Lemma occurrences_zfill (c : ascii) (width : nat) (s : string) :
  Ascii.eqb "0" c = false ->
  occurrences c (Py.zfill width s) = occurrences c s.
Proof.
  intros H0. unfold Py.zfill.
  destruct s as [|x s].
  - simpl. now apply occurrences_repeat_char.
  - destruct (Ascii.eqb x "+" || Ascii.eqb x "-"); simpl;
      rewrite occurrences_app, occurrences_repeat_char by exact H0;
      simpl; lia.
Qed.

Lemma occurrences_pad (c : ascii) (width : nat) (z : Z) :
  Py.isdigit c = false -> Ascii.eqb "-" c = false ->
  occurrences c (PyDate.pad width z) = O.
Proof.
  intros Hd Hm. unfold PyDate.pad.
  rewrite occurrences_zfill.
  - now apply occurrences_str_of_Z.
  - destruct (Ascii.eqb_spec "0" c) as [<-|_]; [discriminate Hd | reflexivity].
Qed.

Lemma occurrences_ljust (c : ascii) (width : nat) (s : string) :
  Ascii.eqb " " c = false ->
  occurrences c (Py.ljust width s) = occurrences c s.
Proof.
  intros H. unfold Py.ljust.
  rewrite occurrences_app, occurrences_repeat_char by exact H. lia.
Qed.

(** ** C6: the ISA segment *)

Lemma length_flat_map_split (sep : ascii) (l : list string) :
  List.length (flat_map (Py.split sep) l)
  = fold_right (fun s n => (S (occurrences sep s) + n)%nat) O l.
Proof.
  induction l as [|x l IH]; simpl; [reflexivity|].
  rewrite List.length_app, length_split, IH. reflexivity.
Qed.

Lemma str_app_assoc (a b c : string) : (a ++ b) ++ c = a ++ (b ++ c).
Proof.
  induction a as [|x a IH]; simpl; [reflexivity | now rewrite IH].
Qed.

Lemma str_app_nil_r (a : string) : a ++ "" = a.
Proof.
  induction a as [|x a IH]; simpl; [reflexivity | now rewrite IH].
Qed.

(** Joining a list that ends in [z]. *)
Lemma join_snoc (sep x : string) (l : list string) (z : string) :
  Py.join sep ((x :: l) ++ [z]) = Py.join sep (x :: l) ++ sep ++ z.
Proof.
  revert x; induction l as [|y l IH]; intros x.
  - reflexivity.
  - change (Py.join sep ((x :: y :: l) ++ [z]))
      with (x ++ sep ++ Py.join sep ((y :: l) ++ [z])).
    change (Py.join sep (x :: y :: l)) with (x ++ sep ++ Py.join sep (y :: l)).
    rewrite IH, !str_app_assoc. reflexivity.
Qed.

Lemma isa_elements_shape (supplier customer : PartyInfo)
  (control_numbers : ControlNumbers) (current_time : PyDate.datetime) :
  exists front : list string,
    isa_elements supplier customer control_numbers current_time
    = (front ++ [">"])%list
    /\ List.length front = 16%nat
    /\ List.length (flat_map (Py.split "*") front)
       = (16 + isa_stars supplier customer control_numbers)%nat.
Proof.
  unfold isa_elements.
  eexists (_ :: _ :: _ :: _ :: _ :: _ :: _ :: _ :: _ :: _ :: _ :: _ :: _
           :: _ :: _ :: _ :: nil).
  split; [reflexivity|]. split; [reflexivity|].
  rewrite length_flat_map_split. cbn [fold_right].
  unfold PyDate.strftime_ymd, PyDate.strftime_HM, isa_stars.
  rewrite !occurrences_app, !occurrences_pad by reflexivity.
  rewrite !occurrences_ljust by reflexivity.
  rewrite occurrences_zfill by reflexivity.
  rewrite occurrences_repeat_char by reflexivity.
  cbn [occurrences]. simpl (Ascii.eqb _ _). cbv iota. lia.
Qed.

(** C6, the counterexample: a supplier whose end point id is "A*B" gives an
    ISA segment that splits on "*" into 18 elements, not 17. *)
Lemma isa_segment_with_star_in_id :
  List.length
    (Py.split "*"
       (_create_ISA_segment
          (mk_party "Acme" (Py.take 15 (Py.ljust 15 "A*B")) "ZZ")
          (mk_party "Buyer" (Py.take 15 (Py.ljust 15 "AU456")) "ZZ")
          (mk_control "000000000" "000000" "0000")
          (PyDate.mk_datetime 2026 11 4 9 5)))
  = 18%nat.
Proof. vm_compute. reflexivity. Qed.

(** C6, as amended.  For every supplier, customer, control numbers and
    time stamp the ISA segment is the tag and sixteen data elements joined
    with "*" and closed by "~", with nothing added afterwards; split on
    "*", its last element is always ISA16 and the terminator, ">~", and the
    number of elements before it is 16 plus the number of "*" characters
    that the qualifiers, the ids and the interchange control number carry.
    So the segment splits into exactly 17 elements exactly when none of
    these fields contains a "*". *)
Theorem isa_segment_elements (supplier customer : PartyInfo)
  (control_numbers : ControlNumbers) (current_time : PyDate.datetime) :
  let segment :=
    _create_ISA_segment supplier customer control_numbers current_time in
  (exists body : string, segment = "ISA*" ++ body ++ "*>~")
  /\ (exists front : list string,
        Py.split "*" segment = (front ++ [">~"])%list
        /\ List.length front
           = (16 + isa_stars supplier customer control_numbers)%nat)
  /\ (List.length (Py.split "*" segment) = 17%nat
      <-> isa_stars supplier customer control_numbers = O).
Proof.
  intros segment.
  destruct (isa_elements_shape supplier customer control_numbers current_time)
    as (front & E & L & F).
  destruct front as [|x front]; [discriminate L|].
  assert (S1 : segment = Py.join "*" (x :: front) ++ "*>~").
  { unfold segment, _create_ISA_segment. rewrite E, join_snoc.
    rewrite !str_app_assoc. reflexivity. }
  assert (S2 : Py.split "*" segment
               = (flat_map (Py.split "*") (x :: front) ++ [">~"])%list).
  { rewrite S1.
    change (Py.join "*" (x :: front) ++ "*>~")
      with (Py.join "*" (x :: front) ++ String "*" ">~").
    rewrite split_app_sep, split_join. reflexivity. }
  split; [|split].
  - assert (X : x = "ISA").
    { unfold isa_elements in E. now injection E. }
    subst x. rewrite S1.
    destruct front as [|y front].
    + discriminate L.
    + exists (Py.join "*" (y :: front)).
      change (Py.join "*" ("ISA" :: y :: front))
        with ("ISA" ++ "*" ++ Py.join "*" (y :: front)).
      rewrite !str_app_assoc. reflexivity.
  - exists (flat_map (Py.split "*") (x :: front)). split; [exact S2 | exact F].
  - rewrite S2, List.length_app, F. simpl. lia.
Qed.

(** ** C8: the date of the BIG segment *)

Lemma digit_is_plain (c : ascii) :
  Py.isdigit c = true ->
  Py.isspace_num c = false /\ Ascii.eqb c "-" = false
  /\ Ascii.eqb c "+" = false /\ Ascii.eqb c "_" = false.
Proof.
  destruct c as [[] [] [] [] [] [] [] []]; vm_compute; intros H;
    try discriminate H; repeat split.
Qed.

(** [int] of two digits. *)
Lemma int_two_digits (a b : ascii) :
  Py.isdigit a = true -> Py.isdigit b = true ->
  Py.int (String a (String b "")) = Ok (Py.digit_val a * 10 + Py.digit_val b).
Proof.
  intros Ha Hb.
  destruct (digit_is_plain a Ha) as (Sa & Ma & Pa & _).
  destruct (digit_is_plain b Hb) as (Sb & _ & _ & _).
  unfold Py.int, Py.strip_num.
  cbn [Py.lstrip_by]. rewrite Sa.
  cbn [Py.rstrip_by]. rewrite Sb.
  cbn [Py.split_sign]. rewrite Ma, Pa.
  cbn [Py.digits_us]. rewrite Ha, Hb. reflexivity.
Qed.

(** [int] of four digits. *)
Lemma int_four_digits (a b c d : ascii) :
  Py.isdigit a = true -> Py.isdigit b = true ->
  Py.isdigit c = true -> Py.isdigit d = true ->
  exists v : Z, Py.int (String a (String b (String c (String d "")))) = Ok v.
Proof.
  intros Ha Hb Hc Hd.
  destruct (digit_is_plain a Ha) as (Sa & Ma & Pa & _).
  destruct (digit_is_plain b Hb) as (Sb & _ & _ & _).
  destruct (digit_is_plain c Hc) as (Sc & _ & _ & _).
  destruct (digit_is_plain d Hd) as (Sd & _ & _ & _).
  unfold Py.int, Py.strip_num.
  cbn [Py.lstrip_by]. rewrite Sa.
  cbn [Py.rstrip_by]. rewrite Sd.
  cbn [Py.split_sign]. rewrite Ma, Pa.
  cbn [Py.digits_us]. rewrite Ha, Hb, Hc, Hd. eexists. reflexivity.
Qed.

Lemma big_date_errors_nil (date : string) :
  big_date_errors date = [] <-> date_accepted date.
Proof.
  unfold big_date_errors, date_accepted.
  destruct (Nat.eqb_spec (Py.len date) 8) as [L|L].
  - assert (T : Py.truthy date = true).
    { destruct date; [discriminate L | reflexivity]. }
    rewrite T. cbn [andb].
    destruct (Py.int (Py.slice 0 4 date)) as [y|e]; cbn [bind].
    2:{ split; [discriminate|]. intros (_ & ? & ? & ? & H & _). discriminate H. }
    destruct (Py.int (Py.slice 4 6 date)) as [m|e]; cbn [bind].
    2:{ split; [discriminate|]. intros (_ & ? & ? & ? & _ & H & _). discriminate H. }
    destruct (Py.int (Py.slice 6 8 date)) as [d|e]; cbn [bind].
    2:{ split; [discriminate|]. intros (_ & ? & ? & ? & _ & _ & H & _). discriminate H. }
    unfold unless.
    destruct ((1 <=? m) && (m <=? 12) && (1 <=? d) && (d <=? 31)) eqn:R.
    + split; [|reflexivity]. intros _. split; [exact L|].
      exists y, m, d. repeat split; try reflexivity;
        rewrite !andb_true_iff in R; lia.
    + split; [discriminate|].
      intros (_ & y' & m' & d' & _ & Hm & Hd & Rm & Rd).
      injection Hm as <-. injection Hd as <-.
      rewrite !andb_false_iff in R. lia.
  - rewrite andb_false_r. split; [discriminate|].
    intros (H & _). now elim L.
Qed.

(** C8, the counterexample: the 30th of February is accepted as the date
    of the BIG segment. *)
Lemma big_date_30_february_accepted :
  option_map (fun r => big_segment r)
    (snd (validate_edi_content "BIG*20240230*INV001~"))
  = Some (mk_result true []).
Proof. vm_compute. reflexivity. Qed.

(** C8, as amended.  The BIG segment found by [validate_edi_format], when
    it has at least three fields, is reported valid exactly when its date
    field has eight characters whose slices [0:4], [4:6] and [6:8] are
    accepted by [int(...)] with a month from 1 to 12 and a day from 1 to 31,
    and the invoice number is not empty.  For a date of eight digits this
    is the range check on the month and the day alone: whether the day
    exists in the month is not looked at. *)
Theorem big_segment_date_check (segments : list string) (big : string) :
  first_segment "BIG" segments = Some big ->
  (3 <= List.length (Py.split "*" big))%nat ->
  let date := field 1 (Py.split "*" big) in
  let number := field 2 (Py.split "*" big) in
  (valid (validate_big segments) = true
   <-> date_accepted date /\ number <> "")
  /\ (forall y1 y2 y3 y4 m1 m2 d1 d2 : ascii,
        date = String y1 (String y2 (String y3 (String y4
                 (String m1 (String m2 (String d1 (String d2 ""))))))) ->
        forallb Py.isdigit [y1; y2; y3; y4; m1; m2; d1; d2] = true ->
        (date_accepted date
         <-> 1 <= Py.digit_val m1 * 10 + Py.digit_val m2 <= 12
             /\ 1 <= Py.digit_val d1 * 10 + Py.digit_val d2 <= 31)).
Proof.
  intros F L date number. split.
  - unfold validate_big. rewrite F.
    apply Nat.leb_le in L. rewrite L.
    fold date number. unfold checked. cbn [valid].
    rewrite <- big_date_errors_nil.
    destruct (big_date_errors date) as [|e es].
    + cbn [app]. unfold unless.
      destruct number; cbn; split; intros H; try discriminate H.
      * destruct H as [_ H]. now elim H.
      * split; [reflexivity | discriminate].
      * reflexivity.
    + cbn. split; [discriminate|]. intros [H _]. discriminate H.
  - intros y1 y2 y3 y4 m1 m2 d1 d2 E D. rewrite E.
    cbn [forallb] in D. rewrite !andb_true_iff in D.
    destruct D as (H1 & H2 & H3 & H4 & H5 & H6 & H7 & H8 & _).
    unfold date_accepted.
    cbn [String.length Py.slice Py.take Py.drop Nat.sub].
    destruct (int_four_digits y1 y2 y3 y4 H1 H2 H3 H4) as [y Y].
    rewrite Y, (int_two_digits m1 m2 H5 H6), (int_two_digits d1 d2 H7 H8).
    split.
    + intros (_ & y' & m' & d' & _ & Hm & Hd & Rm & Rd).
      injection Hm as <-. injection Hd as <-. split; assumption.
    + intros [Rm Rd]. split; [reflexivity|].
      exists y, (Py.digit_val m1 * 10 + Py.digit_val m2),
        (Py.digit_val d1 * 10 + Py.digit_val d2).
      repeat split; try reflexivity; lia.
Qed.

Lemma big_segment_date_check_witness :
  first_segment "BIG" (split_segments "BIG*20240230*INV001~")
  = Some "BIG*20240230*INV001"
  /\ (3 <= List.length (Py.split "*" "BIG*20240230*INV001"))%nat
  /\ (valid (validate_big (split_segments "BIG*20240230*INV001~")) = true
      <-> date_accepted "20240230" /\ "INV001" <> "").
Proof.
  assert (F : first_segment "BIG" (split_segments "BIG*20240230*INV001~")
              = Some "BIG*20240230*INV001") by reflexivity.
  assert (L : (3 <= List.length (Py.split "*" "BIG*20240230*INV001"))%nat)
    by (vm_compute; lia).
  split; [exact F|]. split; [exact L|].
  exact (proj1 (big_segment_date_check _ _ F L)).
Defined.

(** ** C2: strict and lenient XML validation *)

(** C2.  For a file that is there: when its content is a well-formed
    document, [validate_xml] without [strict] returns [ok = true] with the
    list of warnings, and with [strict] it returns [ok = false] with a
    message that joins all the warnings as soon as there is one; and the
    lenient call fails exactly when the content is empty or not well-formed,
    in which case the call fails whatever the flag. *)
Theorem validate_xml_strict_and_lenient (parse_xml : string -> parsed)
  (fs : storage) (file_path content : string) :
  fs file_path = Some content ->
  (forall root : ET.Element,
      content <> "" -> parse_xml content = Parsed root ->
      let warnings := _perform_enhanced_xml_validation root false in
      validate_xml parse_xml fs file_path false
      = (true, "XML validation passed - file is well-formed", warnings)
      /\ (warnings <> [] ->
          validate_xml parse_xml fs file_path true
          = (false, "Strict validation failed: " ++ Py.join "; " warnings,
             warnings))
      /\ (warnings = [] ->
          validate_xml parse_xml fs file_path true
          = (true, "XML validation passed - file is well-formed", [])))
  /\ (fst (fst (validate_xml parse_xml fs file_path false)) = false
      <-> content = "" \/ exists msg, parse_xml content = NotWellFormed msg)
  /\ (content = "" \/ (exists msg, parse_xml content = NotWellFormed msg) ->
      forall strict : bool,
        fst (fst (validate_xml parse_xml fs file_path strict)) = false).
Proof.
  intros F. unfold validate_xml. rewrite F.
  split; [|split].
  - intros root NE P.
    destruct content as [|c content]; [now elim NE|].
    cbn [Py.len String.length Nat.eqb]. rewrite P.
    change (_perform_enhanced_xml_validation root true)
      with (_perform_enhanced_xml_validation root false).
    set (warnings := _perform_enhanced_xml_validation root false).
    cbn [andb].
    split; [reflexivity|]. split; intros W.
    + destruct warnings; [now elim W | reflexivity].
    + rewrite W. reflexivity.
  - destruct content as [|c content].
    + cbn. split; [now left | reflexivity].
    + cbn [Py.len String.length Nat.eqb].
      destruct (parse_xml (String c content)) as [root|msg]; cbn.
      * split; [discriminate|]. intros [H|[m H]]; discriminate H.
      * split; [|reflexivity]. intros _. right. now exists msg.
  - intros [E|[msg E]] strict.
    + subst content. reflexivity.
    + destruct content as [|c content]; [reflexivity|].
      cbn [Py.len String.length Nat.eqb]. rewrite E. reflexivity.
Qed.

(** The document "<Invoice/>" has no child: it gives six warnings, passes
    in lenient mode and fails in strict mode; the text "<Invoice" is not
    well-formed and fails whatever the flag. *)
Lemma validate_xml_strict_and_lenient_witness :
  sample_storage "uploads/invoice.xml" = Some "<Invoice/>"
  /\ List.length (_perform_enhanced_xml_validation (node "Invoice" []) false)
     = 6%nat
  /\ validate_xml bare_parser sample_storage "uploads/invoice.xml" false
     = (true, "XML validation passed - file is well-formed",
        _perform_enhanced_xml_validation (node "Invoice" []) false)
  /\ validate_xml bare_parser sample_storage "uploads/invoice.xml" true
     = (false,
        "Strict validation failed: "
        ++ Py.join "; " (_perform_enhanced_xml_validation (node "Invoice" []) false),
        _perform_enhanced_xml_validation (node "Invoice" []) false)
  /\ forall strict : bool,
       fst (fst (validate_xml bare_parser
                   (with_file sample_storage "uploads/broken.xml" "<Invoice")
                   "uploads/broken.xml" strict))
       = false.
Proof.
  assert (F : sample_storage "uploads/invoice.xml" = Some "<Invoice/>")
    by reflexivity.
  assert (L : List.length
                (_perform_enhanced_xml_validation (node "Invoice" []) false)
              = 6%nat) by (vm_compute; reflexivity).
  split; [exact F|]. split; [exact L|].
  destruct (proj1 (validate_xml_strict_and_lenient bare_parser
                     sample_storage "uploads/invoice.xml" "<Invoice/>" F)
              (node "Invoice" [])) as (A & B & _).
  - discriminate.
  - reflexivity.
  - split; [exact A|]. split.
    + apply B. intros E. rewrite E in L. discriminate L.
    + assert (G : with_file sample_storage "uploads/broken.xml" "<Invoice"
                    "uploads/broken.xml" = Some "<Invoice") by reflexivity.
      apply (proj2 (proj2 (validate_xml_strict_and_lenient bare_parser
                             _ "uploads/broken.xml" "<Invoice" G))).
      right. eexists. reflexivity.
Defined.

(** ** Computations that may raise *)

Lemma bind_Ok {A B : Type} (r : result A) (k : A -> result B) (b : B) :
  bind r k = Ok b -> exists a : A, r = Ok a /\ k a = Ok b.
Proof.
  destruct r as [a|e]; simpl; intros H; [now exists a | discriminate H].
Qed.

Lemma Ok_inj {A : Type} (a b : A) : Ok a = Ok b -> a = b.
Proof. intros H. now injection H. Qed.

Lemma str_Ok (z : Z) (t : string) : Py.str z = Ok t -> t = Py.str_of_Z z.
Proof.
  unfold Py.str. destruct (_ <? _)%nat; intros H; [discriminate H|].
  now injection H.
Qed.

Lemma bind_Raise {A B : Type} (r : result A) (k : A -> result B) (e : exn) :
  r = Raise e -> bind r k = Raise e.
Proof. now intros ->. Qed.

(** Takes the first [bind] of a successful computation apart. *)
Ltac bind_inv H x Hx :=
  apply bind_Ok in H; destruct H as (x & Hx & H).

(** ** C3: the control numbers *)

(** C3, on the code.  Whenever the [cbc:ID] element that the derivation
    reads has no children, as an element that only holds the text of the
    id has none, the interchange control number is "000000000" whatever
    that text is: the test [if invoice_id] is the truth value of the
    element, which is false for an element without children.  The claim
    asks for the first nine characters of the id, padded with zeros. *)
Theorem control_number_of_leaf_invoice_id (root invoice_id : ET.Element)
  (control_numbers : ControlNumbers) :
  ET.find root [ET.Self; ET.Descendant (cbc "ID")] = Some invoice_id ->
  ET.children invoice_id = [] ->
  _X12ControlNumbers root = Ok control_numbers ->
  interchange_control control_numbers = "000000000".
Proof.
  intros F C H. unfold _X12ControlNumbers in H. rewrite F in H.
  unfold control_number at 1 in H. unfold ET.truth in H. rewrite C in H.
  cbn [bind] in H.
  apply bind_Ok in H. destruct H as (group & _ & H).
  apply bind_Ok in H. destruct H as (transaction & _ & H).
  injection H as <-. reflexivity.
Qed.

(** The sample invoice carries the id "INV001": the claim gives it the
    interchange control number "000INV001", the code "000000000". *)
Lemma control_number_of_leaf_invoice_id_witness :
  ET.find sample_root [ET.Self; ET.Descendant (cbc "ID")]
  = Some (leaf (cbc "ID") "INV001")
  /\ Py.zfill 9 (Py.take 9 "INV001") = "000INV001"
  /\ _X12ControlNumbers sample_root
     = Ok (mk_control "000000000" "000000" "0000")
  /\ interchange_control (mk_control "000000000" "000000" "0000")
     = "000000000".
Proof.
  assert (F : ET.find sample_root [ET.Self; ET.Descendant (cbc "ID")]
              = Some (leaf (cbc "ID") "INV001")) by reflexivity.
  assert (H : _X12ControlNumbers sample_root
              = Ok (mk_control "000000000" "000000" "0000"))
    by (vm_compute; reflexivity).
  split; [exact F|]. split; [reflexivity|]. split; [exact H|].
  exact (control_number_of_leaf_invoice_id sample_root
           (leaf (cbc "ID") "INV001") _ F eq_refl H).
Defined.

(** ** The sample invoice, encoded and validated *)

Lemma sample_conversion :
  _convert_xml_to_x12_content sample_parser "<Invoice/>" sample_time
  = Some sample_text.
Proof. vm_compute. reflexivity. Qed.

(** The sample invoice has an id, an issue date, a payable amount, a
    supplier, a customer and one line.  The encoder writes its supplier as
    "N1*SU*...", and the validator, which accepts the codes "BY" and "SE"
    only, rejects the text.  The two application codes of GS, written as
    the full ids, are rejected as well. *)
Example encoded_sample_invoice_is_rejected :
  exists (segments : list string) (details : validation_results),
    x12_segments sample_root sample_time = Ok segments
    /\ nth_error segments 4 = Some "N1*SU*Acme*12*AU123~"
    /\ validate_edi_content (Py.join newline segments)
       = (false, "EDI format validation failed with 3 errors", Some details)
    /\ n1_segments details
       = mk_result false ["N1-1: Entity Identifier must be 'BY' or 'SE'"]
    /\ gs_segment details
       = mk_result false
           ["GS03: Application Sender Code must be 2 characters";
            "GS04: Application Receiver Code must be 2 characters"].
Proof.
  eexists. eexists.
  split; [vm_compute; reflexivity|].
  split; [reflexivity|].
  split; [vm_compute; reflexivity|].
  split; reflexivity.
Qed.

(** ** The shape of the encoder's output *)

Lemma isa_segment_tag (p : string) (supplier customer : PartyInfo)
  (control_numbers : ControlNumbers) (current_time : PyDate.datetime) :
  Py.startswith p (_create_ISA_segment supplier customer control_numbers current_time)
  = Py.startswith p ("ISA*00*" ++ Py.drop 7
      (_create_ISA_segment supplier customer control_numbers current_time)).
Proof. reflexivity. Qed.

(** The segments written before the trailer SE, GE, IEA: what the
    encoder holds in [x12_segments] when it looks for the ST segment. *)
Lemma x12_segments_inv (root : ET.Element) (current_time : PyDate.datetime)
  (segs : list string) :
  x12_segments root current_time = Ok segs ->
  let invoice_lines :=
    ET.findall root [ET.Self; ET.Descendant (cac "InvoiceLine")] in
  exists (control_numbers : ControlNumbers) (hash_total : Z)
         (isa gs st big ctt se ge iea : string) (body : list string),
    segs = ([isa; gs; st; big] ++ body ++ [ctt; se; ge; iea])%list
    /\ _X12ControlNumbers root = Ok control_numbers
    /\ sum_line_ids 0 invoice_lines = Ok hash_total
    /\ Py.startswith "ST" isa = false
    /\ Py.startswith "ST" gs = false
    /\ st = "ST*810*" ++ transaction_control control_numbers ++ "~"
    /\ ctt = "CTT*" ++ Py.str_of_nat (List.length invoice_lines) ++ "*"
             ++ Py.str_of_Z hash_total ++ "~"
    /\ se = "SE*" ++ Py.str_of_Z (Z.of_nat (List.length body) + 4) ++ "*"
            ++ transaction_control control_numbers ++ "~"
    /\ ge = "GE*1*" ++ group_control control_numbers ++ "~"
    /\ iea = "IEA*1*" ++ interchange_control control_numbers ++ "~".
Proof.
  intros H invoice_lines. unfold x12_segments in H.
  bind_inv H control_numbers Hc.
  bind_inv H formatted_date Hd.
  bind_inv H dtm Hdtm.
  bind_inv H it1 Hit1.
  bind_inv H tds Htds.
  bind_inv H hash_total Hh.
  bind_inv H hash_text Ht.
  bind_inv H st_index Hi.
  apply str_Ok in Ht. subst hash_text.
  cbn [app index_where] in Hi.
  change (Ok 2%nat = Ok st_index) in Hi. apply Ok_inj in Hi. subst st_index.
  apply Ok_inj in H. subst segs.
  match goal with
  | |- context [(([?isa; ?gs; ?st; ?big] ++ ?nte ++ ?cur ++ ?ref ++ ?per
                  ++ [?n1s] ++ ?sa ++ [?n1c] ++ ?ca ++ ?itd ++ dtm ++ ?fob
                  ++ it1 ++ tds ++ [?ctt]) ++ [?se; ?ge; ?iea])%list] =>
      exists control_numbers, hash_total, isa, gs, st, big, ctt, se, ge, iea,
        (nte ++ cur ++ ref ++ per ++ [n1s] ++ sa ++ [n1c] ++ ca ++ itd ++ dtm
         ++ fob ++ it1 ++ tds)%list
  end.
  split.
  { rewrite <- !app_assoc. reflexivity. }
  split; [exact Hc|]. split; [exact Hh|].
  split; [reflexivity|]. split; [reflexivity|].
  split; [reflexivity|]. split; [reflexivity|].
  split; [|split; reflexivity].
  do 2 f_equal.
  repeat (first [rewrite List.length_app | progress cbn [app List.length]]).
  f_equal. lia.
Qed.

Lemma convert_inv (parse_xml : string -> parsed) (xml_content : string)
  (current_time : PyDate.datetime) (text : string) :
  _convert_xml_to_x12_content parse_xml xml_content current_time = Some text ->
  exists (root : ET.Element) (segs : list string),
    parse_xml xml_content = Parsed root
    /\ x12_segments root current_time = Ok segs
    /\ text = Py.join newline segs.
Proof.
  unfold _convert_xml_to_x12_content, fromstring.
  destruct (parse_xml xml_content) as [root|msg] eqn:P;
    cbn [bind except_None]; [|discriminate].
  destruct (x12_segments root current_time) as [segs|e] eqn:X;
    cbn [bind except_None]; [|discriminate].
  intros H. exists root, segs. split; [reflexivity|]. split; [exact X|].
  now injection H.
Qed.

(** ** C4: the CTT segment *)

Lemma sum_line_ids_Ok (lines : list ET.Element) (total h : Z) :
  sum_line_ids total lines = Ok h ->
  exists ids : list Z,
    Forall2 (fun line v => line_id_number line = Ok v) lines ids
    /\ h = total + fold_right Z.add 0 ids.
Proof.
  revert total; induction lines as [|line lines IH]; intros total H.
  - cbn in H. apply Ok_inj in H. subst h. exists []. split; [constructor | cbn; lia].
  - cbn [sum_line_ids] in H. bind_inv H v Hv.
    destruct (IH _ H) as (ids & F & E).
    exists (v :: ids). split; [now constructor | cbn; lia].
Qed.

Lemma sum_line_ids_Raise (lines : list ET.Element) (total : Z)
  (line : ET.Element) (e : exn) :
  In line lines -> line_id_number line = Raise e ->
  exists e' : exn, sum_line_ids total lines = Raise e'.
Proof.
  revert total; induction lines as [|l lines IH]; intros total I R.
  - destruct I.
  - cbn [sum_line_ids].
    destruct (line_id_number l) as [v|e'] eqn:L; cbn [bind].
    + destruct I as [->|I]; [congruence | now apply IH].
    + now exists e'.
Qed.

(** An exception in the sum of the line ids ends the conversion. *)
Lemma x12_segments_Raise_sum (root : ET.Element)
  (current_time : PyDate.datetime) (e : exn) :
  sum_line_ids 0 (ET.findall root [ET.Self; ET.Descendant (cac "InvoiceLine")])
  = Raise e ->
  exists e' : exn, x12_segments root current_time = Raise e'.
Proof.
  intros H. unfold x12_segments.
  destruct (_X12ControlNumbers root) as [cn|e1]; cbn [bind]; [|now eexists].
  destruct (format_invoice_date _) as [d|e2]; cbn [bind]; [|now eexists].
  destruct (due_date_segment root) as [dtm|e3]; cbn [bind]; [|now eexists].
  destruct (it1_segments 1 _) as [it1|e4]; cbn [bind]; [|now eexists].
  destruct (total_segment root) as [tds|e5]; cbn [bind]; [|now eexists].
  rewrite H. cbn [bind]. now eexists.
Qed.

(** The number of a line id: leading zeros are stripped, an id of zeros
    counts 0, and an id that is no number or is missing raises. *)
Example line_id_numbers :
  line_id_number (sample_line "007") = Ok 7
  /\ line_id_number (sample_line "000") = Ok 0
  /\ line_id_number (sample_line "A") = Raise ValueError
  /\ line_id_number (node (cac "InvoiceLine") []) = Raise AttributeError.
Proof. repeat split. Qed.

(** C4, the counterexample: an invoice whose only line has the id "A".
    The claim gives it the segment "CTT*1*0~"; the conversion returns
    [None], since [int("A")] raises. *)
Lemma conversion_fails_on_line_id_A :
  let root := sample_invoice [sample_line "A"] in
  let invoice_lines :=
    ET.findall root [ET.Self; ET.Descendant (cac "InvoiceLine")] in
  "CTT*" ++ Py.str_of_nat (List.length invoice_lines) ++ "*"
  ++ Py.str_of_Z (claimed_hash_total invoice_lines) ++ "~" = "CTT*1*0~"
  /\ x12_segments root sample_time = Raise ValueError
  /\ _convert_xml_to_x12_content (fun _ => Parsed root) "<Invoice/>" sample_time
     = None.
Proof. vm_compute. repeat split. Qed.

(** C4, as amended.  Whenever the conversion of a document returns a
    text, every invoice line has an id that [int] accepts once its leading
    zeros are stripped (an id of zeros only counts 0), and the text is the
    join of segments ending with CTT, SE, GE and IEA, where CTT is
    "CTT*<number of invoice lines>*<sum of these numbers>~"; without
    invoice lines this is "CTT*0*0~".  A line whose id is missing or not
    accepted by [int] makes the conversion return [None]. *)
Theorem ctt_segment_hash_total (parse_xml : string -> parsed)
  (xml_content : string) (root : ET.Element) (current_time : PyDate.datetime) :
  parse_xml xml_content = Parsed root ->
  let invoice_lines :=
    ET.findall root [ET.Self; ET.Descendant (cac "InvoiceLine")] in
  let converted :=
    _convert_xml_to_x12_content parse_xml xml_content current_time in
  (forall text : string,
      converted = Some text ->
      exists (ids : list Z) (front : list string) (ctt se ge iea : string),
        Forall2 (fun line v => line_id_number line = Ok v) invoice_lines ids
        /\ ctt = "CTT*" ++ Py.str_of_nat (List.length invoice_lines) ++ "*"
                 ++ Py.str_of_Z (fold_right Z.add 0 ids) ++ "~"
        /\ (invoice_lines = [] -> ctt = "CTT*0*0~")
        /\ text = Py.join newline (front ++ [ctt; se; ge; iea]))
  /\ (forall (line : ET.Element) (e : exn),
        In line invoice_lines -> line_id_number line = Raise e ->
        converted = None).
Proof.
  intros P invoice_lines converted. split.
  - intros text H.
    destruct (convert_inv _ _ _ _ H) as (root' & segs & P' & X & ->).
    assert (root' = root) by congruence. subst root'.
    destruct (x12_segments_inv _ _ _ X)
      as (cn & h & isa & gs & st & big & ctt & se & ge & iea & body
          & -> & _ & Hh & _ & _ & _ & Hctt & _ & _ & _).
    destruct (sum_line_ids_Ok _ _ _ Hh) as (ids & F & E).
    exists ids, ([isa; gs; st; big] ++ body)%list, ctt, se, ge, iea.
    split; [exact F|].
    assert (C : ctt = "CTT*" ++ Py.str_of_nat (List.length invoice_lines)
                      ++ "*" ++ Py.str_of_Z (fold_right Z.add 0 ids) ++ "~").
    { rewrite Hctt, E. reflexivity. }
    split; [exact C|]. split.
    + intros N. rewrite C. fold invoice_lines in F. rewrite N in *.
      inversion F. reflexivity.
    + f_equal; try (rewrite <- !app_assoc; reflexivity).
  - intros line e I R.
    destruct (sum_line_ids_Raise _ 0 _ _ I R) as (e1 & S1).
    destruct (x12_segments_Raise_sum root current_time e1 S1) as (e2 & S2).
    unfold converted, _convert_xml_to_x12_content, fromstring.
    rewrite P. cbn [bind]. rewrite S2. reflexivity.
Qed.

Lemma ctt_segment_hash_total_witness :
  sample_parser "<Invoice/>" = Parsed sample_root
  /\ _convert_xml_to_x12_content sample_parser "<Invoice/>" sample_time
     = Some sample_text
  /\ exists (ids : list Z) (front : list string) (ctt se ge iea : string),
       Forall2 (fun line v => line_id_number line = Ok v)
         (ET.findall sample_root [ET.Self; ET.Descendant (cac "InvoiceLine")])
         ids
       /\ ctt = "CTT*"
                ++ Py.str_of_nat
                     (List.length
                        (ET.findall sample_root
                           [ET.Self; ET.Descendant (cac "InvoiceLine")]))
                ++ "*" ++ Py.str_of_Z (fold_right Z.add 0 ids) ++ "~"
       /\ (ET.findall sample_root [ET.Self; ET.Descendant (cac "InvoiceLine")]
           = [] -> ctt = "CTT*0*0~")
       /\ sample_text = Py.join newline (front ++ [ctt; se; ge; iea]).
Proof.
  assert (P : sample_parser "<Invoice/>" = Parsed sample_root) by reflexivity.
  pose proof sample_conversion as H.
  split; [exact P|]. split; [exact H|].
  exact (proj1 (ctt_segment_hash_total sample_parser "<Invoice/>" sample_root
                  sample_time P) sample_text H).
Defined.

(** ** C10: the due date *)

(** Case analysis on what a [match] or an [if] of the goal looks at. *)
Ltac cases :=
  repeat match goal with
         | |- context [match ?x with _ => _ end] => destruct x
         end.

Lemma it1_segments_not_DTM (lines : list ET.Element) (idx : nat)
  (l : list string) :
  it1_segments idx lines = Ok l -> Forall not_DTM l.
Proof.
  revert idx l; induction lines as [|line lines IH]; intros idx l H.
  - cbn in H. apply Ok_inj in H. subst l. constructor.
  - cbn [it1_segments] in H.
    bind_inv H price Hp. bind_inv H rest Hr.
    apply Ok_inj in H. subst l.
    constructor; [reflexivity | now apply IH in Hr].
Qed.

Lemma total_segment_not_DTM (root : ET.Element) (l : list string) :
  total_segment root = Ok l -> Forall not_DTM l.
Proof.
  unfold total_segment. destruct (ET.text_if_any _) as [t|]; intros H.
  - bind_inv H total Ht. apply Ok_inj in H. subst l.
    constructor; [reflexivity | constructor].
  - apply Ok_inj in H. subst l. constructor.
Qed.

Lemma optional_segment_not_DTM (x : option ET.Element) (prefix : string) :
  (forall rest, not_DTM (prefix ++ rest)) ->
  Forall not_DTM (optional_segment x prefix).
Proof.
  intros H. unfold optional_segment.
  destruct (ET.text_if_any x); constructor; [apply H | constructor].
Qed.

Lemma address_segments_not_DTM (address : PostalAddress) :
  Forall not_DTM (address_segments address).
Proof.
  unfold address_segments.
  destruct (_map_address address) as [[state postal] country].
  apply Forall_app. split.
  - destruct (Py.truthy (street address)); constructor;
      [reflexivity | constructor].
  - destruct (Py.truthy (city address) || Py.truthy postal || Py.truthy country);
      constructor; [reflexivity | constructor].
Qed.

(** Without a due date to write, no segment of the output is a DTM
    segment. *)
Lemma x12_segments_without_due_date (root : ET.Element)
  (current_time : PyDate.datetime) (segs : list string) :
  ET.text_if_any (ET.find root [ET.Self; ET.Descendant (cbc "DueDate")]) = None ->
  x12_segments root current_time = Ok segs ->
  Forall not_DTM segs.
Proof.
  intros D H. unfold x12_segments in H.
  bind_inv H control_numbers Hc.
  bind_inv H formatted_date Hd.
  bind_inv H dtm Hdtm.
  bind_inv H it1 Hit1.
  bind_inv H tds Htds.
  bind_inv H hash_total Hh.
  bind_inv H hash_text Ht.
  bind_inv H st_index Hi.
  apply Ok_inj in H. subst segs.
  unfold due_date_segment in Hdtm. rewrite D in Hdtm.
  apply Ok_inj in Hdtm. subst dtm.
  apply it1_segments_not_DTM in Hit1.
  apply total_segment_not_DTM in Htds.
  clear D Hc Hd Hh Hi.
  repeat first
    [ assumption
    | apply address_segments_not_DTM
    | apply optional_segment_not_DTM; intros rest; reflexivity
    | apply Forall_nil
    | apply Forall_cons; [reflexivity|]
    | apply Forall_app; split ].
  - unfold note_segment. cases; repeat constructor.
  - unfold contact_segment. cases; repeat constructor.
  - unfold payment_terms_segment. cases; repeat constructor.
  - unfold delivery_segment. cases; repeat constructor.
Qed.

(** A due date that [strptime] refuses ends the conversion. *)
Lemma x12_segments_Raise_due_date (root : ET.Element)
  (current_time : PyDate.datetime) (e : exn) :
  due_date_segment root = Raise e ->
  exists e' : exn, x12_segments root current_time = Raise e'.
Proof.
  intros H. unfold x12_segments.
  destruct (_X12ControlNumbers root) as [cn|e1]; cbn [bind]; [|now eexists].
  destruct (format_invoice_date _) as [d|e2]; cbn [bind]; [|now eexists].
  rewrite H. cbn [bind]. now eexists.
Qed.

(** ** C9: one correction per failing stage *)

Lemma with_file_same (fs : storage) (path content : string) :
  with_file fs path content path = Some content.
Proof. unfold with_file. now rewrite String.eqb_refl. Qed.

Section PipelineProperties.

Variable parse_xml : string -> parsed.
Variable decode_utf8 : string -> option string.
Variable encode_utf8 : string -> option string.
Variable complete_xml : string -> bool -> option string.
Variable complete_edi :
  string -> string -> list ErrorDetail -> bool -> option string.
Variable os : OS.

(** The calls of the [try] block of step 2, and the result in force after
    it. *)
Lemma xml_correction_calls (fs fs' : storage) (xml_path xml_filename : string)
  (strict_validation : bool) (first second : bool * string * list string)
  (calls : list event) :
  xml_correction parse_xml decode_utf8 encode_utf8 complete_xml os fs xml_path
    xml_filename strict_validation first = (fs', second, calls) ->
  (second = first
   /\ In calls [[]; [Correct XML_VALIDATION false];
                [Correct XML_VALIDATION true]])
  \/ calls = [Correct XML_VALIDATION true;
              Validate XML_VALIDATION (fst (fst second))].
Proof.
  unfold xml_correction.
  destruct (fs xml_path) as [xml_bytes|];
    [|intros [= <- <- <-]; left; cbn; tauto].
  destruct (decode_utf8 xml_bytes) as [xml_text|];
    [|intros [= <- <- <-]; left; cbn; tauto].
  destruct (auto_correct_xml_with_ai _ _ _) as [was_corrected corrected_xml].
  destruct was_corrected; [|intros [= <- <- <-]; left; cbn; tauto].
  destruct (encode_utf8 corrected_xml) as [content|];
    [|intros [= <- <- <-]; left; cbn; tauto].
  destruct (save_file_to_storage _ _ _ _ _) as [fs1 [path|]];
    [|intros [= <- <- <-]; left; cbn; tauto].
  intros [= <- <- <-]. right. reflexivity.
Qed.

(** The calls of the [try] block of step 4A, and whether the format is
    valid after it. *)
Lemma edi_correction_calls (fs fs' : storage) (xml_path x12_path : string)
  (edi_format_errors : list ErrorDetail) (edi_format_valid : bool)
  (calls : list event) :
  edi_correction decode_utf8 encode_utf8 complete_edi os fs xml_path x12_path
    edi_format_errors = (fs', edi_format_valid, calls) ->
  (edi_format_valid = false
   /\ In calls [[]; [Correct EDI_FORMAT_VALIDATION false];
                [Correct EDI_FORMAT_VALIDATION true]])
  \/ calls = [Correct EDI_FORMAT_VALIDATION true;
              Validate EDI_FORMAT_VALIDATION edi_format_valid].
Proof.
  unfold edi_correction.
  destruct (read_text decode_utf8 fs xml_path) as [xml_content|e];
    [|intros [= <- <- <-]; left; cbn; tauto].
  destruct (if is_some (fs x12_path) then _ else _) as [edi_content|e];
    [|intros [= <- <- <-]; left; cbn; tauto].
  destruct (auto_fix_edi_with_ai _ _ _ _ _) as [was_fixed corrected_edi].
  destruct was_fixed; [|intros [= <- <- <-]; left; cbn; tauto].
  destruct (Pathlib.with_name _ _) as [ai_fixed_path|e];
    [|intros [= <- <- <-]; left; cbn; tauto].
  destruct (write_text _ _ _ _ _) as [fs1 written].
  destruct written; [|intros [= <- <- <-]; left; cbn; tauto].
  destruct (validate_edi_format _ _ _) as [[retry ?] ?].
  intros [= <- <- <-]. right. reflexivity.
Qed.

(** A conversion returns a path exactly when it succeeds. *)
Lemma convert_xml_to_x12_path (fs fs' : storage) (xml_path x12_filename : string)
  (current_time : PyDate.datetime) (success : bool) (message : string)
  (x12_path : option string) :
  convert_xml_to_x12 parse_xml encode_utf8 os fs xml_path x12_filename
    current_time = (fs', (success, message, x12_path)) ->
  success = is_some x12_path.
Proof.
  unfold convert_xml_to_x12.
  destruct (fs xml_path) as [xml_content|]; [|now intros [= <- <- <- <-]].
  destruct (_convert_xml_to_x12_content _ _ _) as [x12_content|];
    [|now intros [= <- <- <- <-]].
  destruct (Py.truthy x12_content); [|now intros [= <- <- <- <-]].
  destruct (encode_utf8 x12_content) as [content|];
    [|now intros [= <- <- <- <-]].
  destruct (save_file_to_storage _ _ _ _ _) as [fs1 [path|]];
    now intros [= <- <- <- <-].
Qed.

Lemma read_text_Raise (fs : storage) (path : string) (e : exn) :
  read_text decode_utf8 fs path = Raise e ->
  e = OSError \/ e = UnicodeDecodeError.
Proof.
  unfold read_text. destruct (fs path) as [content|]; [|intros [= <-]; now left].
  destruct (decode_utf8 content); [discriminate | intros [= <-]; now right].
Qed.

(** The runs of the pipeline: how a request ends and the calls made on
    the way. *)
Lemma runs_of_the_pipeline (fs : storage)
  (content_type filename content : string) (strict_validation : bool)
  (tracking_id : N) (current_time : PyDate.datetime) :
  let r :=
    _process_invoice_internal parse_xml decode_utf8 encode_utf8 complete_xml
      complete_edi os fs content_type filename content strict_validation
      tracking_id current_time in
  In (ending r, trace r)
    [(BadRequest, []);
     (StorageError, []);
     (ProcessingFailed XML_VALIDATION,
      [Validate XML_VALIDATION false; SaveFailed XML_VALIDATION]);
     (ProcessingFailed XML_VALIDATION,
      [Validate XML_VALIDATION false; Correct XML_VALIDATION false;
       SaveFailed XML_VALIDATION]);
     (ProcessingFailed XML_VALIDATION,
      [Validate XML_VALIDATION false; Correct XML_VALIDATION true;
       SaveFailed XML_VALIDATION]);
     (ProcessingFailed XML_VALIDATION,
      [Validate XML_VALIDATION false; Correct XML_VALIDATION true;
       Validate XML_VALIDATION false; SaveFailed XML_VALIDATION]);
     (InternalServerError NameError,
      [Validate XML_VALIDATION false; Correct XML_VALIDATION true;
       Validate XML_VALIDATION true]);
     (InternalServerError OSError,
      [Validate XML_VALIDATION true; Convert false]);
     (InternalServerError UnicodeDecodeError,
      [Validate XML_VALIDATION true; Convert false]);
     (InternalServerError TypeError,
      [Validate XML_VALIDATION true; Convert false]);
     (Created,
      [Validate XML_VALIDATION true; Convert true;
       Validate EDI_FORMAT_VALIDATION true; SaveSuccess]);
     (ProcessingFailed EDI_FORMAT_VALIDATION,
      [Validate XML_VALIDATION true; Convert true;
       Validate EDI_FORMAT_VALIDATION false;
       SaveFailed EDI_FORMAT_VALIDATION]);
     (ProcessingFailed EDI_FORMAT_VALIDATION,
      [Validate XML_VALIDATION true; Convert true;
       Validate EDI_FORMAT_VALIDATION false;
       Correct EDI_FORMAT_VALIDATION false;
       SaveFailed EDI_FORMAT_VALIDATION]);
     (ProcessingFailed EDI_FORMAT_VALIDATION,
      [Validate XML_VALIDATION true; Convert true;
       Validate EDI_FORMAT_VALIDATION false;
       Correct EDI_FORMAT_VALIDATION true;
       SaveFailed EDI_FORMAT_VALIDATION]);
     (ProcessingFailed EDI_FORMAT_VALIDATION,
      [Validate XML_VALIDATION true; Convert true;
       Validate EDI_FORMAT_VALIDATION false;
       Correct EDI_FORMAT_VALIDATION true;
       Validate EDI_FORMAT_VALIDATION false;
       SaveFailed EDI_FORMAT_VALIDATION]);
     (Created,
      [Validate XML_VALIDATION true; Convert true;
       Validate EDI_FORMAT_VALIDATION false;
       Correct EDI_FORMAT_VALIDATION true;
       Validate EDI_FORMAT_VALIDATION true; SaveSuccess])].
Proof.
  intros r. subst r. unfold _process_invoice_internal.
  destruct (String.eqb content_type "text/xml"); cbn [negb];
    [|now left].
  destruct (Py.truthy filename); cbn [negb]; [|now left].
  destruct (save_file_to_storage os fs content _ "uploads") as [fs1 [xml_path|]];
    [|cbn; tauto].
  destruct (validate_xml parse_xml fs1 xml_path strict_validation)
    as [[xml_valid xml_message] xml_warnings].
  cbn [fst negb].
  destruct xml_valid; cbn [negb].
  - (* the XML is valid: conversion and format validation *)
    destruct (convert_xml_to_x12 _ _ _ _ _ _ _)
      as [fs2 [[edi_success edi_message] x12_path]] eqn:C.
    apply convert_xml_to_x12_path in C.
    destruct x12_path as [x12_path|]; cbn [is_some] in C; subst edi_success.
    2:{ destruct (read_text decode_utf8 fs2 xml_path) as [xml_content|e] eqn:R;
          [cbn; tauto|].
        apply read_text_Raise in R. destruct R as [-> | ->]; cbn; tauto. }
    destruct (validate_edi_format decode_utf8 fs2 x12_path)
      as [[edi_format_valid edi_format_message] edi_format_details].
    destruct edi_format_valid; cbn [negb]; [cbn; tauto|].
    destruct (edi_correction _ _ _ _ _ _ _ _) as [[fs3 retry] calls] eqn:E.
    apply edi_correction_calls in E.
    destruct E as [[-> I] | ->].
    + cbn [In] in I. cbn [negb].
      destruct I as [<-|[<-|[<-|[]]]]; cbn; tauto.
    + destruct retry; cbn; tauto.
  - (* the XML is not valid: one correction, one more validation *)
    destruct (xml_correction _ _ _ _ _ _ _ _ _ _)
      as [[fs2 [[xml_valid ?] ?]] calls] eqn:E.
    apply xml_correction_calls in E.
    destruct E as [[E I] | ->].
    + injection E as -> _ _. cbn [In] in I. cbn [negb].
      destruct I as [<-|[<-|[<-|[]]]]; cbn; tauto.
    + cbn [fst]. destruct xml_valid; cbn; tauto.
Qed.
(** C9.  In every run of the pipeline the calls of the XML validation
    stage, and those of the EDI format validation stage, are at most a
    failed validation, one call of the advisor and one more validation by
    the same validator, in this order; the advisor is not called at the
    conversion stage.  When the advisor is not reached, changes nothing or
    gives a text that cannot be saved, or when the second validation fails
    again, the request ends as a failure of that stage, recorded in the
    failed table, with no further call of the advisor. *)
Theorem one_correction_per_failing_stage (fs : storage)
  (content_type filename content : string) (strict_validation : bool)
  (tracking_id : N) (current_time : PyDate.datetime) :
  let r :=
    _process_invoice_internal parse_xml decode_utf8 encode_utf8 complete_xml
      complete_edi os fs content_type filename content strict_validation
      tracking_id current_time in
  stage_shape XML_VALIDATION (stage_events XML_VALIDATION (trace r))
  /\ stage_shape EDI_FORMAT_VALIDATION
       (stage_events EDI_FORMAT_VALIDATION (trace r))
  /\ stage_events EDI_CONVERSION (trace r) = []
  /\ (forall s : stage,
        In (stage_events s (trace r))
          [[Validate s false];
           [Validate s false; Correct s false];
           [Validate s false; Correct s true];
           [Validate s false; Correct s true; Validate s false]] ->
        ending r = ProcessingFailed s
        /\ exists t : list event, trace r = (t ++ [SaveFailed s])%list).
Proof.
  intros r.
  pose proof (runs_of_the_pipeline fs content_type filename content
                strict_validation tracking_id current_time) as H.
  fold r in H. cbn [In] in H.
  repeat match type of H with
         | _ \/ _ => destruct H as [H|H]
         end;
    try contradiction;
    injection H as He Ht; rewrite <- He, <- Ht;
    (split; [cbn; unfold stage_shape; eauto 8|]);
    (split; [cbn; unfold stage_shape; eauto 8|]);
    (split; [reflexivity|]);
    intros s I; cbn [In] in I;
    destruct I as [E|[E|[E|[E|[]]]]]; destruct s; try discriminate E;
    (split; [reflexivity|]);
    match goal with
    | |- exists t, ?l = _ => exists (removelast l); reflexivity
    end.
Qed.

End PipelineProperties.

(** A request with a text that is not well-formed, at a time when the
    advisor cannot be reached: one validation, one call of the advisor, and
    the request ends as a failure of the XML validation. *)
Lemma one_correction_per_failing_stage_witness :
  stage_events XML_VALIDATION (trace sample_failed_run)
  = [Validate XML_VALIDATION false; Correct XML_VALIDATION false]
  /\ ending sample_failed_run = ProcessingFailed XML_VALIDATION
  /\ exists t : list event,
       trace sample_failed_run = (t ++ [SaveFailed XML_VALIDATION])%list.
Proof.
  assert (E : stage_events XML_VALIDATION (trace sample_failed_run)
              = [Validate XML_VALIDATION false; Correct XML_VALIDATION false])
    by (vm_compute; reflexivity).
  split; [exact E|].
  apply (proj2 (proj2 (proj2
           (one_correction_per_failing_stage sample_parser sample_codec
              sample_codec (fun _ _ => None) (fun _ _ _ _ => None) sample_os
              (fun _ => None) "text/xml" "invoice.xml" "<Invoice" false
              sample_tracking_id sample_time)))
         XML_VALIDATION).
  right. left. exact E.
Defined.

(** The sample invoice through the pipeline, the advisor out of reach:
    the text that the encoder writes fails the format validation, and the
    request ends as a failure of that stage after one attempt at a
    correction. *)
Example sample_invoice_run :
  let r :=
    _process_invoice_internal sample_parser sample_codec sample_codec
      (fun _ _ => None) (fun _ _ _ _ => None) sample_os (fun _ => None)
      "text/xml" "invoice.xml" "<Invoice/>" false sample_tracking_id
      sample_time in
  ending r = ProcessingFailed EDI_FORMAT_VALIDATION
  /\ trace r
     = [Validate XML_VALIDATION true; Convert true;
        Validate EDI_FORMAT_VALIDATION false;
        Correct EDI_FORMAT_VALIDATION false;
        SaveFailed EDI_FORMAT_VALIDATION].
Proof. vm_compute. split; reflexivity. Qed.

(** An upload that is not UTF-8: the [try] block of step 2 ends at the
    decoding, before the advisor is called. *)
Example undecodable_upload_run :
  let r :=
    _process_invoice_internal sample_parser sample_codec sample_codec
      (fun _ _ => Some "<Invoice/>") (fun _ _ _ _ => None) sample_os
      (fun _ => None)
      "text/xml" "invoice.xml" (String (ascii_of_nat 233) EmptyString) false
      sample_tracking_id sample_time in
  ending r = ProcessingFailed XML_VALIDATION
  /\ trace r = [Validate XML_VALIDATION false; SaveFailed XML_VALIDATION].
Proof. vm_compute. split; reflexivity. Qed.

(** ** C1: encoding, then validating *)

Lemma split_prefix_without_sep (sep : ascii) (u v : string) :
  occurrences sep u = O ->
  exists (h : string) (t : list string),
    Py.split sep v = h :: t /\ Py.split sep (u ++ v) = (u ++ h) :: t.
Proof.
  intros H. induction u as [|c u IH].
  - destruct (Py.split sep v) as [|h t] eqn:E.
    + now apply split_not_nil in E.
    + now exists h, t.
  - cbn [occurrences] in H.
    destruct (Ascii.eqb c sep) eqn:C; [discriminate H|].
    destruct (IH H) as (h & t & E1 & E2).
    exists h, t. split; [exact E1|].
    cbn [String.append Py.split]. now rewrite C, E2.
Qed.

Lemma rstrip_by_cons (p : ascii -> bool) (c : ascii) (r : string) :
  p c = false -> Py.rstrip_by p (String c r) = String c (Py.rstrip_by p r).
Proof.
  intros H. cbn [Py.rstrip_by]. rewrite H.
  now destruct (Py.rstrip_by p r).
Qed.

(** A piece of the text that reads "N1*SU*..." after a line break is one
    of the segments that the validator looks at. *)
Lemma strip_supplier_piece (h : string) :
  Py.strip (newline ++ "N1*SU*" ++ h)
  = "N1*SU*" ++ Py.rstrip_by Py.isspace h.
Proof.
  unfold Py.strip. cbn [newline String.append Py.lstrip_by].
  change (Py.isspace (ascii_of_nat 10)) with true. cbv iota.
  change (Py.isspace "N") with false. cbv iota.
  now rewrite !rstrip_by_cons by reflexivity.
Qed.

Lemma n1_errors_of_supplier_code (n1 : list string) (i : nat) (rest : string) :
  In ("N1*SU*" ++ rest) n1 -> n1_errors i n1 <> [].
Proof.
  revert i; induction n1 as [|s n1 IH]; intros i I; [destruct I|].
  cbn [n1_errors]. destruct I as [->|I].
  - change ("N1*SU*" ++ rest) with ("N1" ++ String "*" ("SU" ++ String "*" rest)).
    rewrite !split_app_sep. cbn. discriminate.
  - intros E. apply app_eq_nil in E. destruct E as [_ E].
    now apply (IH (S i) I).
Qed.

Lemma validate_n1_of_supplier_code (segments : list string) (rest : string) :
  In ("N1*SU*" ++ rest) segments -> valid (validate_n1 segments) = false.
Proof.
  intros I. unfold validate_n1.
  assert (F : In ("N1*SU*" ++ rest) (filter (Py.startswith "N1") segments)).
  { apply filter_In. split; [exact I | reflexivity]. }
  destruct (2 <=? _)%nat; [|reflexivity].
  unfold checked. cbn [valid].
  pose proof (n1_errors_of_supplier_code _ 0 rest F) as N.
  destruct (n1_errors 0 _); [now elim N | reflexivity].
Qed.

Lemma split_segments_In (text piece : string) :
  In piece (Py.split "~" text) -> Py.truthy (Py.strip piece) = true ->
  In (Py.strip piece) (split_segments text).
Proof.
  intros I T. unfold split_segments. apply in_map.
  apply filter_In. now split.
Qed.

(** The segment after a segment that ends in "~". *)
Lemma supplier_segment_found (before after : string) :
  exists rest : string,
    In ("N1*SU*" ++ rest)
       (split_segments (before ++ "~" ++ newline ++ "N1*SU*" ++ after)).
Proof.
  change (before ++ "~" ++ newline ++ "N1*SU*" ++ after)
    with (before ++ String "~" ((newline ++ "N1*SU*") ++ after)).
  destruct (split_prefix_without_sep "~" (newline ++ "N1*SU*") after eq_refl)
    as (h & t & _ & E).
  exists (Py.rstrip_by Py.isspace h).
  rewrite <- strip_supplier_piece.
  apply split_segments_In.
  - rewrite split_app_sep, E. apply in_or_app. right. left.
    now rewrite str_app_assoc.
  - rewrite strip_supplier_piece. reflexivity.
Qed.

Lemma ends_with_tilde_app (a b : string) :
  ends_with_tilde b -> ends_with_tilde (a ++ b).
Proof.
  intros [p ->]. exists (a ++ p). now rewrite str_app_assoc.
Qed.

Lemma join_ends_with_tilde (x : string) (l : list string) :
  Forall ends_with_tilde (x :: l) -> ends_with_tilde (Py.join newline (x :: l)).
Proof.
  revert x; induction l as [|y l IH]; intros x F.
  - now inversion F.
  - change (Py.join newline (x :: y :: l))
      with (x ++ newline ++ Py.join newline (y :: l)).
    do 2 apply ends_with_tilde_app. apply IH. now inversion F.
Qed.

Lemma join_app_cons (sep x : string) (l1 l2 : list string) (y : string) :
  Py.join sep ((x :: l1) ++ y :: l2)
  = Py.join sep (x :: l1) ++ sep ++ Py.join sep (y :: l2).
Proof.
  revert x; induction l1 as [|z l1 IH]; intros x.
  - reflexivity.
  - change (Py.join sep ((x :: z :: l1) ++ y :: l2))
      with (x ++ sep ++ Py.join sep ((z :: l1) ++ y :: l2)).
    change (Py.join sep (x :: z :: l1)) with (x ++ sep ++ Py.join sep (z :: l1)).
    rewrite IH, !str_app_assoc. reflexivity.
Qed.

(** Solves [ends_with_tilde] for a segment written as a concatenation that
    ends with a literal closed by "~". *)
Ltac tilde :=
  repeat first
    [ apply ends_with_tilde_app
    | match goal with
      | |- ends_with_tilde ?s =>
          exists (Py.take (String.length s - 1) s); reflexivity
      end ].

Lemma isa_ends_with_tilde (supplier customer : PartyInfo)
  (control_numbers : ControlNumbers) (current_time : PyDate.datetime) :
  ends_with_tilde
    (_create_ISA_segment supplier customer control_numbers current_time).
Proof. unfold _create_ISA_segment. eexists. reflexivity. Qed.

(** The segments that the encoder writes before the N1 segment of the
    supplier, and that segment. *)
Lemma x12_segments_supplier (root : ET.Element) (current_time : PyDate.datetime)
  (segs : list string) :
  x12_segments root current_time = Ok segs ->
  exists (x n1 : string) (front back : list string) (rest : string),
    n1 = "N1*SU*" ++ rest
    /\ segs = ((x :: front) ++ n1 :: back)%list
    /\ Forall ends_with_tilde (x :: front).
Proof.
  intros H. unfold x12_segments in H.
  bind_inv H control_numbers Hc.
  bind_inv H formatted_date Hd.
  bind_inv H dtm Hdtm.
  bind_inv H it1 Hit1.
  bind_inv H tds Htds.
  bind_inv H hash_total Hh.
  bind_inv H hash_text Ht.
  bind_inv H st_index Hi.
  apply Ok_inj in H. subst segs. clear.
  match goal with
  | |- context [(([?isa; ?gs; ?st; ?big] ++ ?nte ++ ?cur ++ ?ref ++ ?per
                  ++ [("N1*SU*" ++ ?r)%string] ++ ?more) ++ ?trailer)%list] =>
      exists isa, ("N1*SU*" ++ r),
        ([gs; st; big] ++ nte ++ cur ++ ref ++ per)%list,
        (more ++ trailer)%list, r
  end.
  split; [reflexivity|]. split.
  - repeat first [rewrite <- app_assoc | progress cbn [app]]. reflexivity.
  - repeat first
      [ apply Forall_nil
      | apply Forall_cons; [first [apply isa_ends_with_tilde | tilde]|]
      | apply Forall_app; split ].
    + unfold note_segment. cases; repeat constructor; tilde.
    + unfold optional_segment. cases; repeat constructor; tilde.
    + unfold optional_segment. cases; repeat constructor; tilde.
    + unfold contact_segment. cases; repeat constructor; tilde.
Qed.

(** C1, on the code.  Whatever the document, also one with an id, an
    issue date, a payable amount, a supplier, a customer and an invoice
    line, a text that the encoder returns is rejected by
    [validate_edi_format], where the claim has [ok = true]: the supplier is
    written as "N1*SU*...", and the validator accepts the entity codes
    "BY" and "SE" only. *)
Theorem encoded_text_is_rejected (parse_xml : string -> parsed)
  (xml_content : string) (current_time : PyDate.datetime) (text : string) :
  _convert_xml_to_x12_content parse_xml xml_content current_time = Some text ->
  (forall (decode_utf8 : string -> option string) (fs : storage)
          (edi_path edi_content_bytes : string),
      fs edi_path = Some edi_content_bytes ->
      decode_utf8 edi_content_bytes = Some text ->
      fst (fst (validate_edi_format decode_utf8 fs edi_path)) = false)
  /\ exists details : validation_results,
       snd (validate_edi_content text) = Some details
       /\ valid (n1_segments details) = false.
Proof.
  intros H.
  destruct (convert_inv _ _ _ _ H) as (root & segs & _ & X & ->).
  destruct (x12_segments_supplier _ _ _ X)
    as (x & n1 & front & back & rest & N & -> & F).
  rewrite join_app_cons.
  destruct (join_ends_with_tilde x front F) as [before ->].
  assert (A : exists after, Py.join newline (n1 :: back) = "N1*SU*" ++ after).
  { subst n1. destruct back as [|b back].
    - exists rest. reflexivity.
    - eexists.
      change (Py.join newline (?a :: b :: back))
        with (a ++ newline ++ Py.join newline (b :: back)).
      rewrite str_app_assoc. reflexivity. }
  destruct A as [after ->].
  rewrite str_app_assoc.
  destruct (supplier_segment_found before after) as [r I].
  apply validate_n1_of_supplier_code in I.
  set (text := before ++ "~" ++ newline ++ "N1*SU*" ++ after) in *.
  assert (V : fst (fst (validate_edi_content text)) = false
              /\ exists details : validation_results,
                   snd (validate_edi_content text) = Some details
                   /\ valid (n1_segments details) = false).
  { unfold validate_edi_content.
    cbn [all_results isa_segment gs_segment st_segment big_segment n1_segments
         it1_segment tds_segment trailer_segments forallb].
    rewrite I, !andb_false_r. cbn [fst snd]. split; [reflexivity|].
    eexists. split; [reflexivity | exact I]. }
  split; [|exact (proj2 V)].
  intros decode_utf8 fs edi_path edi_content_bytes E D.
  unfold validate_edi_format. rewrite E, D. exact (proj1 V).
Qed.

Lemma encoded_text_is_rejected_witness :
  _convert_xml_to_x12_content sample_parser "<Invoice/>" sample_time
  = Some sample_text
  /\ fst (fst (validate_edi_format sample_codec
                 (with_file (fun _ => None) "converted/7f9c2ba4-e88f-427d-9160-45507a4e9f31_converted.x12"
                    sample_text)
                 "converted/7f9c2ba4-e88f-427d-9160-45507a4e9f31_converted.x12"))
     = false.
Proof.
  pose proof sample_conversion as H.
  split; [exact H|].
  exact (proj1 (encoded_text_is_rejected sample_parser "<Invoice/>" sample_time
                  sample_text H)
           sample_codec
           (with_file (fun _ => None) "converted/7f9c2ba4-e88f-427d-9160-45507a4e9f31_converted.x12" sample_text)
           "converted/7f9c2ba4-e88f-427d-9160-45507a4e9f31_converted.x12" sample_text eq_refl eq_refl).
Defined.

(* ===================================================================== *)
(** * Further properties: the pipeline *)
(* ===================================================================== *)

(** ** The paths of the files *)

Lemma take_app_exact (a b : string) : Py.take (String.length a) (a ++ b) = a.
Proof. induction a as [|c a IH]; [now destruct b | cbn; now rewrite IH]. Qed.

Lemma drop_app_exact (a b : string) : Py.drop (String.length a) (a ++ b) = b.
Proof. induction a as [|c a IH]; [now destruct b | exact IH]. Qed.

Lemma occurrences_drop (c : ascii) (n : nat) (s : string) :
  (occurrences c (Py.drop n s) <= occurrences c s)%nat.
Proof.
  revert s; induction n as [|n IH]; intros s; [now destruct s|].
  destruct s as [|x s]; [reflexivity|].
  cbn [Py.drop occurrences]. specialize (IH s). lia.
Qed.

Lemma hexdigit_is_not (c : ascii) (n : N) :
  Py.isdigit c = false -> Py.in_range 97 102 c = false ->
  Ascii.eqb (UUID.hexdigit n) c = false.
Proof.
  intros D L. unfold UUID.hexdigit.
  destruct (N.to_nat n) as [|m]; do 14 (try (destruct m as [|m]));
    match goal with
    | |- Ascii.eqb ?x c = false =>
        destruct (Ascii.eqb_spec x c) as [<-|]; [discriminate|reflexivity]
    end.
Qed.

Lemma occurrences_hex (c : ascii) (digits : nat) (n : N) :
  Py.isdigit c = false -> Py.in_range 97 102 c = false ->
  occurrences c (UUID.hex digits n) = O.
Proof.
  intros D L. revert n; induction digits as [|k IH]; intros n; [reflexivity|].
  cbn [UUID.hex]. rewrite occurrences_app, IH. cbn [occurrences].
  now rewrite hexdigit_is_not.
Qed.

(** The text of a UUID is made of hexadecimal digits and "-". *)
Lemma occurrences_uuid (c : ascii) (u : N) :
  Py.isdigit c = false -> Py.in_range 97 102 c = false ->
  Ascii.eqb "-" c = false ->
  occurrences c (UUID.str u) = O.
Proof.
  intros D L M. unfold UUID.str, Py.slice.
  pose proof (occurrences_hex c 32 u D L) as H.
  set (h := UUID.hex 32 u) in *.
  rewrite !occurrences_app. cbn [occurrences]. rewrite M.
  pose proof (occurrences_take c 8 h).
  pose proof (occurrences_take c (12 - 8) (Py.drop 8 h)).
  pose proof (occurrences_take c (16 - 12) (Py.drop 12 h)).
  pose proof (occurrences_take c (20 - 16) (Py.drop 16 h)).
  pose proof (occurrences_drop c 8 h).
  pose proof (occurrences_drop c 12 h).
  pose proof (occurrences_drop c 16 h).
  pose proof (occurrences_drop c 20 h).
  lia.
Qed.

Lemma uuid_not_empty (u : N) :
  exists (c : ascii) (r : string), UUID.str u = String c r.
Proof.
  unfold UUID.str.
  destruct (Py.take 8 (UUID.hex 32 u)) as [|c r]; cbn [append]; eauto.
Qed.

(** A name that starts with the text of a UUID and has no "/". *)
Lemma path_of_plain_name (u : N) (rest : string) :
  rest <> "" -> occurrences "/" rest = O ->
  Pathlib.Path (UUID.str u ++ rest)
  = Pathlib.mk_path "" [UUID.str u ++ rest].
Proof.
  intros NE O.
  pose proof (occurrences_uuid "/" u eq_refl eq_refl eq_refl) as U.
  destruct (uuid_not_empty u) as (c & r & E).
  unfold Pathlib.Path. rewrite E in *. cbn [append Py.lstrip_by].
  cbn [occurrences] in U.
  destruct (Ascii.eqb_spec c "/") as [->|N]; [discriminate U|].
  destruct (Ascii.eqb_spec "/" c) as [<-|_]; [now elim N|].
  rewrite Nat.sub_diag. cbn [Nat.eqb].
  rewrite split_without_sep.
  2:{ cbn [occurrences]. destruct (Ascii.eqb_spec c "/"); [contradiction|].
      rewrite occurrences_app. cbn [occurrences] in U. lia. }
  cbn [filter]. unfold Pathlib.kept. cbn [Py.truthy andb].
  destruct r as [|d r]; [destruct rest as [|a rest]; [now elim NE|]|];
    cbn [append String.eqb]; destruct (Ascii.eqb c "."); reflexivity.
Qed.

Lemma path_of_converted (name : string) :
  occurrences "/" name = O -> Pathlib.kept name = true ->
  Pathlib.Path ("converted/" ++ name) = Pathlib.mk_path "" ["converted"; name].
Proof.
  intros O K. unfold Pathlib.Path.
  change ("converted/" ++ name) with ("converted" ++ String "/" name).
  cbn [append Py.lstrip_by Ascii.eqb Bool.eqb].
  rewrite Nat.sub_diag. cbn [Nat.eqb].
  change (String "c" (String "o" (String "n" (String "v" (String "e"
            (String "r" (String "t" (String "e" (String "d"
               (String "/" name))))))))))
    with ("converted" ++ String "/" name).
  rewrite split_app_sep, (split_without_sep "/" name O).
  cbn [Py.split Ascii.eqb Bool.eqb app filter Pathlib.kept Py.truthy andb
       String.eqb negb].
  now rewrite K.
Qed.

Lemma rfind_None (c : ascii) (s : string) :
  occurrences c s = O -> Py.rfind c s = None.
Proof.
  induction s as [|x s IH]; [reflexivity|].
  cbn [occurrences Py.rfind]. destruct (Ascii.eqb x c); [discriminate|].
  intros H. now rewrite IH.
Qed.

Lemma rfind_last (c : ascii) (a b : string) :
  occurrences c b = O ->
  Py.rfind c (a ++ String c b) = Some (String.length a).
Proof.
  intros O. induction a as [|x a IH].
  - cbn [append Py.rfind String.length]. rewrite (rfind_None c b O).
    now rewrite Ascii.eqb_refl.
  - cbn [append Py.rfind String.length]. now rewrite IH.
Qed.

Lemma endswith_slash (a : string) (c : ascii) :
  Ascii.eqb c "/" = false ->
  Py.endswith "/" (a ++ String c EmptyString) = false.
Proof.
  intros N. unfold Py.endswith, Py.len. rewrite str_length_app.
  cbn [String.length].
  replace (String.length a + 1 - 1)%nat with (String.length a) by lia.
  rewrite drop_app_exact. cbn [String.eqb]. rewrite N.
  apply andb_false_r.
Qed.

(** The paths of the converted file and of the advisor's file. *)
Lemma converted_path (u : N) :
  Pathlib.str (Pathlib.joinpath EDI_DIR (UUID.str u ++ "_converted.x12"))
  = "converted/" ++ UUID.str u ++ "_converted.x12".
Proof.
  unfold Pathlib.joinpath.
  rewrite path_of_plain_name by (try discriminate; reflexivity).
  reflexivity.
Qed.

Lemma ai_fixed_path (u : N) :
  let x12_path := "converted/" ++ UUID.str u ++ "_converted.x12" in
  Pathlib.with_name (Pathlib.Path x12_path)
    (Pathlib.stem (Pathlib.Path x12_path) ++ "_ai_fixed.x12")
  = Ok (Pathlib.mk_path ""
          ["converted"; UUID.str u ++ "_converted_ai_fixed.x12"])
  /\ Pathlib.str
       (Pathlib.mk_path ""
          ["converted"; UUID.str u ++ "_converted_ai_fixed.x12"])
     = "converted/" ++ UUID.str u ++ "_converted_ai_fixed.x12".
Proof.
  intros x12_path. split; [|reflexivity].
  pose proof (occurrences_uuid "/" u eq_refl eq_refl eq_refl) as U.
  pose proof (occurrences_uuid "." u eq_refl eq_refl eq_refl) as D.
  destruct (uuid_not_empty u) as (c & r & E).
  assert (P : Pathlib.Path x12_path
              = Pathlib.mk_path "" ["converted"; UUID.str u ++ "_converted.x12"]).
  { unfold x12_path. apply path_of_converted.
    - rewrite occurrences_app, U. reflexivity.
    - rewrite E. unfold Pathlib.kept.
      destruct r; cbn [append Py.truthy andb String.eqb];
        destruct (Ascii.eqb c "."); reflexivity. }
  assert (S : Pathlib.stem (Pathlib.Path x12_path) = UUID.str u ++ "_converted").
  { rewrite P. unfold Pathlib.stem, Pathlib.name. cbn [Pathlib.parts last].
    change (UUID.str u ++ "_converted.x12")
      with (UUID.str u ++ "_converted" ++ String "." "x12").
    rewrite <- str_app_assoc.
    rewrite rfind_last by reflexivity.
    set (a := UUID.str u ++ "_converted").
    assert (La : (0 < String.length a)%nat).
    { unfold a. rewrite str_length_app. cbn [String.length]. lia. }
    unfold Py.len. rewrite str_length_app. cbn [String.length].
    replace (0 <? String.length a)%nat with true
      by (symmetry; apply Nat.ltb_lt; lia).
    replace (String.length a <? String.length a + 4 - 1)%nat with true
      by (symmetry; apply Nat.ltb_lt; lia).
    cbn [andb].
    apply take_app_exact. }
  rewrite S, str_app_assoc.
  change ("_converted" ++ "_ai_fixed.x12") with "_converted_ai_fixed.x12".
  set (new := UUID.str u ++ "_converted_ai_fixed.x12").
  assert (T1 : Py.truthy (UUID.str u ++ "_converted.x12") = true)
    by (rewrite E; reflexivity).
  assert (T2 : Py.truthy new = true) by (unfold new; rewrite E; reflexivity).
  assert (T3 : Py.endswith "/" new = false).
  { unfold new.
    change (UUID.str u ++ "_converted_ai_fixed.x12")
      with (UUID.str u ++ "_converted_ai_fixed.x1" ++ String "2" EmptyString).
    rewrite <- str_app_assoc. now apply endswith_slash. }
  assert (T4 : Pathlib.Path new = Pathlib.mk_path "" [new])
    by (apply path_of_plain_name; [discriminate | reflexivity]).
  unfold Pathlib.with_name. rewrite P, T4.
  cbn [Pathlib.name Pathlib.parts last Pathlib.root removelast app
       List.length Nat.eqb].
  rewrite T1, T2, T3. reflexivity.
Qed.
(** ** The runs of the pipeline *)

Lemma conversion_output_rejected (parse_xml : string -> parsed)
  (xml_content : string) (current_time : PyDate.datetime) (text : string) :
  _convert_xml_to_x12_content parse_xml xml_content current_time = Some text ->
  fst (fst (validate_edi_content text)) = false.
Proof.
  intros H.
  destruct (convert_inv _ _ _ _ H) as (root & segs & _ & X & ->).
  destruct (x12_segments_supplier _ _ _ X)
    as (x & n1 & front & back & rest & N & -> & F).
  rewrite join_app_cons.
  destruct (join_ends_with_tilde x front F) as [before ->].
  assert (A : exists after, Py.join newline (n1 :: back) = "N1*SU*" ++ after).
  { subst n1. destruct back as [|b back].
    - exists rest. reflexivity.
    - eexists.
      change (Py.join newline (?a :: b :: back))
        with (a ++ newline ++ Py.join newline (b :: back)).
      rewrite str_app_assoc. reflexivity. }
  destruct A as [after ->].
  rewrite str_app_assoc.
  destruct (supplier_segment_found before after) as [r I].
  apply validate_n1_of_supplier_code in I.
  unfold validate_edi_content.
  cbn [all_results isa_segment gs_segment st_segment big_segment n1_segments
       it1_segment tds_segment trailer_segments forallb].
  rewrite I, !andb_false_r. reflexivity.
Qed.

Lemma auto_fix_edi_with_ai_inv
  (complete_edi : string -> string -> list ErrorDetail -> bool -> option string)
  (xml_content edi_content : string) (edi_errors : list ErrorDetail)
  (strict_validation : bool) (was_fixed : bool) (corrected_edi : string) :
  auto_fix_edi_with_ai complete_edi xml_content edi_content edi_errors
    strict_validation = (was_fixed, corrected_edi) ->
  if was_fixed
  then corrected_edi <> "" /\ corrected_edi <> edi_content
       /\ complete_edi xml_content edi_content edi_errors strict_validation
          <> None
  else corrected_edi = edi_content.
Proof.
  unfold auto_fix_edi_with_ai.
  destruct (complete_edi _ _ _ _) as [content|].
  - match goal with
    | |- context [Py.join "~" ?l] => generalize (Py.join "~" l)
    end.
    intros s. destruct (Py.truthy s) eqn:T; cbn [andb].
    + destruct (String.eqb s edi_content) eqn:E; cbn [negb];
        intros H; injection H as <- <-; [reflexivity|].
      split; [|split].
      * intros ->. discriminate T.
      * apply String.eqb_neq. exact E.
      * discriminate.
    + intros H; injection H as <- <-. reflexivity.
  - intros H; injection H as <- <-. reflexivity.
Qed.

Lemma conversion_output_not_empty (parse_xml : string -> parsed)
  (xml_content : string) (current_time : PyDate.datetime) (text : string) :
  _convert_xml_to_x12_content parse_xml xml_content current_time = Some text ->
  Py.truthy text = true.
Proof.
  intros H.
  destruct (convert_inv _ _ _ _ H) as (root & segs & _ & X & ->).
  destruct (x12_segments_supplier _ _ _ X)
    as (x & n1 & front & back & rest & N & -> & F).
  rewrite join_app_cons.
  apply Forall_inv in F. destruct F as [p ->].
  destruct front as [|y front].
  - cbn [Py.join String.concat]. destruct p; reflexivity.
  - change (Py.join newline (?a :: y :: front))
      with (a ++ newline ++ Py.join newline (y :: front)).
    destruct p; reflexivity.
Qed.

Section PipelineRuns.

Variable parse_xml : string -> parsed.
Variable decode_utf8 : string -> option string.
Variable encode_utf8 : string -> option string.
Variable complete_xml : string -> bool -> option string.
Variable complete_edi :
  string -> string -> list ErrorDetail -> bool -> option string.
Variable os : OS.

(** The path that [save_file_to_storage] returns is the one under the
    target directory. *)
Lemma save_file_to_storage_path (fs fs' : storage)
  (file_content filename subdirectory path : string) :
  save_file_to_storage os fs file_content filename subdirectory
  = (fs', Some path) ->
  In path (save_paths os filename subdirectory)
  /\ path
     = Pathlib.str
         (Pathlib.joinpath
            (if String.eqb subdirectory "uploads" then UPLOAD_DIR else EDI_DIR)
            filename).
Proof.
  unfold save_file_to_storage, save_paths.
  destruct (mkdir os fs _) as [fs1 made1]. destruct made1; [|discriminate].
  cbn [negb].
  destruct (mkdir os fs1 _) as [fs2 made2]. destruct made2; [|discriminate].
  cbn [negb].
  destruct (getcwd os) as [cwd|]; [|discriminate].
  destruct (write_bytes os fs2 _ _) as [fs3 written1].
  destruct written1; [intros [= _ <-]; split; [now left | reflexivity]|].
  destruct (write_bytes os fs3 _ _) as [fs4 written2].
  destruct written2; [intros [= _ <-]; split; [now left | reflexivity]|].
  discriminate.
Qed.

(** ** The files that a request may change *)

Section Frame.

(** A property of the files that is kept by the creation of the two
    directories and by every write under a path of [allowed]. *)
Variable P : storage -> Prop.
Variable allowed : string -> Prop.

Hypothesis mkdir_preserves :
  forall (fs : storage) (d : string),
    In d ["uploads"; "converted"] -> P fs -> P (fst (mkdir os fs d)).

Hypothesis write_preserves :
  forall (fs : storage) (path content : string),
    allowed path -> P fs -> P (fst (write_bytes os fs path content)).

Lemma save_file_to_storage_preserves (fs : storage)
  (file_content filename subdirectory : string) :
  (forall p : string, In p (save_paths os filename subdirectory) -> allowed p) ->
  P fs ->
  P (fst (save_file_to_storage os fs file_content filename subdirectory)).
Proof.
  intros A H. unfold save_file_to_storage. unfold save_paths in A.
  pose proof (mkdir_preserves fs "uploads" ltac:(cbn; tauto) H) as H1.
  change (Pathlib.str UPLOAD_DIR) with "uploads".
  destruct (mkdir os fs "uploads") as [fs1 made1]. cbn [fst] in H1.
  destruct made1; cbn [negb fst]; [|exact H1].
  pose proof (mkdir_preserves fs1 "converted" ltac:(cbn; tauto) H1) as H2.
  change (Pathlib.str EDI_DIR) with "converted".
  destruct (mkdir os fs1 "converted") as [fs2 made2]. cbn [fst] in H2.
  destruct made2; cbn [negb fst]; [|exact H2].
  destruct (getcwd os) as [cwd|]; [|exact H2].
  match goal with
  | |- context [write_bytes os fs2 ?p ?c] =>
      pose proof (write_preserves fs2 p c (A p ltac:(now left)) H2) as H3;
      destruct (write_bytes os fs2 p c) as [fs3 written1]
  end.
  cbn [fst] in H3. destruct written1; [exact H3|].
  match goal with
  | |- context [write_bytes os fs3 ?p ?c] =>
      pose proof (write_preserves fs3 p c (A p ltac:(right; now left)) H3)
        as H4;
      destruct (write_bytes os fs3 p c) as [fs4 written2]
  end.
  cbn [fst] in H4. destruct written2; exact H4.
Qed.

Lemma write_text_preserves (fs : storage) (path data : string) :
  allowed path -> P fs ->
  P (fst (write_text encode_utf8 os fs path data)).
Proof.
  intros A H. unfold write_text.
  destruct (encode_utf8 data) as [content|]; [|cbn [fst]];
    now apply write_preserves.
Qed.

Lemma xml_correction_preserves (fs : storage) (xml_path xml_filename : string)
  (strict_validation : bool) (first : bool * string * list string) :
  (forall p : string, In p (save_paths os xml_filename "uploads") -> allowed p) ->
  P fs ->
  P (fst (fst (xml_correction parse_xml decode_utf8 encode_utf8 complete_xml os
                 fs xml_path xml_filename strict_validation first))).
Proof.
  intros A H. unfold xml_correction.
  destruct (fs xml_path) as [xml_bytes|]; [|exact H].
  destruct (decode_utf8 xml_bytes) as [xml_text|]; [|exact H].
  destruct (auto_correct_xml_with_ai _ _ _) as [was_corrected corrected_xml].
  destruct was_corrected; [|exact H].
  destruct (encode_utf8 corrected_xml) as [content|]; [|exact H].
  pose proof (save_file_to_storage_preserves fs content xml_filename "uploads"
                A H) as S.
  destruct (save_file_to_storage _ _ _ _ _) as [fs1 [path|]]; exact S.
Qed.

Lemma convert_xml_to_x12_preserves (fs : storage)
  (xml_path x12_filename : string) (current_time : PyDate.datetime) :
  (forall p : string,
      In p (save_paths os x12_filename "converted") -> allowed p) ->
  P fs ->
  P (fst (convert_xml_to_x12 parse_xml encode_utf8 os fs xml_path x12_filename
            current_time)).
Proof.
  intros A H. unfold convert_xml_to_x12.
  destruct (fs xml_path) as [xml_content|]; [|exact H].
  destruct (_convert_xml_to_x12_content _ _ _) as [x12_content|]; [|exact H].
  destruct (Py.truthy x12_content); [|exact H].
  destruct (encode_utf8 x12_content) as [content|]; [|exact H].
  pose proof (save_file_to_storage_preserves fs content x12_filename
                "converted" A H) as S.
  destruct (save_file_to_storage _ _ _ _ _) as [fs1 [path|]]; exact S.
Qed.

Lemma edi_correction_preserves (fs : storage) (xml_path : string)
  (tracking_id : N) (edi_format_errors : list ErrorDetail) :
  allowed ("converted/" ++ UUID.str tracking_id ++ "_converted_ai_fixed.x12") ->
  P fs ->
  P (fst (fst (edi_correction decode_utf8 encode_utf8 complete_edi os fs
                 xml_path
                 ("converted/" ++ UUID.str tracking_id ++ "_converted.x12")
                 edi_format_errors))).
Proof.
  intros A H. unfold edi_correction.
  destruct (read_text decode_utf8 fs xml_path) as [xml_content|e]; [|exact H].
  destruct (if is_some _ then _ else _) as [edi_content|e]; [|exact H].
  destruct (auto_fix_edi_with_ai _ _ _ _ _) as [was_fixed corrected_edi].
  destruct was_fixed; [|exact H].
  destruct (ai_fixed_path tracking_id) as [W S]. rewrite W, S.
  pose proof (write_text_preserves fs _ corrected_edi A H) as T.
  destruct (write_text _ _ _ _ _) as [fs1 written]. cbn [fst] in T.
  destruct written; [|exact T].
  destruct (validate_edi_format _ _ _) as [[retry ?] ?]. exact T.
Qed.

End Frame.

(** The path of a converted file. *)
Lemma convert_xml_to_x12_success (fs fs' : storage) (xml_path : string)
  (tracking_id : N) (current_time : PyDate.datetime) (message : string)
  (x12_path : option string) :
  convert_xml_to_x12 parse_xml encode_utf8 os fs xml_path
    (UUID.str tracking_id ++ "_converted.x12") current_time
  = (fs', (true, message, x12_path)) ->
  x12_path = Some ("converted/" ++ UUID.str tracking_id ++ "_converted.x12").
Proof.
  unfold convert_xml_to_x12.
  destruct (fs xml_path) as [xml_content|]; [|discriminate].
  destruct (_convert_xml_to_x12_content _ _ _) as [x12_content|];
    [|discriminate].
  destruct (Py.truthy x12_content); [|discriminate].
  destruct (encode_utf8 x12_content) as [content|]; [|discriminate].
  destruct (save_file_to_storage _ _ _ _ _) as [fs1 [path|]] eqn:S;
    [|discriminate].
  apply save_file_to_storage_path in S. destruct S as [_ ->].
  intros E. apply (f_equal (fun x => snd (snd x))) in E. cbn [snd] in E.
  rewrite <- E. change (String.eqb "converted" "uploads") with false.
  cbv iota. now rewrite converted_path.
Qed.

(** X4.  A request changes the files only by creating the two directories
    and by writing under the paths named after its tracking id: the upload,
    the converted text, the advisor's text, and the two paths that
    [save_file_to_storage] falls back on.  Whatever these calls preserve
    holds of the files at the end. *)
Theorem request_writes_under_its_tracking_id (fs : storage)
  (content_type filename content : string) (strict_validation : bool)
  (tracking_id : N) (current_time : PyDate.datetime) (P : storage -> Prop) :
  let r :=
    _process_invoice_internal parse_xml decode_utf8 encode_utf8 complete_xml
      complete_edi os fs content_type filename content strict_validation
      tracking_id current_time in
  (forall (fs : storage) (d : string),
      In d ["uploads"; "converted"] -> P fs -> P (fst (mkdir os fs d))) ->
  (forall (fs : storage) (path content : string),
      In path (request_paths os tracking_id filename) ->
      P fs -> P (fst (write_bytes os fs path content))) ->
  P fs -> P (files r).
Proof.
  intros r M W H. subst r. unfold _process_invoice_internal.
  destruct (String.eqb content_type "text/xml"); cbn [negb]; [|exact H].
  destruct (Py.truthy filename); cbn [negb]; [|exact H].
  set (xml_filename := UUID.str tracking_id ++ "_" ++ filename).
  set (x12_filename := UUID.str tracking_id ++ "_converted.x12").
  set (allowed := fun p => In p (request_paths os tracking_id filename)).
  assert (A1 : forall p, In p (save_paths os xml_filename "uploads") -> allowed p).
  { intros p I. unfold allowed, request_paths. apply in_or_app. now left. }
  assert (A2 : forall p, In p (save_paths os x12_filename "converted") -> allowed p).
  { intros p I. unfold allowed, request_paths. apply in_or_app. right.
    apply in_or_app. now left. }
  assert (A3 : allowed ("converted/" ++ UUID.str tracking_id
                        ++ "_converted_ai_fixed.x12")).
  { unfold allowed, request_paths. apply in_or_app. right.
    apply in_or_app. right. now left. }
  pose proof (save_file_to_storage_preserves P allowed M W fs content
                xml_filename "uploads" A1 H) as H1.
  destruct (save_file_to_storage os fs content xml_filename "uploads")
    as [fs1 [xml_path|]]; cbn [fst] in H1; [|exact H1].
  destruct (validate_xml parse_xml fs1 xml_path strict_validation)
    as [[xml_valid xml_message] xml_warnings].
  cbn [fst negb].
  destruct xml_valid; cbn [negb].
  - pose proof (convert_xml_to_x12_preserves P allowed M W fs1 xml_path
                  x12_filename current_time A2 H1) as H2.
    destruct (convert_xml_to_x12 _ _ _ _ _ _ _)
      as [fs2 [[edi_success edi_message] x12_path]] eqn:C.
    cbn [fst] in H2.
    destruct edi_success.
    2:{ destruct x12_path; destruct (read_text _ _ _); exact H2. }
    apply convert_xml_to_x12_success in C. subst x12_path.
    destruct (validate_edi_format decode_utf8 fs2 _)
      as [[edi_format_valid edi_format_message] edi_format_details].
    destruct edi_format_valid; cbn [negb]; [exact H2|].
    pose proof (edi_correction_preserves P allowed W fs2 xml_path tracking_id
                  (format_errors edi_format_message edi_format_details) A3 H2)
      as H3.
    destruct (edi_correction _ _ _ _ _ _ _ _) as [[fs3 retry] calls].
    cbn [fst] in H3. destruct retry; exact H3.
  - pose proof (xml_correction_preserves P allowed M W fs1 xml_path
                  xml_filename strict_validation
                  (false, xml_message, xml_warnings) A1 H1) as H2.
    destruct (xml_correction _ _ _ _ _ _ _ _ _ _)
      as [[fs2 [[xml_valid ?] ?]] calls].
    cbn [fst] in H2. destruct xml_valid; exact H2.
Qed.

(** X3.  A request writes one row to the success table when it ends as
    created, one row to the failed table, with the failed step, when it
    ends as a processing failure, and no row when it is refused, when the
    storage fails or when it ends with an exception that is not handled. *)
Theorem one_row_per_processed_request (fs : storage)
  (content_type filename content : string) (strict_validation : bool)
  (tracking_id : N) (current_time : PyDate.datetime) :
  let r :=
    _process_invoice_internal parse_xml decode_utf8 encode_utf8 complete_xml
      complete_edi os fs content_type filename content strict_validation
      tracking_id current_time in
  filter is_row (trace r)
  = match ending r with
    | Created => [SaveSuccess]
    | ProcessingFailed s => [SaveFailed s]
    | BadRequest | StorageError | InternalServerError _ => []
    end.
Proof.
  intros r.
  pose proof (runs_of_the_pipeline parse_xml decode_utf8 encode_utf8
                complete_xml complete_edi os fs content_type filename content
                strict_validation tracking_id current_time) as H.
  fold r in H. cbn [In] in H.
  repeat match type of H with
         | _ \/ _ => destruct H as [H|H]
         end;
    try contradiction;
    injection H as He Ht; rewrite <- He, <- Ht; reflexivity.
Qed.

(** X2.  The upload is refused (400) exactly when the content type is not
    text/xml or the file name is empty; then no validator, converter or
    advisor is called and no file is written.  Every other request asks the
    storage to save the upload under the upload directory joined with
    <tracking id>_<file name>: when the storage fails, the request ends
    with the error of the storage (500) and nothing is validated; when it
    succeeds, the path is the one that [pathlib] gives to this join and the
    first call is the XML validation of the file under it. *)
Theorem refused_upload_leaves_no_trace (fs : storage)
  (content_type filename content : string) (strict_validation : bool)
  (tracking_id : N) (current_time : PyDate.datetime) :
  let r :=
    _process_invoice_internal parse_xml decode_utf8 encode_utf8 complete_xml
      complete_edi os fs content_type filename content strict_validation
      tracking_id current_time in
  let xml_filename := UUID.str tracking_id ++ "_" ++ filename in
  let saved := save_file_to_storage os fs content xml_filename "uploads" in
  (ending r = BadRequest <-> content_type <> "text/xml" \/ filename = "")
  /\ (ending r = BadRequest -> trace r = [] /\ files r = fs)
  /\ (ending r <> BadRequest ->
      match snd saved with
      | None =>
          ending r = StorageError /\ trace r = [] /\ files r = fst saved
      | Some xml_path =>
          xml_path = Pathlib.str (Pathlib.joinpath UPLOAD_DIR xml_filename)
          /\ hd_error (trace r)
             = Some (Validate XML_VALIDATION
                       (fst (fst (validate_xml parse_xml (fst saved) xml_path
                                    strict_validation))))
      end).
Proof.
  intros r xml_filename saved. subst r saved.
  unfold _process_invoice_internal.
  destruct (String.eqb content_type "text/xml") eqn:T; cbn [negb].
  2:{ apply String.eqb_neq in T. cbn [ending trace files].
      split; [tauto|]. split; [tauto|]. intros N. now contradiction N. }
  apply String.eqb_eq in T.
  destruct (Py.truthy filename) eqn:F; cbn [negb].
  2:{ assert (filename = "") by (destruct filename; [reflexivity|discriminate]).
      cbn [ending trace files]. split; [tauto|]. split; [tauto|].
      intros N. now contradiction N. }
  assert (NF : filename <> "") by (intros ->; discriminate F).
  fold xml_filename.
  destruct (save_file_to_storage os fs content xml_filename "uploads")
    as [fs1 [xml_path|]] eqn:S; cbn [fst snd].
  2:{ cbn [ending trace files].
      split; [split; [discriminate | intros [N|N]; contradiction]|].
      split; [discriminate|]. intros _. auto. }
  apply save_file_to_storage_path in S. destruct S as [_ S].
  change (String.eqb "uploads" "uploads") with true in S. cbv iota in S.
  match goal with
  | |- (ending ?r = _ <-> _) /\ _ /\ _ =>
      assert (E : ending r <> BadRequest
                  /\ hd_error (trace r)
                     = Some (Validate XML_VALIDATION
                               (fst (fst (validate_xml parse_xml fs1 xml_path
                                            strict_validation)))))
  end.
  { destruct (validate_xml parse_xml fs1 xml_path strict_validation)
      as [[xml_valid xml_message] xml_warnings].
    cbn [fst negb].
    destruct xml_valid; cbn [negb].
    - destruct (convert_xml_to_x12 _ _ _ _ _ _ _)
        as [fs2 [[edi_success edi_message] x12_path]].
      destruct edi_success, x12_path as [x12_path|];
        try (destruct (read_text _ _ _); cbn [ending trace];
             (split; [discriminate|reflexivity])).
      destruct (validate_edi_format decode_utf8 fs2 x12_path)
        as [[edi_format_valid edi_format_message] edi_format_details].
      destruct edi_format_valid; cbn [negb];
        [cbn [ending trace]; split; [discriminate|reflexivity]|].
      destruct (edi_correction _ _ _ _ _ _ _ _) as [[fs3 retry] calls].
      destruct retry; cbn [negb ending trace];
        (split; [discriminate | reflexivity]).
    - destruct (xml_correction _ _ _ _ _ _ _ _ _ _)
        as [[fs2 [[xml_valid ?] ?]] calls].
      destruct xml_valid; cbn [negb ending trace];
        (split; [discriminate | reflexivity]). }
  destruct E as [E H].
  split; [|split].
  - split; [intros B; contradiction|].
    intros [N|N]; contradiction.
  - intros B. contradiction.
  - intros _. split; [exact S | exact H].
Qed.

(** X5.  When the first XML validation fails, no conversion is attempted,
    also when the advisor's document passes the second validation: the
    request ends as a failure of the XML validation or, after a correction
    that validates, with the [NameError] of the unbound [xml_errors].  No
    converted file is written: the files are changed only by the creation
    of the two directories and by writes under the paths of the upload. *)
Theorem failed_xml_validation_ends_the_request (fs : storage)
  (content_type filename content : string) (strict_validation : bool)
  (tracking_id : N) (current_time : PyDate.datetime) :
  let r :=
    _process_invoice_internal parse_xml decode_utf8 encode_utf8 complete_xml
      complete_edi os fs content_type filename content strict_validation
      tracking_id current_time in
  hd_error (trace r) = Some (Validate XML_VALIDATION false) ->
  filter is_conversion (trace r) = []
  /\ (ending r = ProcessingFailed XML_VALIDATION
      \/ (ending r = InternalServerError NameError
          /\ trace r
             = [Validate XML_VALIDATION false; Correct XML_VALIDATION true;
                Validate XML_VALIDATION true]))
  /\ forall P : storage -> Prop,
       (forall (fs : storage) (d : string),
           In d ["uploads"; "converted"] -> P fs -> P (fst (mkdir os fs d))) ->
       (forall (fs : storage) (path content : string),
           In path
              (save_paths os (UUID.str tracking_id ++ "_" ++ filename) "uploads") ->
           P fs -> P (fst (write_bytes os fs path content))) ->
       P fs -> P (files r).
Proof.
  intros r V.
  split; [|split].
  - pose proof (runs_of_the_pipeline parse_xml decode_utf8 encode_utf8
                  complete_xml complete_edi os fs content_type filename content
                  strict_validation tracking_id current_time) as H.
    fold r in H. cbn [In] in H.
    repeat match type of H with
           | _ \/ _ => destruct H as [H|H]
           end;
      try contradiction;
      injection H as He Ht; rewrite <- Ht in V |- *;
      first [reflexivity | discriminate V].
  - pose proof (runs_of_the_pipeline parse_xml decode_utf8 encode_utf8
                  complete_xml complete_edi os fs content_type filename content
                  strict_validation tracking_id current_time) as H.
    fold r in H. cbn [In] in H.
    repeat match type of H with
           | _ \/ _ => destruct H as [H|H]
           end;
      try contradiction;
      injection H as He Ht; rewrite <- Ht in V |- *; rewrite <- He;
      first [discriminate V | now left | now right].
  - intros P M W H. revert V. subst r. unfold _process_invoice_internal.
    destruct (String.eqb content_type "text/xml"); cbn [negb];
      [|discriminate].
    destruct (Py.truthy filename); cbn [negb]; [|discriminate].
    set (xml_filename := UUID.str tracking_id ++ "_" ++ filename) in *.
    pose proof (save_file_to_storage_preserves P
                  (fun p => In p (save_paths os xml_filename "uploads"))
                  M W fs content xml_filename "uploads" (fun p I => I) H) as H1.
    destruct (save_file_to_storage os fs content xml_filename "uploads")
      as [fs1 [xml_path|]]; cbn [fst] in H1; [|discriminate].
    destruct (validate_xml parse_xml fs1 xml_path strict_validation)
      as [[xml_valid xml_message] xml_warnings].
    cbn [fst negb].
    destruct xml_valid; cbn [negb].
    + destruct (convert_xml_to_x12 _ _ _ _ _ _ _)
        as [fs2 [[edi_success edi_message] x12_path]].
      destruct edi_success, x12_path as [x12_path|];
        try (destruct (read_text _ _ _); discriminate).
      destruct (validate_edi_format decode_utf8 fs2 x12_path)
        as [[edi_format_valid edi_format_message] edi_format_details].
      destruct edi_format_valid; cbn [negb]; [discriminate|].
      destruct (edi_correction _ _ _ _ _ _ _ _) as [[fs3 retry] calls].
      destruct retry; discriminate.
    + intros _.
      pose proof (xml_correction_preserves P
                    (fun p => In p (save_paths os xml_filename "uploads"))
                    M W fs1 xml_path xml_filename strict_validation
                    (false, xml_message, xml_warnings) (fun p I => I) H1) as H2.
      destruct (xml_correction _ _ _ _ _ _ _ _ _ _)
        as [[fs2 [[xml_valid ?] ?]] calls].
      cbn [fst] in H2. destruct xml_valid; exact H2.
Qed.

(** X6.  [convert_xml_to_x12] succeeds exactly when the file can be read,
    the encoder returns a text, which is never empty, the text can be
    encoded and the storage saves it; the path returned is then the one of
    [x12_filename] under the directory of the converted files, and the
    files are those that the storage leaves.  On failure no path is
    returned, and the files are as they were unless the storage was asked
    to save. *)
Theorem convert_xml_to_x12_stores_the_encoded_text (fs : storage)
  (xml_path x12_filename : string) (current_time : PyDate.datetime) :
  let '(fs', (success, message, x12_path)) :=
    convert_xml_to_x12 parse_xml encode_utf8 os fs xml_path x12_filename
      current_time in
  if success then
    exists xml_content x12_content content : string,
      fs xml_path = Some xml_content
      /\ _convert_xml_to_x12_content parse_xml xml_content current_time
         = Some x12_content
      /\ x12_content <> ""
      /\ encode_utf8 x12_content = Some content
      /\ save_file_to_storage os fs content x12_filename "converted"
         = (fs', x12_path)
      /\ x12_path
         = Some (Pathlib.str (Pathlib.joinpath EDI_DIR x12_filename))
  else
    x12_path = None
    /\ ((fs' = fs
         /\ (fs xml_path = None
             \/ exists xml_content : string,
                  fs xml_path = Some xml_content
                  /\ (_convert_xml_to_x12_content parse_xml xml_content
                        current_time = None
                      \/ exists x12_content : string,
                           _convert_xml_to_x12_content parse_xml xml_content
                             current_time = Some x12_content
                           /\ encode_utf8 x12_content = None)))
        \/ exists xml_content x12_content content : string,
             fs xml_path = Some xml_content
             /\ _convert_xml_to_x12_content parse_xml xml_content current_time
                = Some x12_content
             /\ encode_utf8 x12_content = Some content
             /\ save_file_to_storage os fs content x12_filename "converted"
                = (fs', None)).
Proof.
  unfold convert_xml_to_x12.
  destruct (fs xml_path) as [xml_content|]; [|now auto].
  destruct (_convert_xml_to_x12_content parse_xml xml_content current_time)
    as [x12_content|] eqn:C.
  2:{ split; [reflexivity|]. left. split; [reflexivity|]. right. eauto. }
  rewrite (conversion_output_not_empty _ _ _ _ C).
  destruct (encode_utf8 x12_content) as [content|] eqn:E.
  2:{ split; [reflexivity|]. left. split; [reflexivity|]. right.
      exists xml_content. split; [reflexivity|]. right. eauto. }
  destruct (save_file_to_storage os fs content x12_filename "converted")
    as [fs1 [path|]] eqn:S.
  - exists xml_content, x12_content, content.
    split; [reflexivity|]. split; [exact C|].
    split.
    { intros ->. apply conversion_output_not_empty in C. discriminate C. }
    split; [exact E|]. split; [exact S|].
    apply save_file_to_storage_path in S. destruct S as [_ ->]. reflexivity.
  - split; [reflexivity|]. right.
    exists xml_content, x12_content, content. auto.
Qed.


(** ** Requests on a storage that gives back what was saved *)

Section ReadBack.

(** A text that was encoded decodes to itself. *)
Hypothesis utf8_round_trip :
  forall text content : string,
    encode_utf8 text = Some content -> decode_utf8 content = Some text.

(** What [save_file_to_storage] reports as saved is read under the path
    that it returned. *)
Hypothesis saved_is_read_back :
  forall (fs fs' : storage) (content filename subdirectory path : string),
    save_file_to_storage os fs content filename subdirectory = (fs', Some path) ->
    fs' path = Some content.

(** What a write that returned has written is read under its path. *)
Hypothesis written_is_read_back :
  forall (fs fs' : storage) (path content : string),
    write_bytes os fs path content = (fs', true) -> fs' path = Some content.

(** X1.  On a storage that gives back what was saved, with a codec that
    decodes what it encoded, a request ends as created (201) along one path
    only: the XML passes its first validation, the conversion succeeds, the
    text of the encoder fails the format validation, the advisor returns a
    changed text and this text passes the second validation.  The accepted
    text, stored encoded under
    converted/<tracking id>_converted_ai_fixed.x12, is the advisor's and
    differs from the encoder's as it is read back; without a completion
    from the advisor no request is created. *)
Theorem created_only_after_edi_correction (fs : storage)
  (content_type filename content : string) (strict_validation : bool)
  (tracking_id : N) (current_time : PyDate.datetime) :
  let r :=
    _process_invoice_internal parse_xml decode_utf8 encode_utf8 complete_xml
      complete_edi os fs content_type filename content strict_validation
      tracking_id current_time in
  ending r = Created ->
  trace r
  = [Validate XML_VALIDATION true; Convert true;
     Validate EDI_FORMAT_VALIDATION false;
     Correct EDI_FORMAT_VALIDATION true;
     Validate EDI_FORMAT_VALIDATION true; SaveSuccess]
  /\ exists encoded corrected stored : string,
       _convert_xml_to_x12_content parse_xml content current_time = Some encoded
       /\ encode_utf8 corrected = Some stored
       /\ files r ("converted/" ++ UUID.str tracking_id
                   ++ "_converted_ai_fixed.x12")
          = Some stored
       /\ corrected <> Py.universal_newlines encoded
       /\ fst (fst (validate_edi_content corrected)) = true
       /\ exists (xml_text : string) (errors : list ErrorDetail),
            complete_edi xml_text (Py.universal_newlines encoded) errors true
            <> None.
Proof.
  intros r. subst r. unfold _process_invoice_internal.
  destruct (String.eqb content_type "text/xml"); cbn [negb];
    [|discriminate].
  destruct (Py.truthy filename); cbn [negb]; [|discriminate].
  set (xml_filename := UUID.str tracking_id ++ "_" ++ filename).
  destruct (save_file_to_storage os fs content xml_filename "uploads")
    as [fs1 [xml_path|]] eqn:S1; [|discriminate].
  pose proof (saved_is_read_back _ _ _ _ _ _ S1) as R1.
  destruct (validate_xml parse_xml fs1 xml_path strict_validation)
    as [[xml_valid xml_message] xml_warnings] eqn:V1.
  cbn [fst negb].
  destruct xml_valid; cbn [negb].
  - unfold convert_xml_to_x12. rewrite R1.
    destruct (_convert_xml_to_x12_content parse_xml content current_time)
      as [x12_content|] eqn:C.
    2:{ destruct (read_text decode_utf8 fs1 xml_path); discriminate. }
    rewrite (conversion_output_not_empty _ _ _ _ C).
    destruct (encode_utf8 x12_content) as [encoded_bytes|] eqn:E.
    2:{ destruct (read_text decode_utf8 fs1 xml_path); discriminate. }
    destruct (save_file_to_storage os fs1 encoded_bytes
                (UUID.str tracking_id ++ "_converted.x12") "converted")
      as [fs2 [x12_path|]] eqn:S2.
    2:{ destruct (read_text decode_utf8 fs2 xml_path); discriminate. }
    pose proof (saved_is_read_back _ _ _ _ _ _ S2) as R2.
    apply save_file_to_storage_path in S2. destruct S2 as [_ S2].
    change (String.eqb "converted" "uploads") with false in S2.
    cbv iota in S2. rewrite converted_path in S2.
    pose proof (utf8_round_trip _ _ E) as D.
    unfold validate_edi_format. rewrite R2, D.
    pose proof (conversion_output_rejected _ _ _ _ C) as Rej.
    destruct (validate_edi_content x12_content)
      as [[edi_format_valid edi_format_message] edi_format_details].
    cbn [fst] in Rej. subst edi_format_valid. cbn [negb].
    unfold edi_correction.
    destruct (read_text decode_utf8 fs2 xml_path) as [xml_text|e];
      [|discriminate].
    rewrite R2. cbn [is_some]. unfold read_text. rewrite R2, D.
    destruct (auto_fix_edi_with_ai _ _ _ _ _) as [was_fixed corrected_edi] eqn:A.
    apply auto_fix_edi_with_ai_inv in A.
    destruct was_fixed; [|discriminate].
    subst x12_path.
    destruct (ai_fixed_path tracking_id) as [W1 W2]. cbv zeta in W1.
    rewrite W1, W2.
    unfold write_text.
    destruct (encode_utf8 corrected_edi) as [stored|] eqn:E2; [|discriminate].
    destruct (write_bytes os fs2 _ stored) as [fs3 written] eqn:W3.
    destruct written; [|discriminate].
    pose proof (written_is_read_back _ _ _ _ W3) as R3.
    cbv beta iota. unfold validate_edi_format.
    rewrite R3, (utf8_round_trip _ _ E2).
    destruct (validate_edi_content corrected_edi) as [[retry ?] ?] eqn:V2.
    destruct retry; cbn [negb]; [|discriminate].
    intros _. split; [reflexivity|].
    exists x12_content, corrected_edi, stored. cbn [files].
    split; [reflexivity|]. split; [exact E2|]. split; [exact R3|].
    split; [exact (proj1 (proj2 A))|].
    split; [rewrite V2; reflexivity|].
    eexists. eexists. exact (proj2 (proj2 A)).
  - destruct (xml_correction _ _ _ _ _ _ _ _ _ _)
      as [[fs2 [[xml_valid ?] ?]] calls].
    destruct xml_valid; discriminate.
Qed.

End ReadBack.

(** X7.  In lenient mode, when the storage has saved an upload of type
    text/xml that has a file name and a content that is not empty and
    well-formed, and gives this content back, the upload always passes the
    XML validation, whatever its warnings, and goes to the conversion with
    no call of the XML advisor and no second XML validation.  The
    conversion succeeds exactly when the encoder returns segments, their
    text can be encoded and the storage saves it.  A failed conversion ends
    the request with an exception (500) and nothing more is called: the
    failure branch reads the upload as text and then builds a path from
    [None].  When the encoder raises, the exception is [TypeError] for a
    content that can be decoded and [UnicodeDecodeError] for one that
    cannot. *)
Theorem well_formed_upload_reaches_conversion (fs fs1 : storage)
  (filename content xml_path : string) (root : ET.Element) (tracking_id : N)
  (current_time : PyDate.datetime) :
  filename <> "" -> content <> "" -> parse_xml content = Parsed root ->
  save_file_to_storage os fs content (UUID.str tracking_id ++ "_" ++ filename)
    "uploads" = (fs1, Some xml_path) ->
  fs1 xml_path = Some content ->
  let r :=
    _process_invoice_internal parse_xml decode_utf8 encode_utf8 complete_xml
      complete_edi os fs "text/xml" filename content false tracking_id
      current_time in
  let converted :=
    convert_xml_to_x12 parse_xml encode_utf8 os fs1 xml_path
      (UUID.str tracking_id ++ "_converted.x12") current_time in
  let edi_success := fst (fst (snd converted)) in
  exists rest : list event,
    trace r
    = Validate XML_VALIDATION true :: Convert edi_success :: rest
    /\ stage_events XML_VALIDATION rest = []
    /\ (edi_success = true
        <-> exists (segs : list string) (encoded : string),
              x12_segments root current_time = Ok segs
              /\ encode_utf8 (Py.join newline segs) = Some encoded
              /\ snd (save_file_to_storage os fs1 encoded
                        (UUID.str tracking_id ++ "_converted.x12") "converted")
                 <> None)
    /\ (edi_success = false ->
        rest = [] /\ files r = fst converted
        /\ ending r
           = InternalServerError
               match read_text decode_utf8 (fst converted) xml_path with
               | Raise e => e
               | Ok _ => TypeError
               end)
    /\ (forall e : exn,
          x12_segments root current_time = Raise e ->
          edi_success = false /\ files r = fs1
          /\ ending r
             = InternalServerError
                 match decode_utf8 content with
                 | Some _ => TypeError
                 | None => UnicodeDecodeError
                 end).
Proof.
  intros Nf Nc P S R1 r converted edi_success.
  subst r converted edi_success. unfold _process_invoice_internal.
  change (String.eqb "text/xml" "text/xml") with true.
  assert (F : Py.truthy filename = true)
    by (destruct filename; [contradiction | reflexivity]).
  rewrite F. cbn [negb]. cbv zeta. rewrite S.
  assert (V : validate_xml parse_xml fs1 xml_path false
              = (true, "XML validation passed - file is well-formed",
                 _perform_enhanced_xml_validation root false)).
  { unfold validate_xml. rewrite R1.
    destruct content as [|c1 content']; [contradiction|].
    cbn [Py.len String.length Nat.eqb]. rewrite P. reflexivity. }
  rewrite V. cbn [fst negb].
  destruct (convert_xml_to_x12 parse_xml encode_utf8 os fs1 xml_path
              (UUID.str tracking_id ++ "_converted.x12") current_time)
    as [fs2 [[edi_success edi_message] x12_path]] eqn:CV.
  cbn [fst snd].
  unfold convert_xml_to_x12 in CV. rewrite R1 in CV.
  unfold _convert_xml_to_x12_content, fromstring in CV. rewrite P in CV.
  cbn [bind] in CV.
  destruct (x12_segments root current_time) as [segs|e] eqn:X.
  - cbn [bind except_None] in CV.
    assert (C : _convert_xml_to_x12_content parse_xml content current_time
                = Some (Py.join newline segs)).
    { unfold _convert_xml_to_x12_content, fromstring. rewrite P.
      cbn [bind]. rewrite X. reflexivity. }
    rewrite (conversion_output_not_empty _ _ _ _ C) in CV.
    destruct (encode_utf8 (Py.join newline segs)) as [encoded|] eqn:E.
    2:{ apply (f_equal (fun x => (fst x, fst (fst (snd x)), snd (snd x))))
          in CV.
        cbn [fst snd] in CV. injection CV as <- <- <-.
        exists []. split.
        { destruct (read_text decode_utf8 fs1 xml_path); reflexivity. }
        split; [reflexivity|]. split.
        { split; [discriminate|].
          intros (segs' & encoded' & X' & E' & _).
          apply Ok_inj in X'. subst segs'. congruence. }
        split; [|discriminate].
        intros _. split; [reflexivity|].
        destruct (read_text decode_utf8 fs1 xml_path);
          (split; reflexivity). }
    destruct (save_file_to_storage os fs1 encoded
                (UUID.str tracking_id ++ "_converted.x12") "converted")
      as [fs2' [path|]] eqn:S2;
      apply (f_equal (fun x => (fst x, fst (fst (snd x)), snd (snd x)))) in CV;
      cbn [fst snd] in CV; injection CV as <- <- <-.
    + destruct (validate_edi_format decode_utf8 fs2' path)
        as [[edi_format_valid edi_format_message] edi_format_details].
      assert (I : true = true
                  <-> exists (segs0 : list string) (encoded0 : string),
                        Ok segs = Ok segs0
                        /\ encode_utf8 (Py.join newline segs0) = Some encoded0
                        /\ snd (save_file_to_storage os fs1 encoded0
                                  (UUID.str tracking_id ++ "_converted.x12")
                                  "converted") <> None).
      { split; [|reflexivity]. intros _. exists segs, encoded.
        split; [reflexivity|]. split; [exact E|]. rewrite S2. discriminate. }
      destruct edi_format_valid; cbn [negb].
      { eexists. split; [reflexivity|]. split; [reflexivity|].
        split; [exact I|]. split; discriminate. }
      destruct (edi_correction _ _ _ _ _ _ _ _) as [[fs3 retry] calls] eqn:EC.
      apply (edi_correction_calls parse_xml _ _ complete_xml) in EC.
      assert (Q : stage_events XML_VALIDATION calls = []).
      { destruct EC as [[_ EC]|EC].
        - cbn [In] in EC.
          repeat match type of EC with
                 | _ \/ _ => destruct EC as [EC|EC]
                 end; try contradiction; subst calls; reflexivity.
        - subst calls. reflexivity. }
      destruct retry; cbn [negb trace app];
        (eexists; split; [reflexivity|]; split;
         [ unfold stage_events in *; cbn [app filter of_stage stage_eqb];
           rewrite filter_app, Q; reflexivity
         | split; [exact I | split; discriminate]]).
    + exists []. split.
      { destruct (read_text decode_utf8 fs2' xml_path); reflexivity. }
      split; [reflexivity|]. split.
      { split; [discriminate|].
        intros (segs' & encoded' & X' & E' & N).
        apply Ok_inj in X'. subst segs'.
        assert (encoded' = encoded) by congruence. subst encoded'.
        rewrite S2 in N. now contradiction N. }
      split; [|discriminate].
      intros _. split; [reflexivity|].
      destruct (read_text decode_utf8 fs2' xml_path); (split; reflexivity).
  - cbn [bind except_None] in CV.
    apply (f_equal (fun x => (fst x, fst (fst (snd x)), snd (snd x)))) in CV.
    cbn [fst snd] in CV. injection CV as <- <- <-.
    assert (RT : read_text decode_utf8 fs1 xml_path
                 = match decode_utf8 content with
                   | Some text => Ok (Py.universal_newlines text)
                   | None => Raise UnicodeDecodeError
                   end).
    { unfold read_text. rewrite R1. reflexivity. }
    rewrite RT.
    exists []. split.
    { destruct (decode_utf8 content); reflexivity. }
    split; [reflexivity|]. split.
    { split; [discriminate|]. intros (segs' & ? & X' & _). discriminate X'. }
    split.
    + intros _. split; [reflexivity|].
      destruct (decode_utf8 content); (split; reflexivity).
    + intros e' _. split; [reflexivity|].
      destruct (decode_utf8 content); (split; reflexivity).
Qed.
End PipelineRuns.

(** The sample codec and the sample operating system give back what they
    were given. *)
Lemma sample_codec_round_trip (text content : string) :
  sample_codec text = Some content -> sample_codec content = Some text.
Proof.
  unfold sample_codec. destruct (is_ascii text) eqn:A; [|discriminate].
  intros H. apply (f_equal (fun o => match o with Some t => t | None => text end))
    in H.
  subst content. now rewrite A.
Qed.

Lemma sample_os_written_is_read_back (fs fs' : storage) (path content : string) :
  write_bytes sample_os fs path content = (fs', true) -> fs' path = Some content.
Proof.
  cbn [write_bytes sample_os]. intros H. apply (f_equal fst) in H.
  cbn [fst] in H. subst fs'. unfold with_file. now rewrite String.eqb_refl.
Qed.

Lemma sample_os_saved_is_read_back (fs fs' : storage)
  (content filename subdirectory path : string) :
  save_file_to_storage sample_os fs content filename subdirectory
  = (fs', Some path) ->
  fs' path = Some content.
Proof.
  unfold save_file_to_storage. cbn [mkdir getcwd write_bytes sample_os negb].
  intros H.
  pose proof (f_equal fst H) as H1.
  pose proof (f_equal (fun x => match snd x with Some p => p | None => path end) H)
    as H2.
  cbn [fst snd] in H1, H2. subst fs' path.
  unfold with_file. now rewrite String.eqb_refl.
Qed.

Lemma created_only_after_edi_correction_witness :
  ending sample_created_run = Created
  /\ trace sample_created_run
     = [Validate XML_VALIDATION true; Convert true;
        Validate EDI_FORMAT_VALIDATION false;
        Correct EDI_FORMAT_VALIDATION true;
        Validate EDI_FORMAT_VALIDATION true; SaveSuccess].
Proof.
  assert (E : ending sample_created_run = Created) by (vm_compute; reflexivity).
  split; [exact E|].
  exact (proj1 (created_only_after_edi_correction sample_parser sample_codec
           sample_codec (fun _ _ => None)
           (fun _ _ _ _ => Some sample_fixed_text) sample_os
           sample_codec_round_trip sample_os_saved_is_read_back
           sample_os_written_is_read_back (fun _ => None)
           "text/xml" "invoice.xml" "<Invoice/>" false sample_tracking_id
           sample_time E)).
Defined.

Lemma request_writes_under_its_tracking_id_witness :
  files sample_created_run "uploads/other.xml" = None.
Proof.
  apply (request_writes_under_its_tracking_id sample_parser sample_codec
           sample_codec (fun _ _ => None)
           (fun _ _ _ _ => Some sample_fixed_text) sample_os (fun _ => None)
           "text/xml" "invoice.xml" "<Invoice/>" false sample_tracking_id
           sample_time (fun fs => fs "uploads/other.xml" = None)).
  - intros fs d _ H. exact H.
  - intros fs path content I H.
    cbn [write_bytes sample_os fst]. unfold with_file.
    vm_compute in I.
    repeat match type of I with
           | _ \/ _ => destruct I as [I|I]
           end;
      try contradiction; subst path; vm_compute; exact H.
  - reflexivity.
Defined.

Lemma failed_xml_validation_ends_the_request_witness :
  hd_error (trace sample_failed_run) = Some (Validate XML_VALIDATION false)
  /\ filter is_conversion (trace sample_failed_run) = []
  /\ ending sample_failed_run = ProcessingFailed XML_VALIDATION.
Proof.
  assert (H : hd_error (trace sample_failed_run)
              = Some (Validate XML_VALIDATION false)) by (vm_compute; reflexivity).
  split; [exact H|].
  split.
  - exact (proj1 (failed_xml_validation_ends_the_request sample_parser
             sample_codec sample_codec (fun _ _ => None) (fun _ _ _ _ => None)
             sample_os (fun _ => None)
             "text/xml" "invoice.xml" "<Invoice" false sample_tracking_id
             sample_time H)).
  - vm_compute. reflexivity.
Defined.

Lemma well_formed_upload_reaches_conversion_witness :
  let r :=
    _process_invoice_internal sample_parser sample_codec sample_codec
      (fun _ _ => None) (fun _ _ _ _ => None) sample_os (fun _ => None)
      "text/xml" "invoice.xml" "<Invoice/>" false sample_tracking_id
      sample_time in
  exists rest : list event,
    trace r = Validate XML_VALIDATION true :: Convert true :: rest
    /\ stage_events XML_VALIDATION rest = [].
Proof.
  intros r.
  destruct (well_formed_upload_reaches_conversion sample_parser sample_codec
              sample_codec (fun _ _ => None) (fun _ _ _ _ => None) sample_os
              (fun _ => None)
              (with_file (fun _ => None)
                 "uploads/7f9c2ba4-e88f-427d-9160-45507a4e9f31_invoice.xml"
                 "<Invoice/>")
              "invoice.xml" "<Invoice/>"
              "uploads/7f9c2ba4-e88f-427d-9160-45507a4e9f31_invoice.xml"
              sample_root sample_tracking_id sample_time
              ltac:(discriminate) ltac:(discriminate) eq_refl
              ltac:(vm_compute; reflexivity) eq_refl)
    as (rest & T & Q & _).
  exists rest. split; [exact T | exact Q].
Defined.

(* ===================================================================== *)
(** * Further properties: the encoder and the validators *)
(* ===================================================================== *)

(** ** Numerals of a fixed width *)

Lemma length_zfill (width : nat) (s : string) :
  String.length (Py.zfill width s) = Nat.max width (String.length s).
Proof.
  unfold Py.zfill, Py.len.
  destruct s as [|c r].
  - cbn [String.length]. rewrite length_repeat_char. lia.
  - destruct (Ascii.eqb c "+" || Ascii.eqb c "-");
      cbn [String.length]; rewrite ?str_length_app, length_repeat_char;
      cbn [String.length]; lia.
Qed.

Lemma forall_below (P : Z -> bool) (n : Z) :
  forallb P (map Z.of_nat (seq 0 (Z.to_nat n))) = true ->
  forall z : Z, 0 <= z < n -> P z = true.
Proof.
  intros H z R. rewrite forallb_forall in H. apply H.
  apply in_map_iff. exists (Z.to_nat z). split; [lia|].
  apply in_seq. lia.
Qed.

Lemma reads_back_spec (width : nat) (z : Z) :
  reads_back width z = true ->
  String.length (PyDate.pad width z) = width
  /\ Py.int (PyDate.pad width z) = Ok z.
Proof.
  unfold reads_back. intros H. apply andb_true_iff in H. destruct H as [L I].
  apply Nat.eqb_eq in L. split; [exact L|].
  destruct (Py.int (PyDate.pad width z)); [|discriminate I].
  apply Z.eqb_eq in I. now subst.
Qed.

Lemma pad_2 (z : Z) :
  0 <= z < 100 ->
  String.length (PyDate.pad 2 z) = 2%nat /\ Py.int (PyDate.pad 2 z) = Ok z.
Proof.
  intros R. apply reads_back_spec.
  apply (forall_below (reads_back 2) 100); [vm_compute; reflexivity | exact R].
Qed.

Lemma pad_4 (z : Z) :
  0 <= z < 10000 ->
  String.length (PyDate.pad 4 z) = 4%nat /\ Py.int (PyDate.pad 4 z) = Ok z.
Proof.
  intros R. apply reads_back_spec.
  apply (forall_below (reads_back 4) 10000); [vm_compute; reflexivity | exact R].
Qed.

(** From the year 1000 on, the numeral of a year has four digits. *)
Lemma str_of_year (z : Z) :
  1000 <= z < 10000 -> Py.str_of_Z z = PyDate.pad 4 z.
Proof.
  intros R.
  pose proof (forall_below
                (fun z => (z <? 1000)
                          || String.eqb (Py.str_of_Z z) (PyDate.pad 4 z))
                10000 ltac:(vm_compute; reflexivity) z ltac:(lia)) as H.
  cbv beta in H. apply orb_true_iff in H. destruct H as [H|H].
  - apply Z.ltb_lt in H. lia.
  - now apply String.eqb_eq.
Qed.

Lemma length_str_of_small_year (z : Z) :
  0 <= z < 1000 -> (String.length (Py.str_of_Z z) <= 3)%nat.
Proof.
  intros R.
  pose proof (forall_below
                (fun z => (String.length (Py.str_of_Z z) <=? 3)%nat)
                1000 ltac:(vm_compute; reflexivity) z R) as H.
  cbv beta in H. now apply Nat.leb_le.
Qed.

(** ** The dates accepted by [strptime] *)

Lemma in_range_digit (lo hi : N) (c : ascii) :
  Py.in_range lo hi c = true -> (48 <= lo)%N -> (hi <= 57)%N ->
  Py.isdigit c = true
  /\ Z.of_N lo - 48 <= Py.digit_val c <= Z.of_N hi - 48.
Proof.
  unfold Py.isdigit, Py.in_range, Py.digit_val. intros H L U.
  apply andb_true_iff in H. destruct H as [H1 H2].
  apply N.leb_le in H1. apply N.leb_le in H2.
  split; [|lia].
  apply andb_true_iff. split; apply N.leb_le; lia.
Qed.

Lemma int_one_digit (a : ascii) :
  Py.isdigit a = true -> Py.int (String a "") = Ok (Py.digit_val a).
Proof.
  intros Ha.
  destruct (digit_is_plain a Ha) as (Sa & Ma & Pa & _).
  unfold Py.int, Py.strip_num.
  cbn [Py.lstrip_by]. rewrite Sa.
  cbn [Py.rstrip_by]. rewrite Sa.
  cbn [Py.split_sign]. rewrite Ma, Pa.
  cbn [Py.digits_us]. rewrite Ha. reflexivity.
Qed.

Lemma int_space_digit (a : ascii) :
  Py.isdigit a = true -> Py.int (String " " (String a "")) = Ok (Py.digit_val a).
Proof.
  intros Ha.
  destruct (digit_is_plain a Ha) as (Sa & Ma & Pa & _).
  unfold Py.int, Py.strip_num.
  cbn [Py.lstrip_by].
  change (Py.isspace_num " ") with true. cbn iota. rewrite Sa.
  cbn [Py.rstrip_by]. rewrite Sa.
  cbn [Py.split_sign]. rewrite Ma, Pa.
  cbn [Py.digits_us]. rewrite Ha. reflexivity.
Qed.

Lemma int_four_digits_value (a b c d : ascii) :
  Py.isdigit a = true -> Py.isdigit b = true ->
  Py.isdigit c = true -> Py.isdigit d = true ->
  Py.int (String a (String b (String c (String d ""))))
  = Ok (((Py.digit_val a * 10 + Py.digit_val b) * 10 + Py.digit_val c) * 10
        + Py.digit_val d).
Proof.
  intros Ha Hb Hc Hd.
  destruct (digit_is_plain a Ha) as (Sa & Ma & Pa & _).
  destruct (digit_is_plain b Hb) as (Sb & _ & _ & _).
  destruct (digit_is_plain c Hc) as (Sc & _ & _ & _).
  destruct (digit_is_plain d Hd) as (Sd & _ & _ & _).
  unfold Py.int, Py.strip_num.
  cbn [Py.lstrip_by]. rewrite Sa.
  cbn [Py.rstrip_by]. rewrite Sd.
  cbn [Py.split_sign]. rewrite Ma, Pa.
  cbn [Py.digits_us]. rewrite Ha, Hb, Hc, Hd. reflexivity.
Qed.

Lemma eqb_digit (a x : ascii) :
  Ascii.eqb a x = true -> Py.isdigit x = true ->
  Py.isdigit a = true /\ Py.digit_val a = Py.digit_val x.
Proof. intros E D. apply Ascii.eqb_eq in E. now subst. Qed.

Ltac digit_facts :=
  repeat match goal with
         | H : _ && _ = true |- _ => apply andb_true_iff in H; destruct H
         | H : Ascii.eqb ?a ?x = true |- _ =>
             apply (fun E => eqb_digit a x E eq_refl) in H;
             let D := fresh "D" in let V := fresh "V" in
             destruct H as [D V]; cbn in V
         | H : Py.in_range ?lo ?hi ?c = true |- _ =>
             apply in_range_digit in H; [|lia|lia];
             let D := fresh "D" in let V := fresh "V" in
             destruct H as [D V]; cbn in V
         end.

Lemma match_month_value (s ms r : string) (m : Z) :
  PyDate.match_month s = Some (ms, r) -> Py.int ms = Ok m -> 1 <= m <= 12.
Proof.
  unfold PyDate.match_month.
  destruct s as [|a [|b s]]; [discriminate| |].
  - destruct (Py.in_range 49 57 a) eqn:A; [|discriminate].
    intros H; injection H as <- <-. digit_facts.
    rewrite int_one_digit by assumption. intros I; injection I as <-. lia.
  - destruct (Ascii.eqb a "1" && Py.in_range 48 50 b) eqn:A.
    { intros H; injection H as <- <-. digit_facts.
      rewrite int_two_digits by assumption. intros I; injection I as <-. lia. }
    destruct (Ascii.eqb a "0" && Py.in_range 49 57 b) eqn:B.
    { intros H; injection H as <- <-. digit_facts.
      rewrite int_two_digits by assumption. intros I; injection I as <-. lia. }
    destruct (Py.in_range 49 57 a) eqn:C; [|discriminate].
    intros H; injection H as <- <-. digit_facts.
    rewrite int_one_digit by assumption. intros I; injection I as <-. lia.
Qed.

Lemma match_day_value (s ds r : string) (d : Z) :
  PyDate.match_day s = Some (ds, r) -> Py.int ds = Ok d -> 1 <= d <= 31.
Proof.
  unfold PyDate.match_day.
  destruct s as [|a [|b s]]; [discriminate| |].
  - destruct (Py.in_range 49 57 a) eqn:A; [|discriminate].
    intros H; injection H as <- <-. digit_facts.
    rewrite int_one_digit by assumption. intros I; injection I as <-. lia.
  - destruct (Ascii.eqb a "3" && Py.in_range 48 49 b) eqn:A.
    { intros H; injection H as <- <-. digit_facts.
      rewrite int_two_digits by assumption. intros I; injection I as <-. lia. }
    destruct (Py.in_range 49 50 a && Py.isdigit b) eqn:B.
    { intros H; injection H as <- <-.
      apply andb_true_iff in B. destruct B as [B Db].
      pose proof (in_range_digit 48 57 b Db ltac:(lia) ltac:(lia)) as [_ Vb].
      digit_facts.
      rewrite int_two_digits by assumption. intros I; injection I as <-.
      cbn in Vb. lia. }
    destruct (Ascii.eqb a "0" && Py.in_range 49 57 b) eqn:C.
    { intros H; injection H as <- <-. digit_facts.
      rewrite int_two_digits by assumption. intros I; injection I as <-. lia. }
    destruct (Py.in_range 49 57 a) eqn:D.
    { intros H; injection H as <- <-. digit_facts.
      rewrite int_one_digit by assumption. intros I; injection I as <-. lia. }
    destruct (Ascii.eqb a " " && Py.in_range 49 57 b) eqn:E; [|discriminate].
    intros H; injection H as <- <-.
    apply andb_true_iff in E. destruct E as [E Rb].
    apply Ascii.eqb_eq in E. subst a. digit_facts.
    rewrite int_space_digit by assumption. intros I; injection I as <-. lia.
Qed.

Lemma match_year_value (s ys r : string) (y : Z) :
  PyDate.match_year s = Some (ys, r) -> Py.int ys = Ok y -> 0 <= y <= 9999.
Proof.
  unfold PyDate.match_year.
  destruct s as [|a [|b [|c [|d [|h s]]]]]; try discriminate.
  destruct (Py.isdigit a && Py.isdigit b && Py.isdigit c && Py.isdigit d
            && Ascii.eqb h "-") eqn:A; [|discriminate].
  intros H; injection H as <- <-.
  rewrite !andb_true_iff in A. destruct A as [[[[Da Db] Dc] Dd] _].
  rewrite int_four_digits_value by assumption. intros I; injection I as <-.
  pose proof (in_range_digit 48 57 a Da ltac:(lia) ltac:(lia)) as [_ Va].
  pose proof (in_range_digit 48 57 b Db ltac:(lia) ltac:(lia)) as [_ Vb].
  pose proof (in_range_digit 48 57 c Dc ltac:(lia) ltac:(lia)) as [_ Vc].
  pose proof (in_range_digit 48 57 d Dd ltac:(lia) ltac:(lia)) as [_ Vd].
  cbn in Va, Vb, Vc, Vd. lia.
Qed.

Lemma days_in_month_le_31 (y m : Z) : PyDate.days_in_month y m <= 31.
Proof.
  unfold PyDate.days_in_month.
  destruct (m =? 2); [destruct (PyDate.is_leap y); lia|].
  destruct ((m =? 4) || (m =? 6) || (m =? 9) || (m =? 11)); lia.
Qed.

(** A date returned by [strptime] is a day of the calendar at midnight. *)
Lemma strptime_range (s : string) (d : PyDate.datetime) :
  PyDate.strptime s = Ok d ->
  1 <= PyDate.year d <= 9999
  /\ 1 <= PyDate.month d <= 12
  /\ 1 <= PyDate.day d <= PyDate.days_in_month (PyDate.year d) (PyDate.month d)
  /\ PyDate.hour d = 0 /\ PyDate.minute d = 0.
Proof.
  unfold PyDate.strptime.
  destruct (PyDate.match_year s) as [[ys r1]|] eqn:Y; [|discriminate].
  destruct (PyDate.match_month r1) as [[ms [|h r2]]|] eqn:M; try discriminate.
  destruct (Ascii.eqb h "-"); [|discriminate].
  destruct (PyDate.match_day r2) as [[ds [|? ?]]|] eqn:D; try discriminate.
  intros H.
  bind_inv H y Hy. bind_inv H m Hm. bind_inv H dd Hd.
  destruct ((1 <=? y) && (dd <=? PyDate.days_in_month y m)) eqn:R;
    [|discriminate H].
  apply Ok_inj in H. subst d. cbn [PyDate.year PyDate.month PyDate.day
                                    PyDate.hour PyDate.minute].
  apply andb_true_iff in R. destruct R as [R1 R2].
  apply Z.leb_le in R1. apply Z.leb_le in R2.
  pose proof (match_year_value _ _ _ _ Y Hy).
  pose proof (match_month_value _ _ _ _ M Hm).
  pose proof (match_day_value _ _ _ _ D Hd).
  lia.
Qed.

(** The eight digits written for a date are read back by the validator. *)
Lemma strftime_Ymd_accepted (d : PyDate.datetime) :
  1000 <= PyDate.year d <= 9999 -> 1 <= PyDate.month d <= 12 ->
  1 <= PyDate.day d <= 31 ->
  date_accepted (PyDate.strftime_Ymd d).
Proof.
  intros Ry Rm Rd. unfold PyDate.strftime_Ymd.
  rewrite str_of_year by lia.
  destruct (pad_4 (PyDate.year d)) as [Ly Iy]; [lia|].
  destruct (pad_2 (PyDate.month d)) as [Lm Im]; [lia|].
  destruct (pad_2 (PyDate.day d)) as [Ld Id]; [lia|].
  set (a := PyDate.pad 4 (PyDate.year d)) in *.
  set (b := PyDate.pad 2 (PyDate.month d)) in *.
  set (c := PyDate.pad 2 (PyDate.day d)) in *.
  split.
  - rewrite !str_length_app. lia.
  - exists (PyDate.year d), (PyDate.month d), (PyDate.day d).
    unfold Py.slice.
    change (4 - 0)%nat with 4%nat. change (6 - 4)%nat with 2%nat.
    change (8 - 6)%nat with 2%nat.
    assert (D4 : Py.drop 4 (a ++ b ++ c) = b ++ c).
    { rewrite <- Ly. apply drop_app_exact. }
    assert (D6 : Py.drop 6 (a ++ b ++ c) = c).
    { rewrite <- str_app_assoc.
      replace 6%nat with (String.length (a ++ b))
        by (rewrite str_length_app; lia).
      apply drop_app_exact. }
    assert (T4 : Py.take 4 (Py.drop 0 (a ++ b ++ c)) = a).
    { change (Py.drop 0 (a ++ b ++ c)) with (a ++ b ++ c).
      rewrite <- Ly. apply take_app_exact. }
    rewrite T4, D4, D6.
    assert (T2 : Py.take 2 (b ++ c) = b).
    { rewrite <- Lm. apply take_app_exact. }
    assert (T2' : Py.take 2 c = c).
    { rewrite <- (str_app_nil_r c) at 1. rewrite <- Ld at 1.
      apply take_app_exact. }
    rewrite T2, T2'. repeat split; try assumption; lia.
Qed.

(** Before the year 1000 the year is written on fewer than four digits. *)
Lemma strftime_Ymd_short (d : PyDate.datetime) :
  0 <= PyDate.year d < 1000 -> 1 <= PyDate.month d <= 12 ->
  1 <= PyDate.day d <= 31 ->
  (String.length (PyDate.strftime_Ymd d) < 8)%nat.
Proof.
  intros Ry Rm Rd. unfold PyDate.strftime_Ymd.
  destruct (pad_2 (PyDate.month d)) as [Lm _]; [lia|].
  destruct (pad_2 (PyDate.day d)) as [Ld _]; [lia|].
  pose proof (length_str_of_small_year (PyDate.year d) Ry).
  rewrite !str_length_app. lia.
Qed.

(** What is written for a date that [strptime] has returned. *)
Lemma strptime_written (s : string) (d : PyDate.datetime) :
  PyDate.strptime s = Ok d -> written_date d (PyDate.strftime_Ymd d).
Proof.
  intros H. apply strptime_range in H.
  pose proof (days_in_month_le_31 (PyDate.year d) (PyDate.month d)).
  split; [reflexivity|]. split; intros Y.
  - apply strftime_Ymd_accepted; lia.
  - apply strftime_Ymd_short; lia.
Qed.

(** ** The control numbers *)

Lemma control_number_width (x : option ET.Element) (width : nat)
  (default t : string) :
  (String.length default <= width)%nat ->
  control_number x width default = Ok t -> String.length t = width.
Proof.
  intros D. unfold control_number.
  destruct x as [e|].
  - destruct (ET.truth e).
    + destruct (ET.text e) as [s|]; [|discriminate].
      intros H. apply Ok_inj in H. subst t.
      rewrite length_zfill, length_take. lia.
    + intros H. apply Ok_inj in H. subst t. rewrite length_zfill. lia.
  - intros H. apply Ok_inj in H. subst t. rewrite length_zfill. lia.
Qed.

Lemma control_number_cases (x : option ET.Element) (width : nat)
  (default : string) :
  if lacks_text x then control_number x width default = Raise TypeError
  else exists t : string, control_number x width default = Ok t.
Proof.
  unfold control_number, lacks_text.
  destruct x as [e|]; [|eauto].
  destruct (ET.truth e); cbn [andb]; [|eauto].
  destruct (ET.text e); cbn [is_some negb]; eauto.
Qed.

Lemma control_numbers_width (root : ET.Element) (c : ControlNumbers) :
  _X12ControlNumbers root = Ok c ->
  String.length (interchange_control c) = 9%nat
  /\ String.length (group_control c) = 6%nat
  /\ String.length (transaction_control c) = 4%nat.
Proof.
  unfold _X12ControlNumbers. intros H.
  bind_inv H i Hi. bind_inv H g Hg. bind_inv H t Ht.
  apply Ok_inj in H. subst c.
  cbn [interchange_control group_control transaction_control].
  apply control_number_width in Hi; [|cbn; lia].
  apply control_number_width in Hg; [|cbn; lia].
  apply control_number_width in Ht; [|cbn; lia].
  auto.
Qed.

(** X8.  Whenever the control numbers can be derived, the interchange,
    group and transaction control numbers have exactly 9, 6 and 4
    characters, so the [zfill(9)] of the ISA segment changes nothing. *)
Theorem control_numbers_have_fixed_width (root : ET.Element)
  (control_numbers : ControlNumbers) :
  _X12ControlNumbers root = Ok control_numbers ->
  String.length (interchange_control control_numbers) = 9%nat
  /\ String.length (group_control control_numbers) = 6%nat
  /\ String.length (transaction_control control_numbers) = 4%nat
  /\ Py.zfill 9 (interchange_control control_numbers)
     = interchange_control control_numbers.
Proof.
  intros H. destruct (control_numbers_width _ _ H) as (I & G & T).
  repeat split; try assumption.
  unfold Py.zfill, Py.len. rewrite I. cbn [Nat.sub Py.repeat_char].
  destruct (interchange_control control_numbers) as [|c r]; [reflexivity|].
  destruct (Ascii.eqb c "+" || Ascii.eqb c "-"); reflexivity.
Qed.

Lemma control_numbers_have_fixed_width_witness :
  _X12ControlNumbers sample_root = Ok (mk_control "000000000" "000000" "0000")
  /\ String.length "000000000" = 9%nat.
Proof.
  assert (H : _X12ControlNumbers sample_root
              = Ok (mk_control "000000000" "000000" "0000"))
    by (vm_compute; reflexivity).
  split; [exact H|].
  exact (proj1 (control_numbers_have_fixed_width sample_root _ H)).
Defined.

(** X9.  The derivation of the control numbers fails exactly when one of
    the three identifier elements is found with child elements and without
    text: it raises [TypeError], and so does the construction of the
    segments.  In every other case it succeeds. *)
Theorem control_numbers_fail_without_text (root : ET.Element) :
  let invoice_id := ET.find root [ET.Self; ET.Descendant (cbc "ID")] in
  let order_ref :=
    ET.find root [ET.Self; ET.Descendant (cac "OrderReference");
                  ET.Child (cbc "ID")] in
  let originator_ref :=
    ET.find root [ET.Self; ET.Descendant (cac "OriginatorDocumentReference");
                  ET.Child (cbc "ID")] in
  if lacks_text invoice_id || lacks_text order_ref || lacks_text originator_ref
  then _X12ControlNumbers root = Raise TypeError
       /\ forall current_time : PyDate.datetime,
            x12_segments root current_time = Raise TypeError
  else exists control_numbers : ControlNumbers,
         _X12ControlNumbers root = Ok control_numbers.
Proof.
  intros invoice_id order_ref originator_ref.
  assert (C : if lacks_text invoice_id || lacks_text order_ref
                 || lacks_text originator_ref
              then _X12ControlNumbers root = Raise TypeError
              else exists c, _X12ControlNumbers root = Ok c).
  { unfold _X12ControlNumbers.
    fold invoice_id order_ref originator_ref.
    pose proof (control_number_cases invoice_id 9 "000000000") as A.
    pose proof (control_number_cases order_ref 6 "000000") as B.
    pose proof (control_number_cases originator_ref 4 "0000") as C.
    destruct (lacks_text invoice_id); cbn [orb].
    { rewrite A. reflexivity. }
    destruct A as [i ->]. cbn [bind].
    destruct (lacks_text order_ref); cbn [orb].
    { rewrite B. reflexivity. }
    destruct B as [g ->]. cbn [bind].
    destruct (lacks_text originator_ref).
    { rewrite C. reflexivity. }
    destruct C as [t ->]. cbn [bind]. eauto. }
  destruct (lacks_text invoice_id || lacks_text order_ref
            || lacks_text originator_ref); [|exact C].
  split; [exact C|].
  intros current_time. unfold x12_segments. rewrite C. reflexivity.
Qed.

(** ** The amounts *)

Lemma parse_Raise (s : string) (e : exn) :
  PyFloat.parse s = Raise e -> e = ValueError.
Proof.
  unfold PyFloat.parse.
  destruct (PyFloat.remove_us _ _) as [t|]; [|now intros [= <-]].
  destruct (Py.split_sign t) as [neg body].
  unfold PyFloat.parse_unsigned.
  destruct (String.eqb _ _ || String.eqb _ _); [discriminate|].
  destruct (String.eqb _ _); [discriminate|].
  destruct (PyFloat.parse_decimal body) as [[m e10]|];
    [discriminate | now intros [= <-]].
Qed.

Lemma format_number_cases (number_str : string) (decimal_places : nat) :
  (exists z : Z, _format_number number_str decimal_places = Ok (Py.str_of_Z z))
  \/ _format_number number_str decimal_places = Raise OverflowError.
Proof.
  unfold _format_number.
  destruct (PyFloat.parse number_str) as [number|e] eqn:P; cbn [bind].
  2:{ apply parse_Raise in P. subst e. left. exists 0. reflexivity. }
  unfold PyFloat.of_int.
  destruct (PyFloat.of_ratio _ _ _) as [|neg|neg m e]; cbn [bind];
    try (right; reflexivity).
  - unfold PyFloat.round.
    destruct (PyFloat.mul number PyFloat.Nan) as [|n'|n' m' e']; cbn [bind].
    + left. exists 0. reflexivity.
    + right. reflexivity.
    + unfold Py.str.
      match goal with
      | |- context [if ?b then Raise ValueError else Ok (Py.str_of_Z ?z)] =>
          destruct b; [left; exists 0; reflexivity | left; exists z; reflexivity]
      end.
  - unfold PyFloat.round.
    destruct (PyFloat.mul number (PyFloat.Fin neg m e)) as [|n'|n' m' e'];
      cbn [bind].
    + left. exists 0. reflexivity.
    + right. reflexivity.
    + unfold Py.str.
      match goal with
      | |- context [if ?b then Raise ValueError else Ok (Py.str_of_Z ?z)] =>
          destruct b; [left; exists 0; reflexivity | left; exists z; reflexivity]
      end.
Qed.

(** X10.  [_format_number] returns the decimal numeral of an integer, the
    text that [str] gives for it; it is made of digits after at most a
    minus sign, so an amount never brings a separator into a segment.  The
    only exception it lets through is [OverflowError], and a text that
    [float] refuses gives "0". *)
Theorem format_number_gives_an_integer_numeral (number_str : string)
  (decimal_places : nat) :
  (forall t : string,
      _format_number number_str decimal_places = Ok t ->
      exists z : Z,
        t = Py.str_of_Z z
        /\ forall c : ascii,
             Py.isdigit c = false -> c <> "-"%char -> occurrences c t = O)
  /\ (forall e : exn,
        _format_number number_str decimal_places = Raise e -> e = OverflowError)
  /\ (forall e : exn,
        PyFloat.parse number_str = Raise e ->
        _format_number number_str decimal_places = Ok "0").
Proof.
  split; [|split].
  - intros t H.
    destruct (format_number_cases number_str decimal_places) as [[z E]|E];
      rewrite E in H; [|discriminate H].
    apply Ok_inj in H. subst t.
    exists z. split; [reflexivity|]. intros c D M.
    apply occurrences_str_of_Z; [exact D|].
    destruct (Ascii.eqb_spec "-" c) as [<-|_]; [now elim M | reflexivity].
  - intros e H.
    destruct (format_number_cases number_str decimal_places) as [[z E]|E];
      rewrite E in H; [discriminate H | now injection H as <-].
  - intros e P. unfold _format_number. rewrite P. cbn [bind].
    apply parse_Raise in P. subst e. reflexivity.
Qed.

(** ** The parties and their addresses *)

Lemma lookup_In (key : string) (a : list (string * string)) (v : string) :
  ET.lookup key a = Some v -> In v (map snd a).
Proof.
  induction a as [|[k w] a IH]; [discriminate|].
  cbn [ET.lookup map snd In].
  destruct (String.eqb k key); [intros [= ->]; now left | auto].
Qed.

(** X11.  The qualifier of a party is ZZ or one of the codes of the
    qualifier map; it has two characters, none of them a star, and the ISA
    segment writes it unchanged. *)
Theorem party_qualifier_has_2_characters (root : ET.Element)
  (party_path : ET.path) :
  let party := _extract_party_info root party_path in
  (qualifier party = "ZZ" \/ In (qualifier party) (map snd qualifier_map))
  /\ String.length (qualifier party) = 2%nat
  /\ Py.ljust 2 (Py.take 2 (qualifier party)) = qualifier party
  /\ occurrences "*" (qualifier party) = O.
Proof.
  intros party.
  assert (Q : qualifier party = "ZZ"
              \/ In (qualifier party) (map snd qualifier_map)).
  { subst party. unfold _extract_party_info.
    destruct (ET.find root party_path) as [p|]; [|now left].
    cbn [qualifier].
    destruct (ET.find p _) as [endpoint|]; [|now left].
    destruct (ET.get endpoint "schemeID") as [scheme_id|]; [|now left].
    destruct (Py.truthy scheme_id); [|now left].
    destruct (ET.lookup scheme_id qualifier_map) as [q|] eqn:L; [|now left].
    right. exact (lookup_In _ _ _ L). }
  split; [exact Q|].
  destruct Q as [Q|Q]; [rewrite Q; repeat split|].
  cbn [qualifier_map map snd In] in Q.
  repeat match type of Q with
         | _ \/ _ => destruct Q as [Q|Q]
         end;
    try contradiction; rewrite <- Q; repeat split.
Qed.

(** ** The length of the ISA segment *)

Lemma length_pad_2 (z : Z) :
  0 <= z < 100 -> String.length (PyDate.pad 2 z) = 2%nat.
Proof. intros R. exact (proj1 (pad_2 z R)). Qed.

(** X12.  For every pair of parties, with control numbers derived from a
    document and a reading of the clock, the ISA segment has 106
    characters, the terminator included. *)
Theorem isa_segment_has_106_characters (supplier customer : PartyInfo)
  (root : ET.Element) (control_numbers : ControlNumbers)
  (current_time : PyDate.datetime) :
  _X12ControlNumbers root = Ok control_numbers ->
  clock_reading current_time ->
  String.length
    (_create_ISA_segment supplier customer control_numbers current_time)
  = 106%nat.
Proof.
  intros C (Rm & Rd & Rh & Rmin).
  apply control_numbers_width in C. destruct C as (I & _ & _).
  unfold _create_ISA_segment, isa_elements, Py.join.
  cbn [String.concat].
  unfold PyDate.strftime_ymd, PyDate.strftime_HM.
  repeat rewrite str_length_app.
  rewrite !length_ljust, !length_take, length_zfill, I, !length_repeat_char.
  rewrite (length_pad_2 (PyDate.year current_time mod 100))
    by (apply Z.mod_pos_bound; lia).
  rewrite !length_pad_2 by lia.
  cbn [String.length]. lia.
Qed.

Lemma isa_segment_has_106_characters_witness :
  String.length
    (_create_ISA_segment (mk_party "Acme" "AU123" "12")
       (mk_party "Buyer" "AU456" "12")
       (mk_control "000000000" "000000" "0000") sample_time)
  = 106%nat.
Proof.
  apply (isa_segment_has_106_characters _ _ sample_root).
  - vm_compute. reflexivity.
  - unfold clock_reading. cbn. lia.
Defined.

(** ** The dates written by the encoder *)

(** X13.  The date that the encoder writes into the BIG segment is empty
    (for an empty issue date or 0000-00-00) or what [strftime] writes for
    the date that [strptime] has read.  From the year 1000 on these are
    eight digits that the date check of [validate_edi_format] accepts;
    for an earlier year, which [strptime] reads from four digits that
    start with 0, the year is written without its leading zeros, and the
    date check refuses the shorter text.  The date of a DTM segment is
    written in the same way. *)
Theorem written_dates_pass_the_date_check :
  (forall invoice_date formatted_date : string,
      format_invoice_date invoice_date = Ok formatted_date ->
      (formatted_date = "" /\ (invoice_date = "" \/ invoice_date = "0000-00-00"))
      \/ exists d : PyDate.datetime,
           PyDate.strptime invoice_date = Ok d
           /\ written_date d formatted_date
           /\ (1000 <= PyDate.year d -> big_date_errors formatted_date = [])
           /\ (PyDate.year d < 1000 ->
               big_date_errors formatted_date
               = ["BIG02: Invoice date must be 8 characters (YYYYMMDD)"]))
  /\ (forall (root : ET.Element) (dtm : list string),
        due_date_segment root = Ok dtm ->
        dtm = []
        \/ exists (d : PyDate.datetime) (date : string),
             dtm = ["DTM*011*" ++ date ++ "~"] /\ written_date d date).
Proof.
  split.
  - intros s t. unfold format_invoice_date.
    destruct (String.eqb_spec s "0000-00-00") as [->|N].
    { intros H. apply Ok_inj in H. subst t. left. auto. }
    destruct s as [|c s]; cbn [Py.truthy].
    { intros H. apply Ok_inj in H. subst t. left. auto. }
    intros H. bind_inv H d Hd. apply Ok_inj in H. subst t.
    right. exists d. split; [exact Hd|].
    pose proof (strptime_written _ _ Hd) as W.
    split; [exact W|]. destruct W as (_ & A & B).
    split; intros Y.
    + apply big_date_errors_nil. now apply A.
    + specialize (B Y). unfold big_date_errors, Py.len.
      destruct (Nat.eqb_spec (String.length (PyDate.strftime_Ymd d)) 8)
        as [E|_]; [lia|].
      now rewrite andb_false_r.
  - intros root dtm. unfold due_date_segment.
    destruct (ET.text_if_any _) as [t|].
    + intros H. bind_inv H d Hd. apply Ok_inj in H. subst dtm.
      right. exists d, (PyDate.strftime_Ymd d). split; [reflexivity|].
      exact (strptime_written _ _ Hd).
    + intros H. apply Ok_inj in H. now left.
Qed.

Lemma written_dates_pass_the_date_check_year_999 :
  format_invoice_date "0999-01-15" = Ok "9990115"
  /\ big_date_errors "9990115"
     = ["BIG02: Invoice date must be 8 characters (YYYYMMDD)"].
Proof. split; vm_compute; reflexivity. Qed.

(** ** What a validation without warnings guarantees *)

Lemma missing_nil (found : bool) (warning : string) :
  missing found warning = [] -> found = true.
Proof. destruct found; [reflexivity | discriminate]. Qed.

Lemma is_some_true {A : Type} (o : option A) :
  is_some o = true -> exists a : A, o = Some a.
Proof. destruct o as [a|]; [eauto | discriminate]. Qed.

(** X14.  A document for which the XML validation gives no warning has an
    invoice id, an issue date, a payable amount, a supplier party, a
    customer party and at least one invoice line, and its issue date does
    not make the conversion fail: the date of the BIG segment is empty or
    what [strftime] writes for the issue date, which the EDI validator
    accepts from the year 1000 on; for an earlier year it has fewer than
    eight characters. *)
Theorem warning_free_document_is_complete (root : ET.Element)
  (strict_validation : bool) :
  _perform_enhanced_xml_validation root strict_validation = [] ->
  (exists e, ET.find root [ET.Self; ET.Descendant (cbc "ID")] = Some e)
  /\ (exists e, ET.find root [ET.Self; ET.Descendant (cbc "IssueDate")] = Some e)
  /\ (exists e,
        ET.find root [ET.Self; ET.Descendant (cac "LegalMonetaryTotal");
                      ET.Child (cbc "PayableAmount")] = Some e)
  /\ (exists e,
        ET.find root [ET.Self; ET.Descendant (cac "AccountingSupplierParty")]
        = Some e)
  /\ (exists e,
        ET.find root [ET.Self; ET.Descendant (cac "AccountingCustomerParty")]
        = Some e)
  /\ ET.findall root [ET.Self; ET.Descendant (cac "InvoiceLine")] <> []
  /\ exists formatted_date : string,
       format_invoice_date
         (stripped_text_or
            (ET.find root [ET.Self; ET.Descendant (cbc "IssueDate")]) "")
       = Ok formatted_date
       /\ (formatted_date = ""
           \/ exists d : PyDate.datetime, written_date d formatted_date).
Proof.
  unfold _perform_enhanced_xml_validation. intros H.
  apply app_eq_nil in H. destruct H as [H1 H].
  apply app_eq_nil in H. destruct H as [H2 H].
  apply app_eq_nil in H. destruct H as [H3 H].
  apply app_eq_nil in H. destruct H as [H4 H].
  apply app_eq_nil in H. destruct H as [H5 H].
  apply app_eq_nil in H. destruct H as [H6 H].
  apply missing_nil in H1, H2, H3, H4, H5, H6.
  repeat (split; [now apply is_some_true|]).
  split.
  { intros E. rewrite E in H6. discriminate H6. }
  unfold _perform_strict_content_validation in H.
  apply app_eq_nil in H. destruct H as [_ H].
  apply app_eq_nil in H. destruct H as [H _].
  unfold stripped_text_or.
  destruct (ET.text_if_any _) as [t|].
  - destruct (Py.len (Py.strip t) <? 1)%nat eqn:L; [discriminate H|].
    destruct (PyDate.strptime (Py.strip t)) as [d|e] eqn:P; [|discriminate H].
    unfold format_invoice_date.
    destruct (String.eqb (Py.strip t) "0000-00-00"); [eauto|].
    destruct (Py.strip t) as [|c s]; [discriminate L|].
    cbn [Py.truthy]. rewrite P. cbn [bind].
    eexists. split; [reflexivity|]. right.
    exists d. exact (strptime_written _ _ P).
  - exists "". split; [reflexivity | now left].
Qed.

Lemma warning_free_document_is_complete_witness :
  _perform_enhanced_xml_validation sample_root true = []
  /\ ET.findall sample_root [ET.Self; ET.Descendant (cac "InvoiceLine")] <> [].
Proof.
  assert (H : _perform_enhanced_xml_validation sample_root true = [])
    by (vm_compute; reflexivity).
  split; [exact H|].
  exact (proj1 (proj2 (proj2 (proj2 (proj2 (proj2
           (warning_free_document_is_complete sample_root true H))))))).
Defined.

(** ** What an accepted EDI text contains *)

Lemma checked_valid (errs : list string) :
  valid (checked errs) = true -> errs = [].
Proof.
  unfold checked. cbn [valid]. destruct errs; [reflexivity | discriminate].
Qed.

Lemma first_segment_Some (tag : string) (segments : list string) (seg : string) :
  first_segment tag segments = Some seg ->
  In seg segments /\ Py.startswith tag seg = true.
Proof. unfold first_segment. apply find_some. Qed.

Lemma unless_nil (ok : bool) (err : string) : unless ok err = [] -> ok = true.
Proof. destruct ok; [reflexivity | discriminate]. Qed.

Lemma n1_errors_nil (n1 : list string) (i : nat) :
  n1_errors i n1 = [] ->
  Forall (fun seg => field 1 (Py.split "*" seg) = "BY"
                     \/ field 1 (Py.split "*" seg) = "SE") n1.
Proof.
  revert i. induction n1 as [|seg n1 IH]; intros i H; [constructor|].
  cbn [n1_errors] in H. apply app_eq_nil in H. destruct H as [H1 H2].
  constructor; [|exact (IH _ H2)].
  destruct (2 <=? List.length (Py.split "*" seg))%nat; [|discriminate H1].
  apply unless_nil in H1. apply orb_true_iff in H1.
  destruct H1 as [E|E]; apply String.eqb_eq in E; auto.
Qed.

Ltac found H :=
  match type of H with
  | valid match first_segment ?tag ?segs with _ => _ end = true =>
      let F := fresh "F" in
      destruct (first_segment tag segs) as [?seg|] eqn:F;
      [apply first_segment_Some in F | discriminate H]
  end.

(** X15.  An EDI text that [validate_edi_format] accepts has a segment that
    starts with each of ISA, GS, ST, BIG, IT1, TDS, CTT, SE, GE and IEA and
    at least two segments that start with N1, each with the entity code BY
    or SE; the result carries the message of success and no details. *)
Theorem accepted_edi_has_the_required_segments (edi_content : string) :
  fst (fst (validate_edi_content edi_content)) = true ->
  let segments := split_segments edi_content in
  (forall tag : string,
      In tag ["ISA"; "GS"; "ST"; "BIG"; "IT1"; "TDS"; "CTT"; "SE"; "GE"; "IEA"] ->
      exists seg : string, In seg segments /\ Py.startswith tag seg = true)
  /\ (2 <= List.length (filter (Py.startswith "N1") segments))%nat
  /\ (forall n1 : string,
        In n1 segments -> Py.startswith "N1" n1 = true ->
        field 1 (Py.split "*" n1) = "BY" \/ field 1 (Py.split "*" n1) = "SE")
  /\ validate_edi_content edi_content
     = (true, "EDI format validation passed", None).
Proof.
  unfold validate_edi_content.
  set (segments := split_segments edi_content).
  cbn [all_results isa_segment gs_segment st_segment big_segment n1_segments
       it1_segment tds_segment trailer_segments forallb].
  destruct (valid (validate_isa segments)) eqn:V1; [|discriminate].
  destruct (valid (validate_gs segments)) eqn:V2; [|discriminate].
  destruct (valid (validate_st segments)) eqn:V3; [|discriminate].
  destruct (valid (validate_big segments)) eqn:V4; [|discriminate].
  destruct (valid (validate_n1 segments)) eqn:V5; [|discriminate].
  destruct (valid (validate_it1 segments)) eqn:V6; [|discriminate].
  destruct (valid (validate_tds segments)) eqn:V7; [|discriminate].
  destruct (valid (validate_trailers segments)) eqn:V8; [|discriminate].
  intros _. cbn [andb].
  split; [|split; [|split; [|reflexivity]]].
  - unfold validate_isa in V1. found V1.
    unfold validate_gs in V2. found V2.
    unfold validate_st in V3. found V3.
    unfold validate_big in V4. found V4.
    unfold validate_it1 in V6. found V6.
    unfold validate_tds in V7. found V7.
    unfold validate_trailers in V8. apply checked_valid in V8.
    cbn [flat_map] in V8.
    apply app_eq_nil in V8. destruct V8 as [T1 V8].
    apply app_eq_nil in V8. destruct V8 as [T2 V8].
    apply app_eq_nil in V8. destruct V8 as [T3 V8].
    apply app_eq_nil in V8. destruct V8 as [T4 _].
    apply unless_nil, is_some_true in T1, T2, T3, T4.
    destruct T1 as [s1 T1]. destruct T2 as [s2 T2].
    destruct T3 as [s3 T3]. destruct T4 as [s4 T4].
    apply first_segment_Some in T1, T2, T3, T4.
    intros tag I. cbn [In] in I.
    repeat match type of I with
           | _ \/ _ => destruct I as [I|I]
           end;
      try contradiction; subst tag; eauto.
  - unfold validate_n1 in V5.
    destruct (2 <=? List.length (filter (Py.startswith "N1") segments))%nat
      eqn:L; [|discriminate V5].
    apply Nat.leb_le in L. exact L.
  - unfold validate_n1 in V5.
    destruct (2 <=? List.length (filter (Py.startswith "N1") segments))%nat;
      [|discriminate V5].
    apply checked_valid, n1_errors_nil in V5.
    rewrite Forall_forall in V5.
    intros n1 I S. apply V5. apply filter_In. auto.
Qed.

Lemma accepted_edi_has_the_required_segments_witness :
  fst (fst (validate_edi_content sample_fixed_text)) = true
  /\ (2 <= List.length (filter (Py.startswith "N1")
                          (split_segments sample_fixed_text)))%nat.
Proof.
  assert (H : fst (fst (validate_edi_content sample_fixed_text)) = true)
    by (vm_compute; reflexivity).
  split; [exact H|].
  exact (proj1 (proj2 (accepted_edi_has_the_required_segments _ H))).
Defined.

(** ** White space between the segments *)

Lemma blank_without (c : ascii) (w : string) :
  blank w = true -> Py.isspace c = false -> occurrences c w = O.
Proof.
  intros B C. induction w as [|x w IH]; [reflexivity|].
  cbn [blank] in B. apply andb_true_iff in B. destruct B as [X B].
  cbn [occurrences].
  destruct (Ascii.eqb_spec x c) as [->|_]; [congruence|].
  now apply IH.
Qed.

Lemma lstrip_blank (w s : string) :
  blank w = true -> Py.lstrip_by Py.isspace (w ++ s) = Py.lstrip_by Py.isspace s.
Proof.
  intros B. induction w as [|x w IH]; [reflexivity|].
  cbn [blank] in B. apply andb_true_iff in B. destruct B as [X B].
  cbn [append Py.lstrip_by]. rewrite X. now apply IH.
Qed.

Lemma strip_blank (w s : string) :
  blank w = true -> Py.strip (w ++ s) = Py.strip s.
Proof. intros B. unfold Py.strip. now rewrite lstrip_blank. Qed.

Lemma split_segments_blank (w b : string) :
  blank w = true -> split_segments (w ++ b) = split_segments b.
Proof.
  intros B.
  destruct (split_prefix_without_sep "~" w b (blank_without "~" w B eq_refl))
    as (h & t & S1 & S2).
  unfold split_segments. rewrite S1, S2. cbn [filter].
  rewrite (strip_blank w h B).
  destruct (Py.truthy (Py.strip h)); cbn [map]; [|reflexivity].
  now rewrite (strip_blank w h B).
Qed.

Lemma split_segments_app (a b : string) :
  split_segments (a ++ "~" ++ b)
  = (split_segments a ++ split_segments b)%list.
Proof.
  unfold split_segments.
  change ("~" ++ b) with (String "~" b).
  rewrite split_app_sep, filter_app, map_app. reflexivity.
Qed.

(** X16.  [validate_edi_format] ignores white space at the start of the
    text and after a segment terminator: the result, message and details
    included, is the same with and without it.  In particular a list of
    segments that end with "~" validates the same joined with line feeds,
    as the encoder writes it, and joined with nothing. *)
Theorem white_space_between_segments_is_ignored (a w b : string) :
  blank w = true ->
  validate_edi_content (a ++ "~" ++ w ++ b) = validate_edi_content (a ++ "~" ++ b)
  /\ validate_edi_content (w ++ b) = validate_edi_content b
  /\ forall segments : list string,
       Forall ends_with_tilde segments ->
       validate_edi_content (Py.join newline segments)
       = validate_edi_content (Py.join "" segments).
Proof.
  intros B.
  assert (E1 : split_segments (a ++ "~" ++ w ++ b)
               = split_segments (a ++ "~" ++ b)).
  { rewrite !split_segments_app. now rewrite split_segments_blank. }
  assert (E2 : split_segments (w ++ b) = split_segments b)
    by now apply split_segments_blank.
  split; [|split].
  - unfold validate_edi_content. now rewrite E1.
  - unfold validate_edi_content. now rewrite E2.
  - intros segments F.
    assert (E3 : split_segments (Py.join newline segments)
                 = split_segments (Py.join "" segments)).
    { induction F as [|x l [p ->] F IH]; [reflexivity|].
      destruct l as [|y l]; [reflexivity|].
      change (Py.join newline ((p ++ "~") :: y :: l))
        with ((p ++ "~") ++ newline ++ Py.join newline (y :: l)).
      change (Py.join "" ((p ++ "~") :: y :: l))
        with ((p ++ "~") ++ "" ++ Py.join "" (y :: l)).
      rewrite !str_app_assoc.
      change ("" ++ Py.join "" (y :: l)) with (Py.join "" (y :: l)).
      rewrite !split_segments_app.
      rewrite (split_segments_blank newline) by reflexivity.
      now rewrite IH. }
    unfold validate_edi_content. now rewrite E3.
Qed.

Lemma white_space_between_segments_is_ignored_witness :
  validate_edi_content sample_text
  = validate_edi_content
      (Py.join "" (Py.split (ascii_of_nat 10) sample_text)).
Proof.
  assert (F : Forall ends_with_tilde (Py.split (ascii_of_nat 10) sample_text)).
  { cbv [sample_text Py.join]. cbn. repeat constructor; tilde. }
  exact (proj2 (proj2 (white_space_between_segments_is_ignored "" newline ""
                         eq_refl))
           (Py.split (ascii_of_nat 10) sample_text) F).
Defined.

(* ===================================================================== *)
(** * Further properties: the advisors *)
(* ===================================================================== *)

(** ** [str.startswith], [str.replace] and [str.split] *)

Lemma startswith_app (p s : string) :
  Py.startswith p s = true <-> exists r : string, s = p ++ r.
Proof.
  unfold Py.startswith. revert s. induction p as [|a p IH]; intros s.
  - destruct s; (split; [intros _; eexists; reflexivity | reflexivity]).
  - destruct s as [|b s]; cbn [String.prefix].
    + split; [discriminate | intros [r E]; discriminate E].
    + destruct (ascii_dec a b) as [->|N].
      * rewrite IH. split; intros [r E]; exists r;
          [cbn; now rewrite E | now injection E].
      * split; [discriminate|]. intros [r E]. cbn in E. congruence.
Qed.

Lemma replace_from_drop (old new : string) (k : nat) (s : string) :
  replace_from old new k s = replace_from old new 0 (Py.drop k s).
Proof.
  revert k. induction s as [|c r IH]; intros k.
  - destruct k; reflexivity.
  - destruct k as [|k]; [reflexivity|].
    cbn [replace_from Py.drop]. apply IH.
Qed.

Lemma replace_match (old new rest : string) :
  old <> "" -> replace old new (old ++ rest) = new ++ replace old new rest.
Proof.
  intros N. destruct old as [|a old]; [now elim N|].
  unfold replace. cbn [append replace_from].
  assert (P : String.prefix (String a old) (String a (old ++ rest)) = true).
  { apply (startswith_app (String a old)). exists rest. reflexivity. }
  rewrite P. f_equal.
  rewrite replace_from_drop. unfold Py.len. cbn [String.length Nat.sub].
  rewrite Nat.sub_0_r, drop_app_exact. reflexivity.
Qed.

Lemma replace_nomatch (old new : string) (c : ascii) (r : string) :
  String.prefix old (String c r) = false ->
  replace old new (String c r) = String c (replace old new r).
Proof. intros P. unfold replace. cbn [replace_from]. now rewrite P. Qed.

Lemma occurrences_replace (c : ascii) (old new s : string) :
  old <> "" -> (occurrences c new <= occurrences c old)%nat ->
  (occurrences c (replace old new s) <= occurrences c s)%nat.
Proof.
  intros N B.
  assert (G : forall n s, (String.length s <= n)%nat ->
                (occurrences c (replace old new s) <= occurrences c s)%nat).
  { clear s. induction n as [|n IH]; intros s L.
    - destruct s; [cbn; lia | cbn in L; lia].
    - destruct s as [|x r]; [cbn; lia|].
      destruct (String.prefix old (String x r)) eqn:P.
      + apply (startswith_app old) in P. destruct P as [rest E].
        rewrite E, replace_match, !occurrences_app by exact N.
        assert (String.length rest <= n)%nat.
        { apply (f_equal String.length) in E. rewrite str_length_app in E.
          cbn [String.length] in L, E.
          destruct old; [now elim N|]. cbn [String.length] in E. lia. }
        specialize (IH rest H). lia.
      + rewrite replace_nomatch by exact P. cbn [occurrences].
        cbn [String.length] in L. specialize (IH r ltac:(lia)). lia. }
  apply (G (String.length s)). lia.
Qed.

Lemma occurrences_split_piece (c sep : ascii) (s p : string) :
  In p (Py.split sep s) -> (occurrences c p <= occurrences c s)%nat.
Proof.
  revert p. induction s as [|x r IH]; intros p I.
  - cbn in I. destruct I as [<-|[]]. cbn. lia.
  - cbn [Py.split] in I. cbn [occurrences].
    destruct (Ascii.eqb x sep).
    + destruct I as [<-|I]; [cbn; lia|]. specialize (IH p I). lia.
    + destruct (Py.split sep r) as [|h t].
      * destruct I as [<-|[]]. cbn. lia.
      * destruct I as [<-|I].
        -- cbn [occurrences]. specialize (IH h (or_introl eq_refl)). lia.
        -- specialize (IH p (or_intror I)). lia.
Qed.

Lemma split_piece_without_sep (sep : ascii) (s p : string) :
  In p (Py.split sep s) -> occurrences sep p = O.
Proof.
  revert p. induction s as [|x r IH]; intros p I.
  - cbn in I. destruct I as [<-|[]]. reflexivity.
  - cbn [Py.split] in I.
    destruct (Ascii.eqb x sep) eqn:E.
    + destruct I as [<-|I]; [reflexivity | exact (IH p I)].
    + destruct (Py.split sep r) as [|h t].
      * destruct I as [<-|[]]. cbn [occurrences]. now rewrite E.
      * destruct I as [<-|I].
        -- cbn [occurrences]. rewrite E. exact (IH h (or_introl eq_refl)).
        -- exact (IH p (or_intror I)).
Qed.

Lemma split_join_pieces (sep : ascii) (l : list string) :
  l <> [] -> Forall (fun p => occurrences sep p = O) l ->
  Py.split sep (Py.join (String sep "") l) = l.
Proof.
  intros N F. destruct l as [|x l]; [now elim N|].
  rewrite split_join. clear N.
  remember (x :: l) as l' eqn:E. clear E x l.
  induction F as [|y l Hy F IH]; [reflexivity|].
  cbn [flat_map]. rewrite (split_without_sep _ _ Hy), IH. reflexivity.
Qed.

Lemma occurrences_join (c sep : ascii) (l : list string) :
  Ascii.eqb sep c = false -> Forall (fun p => occurrences c p = O) l ->
  occurrences c (Py.join (String sep "") l) = O.
Proof.
  intros E F. induction F as [|x l Hx F IH]; [reflexivity|].
  destruct l as [|y l]; [exact Hx|].
  change (Py.join (String sep "") (x :: y :: l))
    with (x ++ String sep "" ++ Py.join (String sep "") (y :: l)).
  rewrite !occurrences_app, Hx, IH. cbn [occurrences]. now rewrite E.
Qed.

(** ** Assignment to an index of a list *)

Lemma length_update_at (i : nat) (f : string -> string) (l : list string) :
  List.length (update_at i f l) = List.length l.
Proof.
  revert i. induction l as [|x l IH]; intros i; [now destruct i|].
  destruct i; cbn [update_at List.length]; [reflexivity | now rewrite IH].
Qed.

Lemma Forall_update_at (P : string -> Prop) (i : nat) (f : string -> string)
  (l : list string) :
  (forall x, P x -> P (f x)) -> Forall P l -> Forall P (update_at i f l).
Proof.
  intros Hf F. revert i. induction F as [|x l Hx F IH]; intros i;
    [destruct i; constructor|].
  destruct i; cbn [update_at]; constructor; auto.
Qed.

Lemma nth_update_at_same (i : nat) (f : string -> string) (l : list string)
  (d : string) :
  (i < List.length l)%nat -> nth i (update_at i f l) d = f (nth i l d).
Proof.
  revert i. induction l as [|x l IH]; intros i L; [cbn in L; lia|].
  destruct i; cbn [update_at nth]; [reflexivity|].
  apply IH. cbn in L. lia.
Qed.

Lemma nth_update_at_other (i j : nat) (f : string -> string) (l : list string)
  (d : string) :
  i <> j -> nth j (update_at i f l) d = nth j l d.
Proof.
  revert i j. induction l as [|x l IH]; intros i j N; [now destruct i, j|].
  destruct i, j; cbn [update_at nth]; try reflexivity; [now elim N|].
  apply IH. lia.
Qed.

(** ** The removal of the code fences *)

Lemma prefix_fence (s : string) :
  String.prefix "```" s = (3 <=? leading_backticks s)%nat.
Proof.
  destruct s as [|a s]; [reflexivity|]. cbn [String.prefix leading_backticks].
  destruct (Ascii.eqb_spec a "`") as [->|Na].
  2:{ destruct (ascii_dec "`" a) as [<-|_]; [now elim Na | reflexivity]. }
  destruct s as [|b s]; [reflexivity|]. cbn [String.prefix leading_backticks].
  destruct (Ascii.eqb_spec b "`") as [->|Nb].
  2:{ destruct (ascii_dec "`" b) as [<-|_]; [now elim Nb | reflexivity]. }
  destruct s as [|c s]; [reflexivity|]. cbn [String.prefix leading_backticks].
  destruct (Ascii.eqb_spec c "`") as [->|Nc].
  2:{ destruct (ascii_dec "`" c) as [<-|_]; [now elim Nc | reflexivity]. }
  destruct s; reflexivity.
Qed.

Lemma fences_removed (s : string) :
  Py.contains "```" (replace "```" "" s) = false.
Proof.
  assert (G : forall n s, (String.length s <= n)%nat ->
                Py.contains "```" (replace "```" "" s) = false
                /\ (leading_backticks (replace "```" "" s)
                    <= leading_backticks s)%nat).
  { clear s. induction n as [|n IH]; intros s L.
    - destruct s; [split; [reflexivity | cbn; lia] | cbn in L; lia].
    - destruct s as [|x r]; [split; [reflexivity | cbn; lia]|].
      destruct (String.prefix "```" (String x r)) eqn:P.
      + apply (startswith_app "```") in P. destruct P as [rest E].
        rewrite E, replace_match by discriminate.
        change ("" ++ replace "```" "" rest) with (replace "```" "" rest).
        assert (String.length rest <= n)%nat.
        { apply (f_equal String.length) in E.
          cbn [String.length append] in L, E. lia. }
        destruct (IH rest H) as [C B]. split; [exact C|].
        cbn [append leading_backticks Ascii.eqb Bool.eqb]. lia.
      + rewrite replace_nomatch by exact P.
        cbn [String.length] in L.
        destruct (IH r ltac:(lia)) as [C B].
        rewrite prefix_fence in P. apply Nat.leb_gt in P.
        cbn [leading_backticks] in P |- *.
        split.
        * cbn [Py.contains]. rewrite C, orb_false_r, prefix_fence.
          apply Nat.leb_gt. cbn [leading_backticks].
          destruct (Ascii.eqb x "`"); lia.
        * destruct (Ascii.eqb x "`"); lia. }
  apply (G (String.length s) s (le_n _)).
Qed.

(** X17.  [auto_correct_xml_with_ai] reports a correction only for a
    completion that, stripped and with its code fences removed, is not
    empty and differs from the input; the text returned then contains no
    fence of three backticks.  In every other case it returns the input
    unchanged. *)
Theorem xml_advisor_result (complete_xml : string -> bool -> option string)
  (xml_content : string) (strict_validation : bool) :
  let '(was_corrected, corrected_xml) :=
    auto_correct_xml_with_ai complete_xml xml_content strict_validation in
  if was_corrected
  then corrected_xml <> "" /\ corrected_xml <> xml_content
       /\ Py.contains "```" corrected_xml = false
       /\ complete_xml xml_content strict_validation <> None
  else corrected_xml = xml_content.
Proof.
  unfold auto_correct_xml_with_ai.
  destruct (complete_xml xml_content strict_validation) as [content|];
    [|reflexivity].
  pose proof (fences_removed (replace "```xml" "" (Py.strip content))) as F.
  destruct (replace "```" "" _) as [|c s] eqn:E; [reflexivity|].
  cbn [Py.truthy andb].
  destruct (String.eqb_spec (String c s) xml_content) as [X|X]; cbn [negb];
    [reflexivity|].
  repeat split; [discriminate | exact X | exact F | discriminate].
Qed.

(** ** The fixes applied to the lines of the EDI text *)

Lemma occurrences_normalized (c : ascii) (p : string) :
  Ascii.eqb " " c = false -> occurrences c p = O ->
  occurrences c (normalized p) = O.
Proof.
  intros E H. unfold normalized.
  pose proof (occurrences_take c 15 (Py.ljust 15 p)) as T.
  rewrite occurrences_ljust in T by exact E. lia.
Qed.

Lemma fix_line_isa (x : string) :
  let parts :=
    update_at 8 normalized (update_at 6 normalized (Py.split "*" ("ISA*" ++ x))) in
  fix_line ("ISA*" ++ x) = Py.join "*" parts
  /\ Py.split "*" (fix_line ("ISA*" ++ x)) = parts
  /\ Py.startswith "N1*SU*" (fix_line ("ISA*" ++ x)) = false.
Proof.
  intros parts.
  assert (E : fix_line ("ISA*" ++ x) = Py.join "*" parts).
  { unfold fix_line.
    replace (Py.startswith "ISA*" ("ISA*" ++ x)) with true; [reflexivity|].
    symmetry. apply startswith_app. eauto. }
  assert (S : Py.split "*" ("ISA*" ++ x) = "ISA" :: Py.split "*" x).
  { change ("ISA*" ++ x) with ("ISA" ++ String "*" x).
    rewrite split_app_sep. reflexivity. }
  split; [exact E|]. split.
  - rewrite E. apply split_join_pieces.
    + intros N. apply (f_equal (@List.length string)) in N.
      unfold parts in N. rewrite !length_update_at, S in N. discriminate N.
    + unfold parts.
      apply Forall_update_at;
        [intros p; apply occurrences_normalized; reflexivity|].
      apply Forall_update_at;
        [intros p; apply occurrences_normalized; reflexivity|].
      apply Forall_forall. intros p. apply split_piece_without_sep.
  - rewrite E. unfold parts. rewrite S.
    pose proof (split_not_nil "*" x) as N.
    set (l0 := Py.split "*" x) in *.
    change (update_at 8 normalized (update_at 6 normalized ("ISA" :: l0)))
      with ("ISA" :: update_at 7 normalized (update_at 5 normalized l0)).
    assert (L : List.length (update_at 7 normalized (update_at 5 normalized l0))
                = List.length l0) by now rewrite !length_update_at.
    destruct (update_at 7 normalized (update_at 5 normalized l0)) as [|p ps];
      [|reflexivity].
    destruct l0; [now elim N | discriminate L].
Qed.

Lemma fix_line_cases (line : string) :
  (exists x : string, line = "ISA*" ++ x)
  \/ (Py.startswith "ISA*" line = false
      /\ exists x : string,
           line = "N1*SU*" ++ x
           /\ fix_line line = "N1*SE*" ++ replace "N1*SU*" "N1*SE*" x)
  \/ (Py.startswith "ISA*" line = false
      /\ Py.startswith "N1*SU*" line = false /\ fix_line line = line).
Proof.
  unfold fix_line.
  destruct (Py.startswith "ISA*" line) eqn:A.
  { left. now apply startswith_app. }
  right.
  destruct (Py.startswith "N1*SU*" line) eqn:B.
  - left. split; [reflexivity|].
    apply startswith_app in B. destruct B as [x ->]. exists x.
    split; [reflexivity|]. apply replace_match. discriminate.
  - right. auto.
Qed.

Lemma fix_line_without_tilde (line : string) :
  occurrences "~" line = O -> occurrences "~" (fix_line line) = O.
Proof.
  intros H.
  destruct (fix_line_cases line) as [[x ->]|[(A & x & -> & E)|(_ & _ & E)]].
  - rewrite (proj1 (fix_line_isa x)).
    apply occurrences_join; [reflexivity|].
    apply Forall_update_at;
      [intros p; apply occurrences_normalized; reflexivity|].
    apply Forall_update_at;
      [intros p; apply occurrences_normalized; reflexivity|].
    apply Forall_forall. intros p I.
    pose proof (occurrences_split_piece "~" _ _ _ I). lia.
  - rewrite E. rewrite occurrences_app in H |- *.
    pose proof (occurrences_replace "~" "N1*SU*" "N1*SE*" x
                  ltac:(discriminate) (le_n _)).
    cbn [occurrences Ascii.eqb Bool.eqb] in H |- *. cbn in H |- *. lia.
  - now rewrite E.
Qed.

Lemma fix_line_result (line : string) :
  Py.startswith "N1*SU*" (fix_line line) = false
  /\ (Py.startswith "ISA*" (fix_line line) = true ->
      forall i : nat,
        i = 6%nat \/ i = 8%nat ->
        (i < List.length (Py.split "*" (fix_line line)))%nat ->
        String.length (field i (Py.split "*" (fix_line line))) = 15%nat).
Proof.
  destruct (fix_line_cases line) as [[x ->]|[(A & x & -> & E)|(A & B & E)]].
  - destruct (fix_line_isa x) as (_ & S & N). split; [exact N|].
    intros _ i I L. rewrite S in L |- *. unfold field.
    rewrite !length_update_at in L.
    destruct I as [-> | ->].
    + rewrite nth_update_at_other by lia.
      rewrite nth_update_at_same by exact L. apply length_normalized_id.
    + rewrite nth_update_at_same by (now rewrite length_update_at).
      apply length_normalized_id.
  - rewrite E. split; [reflexivity | discriminate].
  - rewrite E. split; [exact B|]. rewrite A. discriminate.
Qed.

(** X18.  [auto_fix_edi_with_ai] reports a fix only with a text that is not
    empty and differs from the input.  In this text, split at "~", no piece
    starts with N1*SU*, and in a piece that starts with ISA* the elements
    ISA06 and ISA08, when present, have 15 characters.  In every other case
    the input is returned unchanged. *)
Theorem edi_advisor_result
  (complete_edi : string -> string -> list ErrorDetail -> bool -> option string)
  (xml_content edi_content : string) (edi_errors : list ErrorDetail)
  (strict_validation : bool) :
  let '(was_fixed, corrected_edi) :=
    auto_fix_edi_with_ai complete_edi xml_content edi_content edi_errors
      strict_validation in
  if was_fixed
  then corrected_edi <> "" /\ corrected_edi <> edi_content
       /\ forall line : string,
            In line (Py.split "~" corrected_edi) ->
            Py.startswith "N1*SU*" line = false
            /\ (Py.startswith "ISA*" line = true ->
                forall i : nat,
                  i = 6%nat \/ i = 8%nat ->
                  (i < List.length (Py.split "*" line))%nat ->
                  String.length (field i (Py.split "*" line)) = 15%nat)
  else corrected_edi = edi_content.
Proof.
  unfold auto_fix_edi_with_ai.
  destruct (complete_edi _ _ _ _) as [content|]; [|reflexivity].
  set (text := fold_left _ _ _).
  assert (S : Py.split "~" (Py.join "~" (map fix_line (Py.split "~" text)))
              = map fix_line (Py.split "~" text)).
  { apply split_join_pieces.
    - pose proof (split_not_nil "~" text) as N.
      destruct (Py.split "~" text); [now elim N | discriminate].
    - apply Forall_forall. intros p I. apply in_map_iff in I.
      destruct I as (l & <- & I). apply fix_line_without_tilde.
      exact (split_piece_without_sep _ _ _ I). }
  destruct (Py.join "~" _) as [|c s] eqn:E; [reflexivity|].
  cbn [Py.truthy andb].
  destruct (String.eqb_spec (String c s) edi_content) as [X|X]; cbn [negb];
    [reflexivity|].
  split; [discriminate|]. split; [exact X|].
  intros line I. rewrite S in I. apply in_map_iff in I.
  destruct I as (l & <- & _). apply fix_line_result.
Qed.

(** ** The safety net, applied twice *)

Lemma normalized_twice (p : string) : normalized (normalized p) = normalized p.
Proof.
  pose proof (length_normalized_id p) as L. fold (normalized p) in L.
  unfold normalized at 1. unfold Py.ljust, Py.len. rewrite L.
  cbn [Nat.sub Py.repeat_char]. rewrite str_app_nil_r.
  rewrite <- (str_app_nil_r (normalized p)) at 1. rewrite <- L at 1.
  apply take_app_exact.
Qed.

Lemma update_at_twice (i : nat) (f : string -> string) (l : list string) :
  (forall x, f (f x) = f x) -> update_at i f (update_at i f l) = update_at i f l.
Proof.
  intros Hf. revert i. induction l as [|x l IH]; intros i; [now destruct i|].
  destruct i; cbn [update_at]; [now rewrite Hf | now rewrite IH].
Qed.

Lemma update_at_swap (i j : nat) (f g : string -> string) (l : list string) :
  i <> j ->
  update_at i f (update_at j g l) = update_at j g (update_at i f l).
Proof.
  revert i j. induction l as [|x l IH]; intros i j N; [now destruct i, j|].
  destruct i, j; cbn [update_at]; try reflexivity; [now elim N|].
  rewrite IH by lia. reflexivity.
Qed.

Lemma fix_line_isa_tag (x : string) :
  exists y : string, fix_line ("ISA*" ++ x) = "ISA*" ++ y.
Proof.
  destruct (fix_line_isa x) as (E & _ & _). rewrite E.
  assert (S : Py.split "*" ("ISA*" ++ x) = "ISA" :: Py.split "*" x).
  { change ("ISA*" ++ x) with ("ISA" ++ String "*" x).
    rewrite split_app_sep. reflexivity. }
  rewrite S.
  pose proof (split_not_nil "*" x) as N.
  set (l0 := Py.split "*" x) in *.
  change (update_at 8 normalized (update_at 6 normalized ("ISA" :: l0)))
    with ("ISA" :: update_at 7 normalized (update_at 5 normalized l0)).
  assert (L : List.length (update_at 7 normalized (update_at 5 normalized l0))
              = List.length l0) by now rewrite !length_update_at.
  destruct (update_at 7 normalized (update_at 5 normalized l0)) as [|p ps].
  - destruct l0; [now elim N | discriminate L].
  - exists (Py.join "*" (p :: ps)). reflexivity.
Qed.

(** X19.  The fixes that [auto_fix_edi_with_ai] applies to every line of
    the advisor's text are idempotent: a line that has been fixed is left
    as it is by a second application. *)
Theorem safety_net_is_idempotent (line : string) :
  fix_line (fix_line line) = fix_line line.
Proof.
  destruct (fix_line_cases line) as [[x ->]|[(A & x & -> & E)|(A & B & E)]].
  - destruct (fix_line_isa_tag x) as [y Y].
    destruct (fix_line_isa x) as (E1 & S1 & _).
    destruct (fix_line_isa y) as (E2 & _ & _).
    rewrite Y, E2, <- Y, S1, E1. f_equal.
    rewrite (update_at_swap 6 8) by lia.
    rewrite !update_at_twice by exact normalized_twice.
    reflexivity.
  - rewrite E.
    destruct (fix_line_cases ("N1*SE*" ++ replace "N1*SU*" "N1*SE*" x))
      as [[y Y]|[(_ & y & Y & _)|(_ & _ & F)]];
      [discriminate Y | discriminate Y | exact F].
  - rewrite E. exact E.
Qed.

(* ===================================================================== *)
(** * Further properties: the encoder's output *)
(* ===================================================================== *)

(** ** The ISA segment, seen by the validator *)

Lemma last_char_cons (x c : ascii) (s : string) :
  last_char s = Some c -> last_char (String x s) = Some c.
Proof. intros H. cbn [last_char]. now rewrite H. Qed.

Lemma last_char_app (a b : string) (c : ascii) :
  last_char b = Some c -> last_char (a ++ b) = Some c.
Proof.
  intros H. induction a as [|x a IH]; [exact H|].
  cbn [append]. now apply last_char_cons.
Qed.

Lemma rstrip_by_last (p : ascii -> bool) (s : string) (c : ascii) :
  last_char s = Some c -> p c = false -> Py.rstrip_by p s = s.
Proof.
  intros L H. induction s as [|x s IH]; [reflexivity|].
  cbn [last_char] in L. cbn [Py.rstrip_by].
  destruct (last_char s) as [y|] eqn:E.
  - rewrite IH by exact L. destruct s; [discriminate E | reflexivity].
  - destruct s as [|y s]; [|cbn [last_char] in E; destruct (last_char s);
                              discriminate E].
    injection L as ->. cbn [Py.rstrip_by]. now rewrite H.
Qed.

Lemma isa_elements_without (c : ascii) (supplier customer : PartyInfo)
  (control_numbers : ControlNumbers) (current_time : PyDate.datetime) :
  Py.isdigit c = false -> Ascii.eqb "-" c = false -> Ascii.eqb " " c = false ->
  In c ["*"; "~"]%char ->
  isa_occurrences c supplier customer control_numbers = O ->
  Forall (fun p => occurrences c p = O)
    (isa_elements supplier customer control_numbers current_time).
Proof.
  intros D M B I H. unfold isa_occurrences in H. unfold isa_elements.
  assert (Z0 : Ascii.eqb "0" c = false).
  { destruct (Ascii.eqb_spec "0" c) as [<-|_]; [discriminate D | reflexivity]. }
  repeat constructor;
    try (destruct I as [<-|[<-|[]]]; reflexivity);
    rewrite ?occurrences_ljust, ?occurrences_zfill by assumption;
    try lia.
  - unfold PyDate.strftime_ymd.
    rewrite !occurrences_app, !occurrences_pad by assumption. reflexivity.
  - unfold PyDate.strftime_HM.
    rewrite !occurrences_app, !occurrences_pad by assumption. reflexivity.
Qed.

Lemma validate_isa_of_encoded (supplier customer : PartyInfo)
  (control_numbers : ControlNumbers) (current_time : PyDate.datetime)
  (rest : string) :
  isa_occurrences "*" supplier customer control_numbers = O ->
  isa_occurrences "~" supplier customer control_numbers = O ->
  validate_isa
    (split_segments
       (_create_ISA_segment supplier customer control_numbers current_time
        ++ rest))
  = mk_result true [].
Proof.
  intros Hs Ht. unfold _create_ISA_segment.
  set (elements := isa_elements supplier customer control_numbers current_time).
  set (body := Py.join "*" elements).
  assert (Fs : Forall (fun p => occurrences "*" p = O) elements).
  { apply isa_elements_without; try reflexivity; [cbn; tauto | exact Hs]. }
  assert (Ft : Forall (fun p => occurrences "~" p = O) elements).
  { apply isa_elements_without; try reflexivity; [cbn; tauto | exact Ht]. }
  assert (T : occurrences "~" body = O).
  { apply occurrences_join; [reflexivity | exact Ft]. }
  assert (S : Py.split "*" body = elements).
  { apply split_join_pieces; [discriminate | exact Fs]. }
  assert (B : Py.strip body = body).
  { unfold Py.strip.
    assert (L : Py.lstrip_by Py.isspace body = body) by reflexivity.
    rewrite L.
    apply (rstrip_by_last _ _ ">"); [|reflexivity].
    unfold body, elements, isa_elements, Py.join. cbn [String.concat].
    repeat match goal with
           | |- last_char (String _ EmptyString) = _ => reflexivity
           | |- last_char (String _ _) = _ => apply last_char_cons
           | |- last_char (_ ++ _) = _ => apply last_char_app
           end. }
  assert (P : Py.split "~" ((body ++ "~") ++ rest) = body :: Py.split "~" rest).
  { rewrite str_app_assoc.
    change ("~" ++ rest) with (String "~" rest).
    rewrite split_app_sep, (split_without_sep _ _ T). reflexivity. }
  unfold split_segments. rewrite P. cbn [filter]. rewrite B.
  assert (N : Py.truthy body = true) by reflexivity.
  rewrite N. cbn [map]. rewrite B.
  unfold validate_isa, first_segment. cbn [List.find].
  assert (A : Py.startswith "ISA" body = true) by reflexivity.
  rewrite A, S.
  unfold elements, isa_elements. cbn [List.length Nat.leb field nth].
  unfold Py.len.
  rewrite !length_ljust, !length_take, !length_repeat_char.
  replace (Nat.max 2 (Nat.min 2 (String.length (qualifier supplier))))
    with 2%nat by lia.
  replace (Nat.max 2 (Nat.min 2 (String.length (qualifier customer))))
    with 2%nat by lia.
  replace (Nat.max 15 (Nat.min 15 (String.length (id supplier))))
    with 15%nat by lia.
  replace (Nat.max 15 (Nat.min 15 (String.length (id customer))))
    with 15%nat by lia.
  reflexivity.
Qed.

Lemma x12_segments_head (root : ET.Element) (current_time : PyDate.datetime)
  (segs : list string) :
  x12_segments root current_time = Ok segs ->
  exists (control_numbers : ControlNumbers) (gs : string) (rest : list string),
    _X12ControlNumbers root = Ok control_numbers
    /\ segs
       = _create_ISA_segment
           (default_id (_extract_party_info root supplier_party_path) "SENDERID")
           (default_id (_extract_party_info root customer_party_path) "RECEIVERID")
           control_numbers current_time
         :: gs :: rest.
Proof.
  intros H. unfold x12_segments in H.
  bind_inv H control_numbers Hc.
  bind_inv H formatted_date Hd.
  bind_inv H dtm Hdtm.
  bind_inv H it1 Hit1.
  bind_inv H tds Htds.
  bind_inv H hash_total Hh.
  bind_inv H hash_text Ht.
  bind_inv H st_index Hi.
  apply Ok_inj in H. subst segs.
  exists control_numbers. eexists. eexists. split; [exact Hc|].
  cbn [app]. reflexivity.
Qed.

(** X20.  When the data written into the ISA segment (the two qualifiers,
    the two ids and the interchange control number) contain neither a star
    nor a tilde, the ISA segment of the encoder passes the ISA checks of
    [validate_edi_format]: the details of the validation report it valid,
    with no error. *)
Theorem encoded_isa_segment_is_accepted (parse_xml : string -> parsed)
  (xml_content : string) (root : ET.Element) (control_numbers : ControlNumbers)
  (current_time : PyDate.datetime) (text : string) :
  parse_xml xml_content = Parsed root ->
  _X12ControlNumbers root = Ok control_numbers ->
  _convert_xml_to_x12_content parse_xml xml_content current_time = Some text ->
  let supplier :=
    default_id (_extract_party_info root supplier_party_path) "SENDERID" in
  let customer :=
    default_id (_extract_party_info root customer_party_path) "RECEIVERID" in
  isa_occurrences "*" supplier customer control_numbers = O ->
  isa_occurrences "~" supplier customer control_numbers = O ->
  exists details : validation_results,
    snd (validate_edi_content text) = Some details
    /\ isa_segment details = mk_result true [].
Proof.
  intros P C H supplier customer Hs Ht.
  pose proof (conversion_output_rejected _ _ _ _ H) as R.
  destruct (convert_inv _ _ _ _ H) as (root' & segs & P' & X & ->).
  rewrite P in P'. injection P' as <-.
  destruct (x12_segments_head _ _ _ X) as (c & gs & rest & C' & ->).
  rewrite C in C'. apply Ok_inj in C'. subst c.
  fold supplier customer in R |- *.
  change (Py.join newline (?isa :: gs :: rest))
    with (isa ++ newline ++ Py.join newline (gs :: rest)) in R |- *.
  pose proof (validate_isa_of_encoded supplier customer control_numbers
                current_time (newline ++ Py.join newline (gs :: rest)) Hs Ht)
    as V.
  revert R. unfold validate_edi_content.
  match goal with
  | |- context [if ?b then _ else _] => destruct b
  end; [discriminate|].
  intros _. cbn [snd]. eexists. split; [reflexivity|].
  cbn [isa_segment]. exact V.
Qed.

Lemma encoded_isa_segment_is_accepted_witness :
  exists details : validation_results,
    snd (validate_edi_content sample_text) = Some details
    /\ isa_segment details = mk_result true [].
Proof.
  apply (encoded_isa_segment_is_accepted sample_parser "<Invoice/>" sample_root
           (mk_control "000000000" "000000" "0000") sample_time sample_text);
    vm_compute; reflexivity.
Defined.

(** ** The envelope: control numbers and counts *)

Lemma filter_none {A : Type} (p : A -> bool) (l : list A) :
  Forall (fun x => p x = false) l -> filter p l = [].
Proof.
  induction 1 as [|x l Hx F IH]; [reflexivity|].
  cbn [filter]. now rewrite Hx.
Qed.

Lemma filter_all {A : Type} (p : A -> bool) (l : list A) :
  Forall (fun x => p x = true) l -> filter p l = l.
Proof.
  induction 1 as [|x l Hx F IH]; [reflexivity|].
  cbn [filter]. now rewrite Hx, IH.
Qed.

Lemma it1_segments_numbered (lines : list ET.Element) (idx : nat)
  (l : list string) :
  it1_segments idx lines = Ok l ->
  List.length l = List.length lines
  /\ Forall (fun seg => Py.startswith "IT1*" seg = true) l
  /\ forall (k : nat) (seg : string),
       nth_error l k = Some seg ->
       Py.startswith ("IT1*" ++ Py.str_of_nat (idx + k) ++ "*") seg = true.
Proof.
  revert idx l; induction lines as [|line lines IH]; intros idx l H.
  - cbn in H. apply Ok_inj in H. subst l.
    split; [reflexivity|]. split; [constructor|].
    intros [|k] seg E; discriminate E.
  - cbn [it1_segments] in H.
    bind_inv H price Hp. bind_inv H rest Hr.
    apply Ok_inj in H. subst l.
    destruct (IH _ _ Hr) as (L & F & N).
    split; [cbn [List.length]; now rewrite L|].
    split; [constructor; [apply startswith_app; eexists; reflexivity | exact F]|].
    intros [|k] seg E; cbn [nth_error] in E.
    + injection E as <-. rewrite Nat.add_0_r.
      apply startswith_app. eexists.
      rewrite !str_app_assoc. reflexivity.
    + replace (idx + S k)%nat with (S idx + k)%nat by lia. now apply N.
Qed.

Ltac other_literal :=
  match goal with
  | I : In ?tag ["IT1*"; "CTT*"] |- _ =>
      cbn [In] in I; destruct I as [<-|[<-|[]]]; reflexivity
  end.

Lemma total_segment_other (tag : string) (root : ET.Element) (l : list string) :
  In tag ["IT1*"; "CTT*"] -> total_segment root = Ok l -> other_tag tag l.
Proof.
  intros I. unfold total_segment. destruct (ET.text_if_any _) as [t|]; intros H.
  - bind_inv H total Ht. apply Ok_inj in H. subst l.
    constructor; [other_literal | constructor].
  - apply Ok_inj in H. subst l. constructor.
Qed.

Lemma due_date_segment_other (tag : string) (root : ET.Element)
  (l : list string) :
  In tag ["IT1*"; "CTT*"] -> due_date_segment root = Ok l -> other_tag tag l.
Proof.
  intros I. unfold due_date_segment.
  destruct (ET.text_if_any _) as [t|]; intros H.
  - bind_inv H d Hd. apply Ok_inj in H. subst l.
    constructor; [other_literal | constructor].
  - apply Ok_inj in H. subst l. constructor.
Qed.

Lemma address_segments_other (tag : string) (address : PostalAddress) :
  In tag ["IT1*"; "CTT*"] -> other_tag tag (address_segments address).
Proof.
  intros I. unfold address_segments.
  destruct (_map_address address) as [[state postal] country].
  apply Forall_app. split.
  - destruct (Py.truthy (street address)); constructor;
      [other_literal | constructor].
  - destruct (Py.truthy (city address) || Py.truthy postal || Py.truthy country);
      constructor; [other_literal | constructor].
Qed.

Lemma optional_segment_other (tag : string) (x : option ET.Element)
  (prefix : string) :
  (forall rest, Py.startswith tag (prefix ++ rest) = false) ->
  other_tag tag (optional_segment x prefix).
Proof.
  intros H. unfold optional_segment.
  destruct (ET.text_if_any x); constructor; [apply H | constructor].
Qed.

Lemma small_segments_other (tag : string) (root : ET.Element) :
  In tag ["IT1*"; "CTT*"] ->
  other_tag tag (note_segment root)
  /\ other_tag tag (contact_segment root)
  /\ other_tag tag (payment_terms_segment root)
  /\ other_tag tag (delivery_segment root).
Proof.
  intros I. repeat split.
  - unfold note_segment. cases; repeat constructor; other_literal.
  - unfold contact_segment. cases; repeat constructor; other_literal.
  - unfold payment_terms_segment. cases; repeat constructor; other_literal.
  - unfold delivery_segment. cases; repeat constructor; other_literal.
Qed.

Lemma tagged_app (tag : string) (a b : list string) :
  tagged tag (a ++ b) = (tagged tag a ++ tagged tag b)%list.
Proof. apply filter_app. Qed.

Lemma tagged_other (tag : string) (l : list string) :
  other_tag tag l -> tagged tag l = [].
Proof. apply filter_none. Qed.

(** The tagged segments of the list that [x12_segments] returns. *)
Lemma x12_segments_tagged (tag : string) (root : ET.Element)
  (current_time : PyDate.datetime) (segs : list string) :
  In tag ["IT1*"; "CTT*"] ->
  x12_segments root current_time = Ok segs ->
  let invoice_lines :=
    ET.findall root [ET.Self; ET.Descendant (cac "InvoiceLine")] in
  exists (it1 : list string) (hash_text ctt : string),
    it1_segments 1 invoice_lines = Ok it1
    /\ ctt = "CTT*" ++ Py.str_of_nat (List.length invoice_lines) ++ "*"
             ++ hash_text ++ "~"
    /\ tagged tag segs = (tagged tag it1 ++ tagged tag [ctt])%list.
Proof.
  intros I H invoice_lines. unfold x12_segments in H.
  bind_inv H control_numbers Hc.
  bind_inv H formatted_date Hd.
  bind_inv H dtm Hdtm.
  bind_inv H it1 Hit1.
  bind_inv H tds Htds.
  bind_inv H hash_total Hh.
  bind_inv H hash_text Ht.
  bind_inv H st_index Hi.
  apply Ok_inj in H. subst segs.
  fold invoice_lines in Hit1 |- *.
  exists it1, hash_text. eexists. split; [exact Hit1|].
  split; [reflexivity|].
  apply (total_segment_other tag) in Htds; [|exact I].
  apply (due_date_segment_other tag) in Hdtm; [|exact I].
  destruct (small_segments_other tag root I) as (Nte & Per & Itd & Fob).
  clear Hc Hd Hh Ht Hi Hit1.
  rewrite !tagged_app.
  rewrite (tagged_other tag (note_segment root)) by exact Nte.
  rewrite (tagged_other tag (contact_segment root)) by exact Per.
  rewrite (tagged_other tag (payment_terms_segment root)) by exact Itd.
  rewrite (tagged_other tag (delivery_segment root)) by exact Fob.
  rewrite (tagged_other tag dtm) by exact Hdtm.
  rewrite (tagged_other tag tds) by exact Htds.
  rewrite !(tagged_other tag (address_segments _))
    by (apply address_segments_other; exact I).
  rewrite !(tagged_other tag (optional_segment _ _))
    by (apply optional_segment_other; intros rest; other_literal).
  match goal with
  | |- context [tagged tag [?isa; ?gs; ?st; ?big]] =>
      rewrite (tagged_other tag [isa; gs; st; big])
  end.
  2:{ repeat constructor; other_literal. }
  match goal with
  | |- context [tagged tag [?se; ?ge; ?iea]] =>
      rewrite (tagged_other tag [se; ge; iea])
        by (repeat constructor; other_literal)
  end.
  repeat match goal with
         | |- context [tagged tag [("N1*SU*" ++ ?r)%string]] =>
             rewrite (tagged_other tag ["N1*SU*" ++ r])
               by (repeat constructor; other_literal)
         | |- context [tagged tag [("N1*BY*" ++ ?r)%string]] =>
             rewrite (tagged_other tag ["N1*BY*" ++ r])
               by (repeat constructor; other_literal)
         end.
  cbn [app]. rewrite !app_nil_r. reflexivity.
Qed.

(** X22.  In the output of the encoder the trailers repeat the control
    numbers of the headers: IEA carries the interchange control number of
    ISA13, GE the group control number at the end of GS, and SE the
    transaction control number of ST. *)
Theorem trailers_repeat_the_control_numbers (root : ET.Element)
  (current_time : PyDate.datetime) (segs : list string) :
  x12_segments root current_time = Ok segs ->
  exists (control_numbers : ControlNumbers) (supplier customer : PartyInfo)
         (isa gs gs_front st big se se_count ge iea : string)
         (body : list string),
    _X12ControlNumbers root = Ok control_numbers
    /\ segs = ([isa; gs; st; big] ++ body ++ [se; ge; iea])%list
    /\ isa = _create_ISA_segment supplier customer control_numbers current_time
    /\ field 13 (isa_elements supplier customer control_numbers current_time)
       = interchange_control control_numbers
    /\ iea = "IEA*1*" ++ interchange_control control_numbers ++ "~"
    /\ gs = gs_front ++ "*" ++ group_control control_numbers ++ "*X*004010~"
    /\ ge = "GE*1*" ++ group_control control_numbers ++ "~"
    /\ st = "ST*810*" ++ transaction_control control_numbers ++ "~"
    /\ se = "SE*" ++ se_count ++ "*" ++ transaction_control control_numbers
            ++ "~".
Proof.
  intros H. unfold x12_segments in H.
  bind_inv H control_numbers Hc.
  bind_inv H formatted_date Hd.
  bind_inv H dtm Hdtm.
  bind_inv H it1 Hit1.
  bind_inv H tds Htds.
  bind_inv H hash_total Hh.
  bind_inv H hash_text Ht.
  bind_inv H st_index Hi.
  apply Ok_inj in H. subst segs.
  pose proof (control_numbers_width _ _ Hc) as (I & _ & _).
  clear Hi Hd Hdtm Hit1 Htds Hh Ht.
  match goal with
  | |- context [(([_create_ISA_segment ?s ?c ?n ?t;
                   ("GS*IN*" ++ ?a ++ "*" ++ ?b ++ "*" ++ ?y ++ "*" ++ ?d
                    ++ ?gs_rest)%string; ?st; ?big] ++ ?rest)
                 ++ [("SE*" ++ ?count ++ ?se_rest)%string; ?ge; ?iea])%list] =>
      exists control_numbers, s, c, (_create_ISA_segment s c n t),
        ("GS*IN*" ++ a ++ "*" ++ b ++ "*" ++ y ++ "*" ++ d ++ gs_rest),
        ("GS*IN*" ++ a ++ "*" ++ b ++ "*" ++ y ++ "*" ++ d),
        st, big, ("SE*" ++ count ++ se_rest), count, ge, iea, rest
  end.
  split; [exact Hc|].
  split; [rewrite <- !app_assoc; reflexivity|].
  split; [reflexivity|].
  split.
  { unfold isa_elements, field. cbn [nth].
    unfold Py.zfill, Py.len. rewrite I. cbn [Nat.sub Py.repeat_char].
    destruct (interchange_control control_numbers) as [|c r]; [reflexivity|].
    destruct (Ascii.eqb c "+" || Ascii.eqb c "-"); reflexivity. }
  split; [reflexivity|].
  split; [rewrite !str_app_assoc; reflexivity|].
  repeat split; reflexivity.
Qed.

Lemma trailers_repeat_the_control_numbers_witness :
  x12_segments sample_root sample_time
  = Ok (Py.split (ascii_of_nat 10) sample_text)
  /\ exists control_numbers : ControlNumbers,
       _X12ControlNumbers sample_root = Ok control_numbers
       /\ In ("IEA*1*" ++ interchange_control control_numbers ++ "~")
            (Py.split (ascii_of_nat 10) sample_text).
Proof.
  assert (H : x12_segments sample_root sample_time
              = Ok (Py.split (ascii_of_nat 10) sample_text))
    by (vm_compute; reflexivity).
  split; [exact H|].
  destruct (trailers_repeat_the_control_numbers _ _ _ H)
    as (c & s & cu & isa & gs & gf & st & big & se & n & ge & iea & body
        & C & E & _ & _ & I & _).
  exists c. split; [exact C|].
  rewrite E, <- I. apply in_or_app. right. apply in_or_app. right.
  cbn. tauto.
Defined.

(* ===================================================================== *)
(** * The segments of the text *)
(* ===================================================================== *)

(** ** A segment of the list and the segment that the validator reads *)

Lemma startswith_before_terminator (q p : string) (c : ascii) :
  last_char q = Some c -> Ascii.eqb c "~" = false ->
  Py.startswith q (p ++ "~") = Py.startswith q p.
Proof.
  unfold Py.startswith. revert p.
  induction q as [|a q IH]; intros p L N; [discriminate L|].
  destruct p as [|b p]; cbn [append String.prefix].
  - destruct (ascii_dec a "~") as [->|_]; [|reflexivity].
    destruct q as [|y q]; [|reflexivity].
    cbn [last_char] in L. injection L as <-. discriminate N.
  - destruct (ascii_dec a b) as [_|_]; [|reflexivity].
    destruct q as [|y q]; [now destruct p|].
    apply IH; [|exact N].
    cbn [last_char] in L |- *.
    destruct (last_char q); exact L.
Qed.

Lemma rstrip_is_prefix (f : ascii -> bool) (s : string) :
  exists w : string, s = Py.rstrip_by f s ++ w.
Proof.
  induction s as [|c r [w IH]]; [now exists ""|].
  cbn [Py.rstrip_by].
  destruct (Py.rstrip_by f r) as [|y r'].
  - destruct (f c).
    + now exists (String c r).
    + exists w. cbn [append] in IH |- *. congruence.
  - exists w. cbn [append] in IH |- *. congruence.
Qed.

Lemma rstrip_by_app_keep (f : ascii -> bool) (a b : string) (c : ascii) :
  last_char a = Some c -> f c = false ->
  Py.rstrip_by f (a ++ b) = a ++ Py.rstrip_by f b.
Proof.
  intros L N. induction a as [|x a IH]; [discriminate L|].
  destruct a as [|y a].
  - cbn [last_char] in L. injection L as ->.
    cbn [append]. now apply rstrip_by_cons.
  - assert (L' : last_char (String y a) = Some c).
    { cbn [last_char] in L |- *. destruct (last_char a); exact L. }
    specialize (IH L').
    change (String x (String y a) ++ b) with (String x (String y a ++ b)).
    cbn [Py.rstrip_by]. cbn [Py.rstrip_by] in IH. rewrite IH. reflexivity.
Qed.

Lemma startswith_rstrip (q s : string) (c : ascii) :
  last_char q = Some c -> Py.isspace c = false ->
  Py.startswith q (Py.rstrip_by Py.isspace s) = Py.startswith q s.
Proof.
  intros L N. destruct (Py.startswith q s) eqn:E.
  - apply startswith_app in E. destruct E as [r ->].
    rewrite (rstrip_by_app_keep _ _ _ _ L N).
    apply startswith_app. now eexists.
  - destruct (Py.startswith q (Py.rstrip_by Py.isspace s)) eqn:E2;
      [|reflexivity].
    apply startswith_app in E2. destruct E2 as [r E2].
    destruct (rstrip_is_prefix Py.isspace s) as [w W].
    rewrite E2, str_app_assoc in W.
    assert (T : Py.startswith q s = true)
      by (apply startswith_app; eexists; exact W).
    congruence.
Qed.

(** A segment with one terminator that starts with another character than
    white space is one segment for the validator, which starts alike. *)
Lemma split_segments_one (x : ascii) (r : string) :
  Py.isspace x = false -> occurrences "~" (String x r) = O ->
  split_segments (String x r ++ "~")
  = [Py.rstrip_by Py.isspace (String x r)]
  /\ same_start (String x r ++ "~") (Py.rstrip_by Py.isspace (String x r)).
Proof.
  intros S O. split.
  - unfold split_segments.
    change (String x r ++ "~") with (String x r ++ String "~" "").
    rewrite split_app_sep, (split_without_sep "~" _ O).
    cbn [Py.split app filter].
    assert (E : Py.strip (String x r) = Py.rstrip_by Py.isspace (String x r)).
    { unfold Py.strip. cbn [Py.lstrip_by]. now rewrite S. }
    assert (T : Py.truthy (Py.rstrip_by Py.isspace (String x r)) = true)
      by now rewrite (rstrip_by_cons _ _ _ S).
    rewrite E, T. change (Py.strip "") with "".
    cbn [Py.truthy map]. now rewrite E.
  - intros q c L N T.
    rewrite (startswith_rstrip _ _ _ L N).
    symmetry. exact (startswith_before_terminator _ _ _ L T).
Qed.

(** The segments of a joined list are the segments of its elements. *)
Lemma split_segments_join (segments : list string) :
  Forall ends_with_tilde segments ->
  split_segments (Py.join newline segments) = flat_map split_segments segments.
Proof.
  induction 1 as [|x l [p ->] F IH]; [reflexivity|].
  assert (E : split_segments (p ++ "~") = split_segments p).
  { rewrite <- (str_app_nil_r (p ++ "~")), str_app_assoc.
    rewrite split_segments_app. apply app_nil_r. }
  cbn [flat_map]. rewrite E.
  destruct l as [|y l].
  - cbn [flat_map]. rewrite app_nil_r. exact E.
  - change (Py.join newline ((p ++ "~") :: y :: l))
      with ((p ++ "~") ++ newline ++ Py.join newline (y :: l)).
    rewrite str_app_assoc, split_segments_app.
    rewrite (split_segments_blank newline) by reflexivity.
    now rewrite IH.
Qed.

(** The segments that the validator reads in a text whose segments were
    written under tags that start with neither white space nor the
    terminator, each with one terminator: one for each segment written,
    and it starts alike. *)
Lemma split_segments_of_written (tags segments : list string) :
  Forall (fun tag =>
            exists (x : ascii) (r : string),
              tag = String x r /\ Py.isspace x = false
              /\ Ascii.eqb x "~" = false) tags ->
  Forall (written_under tags) segments ->
  Forall one_terminator segments ->
  Forall2 same_start segments (split_segments (Py.join newline segments)).
Proof.
  intros T W O.
  rewrite split_segments_join
    by (eapply Forall_impl; [|exact W]; now intros seg [E _]).
  induction W as [|seg l [[p ->] (tag & I & S)] W IH]; [constructor|].
  apply Forall_cons_iff in O. destruct O as [O1 O].
  rewrite Forall_forall in T.
  destruct (T tag I) as (x & r & -> & Sx & Tx).
  apply startswith_app in S. destruct S as [rest S].
  unfold one_terminator in O1. rewrite occurrences_app in O1.
  cbn [occurrences Ascii.eqb Bool.eqb] in O1.
  destruct p as [|y p].
  { cbn [append] in S. injection S as <- _. discriminate Tx. }
  assert (y = x) by (cbn [append] in S; now injection S). subst y.
  destruct (split_segments_one x p Sx ltac:(cbn [occurrences] in *; lia))
    as [E Q].
  cbn [flat_map]. rewrite E. cbn [app].
  constructor; [exact Q | now apply IH].
Qed.

(** ** What two lists that start alike share *)

Lemma same_start_filter (q : string) (c : ascii) (l l' : list string) :
  last_char q = Some c -> Py.isspace c = false -> Ascii.eqb c "~" = false ->
  Forall2 same_start l l' ->
  Forall2 same_start (tagged q l) (tagged q l').
Proof.
  intros L N T. induction 1 as [|a b l l' R F IH]; [constructor|].
  unfold tagged in *. cbn [filter]. rewrite (R q c L N T).
  destruct (Py.startswith q a); [now constructor | exact IH].
Qed.

Lemma same_start_through (q : string) (c : ascii) (l l' : list string) :
  last_char q = Some c -> Py.isspace c = false -> Ascii.eqb c "~" = false ->
  Forall2 same_start l l' ->
  Forall2 same_start (through q l) (through q l').
Proof.
  intros L N T. induction 1 as [|a b l l' R F IH]; [constructor|].
  cbn [through]. rewrite (R q c L N T).
  destruct (Py.startswith q a); constructor; auto.
Qed.

Lemma same_start_transaction_set (l l' : list string) :
  Forall2 same_start l l' ->
  Forall2 same_start (transaction_set l) (transaction_set l').
Proof.
  unfold transaction_set.
  induction 1 as [|a b l l' R F IH]; [constructor|].
  cbn [from_through]. rewrite (R "ST" "T"%char eq_refl eq_refl eq_refl).
  destruct (Py.startswith "ST" a); [|exact IH].
  constructor; [exact R|].
  now apply (same_start_through "SE" "E"%char).
Qed.

Lemma same_start_first_segment (q : string) (c : ascii) (l l' : list string)
  (seg : string) :
  last_char q = Some c -> Py.isspace c = false -> Ascii.eqb c "~" = false ->
  Forall2 same_start l l' ->
  first_segment q l = Some seg ->
  exists piece : string,
    first_segment q l' = Some piece /\ same_start seg piece.
Proof.
  intros L N T. unfold first_segment.
  induction 1 as [|a b l l' R F IH]; [discriminate|].
  cbn [List.find]. rewrite (R q c L N T).
  destruct (Py.startswith q a); [|exact IH].
  intros [= <-]. eauto.
Qed.

Lemma same_start_other (q : string) (c : ascii) (l l' : list string) :
  last_char q = Some c -> Py.isspace c = false -> Ascii.eqb c "~" = false ->
  Forall2 same_start l l' ->
  Forall (fun seg => Py.startswith q seg = false) l ->
  Forall (fun seg => Py.startswith q seg = false) l'.
Proof.
  intros L N T. induction 1 as [|a b l l' R F IH]; [constructor|].
  intros H. apply Forall_cons_iff in H. destruct H as [H1 H].
  constructor; [now rewrite (R q c L N T) | now apply IH].
Qed.

(** ** The segments that the encoder writes *)

(** Solves [written_under] for a segment written as a concatenation that
    starts with a literal and ends with a literal closed by "~". *)
Ltac written tag :=
  split;
  [ tilde
  | exists tag; split;
    [ cbn [In body_tags]; tauto
    | apply startswith_app; eexists; reflexivity ] ].

Ltac one_written tag :=
  first [ apply Forall_nil
        | apply Forall_cons; [written tag | apply Forall_nil] ].

Lemma it1_segments_written (lines : list ET.Element) (idx : nat)
  (l : list string) :
  it1_segments idx lines = Ok l -> Forall (written_under body_tags) l.
Proof.
  revert idx l; induction lines as [|line lines IH]; intros idx l H.
  - cbn in H. apply Ok_inj in H. subst l. constructor.
  - cbn [it1_segments] in H.
    bind_inv H price Hp. bind_inv H rest Hr.
    apply Ok_inj in H. subst l.
    constructor; [written "IT1*" | now apply IH in Hr].
Qed.

Lemma total_segment_written (root : ET.Element) (l : list string) :
  total_segment root = Ok l -> Forall (written_under body_tags) l.
Proof.
  unfold total_segment. destruct (ET.text_if_any _) as [t|]; intros H.
  - bind_inv H total Ht. apply Ok_inj in H. subst l.
    constructor; [written "TDS*" | constructor].
  - apply Ok_inj in H. subst l. constructor.
Qed.

Lemma due_date_segment_written (root : ET.Element) (l : list string) :
  due_date_segment root = Ok l -> Forall (written_under body_tags) l.
Proof.
  unfold due_date_segment. destruct (ET.text_if_any _) as [t|]; intros H.
  - bind_inv H d Hd. apply Ok_inj in H. subst l.
    constructor; [written "DTM*" | constructor].
  - apply Ok_inj in H. subst l. constructor.
Qed.

Lemma address_segments_written (address : PostalAddress) :
  Forall (written_under body_tags) (address_segments address).
Proof.
  unfold address_segments.
  destruct (_map_address address) as [[state postal] country].
  apply Forall_app. split.
  - destruct (Py.truthy (street address)); constructor;
      [written "N3*" | constructor].
  - destruct (Py.truthy (city address) || Py.truthy postal || Py.truthy country);
      constructor; [written "N4*" | constructor].
Qed.

Lemma small_segments_written (root : ET.Element) :
  Forall (written_under body_tags) (note_segment root)
  /\ Forall (written_under body_tags) (contact_segment root)
  /\ Forall (written_under body_tags) (payment_terms_segment root)
  /\ Forall (written_under body_tags) (delivery_segment root).
Proof.
  repeat split.
  - unfold note_segment. cases; one_written "NTE*".
  - unfold contact_segment. cases; one_written "PER*".
  - unfold payment_terms_segment. cases; one_written "ITD*".
  - unfold delivery_segment. cases; one_written "FOB*".
Qed.

(** The list that [x12_segments] returns: the three headers, the segments
    of the transaction, the SE segment with its count, and the two other
    trailers. *)
Lemma x12_segments_written (root : ET.Element) (current_time : PyDate.datetime)
  (segs : list string) :
  x12_segments root current_time = Ok segs ->
  exists (isa gs st se ge iea control : string) (middle : list string),
    segs = ([isa; gs; st] ++ middle ++ [se; ge; iea])%list
    /\ written_under ["ISA*"] isa
    /\ written_under ["GS*"] gs
    /\ written_under ["ST*"] st
    /\ Forall (written_under body_tags) middle
    /\ se = "SE*" ++ Py.str_of_nat (List.length middle + 2) ++ "*" ++ control
            ++ "~"
    /\ written_under ["GE*"] ge
    /\ written_under ["IEA*"] iea.
Proof.
  intros H. unfold x12_segments in H.
  bind_inv H control_numbers Hc.
  bind_inv H formatted_date Hd.
  bind_inv H dtm Hdtm.
  bind_inv H it1 Hit1.
  bind_inv H tds Htds.
  bind_inv H hash_total Hh.
  bind_inv H hash_text Ht.
  bind_inv H st_index Hi.
  cbn [app index_where] in Hi.
  change (Ok 2%nat = Ok st_index) in Hi. apply Ok_inj in Hi. subst st_index.
  apply Ok_inj in H. subst segs.
  apply it1_segments_written in Hit1.
  apply total_segment_written in Htds.
  apply due_date_segment_written in Hdtm.
  destruct (small_segments_written root) as (Nte & Per & Itd & Fob).
  clear Hc Hd Hh Ht.
  match goal with
  | |- context [(([?isa; ?gs; ?st; ?big] ++ ?rest)
                 ++ [("SE*" ++ ?count ++ "*" ++ ?control ++ "~")%string;
                     ?ge; ?iea])%list] =>
      exists isa, gs, st, ("SE*" ++ count ++ "*" ++ control ++ "~"), ge, iea,
        control, (big :: rest)
  end.
  split; [reflexivity|].
  split; [split; [apply isa_ends_with_tilde|]|].
  { exists "ISA*". split; [now left|].
    apply startswith_app. eexists.
    unfold _create_ISA_segment, isa_elements.
    cbn [Py.join String.concat]. rewrite !str_app_assoc. reflexivity. }
  split; [written "GS*"|].
  split; [written "ST*"|].
  split.
  { repeat first
      [ assumption
      | apply address_segments_written
      | apply Forall_nil
      | apply Forall_cons
      | apply Forall_app; split ];
      try (unfold optional_segment; cases;
           first [one_written "CUR*" | one_written "REF*"]);
      first [written "BIG*" | written "N1*" | written "CTT*"]. }
  split.
  { do 2 f_equal. unfold Py.str_of_nat. f_equal.
    cbn [List.length]. rewrite !List.length_app. cbn [List.length]. lia. }
  split; [written "GE*" | written "IEA*"].
Qed.

(** ** The list of the encoder and the segments of its text *)

Lemma written_under_incl (tags tags' : list string) (seg : string) :
  incl tags tags' -> written_under tags seg -> written_under tags' seg.
Proof. intros I [E (tag & T & S)]. split; [exact E|]. exists tag. auto. Qed.

Lemma written_under_start (tags : list string) (q seg : string) (b : bool) :
  written_under tags seg ->
  (forall tag : string,
      In tag tags -> forall r : string, Py.startswith q (tag ++ r) = b) ->
  Py.startswith q seg = b.
Proof.
  intros [_ (tag & T & S)] H. apply startswith_app in S.
  destruct S as [r ->]. now apply H.
Qed.

Lemma body_tags_start (q : string) (seg : string) :
  In q ["ST"; "SE"] -> written_under body_tags seg ->
  Py.startswith q seg = false.
Proof.
  intros I W. apply (written_under_start body_tags); [exact W|].
  intros tag T r. cbn [In body_tags] in I, T.
  repeat match type of I with
         | _ \/ _ => destruct I as [I|I]
         end; try contradiction; subst q;
    repeat match type of T with
           | _ \/ _ => destruct T as [T|T]
           end; try contradiction; subst tag; reflexivity.
Qed.

Lemma through_app (q : string) (l : list string) (x : string)
  (rest : list string) :
  Forall (fun seg => Py.startswith q seg = false) l ->
  Py.startswith q x = true ->
  through q (l ++ x :: rest) = (l ++ [x])%list.
Proof.
  intros F S. induction F as [|a l A F IH]; cbn [app through].
  - now rewrite S.
  - now rewrite A, IH.
Qed.

Lemma first_segment_app (q : string) (l : list string) (x : string)
  (rest : list string) :
  Forall (fun seg => Py.startswith q seg = false) l ->
  Py.startswith q x = true ->
  first_segment q (l ++ x :: rest) = Some x.
Proof.
  intros F S. unfold first_segment.
  induction F as [|a l A F IH]; cbn [app List.find].
  - now rewrite S.
  - now rewrite A.
Qed.

Lemma Forall2_nth_error_right {A B : Type} (R : A -> B -> Prop)
  (l : list A) (l' : list B) (k : nat) (b : B) :
  Forall2 R l l' -> nth_error l' k = Some b ->
  exists a : A, nth_error l k = Some a /\ R a b.
Proof.
  intros F. revert k. induction F as [|x y l l' H F IH]; intros k E.
  - destruct k; discriminate E.
  - destruct k as [|k]; cbn [nth_error] in E |- *.
    + injection E as <-. eauto.
    + now apply IH.
Qed.

(** The SE segment of the list, and the segments from ST through SE. *)
Lemma x12_segments_transaction_set (root : ET.Element)
  (current_time : PyDate.datetime) (segs : list string) :
  x12_segments root current_time = Ok segs ->
  exists se control : string,
    first_segment "SE" segs = Some se
    /\ se = "SE*" ++ Py.str_of_nat (List.length (transaction_set segs)) ++ "*"
            ++ control ++ "~".
Proof.
  intros H.
  destruct (x12_segments_written _ _ _ H)
    as (isa & gs & st & se & ge & iea & control & middle
        & -> & Wisa & Wgs & Wst & Wm & Ese & _ & _).
  assert (S1 : Py.startswith "ST" isa = false).
  { apply (written_under_start _ _ _ _ Wisa).
    intros tag [<-|[]] r. reflexivity. }
  assert (S2 : Py.startswith "ST" gs = false).
  { apply (written_under_start _ _ _ _ Wgs).
    intros tag [<-|[]] r. reflexivity. }
  assert (S3 : Py.startswith "ST" st = true).
  { apply (written_under_start _ _ _ _ Wst).
    intros tag [<-|[]] r. reflexivity. }
  assert (E1 : Py.startswith "SE" isa = false).
  { apply (written_under_start _ _ _ _ Wisa).
    intros tag [<-|[]] r. reflexivity. }
  assert (E2 : Py.startswith "SE" gs = false).
  { apply (written_under_start _ _ _ _ Wgs).
    intros tag [<-|[]] r. reflexivity. }
  assert (E3 : Py.startswith "SE" st = false).
  { apply (written_under_start _ _ _ _ Wst).
    intros tag [<-|[]] r. reflexivity. }
  assert (E4 : Forall (fun seg => Py.startswith "SE" seg = false) middle).
  { eapply Forall_impl; [|exact Wm].
    intros seg. apply body_tags_start. cbn; tauto. }
  assert (E5 : Py.startswith "SE" se = true) by (rewrite Ese; reflexivity).
  exists se, control. split.
  - change ([isa; gs; st] ++ middle ++ [se; ge; iea])%list
      with (isa :: gs :: st :: middle ++ se :: [ge; iea])%list.
    unfold first_segment. cbn [List.find]. rewrite E1, E2, E3.
    now apply first_segment_app.
  - assert (T : transaction_set ([isa; gs; st] ++ middle ++ [se; ge; iea])
                = (st :: middle ++ [se])%list).
    { unfold transaction_set. cbn [app from_through].
      rewrite S1, S2, S3. f_equal. now apply through_app. }
    rewrite T. cbn [List.length]. rewrite List.length_app. cbn [List.length].
    rewrite Ese. do 3 f_equal. lia.
Qed.

(** The segments that the validator reads in the text of the encoder,
    when no segment of the list holds a terminator before its end: one for
    each segment of the list, and it starts alike. *)
Lemma x12_segments_read (root : ET.Element) (current_time : PyDate.datetime)
  (segs : list string) :
  x12_segments root current_time = Ok segs ->
  Forall one_terminator segs ->
  Forall2 same_start segs (split_segments (Py.join newline segs)).
Proof.
  intros H O.
  destruct (x12_segments_written _ _ _ H)
    as (isa & gs & st & se & ge & iea & control & middle
        & -> & Wisa & Wgs & Wst & Wm & Ese & Wge & Wiea).
  set (tags := (["ISA*"; "GS*"; "ST*"; "SE*"; "GE*"; "IEA*"] ++ body_tags)%list).
  assert (Wse : written_under ["SE*"] se) by (rewrite Ese; written "SE*").
  apply (split_segments_of_written tags); [| |exact O].
  - unfold tags, body_tags. cbn [app].
    repeat (apply Forall_cons;
            [do 2 eexists; split; [reflexivity | split; reflexivity]|]).
    apply Forall_nil.
  - assert (I : forall tag, In tag ["ISA*"; "GS*"; "ST*"; "SE*"; "GE*"; "IEA*"] ->
                            incl [tag] tags).
    { intros tag T x [<-|[]]. unfold tags. apply in_or_app. now left. }
    repeat first
      [ apply Forall_nil
      | apply Forall_cons
      | apply Forall_app; split ].
    + apply (written_under_incl ["ISA*"]); [apply I; cbn; tauto | exact Wisa].
    + apply (written_under_incl ["GS*"]); [apply I; cbn; tauto | exact Wgs].
    + apply (written_under_incl ["ST*"]); [apply I; cbn; tauto | exact Wst].
    + eapply Forall_impl; [|exact Wm]. intros seg.
      apply written_under_incl. intros x X. unfold tags.
      apply in_or_app. now right.
    + apply (written_under_incl ["SE*"]); [apply I; cbn; tauto | exact Wse].
    + apply (written_under_incl ["GE*"]); [apply I; cbn; tauto | exact Wge].
    + apply (written_under_incl ["IEA*"]); [apply I; cbn; tauto | exact Wiea].
Qed.

(** ** C5: the count of the SE segment *)

(** C5.  Every EDI text that the encoder produces is the join of the list
    of segments that it has built.  In this list the first data element of
    the SE segment is the number of segments from the ST segment through
    the SE segment, both counted.  When every segment of the list holds
    one terminator, the one that ends it, the same holds of the segments
    that [validate_edi_format] reads in the text. *)
Theorem se_count_is_number_of_segments (parse_xml : string -> parsed)
  (xml_content : string) (current_time : PyDate.datetime) (text : string) :
  _convert_xml_to_x12_content parse_xml xml_content current_time = Some text ->
  exists (root : ET.Element) (segs : list string) (se control : string),
    parse_xml xml_content = Parsed root
    /\ x12_segments root current_time = Ok segs
    /\ text = Py.join newline segs
    /\ first_segment "SE" segs = Some se
    /\ se = "SE*" ++ Py.str_of_nat (List.length (transaction_set segs)) ++ "*"
            ++ control ++ "~"
    /\ (Forall one_terminator segs ->
        exists piece rest : string,
          first_segment "SE" (split_segments text) = Some piece
          /\ piece
             = "SE*"
               ++ Py.str_of_nat
                    (List.length (transaction_set (split_segments text)))
               ++ "*" ++ rest).
Proof.
  intros H.
  destruct (convert_inv _ _ _ _ H) as (root & segs & P & X & ->).
  destruct (x12_segments_transaction_set _ _ _ X) as (se & control & F & E).
  exists root, segs, se, control.
  repeat (split; [assumption || reflexivity|]).
  intros O.
  pose proof (x12_segments_read _ _ _ X O) as R.
  destruct (same_start_first_segment "SE" "E"%char _ _ _ eq_refl eq_refl eq_refl
              R F) as (piece & F' & Q).
  pose proof (Forall2_length (same_start_transaction_set _ _ R)) as L.
  set (count := Py.str_of_nat (List.length (transaction_set segs))) in *.
  assert (S : Py.startswith ("SE*" ++ count ++ "*") piece = true).
  { rewrite (Q ("SE*" ++ count ++ "*") "*"%char).
    - apply startswith_app. exists (control ++ "~").
      rewrite E, !str_app_assoc. reflexivity.
    - apply (last_char_app "SE*"), last_char_app. reflexivity.
    - reflexivity.
    - reflexivity. }
  apply startswith_app in S. destruct S as [rest S].
  exists piece, rest. split; [exact F'|].
  rewrite <- L. fold count. rewrite S, !str_app_assoc. reflexivity.
Qed.

Lemma se_count_is_number_of_segments_witness :
  _convert_xml_to_x12_content sample_parser "<Invoice/>" sample_time
  = Some sample_text
  /\ exists piece rest : string,
       first_segment "SE" (split_segments sample_text) = Some piece
       /\ piece
          = "SE*"
            ++ Py.str_of_nat
                 (List.length (transaction_set (split_segments sample_text)))
            ++ "*" ++ rest.
Proof.
  pose proof sample_conversion as H.
  split; [exact H|].
  destruct (se_count_is_number_of_segments sample_parser "<Invoice/>"
              sample_time sample_text H)
    as (root & segs & se & control & P & X & T & _ & _ & A).
  apply A.
  assert (R : root = sample_root).
  { unfold sample_parser in P. cbn in P. now injection P. }
  subst root.
  assert (S : x12_segments sample_root sample_time
              = Ok (Py.split (ascii_of_nat 10) sample_text))
    by (vm_compute; reflexivity).
  rewrite S in X. apply Ok_inj in X. subst segs.
  cbv [sample_text Py.join]. cbn.
  repeat constructor.
Defined.

(** The note "a~b" of the sample invoice is written as "NTE*GEN*a~b~":
    one segment of the list, counted once in "SE*9*0000~", and two of the
    ten segments that the validator reads from ST through SE. *)
Lemma se_count_with_terminator_in_note :
  _convert_xml_to_x12_content (fun _ => Parsed sample_noted) "<Invoice/>"
    sample_time = Some sample_noted_text
  /\ first_segment "SE" (split_segments sample_noted_text) = Some "SE*9*0000"
  /\ List.length (transaction_set (split_segments sample_noted_text)) = 10%nat.
Proof. repeat split; vm_compute; reflexivity. Qed.

(** ** The IT1 segments *)

(** The IT1 and CTT segments of the list that the encoder joins. *)
Lemma it1_segments_of_the_list (root : ET.Element)
  (current_time : PyDate.datetime) (segs : list string) :
  x12_segments root current_time = Ok segs ->
  let invoice_lines :=
    ET.findall root [ET.Self; ET.Descendant (cac "InvoiceLine")] in
  List.length (tagged "IT1*" segs) = List.length invoice_lines
  /\ (forall (k : nat) (seg : string),
        nth_error (tagged "IT1*" segs) k = Some seg ->
        Py.startswith ("IT1*" ++ Py.str_of_nat (1 + k) ++ "*") seg = true)
  /\ exists ctt : string,
       tagged "CTT*" segs = [ctt]
       /\ Py.startswith
            ("CTT*" ++ Py.str_of_nat (List.length invoice_lines) ++ "*") ctt
          = true.
Proof.
  intros H invoice_lines.
  destruct (x12_segments_tagged "IT1*" _ _ _ ltac:(cbn; tauto) H)
    as (it1 & h1 & c1 & Hit1 & -> & E1).
  destruct (x12_segments_tagged "CTT*" _ _ _ ltac:(cbn; tauto) H)
    as (it1' & h2 & c2 & Hit1' & -> & E2).
  fold invoice_lines in Hit1, Hit1', E1, E2.
  rewrite Hit1 in Hit1'. apply Ok_inj in Hit1'. subst it1'.
  destruct (it1_segments_numbered _ _ _ Hit1) as (L & F & N).
  assert (T1 : tagged "IT1*" it1 = it1) by (apply filter_all; exact F).
  assert (T2 : tagged "CTT*" it1 = []).
  { apply filter_none. eapply Forall_impl; [|exact F].
    intros seg S. apply startswith_app in S. destruct S as [r ->].
    reflexivity. }
  rewrite T1 in E1. rewrite T2 in E2.
  assert (E1' : tagged "IT1*" segs = it1).
  { rewrite E1. unfold tagged. cbn [filter].
    replace (Py.startswith "IT1*" _) with false by reflexivity.
    apply app_nil_r. }
  rewrite E1'. split; [exact L|]. split; [exact N|].
  eexists. split.
  - rewrite E2. unfold tagged. cbn [app filter].
    match goal with
    | |- context [Py.startswith "CTT*" ?s] =>
        replace (Py.startswith "CTT*" s) with true; [reflexivity|]
    end.
    symmetry. apply startswith_app. eexists. reflexivity.
  - apply startswith_app. eexists. rewrite !str_app_assoc. reflexivity.
Qed.


(** X21.  The encoder writes one IT1 segment for each invoice line,
    numbered from 1 in the order of the document, and exactly one CTT
    segment, whose first element is the number of invoice lines: in the
    list that it joins and, when every segment of the list holds one
    terminator, the one that ends it, among the segments that
    [validate_edi_format] reads in the text. *)
Theorem one_it1_segment_per_invoice_line (root : ET.Element)
  (current_time : PyDate.datetime) (segs : list string) :
  x12_segments root current_time = Ok segs ->
  let invoice_lines :=
    ET.findall root [ET.Self; ET.Descendant (cac "InvoiceLine")] in
  let numbered (segments : list string) :=
    List.length (tagged "IT1*" segments) = List.length invoice_lines
    /\ (forall (k : nat) (seg : string),
          nth_error (tagged "IT1*" segments) k = Some seg ->
          Py.startswith ("IT1*" ++ Py.str_of_nat (1 + k) ++ "*") seg = true)
    /\ exists ctt : string,
         tagged "CTT*" segments = [ctt]
         /\ Py.startswith
              ("CTT*" ++ Py.str_of_nat (List.length invoice_lines) ++ "*") ctt
            = true in
  numbered segs
  /\ (Forall one_terminator segs ->
      numbered (split_segments (Py.join newline segs))).
Proof.
  intros H invoice_lines numbered.
  destruct (it1_segments_of_the_list _ _ _ H) as (L & N & ctt & C & S).
  fold invoice_lines in L, S.
  split; [unfold numbered; eauto|].
  intros O. pose proof (x12_segments_read _ _ _ H O) as R.
  set (pieces := split_segments (Py.join newline segs)) in *.
  pose proof (same_start_filter "IT1*" "*"%char _ _ eq_refl eq_refl eq_refl R)
    as R1.
  pose proof (same_start_filter "CTT*" "*"%char _ _ eq_refl eq_refl eq_refl R)
    as R2.
  split; [|split].
  - rewrite <- (Forall2_length R1). exact L.
  - intros k piece E.
    destruct (Forall2_nth_error_right _ _ _ _ _ R1 E) as (seg & E' & Q).
    rewrite (Q ("IT1*" ++ Py.str_of_nat (1 + k) ++ "*") "*"%char).
    + now apply N.
    + apply (last_char_app "IT1*"), last_char_app. reflexivity.
    + reflexivity.
    + reflexivity.
  - rewrite C in R2. inversion R2 as [|a b l l' Q F]. subst.
    inversion F. subst. exists b. split; [reflexivity|].
    rewrite (Q ("CTT*" ++ Py.str_of_nat (List.length invoice_lines) ++ "*")
               "*"%char).
    + exact S.
    + apply (last_char_app "CTT*"), last_char_app. reflexivity.
    + reflexivity.
    + reflexivity.
Qed.

Lemma one_it1_segment_per_invoice_line_witness :
  x12_segments sample_two_lines sample_time = Ok sample_two_lines_segments
  /\ List.length (tagged "IT1*" sample_two_lines_segments) = 2%nat
  /\ List.length
       (tagged "IT1*"
          (split_segments (Py.join newline sample_two_lines_segments)))
     = 2%nat.
Proof.
  assert (H : x12_segments sample_two_lines sample_time
              = Ok sample_two_lines_segments)
    by (vm_compute; reflexivity).
  split; [exact H|].
  destruct (one_it1_segment_per_invoice_line _ _ _ H) as [A B].
  split; [exact (proj1 A)|].
  refine (proj1 (B _)).
  unfold sample_two_lines_segments. repeat constructor.
Defined.

(** ** C10: the due date *)

Section DueDate.

Variable parse_xml : string -> parsed.
Variable decode_utf8 encode_utf8 : string -> option string.
Variable complete_xml : string -> bool -> option string.
Variable complete_edi :
  string -> string -> list ErrorDetail -> bool -> option string.
Variable os : OS.

(** A request whose upload was saved, is read back and passes the XML
    validation, and for which the encoder returns no text: the failure
    branch of the conversion reads the upload as text and then builds a
    path from [None], so the request ends with an exception before anything
    is recorded. *)
Lemma failed_conversion_run (fs fs1 : storage)
  (filename content xml_path : string) (strict_validation : bool)
  (tracking_id : N) (current_time : PyDate.datetime) :
  filename <> "" ->
  save_file_to_storage os fs content (UUID.str tracking_id ++ "_" ++ filename)
    "uploads" = (fs1, Some xml_path) ->
  fs1 xml_path = Some content ->
  fst (fst (validate_xml parse_xml fs1 xml_path strict_validation)) = true ->
  _convert_xml_to_x12_content parse_xml content current_time = None ->
  let r :=
    _process_invoice_internal parse_xml decode_utf8 encode_utf8 complete_xml
      complete_edi os fs "text/xml" filename content strict_validation
      tracking_id current_time in
  trace r = [Validate XML_VALIDATION true; Convert false]
  /\ files r = fs1
  /\ ending r
     = InternalServerError
         match decode_utf8 content with
         | Some _ => TypeError
         | None => UnicodeDecodeError
         end.
Proof.
  intros Nf S R1 V C r. subst r. unfold _process_invoice_internal.
  change (String.eqb "text/xml" "text/xml") with true.
  assert (F : Py.truthy filename = true)
    by (destruct filename; [contradiction | reflexivity]).
  rewrite F. cbn [negb]. cbv zeta. rewrite S, V. cbn [negb].
  unfold convert_xml_to_x12. rewrite R1, C.
  unfold read_text. rewrite R1.
  destruct (decode_utf8 content); repeat split; reflexivity.
Qed.

(** C10.  When the document has a [cbc:DueDate] element (the first one in
    document order, which is the one the encoder reads) with a text that
    [strptime] does not accept as "%Y-%m-%d", the encoder returns [None].
    A request with such a document that was saved and has passed the XML
    validation then ends, after the failed conversion, with an exception
    ([TypeError], or [UnicodeDecodeError] for an upload that is not
    UTF-8), the failure branch building a path from [None]: no row is
    written, so no failed step is recorded.  When there is no due date to
    read, the text of a conversion that succeeds is the join of a list
    without a DTM segment, and the validator reads no DTM segment in it
    when every segment of the list holds one terminator. *)
Theorem unparseable_due_date_fails_conversion (xml_content : string)
  (root : ET.Element) (current_time : PyDate.datetime) :
  parse_xml xml_content = Parsed root ->
  let due_date := ET.find root [ET.Self; ET.Descendant (cbc "DueDate")] in
  let converted :=
    _convert_xml_to_x12_content parse_xml xml_content current_time in
  (forall (elem : ET.Element) (t : string) (e : exn),
      due_date = Some elem -> ET.text elem = Some t -> t <> "" ->
      PyDate.strptime (Py.strip t) = Raise e ->
      converted = None
      /\ forall (fs fs1 : storage) (filename xml_path : string)
                (strict_validation : bool) (tracking_id : N),
           filename <> "" ->
           save_file_to_storage os fs xml_content
             (UUID.str tracking_id ++ "_" ++ filename) "uploads"
           = (fs1, Some xml_path) ->
           fs1 xml_path = Some xml_content ->
           fst (fst (validate_xml parse_xml fs1 xml_path strict_validation))
           = true ->
           let r :=
             _process_invoice_internal parse_xml decode_utf8 encode_utf8
               complete_xml complete_edi os fs "text/xml" filename xml_content
               strict_validation tracking_id current_time in
           trace r = [Validate XML_VALIDATION true; Convert false]
           /\ filter is_row (trace r) = []
           /\ ending r
              = InternalServerError
                  match decode_utf8 xml_content with
                  | Some _ => TypeError
                  | None => UnicodeDecodeError
                  end)
  /\ (ET.text_if_any due_date = None ->
      forall segs : list string,
        x12_segments root current_time = Ok segs ->
        converted = Some (Py.join newline segs)
        /\ Forall not_DTM segs
        /\ (Forall one_terminator segs ->
            Forall not_DTM (split_segments (Py.join newline segs)))).
Proof.
  intros P due_date converted. split.
  - intros elem t e D T NE S.
    assert (R : due_date_segment root = Raise e).
    { unfold due_date_segment. fold due_date. rewrite D.
      unfold ET.text_if_any. rewrite T.
      destruct t as [|c t]; [now elim NE|].
      cbn [Py.truthy_opt Py.truthy]. rewrite S. reflexivity. }
    destruct (x12_segments_Raise_due_date root current_time e R) as (e' & X).
    assert (C : converted = None).
    { unfold converted, _convert_xml_to_x12_content, fromstring.
      rewrite P. cbn [bind]. rewrite X. reflexivity. }
    split; [exact C|].
    intros fs fs1 filename xml_path strict_validation tracking_id Nf Sv R1 V r.
    destruct (failed_conversion_run fs fs1 filename xml_content xml_path
                strict_validation tracking_id current_time Nf Sv R1 V C)
      as (Tr & _ & En).
    fold r in Tr, En. split; [exact Tr|]. split; [|exact En].
    rewrite Tr. reflexivity.
  - intros D segs X.
    split; [|split].
    + unfold converted, _convert_xml_to_x12_content, fromstring.
      rewrite P. cbn [bind]. rewrite X. reflexivity.
    + exact (x12_segments_without_due_date root current_time segs D X).
    + intros O.
      apply (same_start_other "DTM" "M"%char segs);
        [reflexivity | reflexivity | reflexivity | |].
      * now apply (x12_segments_read root current_time).
      * exact (x12_segments_without_due_date root current_time segs D X).
Qed.

End DueDate.

Lemma unparseable_due_date_fails_conversion_witness :
  let r :=
    _process_invoice_internal (fun _ => Parsed sample_bad_due_date)
      sample_codec sample_codec (fun _ _ => None) (fun _ _ _ _ => None)
      sample_os (fun _ => None) "text/xml" "invoice.xml" "<Invoice/>" false
      sample_tracking_id sample_time in
  ET.find sample_bad_due_date [ET.Self; ET.Descendant (cbc "DueDate")]
  = Some (leaf (cbc "DueDate") "31/01/2024")
  /\ PyDate.strptime (Py.strip "31/01/2024") = Raise ValueError
  /\ _convert_xml_to_x12_content (fun _ => Parsed sample_bad_due_date)
       "<Invoice/>" sample_time = None
  /\ trace r = [Validate XML_VALIDATION true; Convert false]
  /\ filter is_row (trace r) = []
  /\ ending r = InternalServerError TypeError.
Proof.
  intros r.
  assert (D : ET.find sample_bad_due_date [ET.Self; ET.Descendant (cbc "DueDate")]
              = Some (leaf (cbc "DueDate") "31/01/2024")) by reflexivity.
  assert (S : PyDate.strptime (Py.strip "31/01/2024") = Raise ValueError)
    by reflexivity.
  split; [exact D|]. split; [exact S|].
  destruct (proj1 (unparseable_due_date_fails_conversion
                     (fun _ => Parsed sample_bad_due_date) sample_codec
                     sample_codec (fun _ _ => None) (fun _ _ _ _ => None)
                     sample_os "<Invoice/>" sample_bad_due_date sample_time
                     eq_refl)
              (leaf (cbc "DueDate") "31/01/2024") "31/01/2024" ValueError
              D eq_refl ltac:(discriminate) S)
    as [C A].
  split; [exact C|].
  exact (A (fun _ => None)
           (with_file (fun _ => None)
              "uploads/7f9c2ba4-e88f-427d-9160-45507a4e9f31_invoice.xml"
              "<Invoice/>")
           "invoice.xml"
           "uploads/7f9c2ba4-e88f-427d-9160-45507a4e9f31_invoice.xml"
           false sample_tracking_id ltac:(discriminate)
           ltac:(vm_compute; reflexivity) eq_refl
           ltac:(vm_compute; reflexivity)).
Defined.

(* ===================================================================== *)
(** * Further properties: invoices and API keys *)
(* ===================================================================== *)

(** ** Soft deletion and restoration *)

Lemma live_is_not_deleted (i u : Z) (r : DB.row) :
  DB.live i u r = true ->
  DB.deleted_at r = None
  /\ forall now, DB.deleted i u (DB.set_deleted_at (Some now) r) = true.
Proof.
  unfold DB.live, DB.deleted. intros H.
  rewrite !andb_true_iff in H. destruct H as [[I U] D].
  destruct r as [ri t ru d]. cbn in *.
  destruct d; [discriminate D|]. split; [reflexivity|].
  intros now. now rewrite I, U.
Qed.

Lemma find_None_forall {A : Type} (p : A -> bool) (l : list A) :
  List.find p l = None <-> Forall (fun x => p x = false) l.
Proof.
  induction l as [|x l IH]; cbn [List.find].
  - split; [constructor | reflexivity].
  - destruct (p x) eqn:E.
    + split; [discriminate|]. intros F. apply Forall_inv in F. congruence.
    + rewrite IH. split; [now constructor | apply Forall_inv_tail].
Qed.

(** Restoring after a deletion, on one table without a deleted row of that
    id and user. *)
Lemma restore_after_delete (i u : Z) (now : PyDate.datetime)
  (table : list DB.row) (r : DB.row) :
  List.find (DB.live i u) table = Some r ->
  List.find (DB.deleted i u) table = None ->
  let table' :=
    DB.update_first (DB.live i u) (DB.set_deleted_at (Some now)) table in
  (exists r', List.find (DB.deleted i u) table' = Some r')
  /\ DB.update_first (DB.deleted i u) (DB.set_deleted_at None) table' = table.
Proof.
  induction table as [|x rest IH]; [discriminate|].
  cbn [List.find DB.update_first].
  destruct (DB.live i u x) eqn:L.
  - intros _ _. apply live_is_not_deleted in L. destruct L as [N D].
    cbn [List.find DB.update_first]. rewrite D.
    split; [eauto|]. f_equal.
    destruct x as [xi t xu d]. cbn in N. subst d. reflexivity.
  - destruct (DB.deleted i u x) eqn:D; [discriminate|].
    intros F1 F2. cbn [List.find DB.update_first]. rewrite D.
    destruct (IH F1 F2) as [E U]. split; [exact E|]. now rewrite U.
Qed.

(** X23.  Restoring undoes a deletion: when no deleted invoice of the user
    has the same id, [restore_invoice] after a successful [delete_invoice]
    brings both tables back to what they were. *)
Theorem restore_undoes_delete (db db' : DB.session) (invoice_id current_user : Z)
  (utcnow : PyDate.datetime) (body : bool * string) :
  List.find (DB.deleted invoice_id current_user) (DB.success db) = None ->
  List.find (DB.deleted invoice_id current_user) (DB.failed db) = None ->
  delete_invoice db invoice_id current_user utcnow = (db', Returned body) ->
  restore_invoice db' invoice_id current_user
  = (db, Returned (true, "Invoice restored successfully")).
Proof.
  intros Ds Df. unfold delete_invoice.
  destruct db as [s f]. cbn [DB.success DB.failed] in *.
  destruct (List.find (DB.live invoice_id current_user) s) as [r|] eqn:Ls.
  - intros H. injection H as <- _.
    destruct (restore_after_delete _ _ utcnow _ _ Ls Ds) as [[r' E] U].
    unfold restore_invoice. cbn [DB.success DB.failed].
    rewrite E, U. reflexivity.
  - destruct (List.find (DB.live invoice_id current_user) f) as [r|] eqn:Lf;
      [|discriminate].
    intros H. injection H as <- _.
    destruct (restore_after_delete _ _ utcnow _ _ Lf Df) as [[r' E] U].
    unfold restore_invoice. cbn [DB.success DB.failed].
    rewrite Ds, E, U. reflexivity.
Qed.

Lemma restore_undoes_delete_witness :
  let db :=
    DB.mk_session [DB.mk_row 7 "7f9c" 1 None] [DB.mk_row 7 "a01b" 1 None] in
  restore_invoice (fst (delete_invoice db 7 1 sample_time)) 7 1
  = (db, Returned (true, "Invoice restored successfully")).
Proof.
  intros db.
  apply (restore_undoes_delete db _ 7 1 sample_time
           (true, "Invoice deleted successfully")); reflexivity.
Defined.

(** ** The counts *)

Lemma count_cons (p : DB.row -> bool) (r : DB.row) (l : list DB.row) :
  DB.count p (r :: l) = ((if p r then 1 else 0) + DB.count p l)%nat.
Proof. unfold DB.count. cbn [filter]. destruct (p r); reflexivity. Qed.

(** The counts of a table after the deletion of one of its rows. *)
Lemma count_after_delete (i u : Z) (now : PyDate.datetime) (table : list DB.row)
  (r : DB.row) :
  List.find (DB.live i u) table = Some r ->
  let table' :=
    DB.update_first (DB.live i u) (DB.set_deleted_at (Some now)) table in
  (DB.count (owned u false) table = 1 + DB.count (owned u false) table')%nat
  /\ (DB.count (owned u true) table' = 1 + DB.count (owned u true) table)%nat
  /\ forall (v : Z) (d : bool),
       v <> u -> DB.count (owned v d) table' = DB.count (owned v d) table.
Proof.
  induction table as [|x rest IH]; [discriminate|].
  cbn [List.find DB.update_first].
  destruct (DB.live i u x) eqn:L.
  - intros _. unfold DB.live in L. rewrite !andb_true_iff in L.
    destruct L as [[I U] D]. apply Z.eqb_eq in U.
    destruct x as [xi t xu d]. cbn in U, D. subst xu.
    destruct d; [discriminate D|].
    set (x := DB.mk_row xi t u None).
    assert (O1 : owned u false x = true)
      by (unfold owned; cbn; now rewrite Z.eqb_refl).
    assert (O2 : owned u true x = false)
      by (unfold owned; cbn; now rewrite Z.eqb_refl).
    assert (O3 : owned u false (DB.set_deleted_at (Some now) x) = false)
      by (unfold owned; cbn; now rewrite Z.eqb_refl).
    assert (O4 : owned u true (DB.set_deleted_at (Some now) x) = true)
      by (unfold owned; cbn; now rewrite Z.eqb_refl).
    split; [|split].
    + rewrite !count_cons, O1, O3. reflexivity.
    + rewrite !count_cons, O2, O4. reflexivity.
    + intros v d N. rewrite !count_cons.
      apply Z.eqb_neq in N. rewrite Z.eqb_sym in N.
      assert (O5 : owned v d x = false) by (unfold owned; cbn; now rewrite N).
      assert (O6 : owned v d (DB.set_deleted_at (Some now) x) = false)
        by (unfold owned; cbn; now rewrite N).
      rewrite O5, O6. reflexivity.
  - intros F. destruct (IH F) as (A & B & C).
    rewrite !count_cons. split; [lia|]. split; [lia|].
    intros v d N. rewrite !count_cons, (C v d N). reflexivity.
Qed.

Lemma find_app {A : Type} (p : A -> bool) (a b : list A) :
  List.find p (a ++ b)
  = match List.find p a with
    | Some x => Some x
    | None => List.find p b
    end.
Proof.
  induction a as [|x a IH]; [reflexivity|].
  cbn [app List.find]. destruct (p x); [reflexivity | exact IH].
Qed.

(** X24.  [delete_invoice] succeeds exactly when the user has an invoice of
    that id that is not deleted, in one of the two tables, and fails with
    404, changing nothing, exactly when there is none.  A successful
    deletion lowers the user's total in [get_invoice_counts] by one, raises
    the deleted count by one and leaves the counts of every other user
    unchanged. *)
Theorem delete_moves_one_invoice (db : DB.session) (invoice_id current_user : Z)
  (utcnow : PyDate.datetime) :
  let '(db', response) := delete_invoice db invoice_id current_user utcnow in
  let before := get_invoice_counts db current_user in
  let after := get_invoice_counts db' current_user in
  match response with
  | Returned body =>
      body = (true, "Invoice deleted successfully")
      /\ (exists r : DB.row,
            List.find (DB.live invoice_id current_user)
              (DB.success db ++ DB.failed db) = Some r)
      /\ (Counts.total before = 1 + Counts.total after)%nat
      /\ (Counts.deleted after = 1 + Counts.deleted before)%nat
      /\ forall user : Z,
           user <> current_user ->
           get_invoice_counts db' user = get_invoice_counts db user
  | HTTPException status_code _ =>
      status_code = 404 /\ db' = db
      /\ List.find (DB.live invoice_id current_user)
           (DB.success db ++ DB.failed db) = None
  end.
Proof.
  unfold delete_invoice. rewrite find_app.
  destruct (List.find (DB.live invoice_id current_user) (DB.success db))
    as [r|] eqn:Ls.
  - destruct (count_after_delete _ _ utcnow _ _ Ls) as (A & B & C).
    unfold get_invoice_counts. cbn [DB.success DB.failed Counts.total Counts.deleted].
    split; [reflexivity|]. split; [eauto|].
    split; [lia|]. split; [lia|].
    intros user N. now rewrite !(C user _ N).
  - destruct (List.find (DB.live invoice_id current_user) (DB.failed db))
      as [r|] eqn:Lf.
    + destruct (count_after_delete _ _ utcnow _ _ Lf) as (A & B & C).
      unfold get_invoice_counts. cbn [DB.success DB.failed Counts.total Counts.deleted].
      split; [reflexivity|]. split; [eauto|].
      split; [lia|]. split; [lia|].
      intros user N. now rewrite !(C user _ N).
    + split; [reflexivity|]. split; reflexivity.
Qed.

(** ** API keys *)

Lemma split_once_app (sep : ascii) (a b : string) :
  occurrences sep a = O -> split_once sep (a ++ String sep b) = Some (a, b).
Proof.
  induction a as [|c a IH]; cbn [append split_once occurrences].
  - intros _. now rewrite Ascii.eqb_refl.
  - destruct (Ascii.eqb c sep); [discriminate|].
    intros H. now rewrite IH.
Qed.

Lemma existsb_mem (x : string) (l : list string) : mem x l = true <-> In x l.
Proof.
  unfold mem. rewrite existsb_exists. split.
  - intros (y & I & E). apply String.eqb_eq in E. now subst.
  - intros I. exists x. split; [exact I | apply String.eqb_refl].
Qed.

Section ApiKeyProperties.

Variable sha256_hexdigest : string -> string.
Variable API_HASH_KEY : string.
Variable decode_api_key_from_transport : string -> option string.

(** X25.  A key verifies against its own hash: for a salt without a colon,
    [verify_api_key] accepts the key that [hash_api_key] hashed, and it
    accepts another key exactly when the two SHA-256 digests coincide. *)
Theorem hashed_key_is_verified (api_key salt : string) :
  occurrences ":" salt = O ->
  verify_api_key sha256_hexdigest API_HASH_KEY api_key
    (hash_api_key sha256_hexdigest API_HASH_KEY api_key salt) = true
  /\ forall other : string,
       verify_api_key sha256_hexdigest API_HASH_KEY other
         (hash_api_key sha256_hexdigest API_HASH_KEY api_key salt) = true
       <-> sha256_hexdigest (other ++ ":" ++ salt ++ ":" ++ API_HASH_KEY)
           = sha256_hexdigest (api_key ++ ":" ++ salt ++ ":" ++ API_HASH_KEY).
Proof.
  intros H. unfold verify_api_key, hash_api_key.
  change (salt ++ ":" ++ ?h) with (salt ++ String ":" h).
  rewrite (split_once_app _ _ _ H).
  split; [apply String.eqb_refl|].
  intros other. apply String.eqb_eq.
Qed.

(** X26.  [get_api_user] returns a user only if the user is in the table
    with API access allowed and an active account, the key is not
    suspended, the decoded key is not empty and verifies against the stored
    hash, and the client address is in the allow list when that list is not
    empty. *)
Theorem api_key_authentication_contract (users : list ZodiacUser)
  (credentials : string) (request : option Request) (user : ZodiacUser) :
  get_api_user sha256_hexdigest API_HASH_KEY decode_api_key_from_transport
    users credentials request = Returned user ->
  In user users
  /\ api_user_allowed user = true
  /\ is_active user = true
  /\ api_key_deactivated_at user = None
  /\ (exists api_key hashed : string,
        decode_api_key_from_transport credentials = Some api_key
        /\ api_key <> ""
        /\ api_key_hashed user = Some hashed
        /\ verify_api_key sha256_hexdigest API_HASH_KEY api_key hashed = true)
  /\ (forall allow_list : list string,
        api_key_allow_list user = Some allow_list -> allow_list <> [] ->
        In (match request with
            | Some r => get_client_ip r
            | None => "unknown"
            end) allow_list).
Proof.
  unfold get_api_user.
  destruct (decode_api_key_from_transport credentials) as [api_key|];
    [|discriminate].
  destruct api_key as [|c k]; [discriminate|]. cbn [Py.truthy negb].
  set (api_key := String c k).
  destruct (List.find _ _) as [u|] eqn:F; [|discriminate].
  apply find_some in F. destruct F as [I V].
  apply filter_In in I. destruct I as [I A].
  apply andb_true_iff in A. destruct A as [_ A].
  destruct (api_key_deactivated_at u) as [d|] eqn:D; [discriminate|].
  cbn [is_some].
  destruct (validate_ip_whitelist _ (api_key_allow_list u)) eqn:W;
    [|discriminate].
  cbn [negb]. destruct (is_active u) eqn:Act; [|discriminate].
  cbn [negb]. intros H. injection H as <-.
  repeat split; try assumption.
  - destruct (api_key_hashed u) as [h|]; [|discriminate V].
    exists api_key, h. repeat split; [discriminate | exact V].
  - intros allow_list E N. rewrite E in W. unfold validate_ip_whitelist in W.
    destruct allow_list as [|a l]; [now elim N|].
    now apply existsb_mem.
Qed.

End ApiKeyProperties.

Lemma hashed_key_is_verified_witness :
  verify_api_key (fun s => "<" ++ s ++ ">") "pepper" "key"
    (hash_api_key (fun s => "<" ++ s ++ ">") "pepper" "key" "5a17") = true.
Proof.
  exact (proj1 (hashed_key_is_verified (fun s => "<" ++ s ++ ">") "pepper"
                  "key" "5a17" eq_refl)).
Defined.

Lemma api_key_authentication_contract_witness :
  get_api_user (fun s => "<" ++ s ++ ">") "pepper" (fun s => Some s)
    [sample_user] "key" (Some sample_request) = Returned sample_user
  /\ In sample_user [sample_user]
  /\ api_key_deactivated_at sample_user = None.
Proof.
  assert (H : get_api_user (fun s => "<" ++ s ++ ">") "pepper" (fun s => Some s)
                [sample_user] "key" (Some sample_request)
              = Returned sample_user) by (vm_compute; reflexivity).
  split; [exact H|].
  destruct (api_key_authentication_contract _ _ _ _ _ _ _ H)
    as (I & _ & _ & D & _).
  split; [exact I | exact D].
Defined.

Lemma occurrences_lstrip_by (c : ascii) (p : ascii -> bool) (s : string) :
  (occurrences c (Py.lstrip_by p s) <= occurrences c s)%nat.
Proof.
  induction s as [|x r IH]; [cbn; lia|].
  cbn [Py.lstrip_by]. destruct (p x); cbn [occurrences]; lia.
Qed.

Lemma occurrences_rstrip_by (c : ascii) (p : ascii -> bool) (s : string) :
  (occurrences c (Py.rstrip_by p s) <= occurrences c s)%nat.
Proof.
  induction s as [|x r IH]; [cbn; lia|].
  cbn [Py.rstrip_by].
  destruct (Py.rstrip_by p r) as [|y r'].
  - destruct (p x); cbn [occurrences]; lia.
  - cbn [occurrences] in IH |- *. lia.
Qed.

Lemma occurrences_strip (c : ascii) (s : string) :
  (occurrences c (Py.strip s) <= occurrences c s)%nat.
Proof.
  unfold Py.strip.
  pose proof (occurrences_rstrip_by c Py.isspace (Py.lstrip_by Py.isspace s)).
  pose proof (occurrences_lstrip_by c Py.isspace s). lia.
Qed.

(** X27.  When the X-Forwarded-For header is present and not empty, the
    client address is its first element before a comma, stripped, whatever
    X-Real-IP and the address of the peer are; it contains no comma, and an
    allow list that holds it lets the request through. *)
Theorem client_ip_is_taken_from_the_forwarded_header (request : Request)
  (forwarded_for : string) :
  x_forwarded_for request = Some forwarded_for -> forwarded_for <> "" ->
  get_client_ip request
  = Py.strip (hd EmptyString (Py.split "," forwarded_for))
  /\ occurrences "," (get_client_ip request) = O
  /\ forall allow_list : list string,
       In (get_client_ip request) allow_list ->
       validate_ip_whitelist (get_client_ip request) (Some allow_list) = true.
Proof.
  intros E N.
  assert (G : get_client_ip request
              = Py.strip (hd EmptyString (Py.split "," forwarded_for))).
  { unfold get_client_ip. rewrite E.
    destruct forwarded_for as [|c f]; [now elim N | reflexivity]. }
  split; [exact G|]. split.
  - rewrite G.
    set (h := hd EmptyString (Py.split "," forwarded_for)).
    assert (O : occurrences "," h = O).
    { pose proof (split_not_nil "," forwarded_for) as S. unfold h.
      destruct (Py.split "," forwarded_for) as [|x l] eqn:P; [now elim S|].
      apply (split_piece_without_sep "," forwarded_for). rewrite P. now left. }
    pose proof (occurrences_strip "," h). lia.
  - intros allow_list I. unfold validate_ip_whitelist.
    destruct allow_list as [|a l]; [reflexivity|]. now apply existsb_mem.
Qed.

Lemma client_ip_is_taken_from_the_forwarded_header_witness :
  x_forwarded_for sample_request = Some "203.0.113.7, 10.0.0.1"
  /\ get_client_ip sample_request = "203.0.113.7".
Proof.
  split; [reflexivity|].
  exact (proj1 (client_ip_is_taken_from_the_forwarded_header sample_request
                  "203.0.113.7, 10.0.0.1" eq_refl ltac:(discriminate))).
Defined.

(** ** The pattern of the allow list *)

Lemma in_char (p : ascii -> bool) (s r : string) :
  In r (Re.char p s) <-> exists c : ascii, s = String c r /\ p c = true.
Proof.
  unfold Re.char. destruct s as [|c s].
  - split; [intros [] | intros (c & E & _); discriminate E].
  - destruct (p c) eqn:P.
    + split.
      * intros [<-|[]]. eauto.
      * intros (c' & E & _). injection E as <- <-. now left.
    + split; [intros [] | intros (c' & E & P'); injection E as <- <-; congruence].
Qed.

Lemma in_lit (c : ascii) (s r : string) :
  In r (Re.lit c s) <-> s = String c r.
Proof.
  unfold Re.lit. rewrite in_char. split.
  - intros (x & E & H). apply Ascii.eqb_eq in H. now subst.
  - intros ->. exists c. split; [reflexivity | apply Ascii.eqb_refl].
Qed.

Lemma in_seq (a b : Re.pattern) (s r : string) :
  In r (Re.seq a b s) <-> exists t : string, In t (a s) /\ In r (b t).
Proof. unfold Re.seq. apply in_flat_map. Qed.

Lemma in_alt (a b : Re.pattern) (s r : string) :
  In r (Re.alt a b s) <-> In r (a s) \/ In r (b s).
Proof. unfold Re.alt. apply in_app_iff. Qed.

Lemma in_opt (a : Re.pattern) (s r : string) :
  In r (Re.opt a s) <-> In r (a s) \/ r = s.
Proof.
  unfold Re.opt. rewrite in_app_iff. cbn [In].
  split; (intros [H|H]; [now left | right]); intuition congruence.
Qed.

Lemma code_inj (a b : ascii) : Py.code a = Py.code b -> a = b.
Proof.
  unfold Py.code. intros H.
  rewrite <- (ascii_N_embedding a), <- (ascii_N_embedding b). now rewrite H.
Qed.

Lemma in_range_iff (lo hi : N) (c : ascii) :
  Py.in_range lo hi c = true <-> (lo <= Py.code c <= hi)%N.
Proof.
  unfold Py.in_range. rewrite andb_true_iff, !N.leb_le. reflexivity.
Qed.

Lemma isdigit_iff (c : ascii) :
  Py.isdigit c = true <-> 0 <= Py.digit_val c <= 9.
Proof.
  unfold Py.isdigit, Py.digit_val. rewrite in_range_iff. lia.
Qed.

Lemma digit_2 (c : ascii) : Py.digit_val c = 2 -> Ascii.eqb "2" c = true.
Proof.
  unfold Py.digit_val. intros H. apply Ascii.eqb_eq. apply code_inj.
  change (Py.code "2") with 50%N. lia.
Qed.

Lemma digit_5 (c : ascii) : Py.digit_val c = 5 -> Ascii.eqb "5" c = true.
Proof.
  unfold Py.digit_val. intros H. apply Ascii.eqb_eq. apply code_inj.
  change (Py.code "5") with 53%N. lia.
Qed.

Lemma digit_range (lo hi : N) (c : ascii) (a b : Z) :
  a = Z.of_N lo - 48 -> b = Z.of_N hi - 48 -> (48 <= lo)%N ->
  a <= Py.digit_val c <= b -> Py.in_range lo hi c = true.
Proof. unfold Py.digit_val. rewrite in_range_iff. lia. Qed.

Lemma range_digit (lo hi : N) (c : ascii) (a b : Z) :
  a = Z.of_N lo - 48 -> b = Z.of_N hi - 48 -> (48 <= lo)%N -> (hi <= 57)%N ->
  Py.in_range lo hi c = true ->
  Py.isdigit c = true /\ a <= Py.digit_val c <= b.
Proof.
  intros -> -> L U H. now apply in_range_digit.
Qed.

Ltac known_digits :=
  change (Py.isdigit "2") with true in *;
  change (Py.isdigit "5") with true in *;
  change (Py.digit_val "2") with 2 in *;
  change (Py.digit_val "5") with 5 in *;
  cbn [andb] in *.

(** What [octet] matches: the texts of [octet_text], and nothing else. *)
Lemma octet_matches (s r : string) :
  In r (octet s) <-> exists o : string, octet_text o = true /\ s = o ++ r.
Proof.
  unfold octet. rewrite !in_alt. split.
  - intros [H|[H|H]].
    + apply in_seq in H. destruct H as (t1 & H1 & H).
      apply in_seq in H. destruct H as (t2 & H2 & H3).
      apply in_lit in H1. apply in_lit in H2.
      apply in_char in H3. destruct H3 as (c & -> & R). subst t1 s.
      apply (range_digit 48 53 c 0 5 eq_refl eq_refl) in R; [|lia|lia].
      destruct R as [D V].
      exists (String "2" (String "5" (String c ""))). split; [|reflexivity].
      cbn [octet_text]. rewrite D. known_digits. apply Z.leb_le. lia.
    + apply in_seq in H. destruct H as (t1 & H1 & H).
      apply in_seq in H. destruct H as (t2 & H2 & H3).
      apply in_lit in H1.
      apply in_char in H2. destruct H2 as (b & -> & Rb).
      apply in_char in H3. destruct H3 as (c & -> & Dc). subst s.
      apply (range_digit 48 52 b 0 4 eq_refl eq_refl) in Rb; [|lia|lia].
      destruct Rb as [Db Vb].
      pose proof (proj1 (isdigit_iff c) Dc) as Vc.
      exists (String "2" (String b (String c ""))). split; [|reflexivity].
      cbn [octet_text]. rewrite Db, Dc. known_digits. apply Z.leb_le. lia.
    + apply in_seq in H. destruct H as (t1 & H1 & H).
      apply in_seq in H. destruct H as (t2 & H2 & H3).
      apply in_char in H2. destruct H2 as (b & -> & Db).
      apply in_opt in H1. apply in_opt in H3.
      destruct H1 as [H1| <-].
      * apply in_char in H1. destruct H1 as (a & -> & Ra).
        apply (range_digit 48 49 a 0 1 eq_refl eq_refl) in Ra; [|lia|lia].
        destruct Ra as [Da Va].
        destruct H3 as [H3| ->].
        -- apply in_char in H3. destruct H3 as (c & -> & Dc).
           pose proof (proj1 (isdigit_iff b) Db) as Vb.
           pose proof (proj1 (isdigit_iff c) Dc) as Vc.
           exists (String a (String b (String c ""))). split; [|reflexivity].
           cbn [octet_text]. rewrite Da, Db, Dc. cbn [andb].
           apply Z.leb_le. lia.
        -- exists (String a (String b "")). split; [|reflexivity].
           cbn [octet_text]. now rewrite Da, Db.
      * destruct H3 as [H3| ->].
        -- apply in_char in H3. destruct H3 as (c & -> & Dc).
           exists (String b (String c "")). split; [|reflexivity].
           cbn [octet_text]. now rewrite Db, Dc.
        -- exists (String b ""). split; [|reflexivity]. exact Db.
  - intros (o & T & ->).
    destruct o as [|a [|b [|c [|x o]]]]; try discriminate T;
      cbn [octet_text] in T.
    + (* one digit *)
      right. right. apply in_seq. exists (String a r).
      split; [apply in_opt; now right|].
      apply in_seq. exists r. split; [apply in_char; eauto|].
      apply in_opt. now right.
    + (* two digits *)
      apply andb_true_iff in T. destruct T as [Da Db].
      right. right. apply in_seq. exists (String a (String b r)).
      split; [apply in_opt; now right|].
      apply in_seq. exists (String b r). split; [apply in_char; eauto|].
      apply in_opt. left. apply in_char. eauto.
    + (* three digits, up to 255 *)
      rewrite !andb_true_iff in T. destruct T as [[[Da Db] Dc] V].
      apply Z.leb_le in V.
      pose proof (proj1 (isdigit_iff a) Da) as Va.
      pose proof (proj1 (isdigit_iff b) Db) as Vb.
      pose proof (proj1 (isdigit_iff c) Dc) as Vc.
      destruct (Z.le_gt_cases (Py.digit_val a) 1) as [A|A].
      * right. right. apply in_seq. exists (String b (String c r)).
        split.
        { apply in_opt. left. apply in_char. exists a.
          split; [reflexivity|].
          apply (digit_range 48 49 a 0 1 eq_refl eq_refl); lia. }
        apply in_seq. exists (String c r). split; [apply in_char; eauto|].
        apply in_opt. left. apply in_char. eauto.
      * assert (A2 : Py.digit_val a = 2) by lia.
        apply digit_2 in A2. apply Ascii.eqb_eq in A2. subst a.
        known_digits.
        destruct (Z.le_gt_cases (Py.digit_val b) 4) as [B|B].
        -- right. left. apply in_seq. exists (String b (String c r)).
           split; [now apply in_lit|].
           apply in_seq. exists (String c r).
           split; [|apply in_char; eauto].
           apply in_char. exists b. split; [reflexivity|].
           apply (digit_range 48 52 b 0 4 eq_refl eq_refl); lia.
        -- assert (B5 : Py.digit_val b = 5) by lia.
           apply digit_5 in B5. apply Ascii.eqb_eq in B5. subst b.
           known_digits.
           left. apply in_seq. exists (String "5" (String c r)).
           split; [now apply in_lit|].
           apply in_seq. exists (String c r). split; [now apply in_lit|].
           apply in_char. exists c. split; [reflexivity|].
           apply (digit_range 48 53 c 0 5 eq_refl eq_refl); lia.
Qed.

Lemma octet_dot_matches (s r : string) :
  In r (Re.seq octet (Re.lit ".") s)
  <-> exists o : string, octet_text o = true /\ s = o ++ "." ++ r.
Proof.
  rewrite in_seq. split.
  - intros (t & H & L). apply in_lit in L. subst t.
    apply octet_matches in H. exact H.
  - intros (o & T & ->). exists (String "." r).
    split; [apply octet_matches; eauto | now apply in_lit].
Qed.

Lemma ip_pattern_match_iff (ip : string) :
  ip_pattern_match ip = true <-> dotted_quad ip.
Proof.
  unfold ip_pattern_match, Re.matches, dotted_quad.
  rewrite existsb_exists. cbn [Re.times]. split.
  - intros (r & H & E).
    apply in_seq in H. destruct H as (t & H & Hd).
    apply in_seq in H. destruct H as (t1 & Ha & H).
    apply in_seq in H. destruct H as (t2 & Hb & H).
    apply in_seq in H. destruct H as (t3 & Hc & H).
    cbn [In] in H. destruct H as [<-|[]].
    apply octet_dot_matches in Ha, Hb, Hc. apply octet_matches in Hd.
    destruct Ha as (a & Ta & ->). destruct Hb as (b & Tb & ->).
    destruct Hc as (c & Tc & ->). destruct Hd as (d & Td & ->).
    exists a, b, c, d. repeat (split; [assumption|]).
    unfold Re.at_end in E. apply orb_true_iff in E.
    destruct E as [E|E]; apply String.eqb_eq in E; subst r.
    + left. now rewrite str_app_nil_r.
    + right. reflexivity.
  - intros (a & b & c & d & Ta & Tb & Tc & Td & E).
    assert (M : forall r, In r (Re.seq
                  (Re.seq (Re.seq octet (Re.lit "."))
                     (Re.seq (Re.seq octet (Re.lit "."))
                        (Re.seq (Re.seq octet (Re.lit ".")) (fun s => [s]))))
                  octet (a ++ "." ++ b ++ "." ++ c ++ "." ++ d ++ r))).
    { intros r. apply in_seq. exists (d ++ r).
      split; [|apply octet_matches; eauto].
      apply in_seq. exists (b ++ "." ++ c ++ "." ++ d ++ r).
      split; [apply octet_dot_matches; eauto|].
      apply in_seq. exists (c ++ "." ++ d ++ r).
      split; [apply octet_dot_matches; eauto|].
      apply in_seq. exists (d ++ r).
      split; [apply octet_dot_matches; eauto | now left]. }
    destruct E as [-> | ->].
    + exists "". split; [|reflexivity].
      specialize (M ""). now rewrite str_app_nil_r in M.
    + exists newline. split; [apply M | reflexivity].
Qed.

(** X28.  The pattern of the allow list accepts exactly four numbers from
    0 to 255, of one to three digits each, separated by dots and followed by
    nothing or by one line feed.  [update_api_key_allow_list] answers 404
    exactly when the user has no key, 400 exactly when the user has a key
    and an entry of the list has another form, and otherwise stores the
    list, keeping the hash and the suspension of the key.  An empty list
    is stored, and lifts the restriction. *)
Theorem allow_list_entries_are_dotted_quads (current_user : ZodiacUser)
  (allow_list : list string) (utcnow : PyDate.datetime) :
  let no_key :=
    api_key_hashed current_user = None \/ api_key_hashed current_user = Some "" in
  let response := update_api_key_allow_list current_user allow_list utcnow in
  (forall ip : string, ip_pattern_match ip = true <-> dotted_quad ip)
  /\ (no_key <-> exists detail : string, response = HTTPException 404 detail)
  /\ (~ no_key /\ (exists ip : string, In ip allow_list /\ ~ dotted_quad ip)
      <-> exists detail : string, response = HTTPException 400 detail)
  /\ (~ no_key /\ Forall dotted_quad allow_list
      <-> exists user : ZodiacUser, response = Returned user)
  /\ match response with
     | Returned user =>
         api_key_allow_list user = Some allow_list
         /\ api_key_hashed user = api_key_hashed current_user
         /\ api_key_deactivated_at user = api_key_deactivated_at current_user
         /\ (allow_list = [] ->
             forall user_ip : string,
               validate_ip_whitelist user_ip (api_key_allow_list user) = true)
     | HTTPException status_code _ => status_code = 404 \/ status_code = 400
     end.
Proof.
  intros no_key response.
  split; [exact ip_pattern_match_iff|].
  subst no_key response. unfold update_api_key_allow_list.
  destruct (api_key_hashed current_user) as [[|c h]|] eqn:K;
    cbn [Py.truthy_opt Py.truthy negb].
  - split; [split; [eauto | auto]|].
    split; [split; [intros [N _]; elim N; auto | intros [d E]; discriminate E]|].
    split; [split; [intros [N _]; elim N; auto | intros [u E]; discriminate E]|].
    now left.
  - assert (N : ~ (Some (String c h) = None \/ Some (String c h) = Some ""))
      by (intros [E|E]; discriminate E).
    destruct (List.find _ allow_list) as [ip|] eqn:F.
    + apply find_some in F. destruct F as [I B].
      assert (Q : ~ dotted_quad ip).
      { intros Q. apply ip_pattern_match_iff in Q. rewrite Q in B.
        discriminate B. }
      split; [split; [intros E; now elim N | intros [d E]; discriminate E]|].
      split; [split; [eauto | intros _; split; [exact N | eauto]]|].
      split; [|now right].
      split; [|intros [u E]; discriminate E].
      intros [_ A]. rewrite Forall_forall in A. elim Q. now apply A.
    + assert (A : Forall dotted_quad allow_list).
      { apply Forall_forall. intros ip I.
        apply ip_pattern_match_iff.
        pose proof (find_none _ _ F ip I) as B.
        now apply negb_false_iff in B. }
      split; [split; [intros E; now elim N | intros [d E]; discriminate E]|].
      split.
      { split; [|intros [d E]; discriminate E].
        intros [_ (ip & I & Q)]. rewrite Forall_forall in A.
        elim Q. now apply A. }
      split; [split; [eauto | intros _; now split]|].
      cbn [api_key_allow_list api_key_hashed api_key_deactivated_at].
      repeat split; try assumption. intros -> user_ip. reflexivity.
  - split; [split; [eauto | auto]|].
    split; [split; [intros [N _]; elim N; auto | intros [d E]; discriminate E]|].
    split; [split; [intros [N _]; elim N; auto | intros [u E]; discriminate E]|].
    now left.
Qed.

(** ** Suspension *)

Section Suspension.

Variable sha256_hexdigest : string -> string.
Variable API_HASH_KEY : string.
Variable decode_api_key_from_transport : string -> option string.

(** X29.  After [suspend_api_key] the row of the user is never returned by
    [get_api_user], and a request with the user's key that reaches this row
    first is refused with 401, the key being deactivated;
    [activate_api_key] then clears the suspension and keeps the hash and
    the allow list. *)
Theorem suspended_key_is_refused (current_user suspended : ZodiacUser)
  (utcnow : PyDate.datetime) :
  suspend_api_key current_user utcnow = Returned suspended ->
  (forall (users : list ZodiacUser) (credentials : string)
          (request : option Request),
      get_api_user sha256_hexdigest API_HASH_KEY decode_api_key_from_transport
        users credentials request <> Returned suspended)
  /\ (forall (others : list ZodiacUser) (credentials api_key hashed : string)
             (request : option Request),
        decode_api_key_from_transport credentials = Some api_key ->
        api_key <> "" ->
        api_key_hashed current_user = Some hashed ->
        api_user_allowed current_user = true ->
        verify_api_key sha256_hexdigest API_HASH_KEY api_key hashed = true ->
        get_api_user sha256_hexdigest API_HASH_KEY
          decode_api_key_from_transport (suspended :: others) credentials
          request
        = HTTPException 401 "API key is deactivated")
  /\ forall later : PyDate.datetime,
       activate_api_key suspended later
       = Returned
           (mk_user (user_key current_user) (is_active current_user)
              (api_user_allowed current_user) (api_key_hashed current_user)
              None (api_key_allow_list current_user) (Some later)).
Proof.
  unfold suspend_api_key.
  destruct (Py.truthy_opt (api_key_hashed current_user)) eqn:K;
    cbn [negb]; [|discriminate].
  intros H. injection H as <-.
  split; [|split].
  - intros users credentials request E. unfold get_api_user in E.
    destruct (decode_api_key_from_transport credentials) as [api_key|];
      [|discriminate E].
    destruct (negb (Py.truthy api_key)); [discriminate E|].
    destruct (List.find _ _) as [u|]; [|discriminate E].
    destruct (api_key_deactivated_at u) as [d|] eqn:D; cbn [is_some] in E;
      [discriminate E|].
    destruct (negb (validate_ip_whitelist _ _)); [discriminate E|].
    destruct (negb (is_active u)); [discriminate E|].
    injection E as ->. discriminate D.
  - intros others credentials api_key hashed request Dec N Hk A V.
    unfold get_api_user. rewrite Dec.
    destruct api_key as [|c k]; [now elim N|]. cbn [Py.truthy negb].
    cbn [filter api_key_hashed api_user_allowed]. rewrite Hk, A.
    cbn [is_some andb List.find api_key_hashed]. rewrite V.
    reflexivity.
  - intros later. unfold activate_api_key.
    cbn [api_key_hashed]. rewrite K. reflexivity.
Qed.

End Suspension.

Lemma suspended_key_is_refused_witness :
  activate_api_key
    (mk_user 1 true true (Some "5a17:<key:5a17:pepper>") (Some sample_time)
       (Some ["203.0.113.7"]) (Some sample_time))
    sample_time
  = Returned
      (mk_user 1 true true (Some "5a17:<key:5a17:pepper>") None
         (Some ["203.0.113.7"]) (Some sample_time)).
Proof.
  exact (proj2 (proj2 (suspended_key_is_refused (fun s => s) "" (fun s => Some s)
                         sample_user _ sample_time eq_refl))
           sample_time).
Defined.
